(** * rootpy: histogram wrapper and user-data directory

    A shallow embedding of [rootpy/plotting/hist.py] and
    [rootpy/userdata.py].

    The wrapped native library (ROOT's [TAxis], [TH1], [TArrayD]) owns all
    histogram state.  It is not part of the repository, so the part of its
    behaviour that the wrapper relies on is written down in the modules
    [TAxis] and [TH1] below, following the library's documented behaviour.
    Python objects live in a store indexed by handles, so that aliasing and
    in-place mutation are visible.  Python [float]s and C doubles are taken
    as exact rationals ([Q]); rounding is outside the model. *)

From Stdlib Require Import ZArith QArith Qabs Qround List Bool Lia Lqa.
From Stdlib Require Import Sorting.Sorted Ascii String.
From stdpp Require Import gmap strings list fin_maps.

Open Scope Z_scope.

(** ** Python exceptions and results *)

Inductive exn : Type :=
| ValueError
| TypeError
| IndexError
| ZeroDivisionError
| RuntimeError
| AssertionError
| AttributeError
| OSError.

Inductive result (A : Type) : Type :=
| Ok (a : A)
| Raise (e : exn).
Arguments Ok {A} a.
Arguments Raise {A} e.

Definition rbind {A B} (r : result A) (k : A -> result B) : result B :=
  match r with
  | Ok a => k a
  | Raise e => Raise e
  end.

Definition is_ok {A} (r : result A) : bool :=
  match r with Ok _ => true | Raise _ => false end.

Definition raises {A} (r : result A) (e : exn) : Prop := r = Raise e.

(** ** The wrapped library: axes *)

Module TAxis.

(** [fXbins] is empty for an axis with fixed-width bins. *)
Record t : Type := mk {
  fNbins : Z;
  fXmin : Q;
  fXmax : Q;
  fXbins : list Q
}.

Definition at_ (l : list Q) (i : Z) : Q := nth (Z.to_nat i) l 0%Q.

Definition variable (a : t) : bool :=
  match fXbins a with [] => false | _ => true end.

Definition binwidth (a : t) : Q :=
  ((fXmax a - fXmin a) / inject_Z (fNbins a))%Q.

Definition GetNbins (a : t) : Z := fNbins a.

Definition GetBinLowEdge (a : t) (bin : Z) : Q :=
  if variable a && (0 <? bin) && (bin <=? fNbins a)
  then at_ (fXbins a) (bin - 1)
  else (fXmin a + inject_Z (bin - 1) * binwidth a)%Q.

Definition GetBinUpEdge (a : t) (bin : Z) : Q :=
  if negb (variable a) || (bin <? 1) || (fNbins a <? bin)
  then (fXmin a + inject_Z bin * binwidth a)%Q
  else at_ (fXbins a) bin.

Definition GetBinCenter (a : t) (bin : Z) : Q :=
  if negb (variable a) || (bin <? 1) || (fNbins a <? bin)
  then (fXmin a + inject_Z (bin - 1) * binwidth a + (1 # 2) * binwidth a)%Q
  else (at_ (fXbins a) (bin - 1)
        + (1 # 2) * (at_ (fXbins a) bin - at_ (fXbins a) (bin - 1)))%Q.

Definition GetBinWidth (a : t) (bin : Z) : Q :=
  if fNbins a <=? 0 then 0%Q
  else if negb (variable a) then binwidth a
  else
    let bin := if fNbins a <? bin then fNbins a else bin in
    let bin := if bin <? 1 then 1 else bin in
    (at_ (fXbins a) bin - at_ (fXbins a) (bin - 1))%Q.

(** [TMath::BinarySearch] on a sorted array: the index of the last
    element that is not greater than [x], or -1. *)
Fixpoint BinarySearch (l : list Q) (x : Q) : Z :=
  match l with
  | [] => -1
  | e :: l' => if Qle_bool e x then 1 + BinarySearch l' x else -1
  end.

Definition FindBin (a : t) (x : Q) : Z :=
  if negb (Qle_bool (fXmin a) x) then 0
  else if Qle_bool (fXmax a) x then fNbins a + 1
  else if negb (variable a)
       then 1 + Qfloor (inject_Z (fNbins a) * (x - fXmin a)
                        / (fXmax a - fXmin a))
       else 1 + BinarySearch (fXbins a) x.

(** The two ways the library builds an axis. *)
Definition fixed (nbins : Z) (low high : Q) : t :=
  mk nbins low high [].

Definition of_edges (nbins : Z) (edges : list Q) : t :=
  mk nbins (at_ edges 0) (at_ edges nbins) edges.

(** The dummy axis of an unused dimension. *)
Definition unit : t := fixed 1 0 1.

End TAxis.

(** ** The wrapped library: histograms *)

Module TH1.

(** [fSumw2] is empty when the sums of squared weights are not stored.
    [fStats] stands for the running statistics ([fTsumw] and the like),
    which the wrapper only copies. *)
Record t : Type := mk {
  fDimension : Z;
  fXaxis : TAxis.t;
  fYaxis : TAxis.t;
  fZaxis : TAxis.t;
  fArray : list Q;
  fSumw2 : list Q;
  fEntries : Q;
  fStats : list Q
}.

Definition GetDimension (h : t) : Z := fDimension h.
Definition GetNbinsX (h : t) : Z := TAxis.fNbins (fXaxis h).
Definition GetNbinsY (h : t) : Z := TAxis.fNbins (fYaxis h).
Definition GetNbinsZ (h : t) : Z := TAxis.fNbins (fZaxis h).
Definition GetXaxis (h : t) : TAxis.t := fXaxis h.
Definition GetYaxis (h : t) : TAxis.t := fYaxis h.
Definition GetZaxis (h : t) : TAxis.t := fZaxis h.
Definition GetEntries (h : t) : Q := fEntries h.

(** Number of cells, overflow and underflow included. *)
Definition GetSize (h : t) : Z := Z.of_nat (length (fArray h)).

Definition ncells (dim nx ny nz : Z) : Z :=
  if dim <? 2 then nx + 2
  else if dim <? 3 then (nx + 2) * (ny + 2)
  else (nx + 2) * (ny + 2) * (nz + 2).

Definition clamp (v n : Z) : Z :=
  let v := if v <? 0 then 0 else v in
  if n <=? v then n - 1 else v.

Definition GetBin (h : t) (binx biny binz : Z) : Z :=
  let nx := GetNbinsX h + 2 in
  let ny := GetNbinsY h + 2 in
  let nz := GetNbinsZ h + 2 in
  if fDimension h <? 2 then clamp binx nx
  else if fDimension h <? 3 then clamp binx nx + nx * clamp biny ny
  else if fDimension h <? 4
       then clamp binx nx + nx * (clamp biny ny + ny * clamp binz nz)
       else -1.

(** C integer division and remainder truncate towards zero. *)
Definition GetBinXYZ (h : t) (binglobal : Z) : Z * Z * Z :=
  let nx := GetNbinsX h + 2 in
  let ny := GetNbinsY h + 2 in
  let binx := Z.rem binglobal nx in
  if fDimension h =? 1 then (binx, 0, 0)
  else if fDimension h =? 2
       then (binx, Z.rem (Z.quot (binglobal - binx) nx) ny, 0)
       else if fDimension h =? 3
            then
              let biny := Z.rem (Z.quot (binglobal - binx) nx) ny in
              (binx, biny, Z.quot (Z.quot (binglobal - binx) nx - biny) ny)
            else (0, 0, 0).

Definition cell (h : t) (bin : Z) : Z :=
  let bin := if bin <? 0 then 0 else bin in
  if GetSize h <=? bin then GetSize h - 1 else bin.

Definition GetBinContent (h : t) (bin : Z) : Q :=
  TAxis.at_ (fArray h) (cell h bin).

Definition GetBinContent3 (h : t) (x y z : Z) : Q :=
  GetBinContent h (GetBin h x y z).

Definition with_array (h : t) (a : list Q) : t :=
  mk (fDimension h) (fXaxis h) (fYaxis h) (fZaxis h)
     a (fSumw2 h) (fEntries h) (fStats h).

Definition with_sumw2 (h : t) (s : list Q) : t :=
  mk (fDimension h) (fXaxis h) (fYaxis h) (fZaxis h)
     (fArray h) s (fEntries h) (fStats h).

Definition with_entries (h : t) (e : Q) : t :=
  mk (fDimension h) (fXaxis h) (fYaxis h) (fZaxis h)
     (fArray h) (fSumw2 h) e (fStats h).

Definition with_stats (h : t) (s : list Q) : t :=
  mk (fDimension h) (fXaxis h) (fYaxis h) (fZaxis h)
     (fArray h) (fSumw2 h) (fEntries h) s.

(** Every call counts as an entry; a negative bin is ignored and a bin
    past the end is dropped. *)
Definition SetBinContent (h : t) (bin : Z) (content : Q) : t :=
  let h := with_entries h (fEntries h + 1)%Q in
  if bin <? 0 then h
  else if GetSize h <=? bin then h
  else with_array h (<[Z.to_nat bin := content]> (fArray h)).

Definition SetBinContent3 (h : t) (x y z : Z) (content : Q) : t :=
  SetBinContent h (GetBin h x y z) content.

Definition SetEntries (h : t) (e : Q) : t := with_entries h e.
Definition GetStats (h : t) : list Q := fStats h.
Definition PutStats (h : t) (s : list Q) : t := with_stats h s.

Definition GetSumw2N (h : t) : Z := Z.of_nat (length (fSumw2 h)).

(** [Sumw2()]: start storing squared weights, seeded with the contents. *)
Definition Sumw2 (h : t) : t :=
  match fSumw2 h with
  | [] => with_sumw2 h (fArray h)
  | _ => h
  end.

Section Errors.
(** The square root on doubles is left abstract. *)
Variable sqrt : Q -> Q.

Definition GetBinError (h : t) (bin : Z) : Q :=
  match fSumw2 h with
  | [] => sqrt (Qabs (GetBinContent h bin))
  | s => sqrt (TAxis.at_ s (cell h bin))
  end.
End Errors.

Definition SetBinError (h : t) (bin : Z) (error : Q) : t :=
  let h := Sumw2 h in
  if (bin <? 0) || (GetSumw2N h <=? bin) then h
  else with_sumw2 h (<[Z.to_nat bin := (error * error)%Q]> (fSumw2 h)).

(** [TArrayD::At] and [TArrayD::SetAt] check their bounds: out of range
    the first answers 0 and the second does nothing. *)
Definition At (a : list Q) (i : Z) : Q :=
  if (i <? 0) || (Z.of_nat (length a) <=? i) then 0%Q else TAxis.at_ a i.

Definition SetAt (a : list Q) (v : Q) (i : Z) : list Q :=
  if (i <? 0) || (Z.of_nat (length a) <=? i) then a
  else <[Z.to_nat i := v]> a.

(** A plain store into a C array that is known to be long enough. *)
Definition SetAtRaw (a : list Q) (v : Q) (i : Z) : list Q :=
  <[Z.to_nat i := v]> a.

Definition FindBin (h : t) (x y z : Q) : Z :=
  let nx := GetNbinsX h + 2 in
  let ny := GetNbinsY h + 2 in
  let binx := TAxis.FindBin (fXaxis h) x in
  let biny := TAxis.FindBin (fYaxis h) y in
  let binz := TAxis.FindBin (fZaxis h) z in
  if fDimension h <? 2 then binx
  else if fDimension h <? 3 then binx + nx * biny
  else binx + nx * (biny + ny * binz).

(** [GetBinLowEdge] of the histogram is that of the x axis, and is only
    meant for one dimension. *)
Definition GetBinLowEdge (h : t) (bin : Z) : Q :=
  if fDimension h =? 1 then TAxis.GetBinLowEdge (fXaxis h) bin else 0%Q.

Definition GetBinWidth (h : t) (bin : Z) : Q :=
  if fDimension h =? 1 then TAxis.GetBinWidth (fXaxis h) bin else 0%Q.

(** [GetLowEdge(edges)] writes the low edge of every bin of the x axis
    into the front of the caller's array. *)
Definition GetLowEdge (h : t) (edges : list Q) : list Q :=
  foldl (fun e i => SetAtRaw e (TAxis.GetBinLowEdge (fXaxis h) (i + 1)) i)
        edges (seqZ 0 (GetNbinsX h)).

(** The squared error of a cell. *)
Definition err2 (h : t) (bin : Z) : Q :=
  match fSumw2 h with
  | [] => Qabs (GetBinContent h bin)
  | s => TAxis.at_ s (cell h bin)
  end.

Definition add_at (a : list Q) (i : Z) (w : Q) : list Q :=
  if (i <? 0) || (Z.of_nat (length a) <=? i) then a
  else <[Z.to_nat i := (TAxis.at_ a i + w)%Q]> a.

Definition in_range (a : TAxis.t) (bin : Z) : bool :=
  (1 <=? bin) && (bin <=? TAxis.fNbins a).

(** [Fill(x[, y[, z]][, w])]: the cell that holds the point gets the
    weight; the answer is the cell, or -1 for a point outside the axes. *)
Definition Fill (h : t) (args : list Q) : result (t * Z) :=
  let d := fDimension h in
  let n := Z.of_nat (length args) in
  if negb ((n =? d) || (n =? d + 1)) then Raise TypeError
  else
    let x := TAxis.at_ args 0 in
    let y := TAxis.at_ args 1 in
    let z := TAxis.at_ args 2 in
    let w := if n =? d then 1%Q else TAxis.at_ args d in
    let bin := FindBin h x y z in
    let inside :=
      in_range (fXaxis h) (TAxis.FindBin (fXaxis h) x)
      && ((d <? 2) || in_range (fYaxis h) (TAxis.FindBin (fYaxis h) y))
      && ((d <? 3) || in_range (fZaxis h) (TAxis.FindBin (fZaxis h) z)) in
    let h1 := with_entries h (fEntries h + 1)%Q in
    let h2 := with_array h1 (add_at (fArray h1) bin w) in
    let h3 := match fSumw2 h2 with
              | [] => h2
              | s => with_sumw2 h2 (add_at s bin (w * w)%Q)
              end in
    Ok (h3, if inside then bin else -1).

Definition same_bins (h h1 : t) : bool :=
  (GetNbinsX h =? GetNbinsX h1) && (GetNbinsY h =? GetNbinsY h1)
  && (GetNbinsZ h =? GetNbinsZ h1).

Definition cells (h : t) : list Z := seqZ 0 (GetSize h).

(** Operations between histograms refuse operands with other numbers of
    bins (an error is printed, nothing is raised, nothing changes). *)
Definition combine (h h1 : t) (content err : Z -> Q) (entries : Q) : t :=
  if negb (same_bins h h1) then h
  else
    let h := match fSumw2 h, fSumw2 h1 with
             | [], _ :: _ => Sumw2 h
             | _, _ => h
             end in
    mk (fDimension h) (fXaxis h) (fYaxis h) (fZaxis h)
       (content <$> cells h)
       (match fSumw2 h with [] => [] | _ => err <$> cells h end)
       entries (fStats h).

(** [Add(h1, c1)]: [this = this + c1 * h1]. *)
Definition Add (h h1 : t) (c1 : Q) : t :=
  combine h h1
    (fun b => (GetBinContent h b + c1 * GetBinContent h1 b)%Q)
    (fun b => (err2 h b + c1 * c1 * err2 h1 b)%Q)
    (Qabs (fEntries h + c1 * fEntries h1)).

(** [Multiply(h1)]: [this = this * h1]. *)
Definition Multiply (h h1 : t) : t :=
  combine h h1
    (fun b => (GetBinContent h b * GetBinContent h1 b)%Q)
    (fun b =>
       let c0 := GetBinContent h b in
       let c1 := GetBinContent h1 b in
       (err2 h b * c1 * c1 + err2 h1 b * c0 * c0)%Q)
    (fEntries h).

(** [Divide(h1)]: [this = this / h1], with 0 where [h1] is empty. *)
Definition Divide (h h1 : t) : t :=
  combine h h1
    (fun b =>
       let c1 := GetBinContent h1 b in
       if Qeq_bool c1 0 then 0%Q else (GetBinContent h b / c1)%Q)
    (fun b =>
       let c0 := GetBinContent h b in
       let c1 := GetBinContent h1 b in
       if Qeq_bool c1 0 then 0%Q
       else ((err2 h b * c1 * c1 + err2 h1 b * c0 * c0)
             / (c1 * c1 * c1 * c1))%Q)
    (fEntries h).

(** [Scale(c1)]: contents times [c1], squared errors times [c1 * c1]. *)
Definition Scale (h : t) (c1 : Q) : t :=
  mk (fDimension h) (fXaxis h) (fYaxis h) (fZaxis h)
     ((fun v => (c1 * v)%Q) <$> fArray h)
     ((fun v => (c1 * c1 * v)%Q) <$> fSumw2 h)
     (fEntries h) (fStats h).

(** The contents of the cells inside the axes, in the order in which
    [ComputeIntegral] walks them. *)
Definition inner_contents (h : t) : list Q :=
  z ← seqZ 1 (GetNbinsZ h);
  y ← seqZ 1 (GetNbinsY h);
  x ← seqZ 1 (GetNbinsX h);
  [GetBinContent h (GetBin h x y z)].

Fixpoint running (acc : Q) (l : list Q) : list Q :=
  match l with
  | [] => []
  | v :: l' => (acc + v)%Q :: running (acc + v)%Q l'
  end.

(** [GetIntegral()]: the array of [nbins + 2] doubles that
    [ComputeIntegral] fills: 0, the running sums of the inner cells
    divided by their total, and the number of entries.  When the total is
    0 an error is printed and the array is left as it is: the running sums
    are not divided and the last slot is not written (0 stands for it; no
    caller below depends on it).  The cache the library keeps between
    calls is not modelled: the array is the one a fresh computation
    gives. *)
Definition GetIntegral (h : t) : list Q :=
  let sums := running 0 (inner_contents h) in
  let total := default 0%Q (last sums) in
  if Qeq_bool total 0 then (0%Q :: sums) ++ [0%Q]
  else (0%Q :: ((fun v => (v / total)%Q) <$> sums)) ++ [fEntries h].

(** A new, empty histogram.  [sumw2] tells whether squared weights are
    stored from the start. *)
Definition create (dim : Z) (ax ay az : TAxis.t) (sumw2 : bool) : t :=
  let n := Z.to_nat (ncells dim (TAxis.fNbins ax) (TAxis.fNbins ay)
                            (TAxis.fNbins az)) in
  mk dim ax ay az (repeat 0%Q n) (if sumw2 then repeat 0%Q n else [])
     0%Q [].

End TH1.

(** ** Python values used by the wrapper *)

(** A Python [float]: a finite number or one of the two infinities. *)
Inductive pyfloat : Type :=
| NegInf
| Fin (q : Q)
| PosInf.

(** [slice(start, stop, step).indices(len)]. *)
Definition slice_indices (start stop step : option Z) (len : Z)
  : result (Z * Z * Z) :=
  let st := match step with Some s => s | None => 1 end in
  if st =? 0 then Raise ValueError
  else
    let lower := if st <? 0 then -1 else 0 in
    let upper := if st <? 0 then len - 1 else len in
    let adjust (v : Z) :=
      if v <? 0 then Z.max (v + len) lower else Z.min v upper in
    let start' := match start with
                  | None => if st <? 0 then upper else lower
                  | Some v => adjust v
                  end in
    let stop' := match stop with
                 | None => if st <? 0 then lower else upper
                 | Some v => adjust v
                 end in
    Ok (start', stop', st).

(** [range(start, stop, step)] for a non-zero step. *)
Definition py_range (start stop step : Z) : list Z :=
  let n := if 0 <? step then (stop - start + step - 1) / step
           else (start - stop - step - 1) / (- step) in
  (fun i => start + Z.of_nat i * step) <$> seq 0 (Z.to_nat n).

(** ** The store of histogram objects *)

Abbreviation handle := nat.
Abbreviation store := (gmap nat TH1.t).

(** A computation that may raise and may mutate the store.  An exception
    keeps the mutations made before it. *)
Definition M (A : Type) : Type := store -> result A * store.

Definition ret {A} (a : A) : M A := fun s => (Ok a, s).
Definition throw {A} (e : exn) : M A := fun s => (Raise e, s).
Definition bind {A B} (m : M A) (k : A -> M B) : M B :=
  fun s => match m s with
           | (Ok a, s') => k a s'
           | (Raise e, s') => (Raise e, s')
           end.
Definition lift {A} (r : result A) : M A := fun s => (r, s).

Notation "x <- m ;; k" := (bind m (fun x => k))
  (at level 100, m at next level, right associativity).
Notation "m ;;; k" := (bind m (fun _ => k))
  (at level 100, right associativity).

(** Every Python reference points to a live object; a handle outside the
    store is given [RuntimeError] only to keep the functions total. *)
Definition load (self : handle) : M TH1.t :=
  fun s => match s !! self with
           | Some h => (Ok h, s)
           | None => (Raise RuntimeError, s)
           end.

Definition save (self : handle) (h : TH1.t) : M unit :=
  fun s => (Ok tt, <[self := h]> s).

Definition modify (self : handle) (f : TH1.t -> TH1.t) : M unit :=
  h <- load self ;; save self (f h).

Definition alloc (h : TH1.t) : M handle :=
  fun s => let p := fresh (dom s) in (Ok p, <[p := h]> s).

Fixpoint for_each {A} (l : list A) (body : A -> M unit) : M unit :=
  match l with
  | [] => ret tt
  | a :: l' => body a ;;; for_each l' body
  end.

(** ** [_HistBase]: axes and indexing *)

Definition xyz (h : TH1.t) (i : Z) : Z * Z * Z := TH1.GetBinXYZ h i.

Definition nbins (h : TH1.t) (axis : Z) : result Z :=
  if axis =? 0 then Ok (TH1.GetNbinsX h)
  else if axis =? 1 then Ok (TH1.GetNbinsY h)
  else if axis =? 2 then Ok (TH1.GetNbinsZ h)
  else Raise ValueError.

Definition axis_ (h : TH1.t) (axis : Z) : result TAxis.t :=
  if axis =? 0 then Ok (TH1.GetXaxis h)
  else if axis =? 1 then Ok (TH1.GetYaxis h)
  else if axis =? 2 then Ok (TH1.GetZaxis h)
  else Raise ValueError.

(** [dim(self)] and [isinstance(self, _Hist)] follow the class of the
    object, which is fixed by its dimension. *)
Definition dim (h : TH1.t) : Z := TH1.GetDimension h.
Definition is_Hist (h : TH1.t) : bool := TH1.GetDimension h =? 1.

Module BinProxy.

Record t : Type := mk {
  hist : handle;
  idx : Z;
  xyz : Z * Z * Z
}.

Definition __init__ (hist : handle) (idx : Z) : M t :=
  h <- load hist ;; ret (mk hist idx (TH1.GetBinXYZ h idx)).

Definition tuple_get (xyz : Z * Z * Z) (i : Z) : Z :=
  let '(x, y, z) := xyz in
  if i =? 0 then x else if i =? 1 then y else z.

(** The property answers [True] or falls off the end ([None]). *)
Definition overflow_of (h : TH1.t) (idx : Z) : result bool :=
  let indices := TH1.GetBinXYZ h idx in
  (fix loop (axes : list Z) : result bool :=
     match axes with
     | [] => Ok false
     | i :: rest =>
         rbind (nbins h i) (fun n =>
           if (tuple_get indices i =? 0) || (tuple_get indices i =? n + 1)
           then Ok true
           else loop rest)
     end) (py_range 0 (TH1.GetDimension h) 1).

Definition overflow (b : t) : M bool :=
  h <- load (hist b) ;; lift (overflow_of h (idx b)).

Definition value (b : t) : M Q :=
  h <- load (hist b) ;; ret (TH1.GetBinContent h (idx b)).

Definition set_value (b : t) (v : Q) : M unit :=
  modify (hist b) (fun h => TH1.SetBinContent h (idx b) v).

Definition set_error (b : t) (e : Q) : M unit :=
  modify (hist b) (fun h => TH1.SetBinError h (idx b) e).

Section Error.
Variable sqrt : Q -> Q.

Definition error (b : t) : M Q :=
  h <- load (hist b) ;; ret (TH1.GetBinError sqrt h (idx b)).

Definition __imul__ (b : t) (v : Q) : M unit :=
  x <- value b ;;
  set_value b (x * v)%Q ;;;
  e <- error b ;;
  set_error b (e * v)%Q.
End Error.

End BinProxy.

(** [bins(overflow)]: the proxies of all cells in order, without the
    overflow cells unless asked for. *)
Definition bins (self : handle) (overflow : bool) : M (list BinProxy.t) :=
  h <- load self ;;
  (fix loop (l : list Z) : M (list BinProxy.t) :=
     match l with
     | [] => ret []
     | i :: rest =>
         bproxy <- BinProxy.__init__ self i ;;
         o <- BinProxy.overflow bproxy ;;
         tl <- loop rest ;;
         ret (if negb overflow && o then tl else bproxy :: tl)
     end) (py_range 0 (TH1.GetSize h) 1).

Definition _range_check (h : TH1.t) (index : Z) (axis : option Z)
  : result unit :=
  match axis with
  | None =>
      if negb ((0 <=? index) && (index <? TH1.GetSize h))
      then Raise IndexError else Ok tt
  | Some a =>
      rbind (nbins h a) (fun n =>
        if negb ((0 <=? index) && (index <? n + 2))
        then Raise IndexError else Ok tt)
  end.

(** What can stand between the brackets of [h[...]]. *)
Inductive index : Type :=
| IInt (i : Z)
| ITuple (t : list Z)
| ISlice (start stop step : option Z).

Inductive item : Type :=
| Bin (b : BinProxy.t)
| BinList (l : list BinProxy.t).

(** List slicing [l[start:stop:step]]. *)
Definition py_slice {A} (l : list A) (start stop step : option Z)
  : result (list A) :=
  rbind (slice_indices start stop step (Z.of_nat (length l)))
    (fun '(a, b, s) =>
       Ok (omap (fun i => l !! Z.to_nat i) (py_range a b s))).

Definition __getitem__ (self : handle) (ix : index) : M item :=
  match ix with
  | ISlice a b s =>
      all <- bins self true ;;
      r <- lift (py_slice all a b s) ;;
      ret (BinList r)
  | ITuple t =>
      h <- load self ;;
      let ndim := TH1.GetDimension h in
      xyz <-
        (if ndim =? 2 then
           match t with
           | [ix; iy] =>
               lift (_range_check h ix (Some 0)) ;;;
               lift (_range_check h iy (Some 1)) ;;;
               ret (ix, iy, 0)
           | _ => throw ValueError
           end
         else if ndim =? 3 then
           match t with
           | [ix; iy; iz] =>
               lift (_range_check h ix (Some 0)) ;;;
               lift (_range_check h iy (Some 1)) ;;;
               lift (_range_check h iz (Some 2)) ;;;
               ret (ix, iy, iz)
           | _ => throw ValueError
           end
         else ret (0, 0, 0)) ;;
      let '(ix, iy, iz) := xyz in
      b <- BinProxy.__init__ self (TH1.GetBin h ix iy iz) ;;
      ret (Bin b)
  | IInt i =>
      h <- load self ;;
      lift (_range_check h i None) ;;;
      b <- BinProxy.__init__ self i ;;
      ret (Bin b)
  end.

(** ** Python built-ins on sequences *)

(** [sorted(l)] / [l.sort()]: a stable sort for the order [leb]. *)
Fixpoint insert_by {A} (leb : A -> A -> bool) (x : A) (l : list A) : list A :=
  match l with
  | [] => [x]
  | y :: l' => if leb x y then x :: l else y :: insert_by leb x l'
  end.

Definition sort_by {A} (leb : A -> A -> bool) (l : list A) : list A :=
  foldr (insert_by leb) [] l.

(** [list(set(l))] followed by nothing that depends on the order: the
    first occurrence of every value is kept. *)
Fixpoint set_by {A} (eqb : A -> A -> bool) (l : list A) : list A :=
  match l with
  | [] => []
  | x :: l' => x :: filter (fun y => negb (eqb x y) = true) (set_by eqb l')
  end.

Fixpoint list_eqb {A} (eqb : A -> A -> bool) (l1 l2 : list A) : bool :=
  match l1, l2 with
  | [], [] => true
  | x :: l1', y :: l2' => eqb x y && list_eqb eqb l1' l2'
  | _, _ => false
  end.

Definition sorted_floats (l : list Q) : list Q := sort_by Qle_bool l.
Definition set_floats (l : list Q) : list Q := set_by Qeq_bool l.

(** Lists of integers compare lexicographically. *)
Fixpoint lex_leb (l1 l2 : list Z) : bool :=
  match l1, l2 with
  | [], _ => true
  | _ :: _, [] => false
  | x :: l1', y :: l2' => (x <? y) || ((x =? y) && lex_leb l1' l2')
  end.

(** [x or 1] on integers. *)
Definition or_1 (x : Z) : Z := if x =? 0 then 1 else x.

(** ** Constructor arguments *)

Inductive pyval : Type :=
| PyNone
| PyBool (b : bool)
| PyInt (z : Z)
| PyLong (z : Z)
| PyFloat (q : Q)
| PyStr (s : string)
| PySeq (l : list Q).

(** [type(v) is int]. *)
Definition type_is_int (v : pyval) : bool :=
  match v with PyInt _ => true | _ => false end.

(** Modelled from the spec: [isbasictype] of [rootpy.base] is not among the
    sources.  The messages of its callers name what it accepts: "an int,
    float, or long"; [bool] is a subclass of [int]. *)
Definition isbasictype (v : pyval) : bool :=
  match v with
  | PyBool _ | PyInt _ | PyLong _ | PyFloat _ => true
  | _ => false
  end.

(** [hasattr(v, '__iter__')]: lists and tuples have it, strings do not. *)
Definition has_iter (v : pyval) : bool :=
  match v with PySeq _ => true | _ => false end.

Definition num_of (v : pyval) : Q :=
  match v with
  | PyBool b => if b then 1%Q else 0%Q
  | PyInt z | PyLong z => inject_Z z
  | PyFloat q => q
  | _ => 0%Q
  end.

Record param : Type := mk_param {
  p_bins : option (list Q);
  p_nbins : option Z;
  p_low : option pyval;
  p_high : option pyval
}.

Definition empty_param : param := mk_param None None None None.

(** One turn of the loop of [_parse_args]: fill one axis from the front of
    [args]. *)
Definition parse_axis (args : list pyval) : result (param * list pyval) :=
  match args with
  | [] => Raise TypeError
  | a0 :: rest =>
      match a0 with
      | PySeq edges =>
          if negb (list_eqb Qeq_bool (sorted_floats edges) edges)
          then Raise ValueError
          else if negb (length (set_floats edges) =? length edges)%nat
          then Raise ValueError
          else Ok (mk_param (Some edges)
                            (Some (Z.of_nat (length edges) - 1)) None None,
                   rest)
      | _ =>
          match rest with
          | low :: high :: rest' =>
              match a0 with
              | PyInt nbins =>
                  if nbins <? 1 then Raise ValueError
                  else if negb (isbasictype low) then Raise TypeError
                  else if negb (isbasictype high) then Raise TypeError
                  else if Qle_bool (num_of high) (num_of low)
                  then Raise ValueError
                  else Ok (mk_param None (Some nbins) (Some low) (Some high),
                           rest')
              | _ => Raise TypeError
              end
          | _ => Raise TypeError
          end
      end
  end.

Fixpoint parse_axes (n : nat) (args : list pyval)
  : result (list param * list pyval) :=
  match n with
  | O => Ok ([], args)
  | S n' =>
      rbind (parse_axis args) (fun '(p, args') =>
        rbind (parse_axes n' args') (fun '(ps, rest) => Ok (p :: ps, rest)))
  end.

(** [_parse_args] for a class of dimension [d].  Without [ignore_extras]
    nothing may be left over, and the second component is empty. *)
Definition _parse_args (d : Z) (args : list pyval) (ignore_extras : bool)
  : result (list param * list pyval) :=
  rbind (parse_axes (Z.to_nat d) args) (fun '(params, rest) =>
    if ignore_extras then Ok (params, rest)
    else match rest with
         | [] => Ok (params, [])
         | _ => Raise TypeError
         end).

(** ** Constructors *)

(** The axis the native constructor builds from one parsed [param]. *)
Definition axis_of_param (p : param) : TAxis.t :=
  match p_bins p with
  | Some edges => TAxis.of_edges (default 0 (p_nbins p)) edges
  | None =>
      TAxis.fixed (default 0 (p_nbins p))
                  (num_of (default PyNone (p_low p)))
                  (num_of (default PyNone (p_high p)))
  end.

(** [Hist3D.__init__] turns a fixed axis into explicit edges when any axis
    has explicit edges. *)
Definition explicit_edges (p : param) : param :=
  match p_bins p with
  | Some _ => p
  | None =>
      let n := default 0 (p_nbins p) in
      let low := num_of (default PyNone (p_low p)) in
      let high := num_of (default PyNone (p_high p)) in
      let step := ((high - low) / inject_Z n)%Q in
      mk_param (Some ((fun i => (low + inject_Z i * step)%Q)
                        <$> py_range 0 (n + 1) 1))
               (p_nbins p) (p_low p) (p_high p)
  end.

Definition all_fixed (ps : list param) : bool :=
  forallb (fun p => match p_bins p with None => true | Some _ => false end) ps.

(** Modelled from the spec: the set-up of [rootpy.defaults] is not among the
    sources.  It makes every histogram that the wrapper's classes create
    store its sums of squared weights ([TH1.SetDefaultSumw2(True)]). *)
Definition fgDefaultSumw2 : bool := true.

(** The constructors of [Hist], [Hist2D] and [Hist3D], chosen by [d]. *)
Definition Hist_new (d : Z) (args : list pyval) : M handle :=
  r <- lift (_parse_args d args false) ;;
  let params := fst r in
  let ax i := axis_of_param (nth i params empty_param) in
  if d =? 1 then
    alloc (TH1.create 1 (ax 0%nat) TAxis.unit TAxis.unit fgDefaultSumw2)
  else if d =? 2 then
    alloc (TH1.create 2 (ax 0%nat) (ax 1%nat) TAxis.unit fgDefaultSumw2)
  else
    let params := if all_fixed params then params
                  else explicit_edges <$> params in
    let ax i := axis_of_param (nth i params empty_param) in
    alloc (TH1.create 3 (ax 0%nat) (ax 1%nat) (ax 2%nat) fgDefaultSumw2).

(** ** Edges and bounds *)

Definition low_edges (ax : TAxis.t) (nbins : Z) : list Q :=
  (fun i => TAxis.GetBinLowEdge ax i) <$> py_range 1 (nbins + 1) 1.

(** [_edges(axis, overflow=...)] without an index: the generator's items. *)
Definition _edges (h : TH1.t) (axis : Z) (overflow : bool)
  : result (list pyfloat) :=
  rbind (nbins h axis) (fun nbins =>
  rbind (axis_ h axis) (fun ax =>
    Ok ((if overflow then [NegInf] else [])
        ++ (Fin <$> low_edges ax nbins)
        ++ [Fin (TAxis.GetBinUpEdge ax nbins)]
        ++ (if overflow then [PosInf] else [])))).

(** [_edges(axis, index)]. *)
Definition _edges_at (h : TH1.t) (axis : Z) (index : Z) : result pyfloat :=
  rbind (nbins h axis) (fun nbins =>
  rbind (axis_ h axis) (fun ax =>
    if nbins + 3 =? 0 then Raise ZeroDivisionError
    else
      let index := index mod (nbins + 3) in
      if index =? 0 then Ok NegInf
      else if index =? nbins + 2 then Ok PosInf
      else if index =? nbins then Ok (Fin (TAxis.GetBinUpEdge ax index))
      else Ok (Fin (TAxis.GetBinLowEdge ax index)))).

(** [xedges] exists on every class, [yedges] from two dimensions on and
    [zedges] on three-dimensional histograms only. *)
Definition xedges (h : TH1.t) (index : Z) : result pyfloat :=
  _edges_at h 0 index.

Definition yedges (h : TH1.t) (index : Z) : result pyfloat :=
  if 2 <=? dim h then _edges_at h 1 index else Raise AttributeError.

Definition zedges (h : TH1.t) (index : Z) : result pyfloat :=
  if 3 <=? dim h then _edges_at h 2 index else Raise AttributeError.

(** What [lowerbound] and [upperbound] hand back: a number, or an exception
    object that is returned like any other value. *)
Inductive pyobj : Type :=
| ObjFloat (x : pyfloat)
| ObjExc (e : exn).

Definition lowerbound (h : TH1.t) (axis : Z) : result pyobj :=
  if axis =? 0 then rbind (xedges h 0) (fun x => Ok (ObjFloat x))
  else if axis =? 1 then rbind (yedges h 0) (fun x => Ok (ObjFloat x))
  else if axis =? 2 then rbind (zedges h 0) (fun x => Ok (ObjFloat x))
  else Ok (ObjExc ValueError).

Definition upperbound (h : TH1.t) (axis : Z) : result pyobj :=
  if axis =? 0 then rbind (xedges h (-1)) (fun x => Ok (ObjFloat x))
  else if axis =? 1 then rbind (yedges h (-1)) (fun x => Ok (ObjFloat x))
  else if axis =? 2 then rbind (zedges h (-1)) (fun x => Ok (ObjFloat x))
  else Ok (ObjExc ValueError).

(** ** Cloning and arithmetic *)

(** Modelled from the spec: [Clone] of [rootpy.base] is not among the
    sources.  It hands back a new object that is a deep copy of the
    receiver; the receiver is not touched. *)
Definition Clone (self : handle) : M handle :=
  h <- load self ;; alloc h.

(** [_HistBase.Fill]: the native answer, moved down by one when positive. *)
Definition Fill (self : handle) (args : list Q) : M Z :=
  h <- load self ;;
  r <- lift (TH1.Fill h args) ;;
  save self (fst r) ;;;
  let bin := snd r in
  ret (if 0 <? bin then bin - 1 else bin).

(** What can stand on the right of an arithmetic operator. *)
Inductive operand : Type :=
| ONum (v : Q)
| OList (l : list Q)
| OTuple (l : list Q)
| OHist (o : handle).

Definition seq_len (l : list Q) : Z := Z.of_nat (length l).

Definition __iadd__ (self : handle) (other : operand) : M handle :=
  h <- load self ;;
  match other with
  | ONum v =>
      if negb (is_Hist h) then throw ValueError
      else Fill self [v] ;;; ret self
  | OList l | OTuple l =>
      if negb ((dim h =? seq_len l) || (dim h =? seq_len l - 1))
      then throw ValueError
      else Fill self l ;;; ret self
  | OHist o =>
      h1 <- load o ;;
      modify self (fun h => TH1.Add h h1 1) ;;;
      ret self
  end.

Definition __isub__ (self : handle) (other : operand) : M handle :=
  h <- load self ;;
  match other with
  | ONum v =>
      if negb (is_Hist h) then throw ValueError
      else Fill self [v; (-1)%Q] ;;; ret self
  | OList l =>
      (* a list cannot be concatenated with the tuple [(-1, )] *)
      if (seq_len l =? dim h) || (seq_len l =? dim h + 1)
      then throw TypeError
      else throw ValueError
  | OTuple l =>
      if seq_len l =? dim h then Fill self (l ++ [(-1)%Q]) ;;; ret self
      else if seq_len l =? dim h + 1 then
        Fill self (removelast l ++ [(-1 * List.last l 0)%Q]) ;;; ret self
      else throw ValueError
  | OHist o =>
      h1 <- load o ;;
      modify self (fun h => TH1.Add h h1 (-1)) ;;;
      ret self
  end.

Definition __imul__ (self : handle) (other : operand) : M handle :=
  match other with
  | ONum v => modify self (fun h => TH1.Scale h v) ;;; ret self
  | OList _ | OTuple _ => load self ;;; throw TypeError
  | OHist o =>
      h1 <- load o ;;
      modify self (fun h => TH1.Multiply h h1) ;;;
      ret self
  end.

Definition __idiv__ (self : handle) (other : operand) : M handle :=
  match other with
  | ONum v =>
      if Qeq_bool v 0 then throw ZeroDivisionError
      else modify self (fun h => TH1.Scale h (1 / v)%Q) ;;; ret self
  | OList _ | OTuple _ => load self ;;; throw TypeError
  | OHist o =>
      h1 <- load o ;;
      modify self (fun h => TH1.Divide h h1) ;;;
      ret self
  end.

Definition __add__ (self : handle) (other : operand) : M handle :=
  copy <- Clone self ;; __iadd__ copy other.

Definition __sub__ (self : handle) (other : operand) : M handle :=
  copy <- Clone self ;; __isub__ copy other.

Definition __mul__ (self : handle) (other : operand) : M handle :=
  copy <- Clone self ;; __imul__ copy other.

Definition __div__ (self : handle) (other : operand) : M handle :=
  copy <- Clone self ;; __idiv__ copy other.

(** The four operators, to speak about them together. *)
Inductive arith : Type := Plus | Minus | Times | Over.

Definition inplace (op : arith) : handle -> operand -> M handle :=
  match op with
  | Plus => __iadd__
  | Minus => __isub__
  | Times => __imul__
  | Over => __idiv__
  end.

Definition binary (op : arith) : handle -> operand -> M handle :=
  match op with
  | Plus => __add__
  | Minus => __sub__
  | Times => __mul__
  | Over => __div__
  end.

(** ** Sums of squared weights *)

Definition get_sum_w2 (h : TH1.t) (x y z : Z) : result Q :=
  if TH1.GetSumw2N h =? 0 then Raise RuntimeError
  else
    let xl := TH1.GetNbinsX h + 2 in
    let yl := TH1.GetNbinsY h + 2 in
    let zl := TH1.GetNbinsZ h + 2 in
    if negb ((0 <=? x) && (x <? xl)) then Raise AssertionError
    else if negb ((0 <=? y) && (y <? yl)) then Raise AssertionError
    else if negb ((0 <=? z) && (z <? zl)) then Raise AssertionError
    else
      let z := if TH1.GetDimension h <? 3 then 0 else z in
      let y := if TH1.GetDimension h <? 2 then 0 else y in
      Ok (TH1.At (TH1.fSumw2 h) (xl * yl * z + xl * y + x)).

Definition set_sum_w2 (h : TH1.t) (w : Q) (x y z : Z) : result TH1.t :=
  if TH1.GetSumw2N h =? 0 then Raise RuntimeError
  else
    let xl := TH1.GetNbinsX h + 2 in
    let yl := TH1.GetNbinsY h + 2 in
    let zl := TH1.GetNbinsZ h + 2 in
    if negb ((0 <=? x) && (x <? xl)) then Raise AssertionError
    else if negb ((0 <=? y) && (y <? yl)) then Raise AssertionError
    else if negb ((0 <=? z) && (z <? zl)) then Raise AssertionError
    else
      let z := if TH1.GetDimension h <? 3 then 0 else z in
      let y := if TH1.GetDimension h <? 2 then 0 else y in
      Ok (TH1.with_sumw2 h
            (TH1.SetAt (TH1.fSumw2 h) w (xl * yl * z + xl * y + x))).

(** ** Rebinning *)

Definition floats (l : list pyfloat) : list Q :=
  omap (fun x => match x with Fin q => Some q | _ => None end) l.

(** [new_binning_template(binning, axis)] for an iterable [binning]: the
    receiver's edges on every axis but [axis]. *)
Definition new_binning_template (self : handle) (binning : list Q) (axis : Z)
  : M handle :=
  h <- load self ;;
  let ndim := TH1.GetDimension h in
  if ndim - 1 <? axis then throw ValueError
  else if negb ((-3 <=? ndim - 1) && (ndim - 1 <? 3)) then throw IndexError
  else
    (* a negative position counts from the end of the list of classes *)
    let d := ((ndim - 1) mod 3) + 1 in
    args <-
      (fix loop (axes : list Z) : M (list pyval) :=
         match axes with
         | [] => ret []
         | iaxis :: rest =>
             a <- (if iaxis =? axis then ret (PySeq binning)
                   else es <- lift (_edges h iaxis false) ;;
                        ret (PySeq (floats es))) ;;
             tl <- loop rest ;;
             ret (a :: tl)
         end) (py_range 0 ndim 1) ;;
    Hist_new d args.

Definition resolve_window (axis_bins : Z) (window : list Z)
  : result (list Z) :=
  match window with
  | [l; r] =>
      if l =? r then Raise ValueError
      else if (l <? 0) && (0 <=? r) then Raise ValueError
      else
        let r := if r =? -1 then axis_bins else r + 1 in
        rbind (slice_indices (Some l) (Some r) None axis_bins)
              (fun '(a, b, s) => Ok (py_range a b s))
  | _ => Raise ValueError
  end.

Fixpoint collect_windows (axis_bins : Z) (bin_ranges : list (list Z))
  : result (list (list Z)) :=
  match bin_ranges with
  | [] => Ok []
  | window :: rest =>
      rbind (resolve_window axis_bins window) (fun bin_idx =>
        rbind (collect_windows axis_bins rest) (fun windows =>
          Ok (match bin_idx with
              | [] => windows
              | _ => bin_idx :: windows
              end)))
  end.

Definition window_len (w : list Z) : Z := Z.of_nat (length w).

(** The loop that builds [mapping], [left_idx] and [offset]. *)
Fixpoint build_mapping (windows : list (list Z)) (mapping : gmap Z Z)
    (left_idx : gset Z) (offset : Z) : gmap Z Z * gset Z * Z :=
  match windows with
  | [] => (mapping, left_idx, offset)
  | window :: rest =>
      let w0 := hd 0 window in
      let new_idx := or_1 (w0 - offset) in
      let left_idx := {[ or_1 w0 ]} ∪ left_idx in
      let mapping := foldl (fun m idx => <[idx := new_idx]> m) mapping window in
      let offset := offset + (window_len window - 1) in
      let offset := if w0 =? 0 then offset - 1 else offset in
      build_mapping rest mapping left_idx offset
  end.

Definition is_key (m : gmap Z Z) (k : Z) : bool := bool_decide (is_Some (m !! k)).
Definition is_elem (s : gset Z) (k : Z) : bool := bool_decide (k ∈ s).

(** The edges that survive the merge. *)
Fixpoint keep_edges (mapping : gmap Z Z) (left_idx : gset Z) (axis_bins : Z)
    (i : Z) (edges : list Q) : list Q :=
  match edges with
  | [] => []
  | edge :: rest =>
      if negb (i =? axis_bins - 2) && is_key mapping (i + 1)
         && negb (is_elem left_idx (i + 1))
      then keep_edges mapping left_idx axis_bins (i + 1) rest
      else edge :: keep_edges mapping left_idx axis_bins (i + 1) rest
  end.

Definition translate (mapping : gmap Z Z) (this_axis new_axis : TAxis.t)
    (idx : Z) : Z :=
  match mapping !! idx with
  | Some new_idx => new_idx
  | None =>
      if idx =? 0 then 0
      else TAxis.FindBin new_axis (TAxis.GetBinCenter this_axis idx)
  end.

Definition tuple_set (xyz : Z * Z * Z) (i : Z) (v : Z) : Z * Z * Z :=
  let '(x, y, z) := xyz in
  if i =? 0 then (v, y, z) else if i =? 1 then (x, v, z) else (x, y, v).

(** The body of the filling loop of [merge_bins]. *)
Definition merge_bin (self new_hist : handle) (axis : Z) (tr : Z -> Z)
    (bin : BinProxy.t) : M unit :=
  let xyz := BinProxy.xyz bin in
  let '(x, y, z) := tuple_set xyz axis (tr (BinProxy.tuple_get xyz axis)) in
  nh <- load new_hist ;;
  let new_v := TH1.GetBinContent3 nh x y z in
  v <- BinProxy.value bin ;;
  modify new_hist (fun nh => TH1.SetBinContent3 nh x y z (new_v + v)%Q) ;;;
  h <- load self ;;
  sum_w2 <- lift (let '(a, b, c) := xyz in get_sum_w2 h a b c) ;;
  nh <- load new_hist ;;
  new_sum_w2 <- lift (get_sum_w2 nh x y z) ;;
  nh' <- lift (set_sum_w2 nh (sum_w2 + new_sum_w2)%Q x y z) ;;
  save new_hist nh'.

Definition has_dups (l : list Z) : bool :=
  negb (length l =? length (remove_dups l))%nat.

Definition merge_bins (self : handle) (bin_ranges : list (list Z)) (axis : Z)
  : M handle :=
  h <- load self ;;
  let ndim := TH1.GetDimension h in
  if ndim - 1 <? axis then throw ValueError
  else
    n <- lift (nbins h axis) ;;
    let axis_bins := n + 2 in
    windows <- lift (collect_windows axis_bins bin_ranges) ;;
    match windows with
    | [] => Clone self
    | _ =>
        if (1 <? Z.of_nat (length windows)) && has_dups (concat windows)
        then throw ValueError
        else
          let windows := sort_by lex_leb windows in
          let '(mapping, left_idx, offset) :=
            build_mapping windows ∅ ∅ 0 in
          es <- lift (_edges h axis false) ;;
          let new_edges := keep_edges mapping left_idx axis_bins 0 (floats es) in
          new_hist <- new_binning_template self new_edges axis ;;
          this_axis <- lift (axis_ h axis) ;;
          nh <- load new_hist ;;
          new_axis <- lift (axis_ nh axis) ;;
          all <- bins self true ;;
          for_each all
            (merge_bin self new_hist axis
                       (translate mapping this_axis new_axis)) ;;;
          h <- load self ;;
          modify new_hist (fun nh => TH1.PutStats nh (TH1.GetStats h)) ;;;
          modify new_hist (fun nh => TH1.SetEntries nh (TH1.GetEntries h)) ;;;
          ret new_hist
    end.

(** What [rebinned] can be given as [bins]. *)
Inductive bins_arg : Type :=
| BInt (n : Z)
| BTuple (t : list Z)
| BIter (edges : list Q)
| BOther.

(** [l[i] = v] on a Python list. *)
Definition list_assign (l : list Z) (i v : Z) : result (list Z) :=
  let n := Z.of_nat (length l) in
  if (i <? - n) || (n <=? i) then Raise IndexError
  else Ok (<[Z.to_nat (if i <? 0 then i + n else i) := v]> l).

(** The body of the innermost loop of [rebinned]. *)
Definition rebin_cell (self hist : handle) (xyz : Z * Z * Z) : M unit :=
  let '(x, y, z) := xyz in
  h <- load self ;;
  nh <- load hist ;;
  let newbin :=
    TH1.FindBin nh (TAxis.GetBinCenter (TH1.fXaxis h) x)
                   (TAxis.GetBinCenter (TH1.fYaxis h) y)
                   (TAxis.GetBinCenter (TH1.fZaxis h) z) in
  let idx := TH1.GetBin h x y z in
  modify hist (fun nh =>
    TH1.SetBinContent nh newbin
      (TH1.GetBinContent nh newbin + TH1.GetBinContent h idx)%Q) ;;;
  modify hist (fun nh =>
    TH1.with_sumw2 nh
      (TH1.SetAt (TH1.fSumw2 nh)
         (TH1.At (TH1.fSumw2 nh) newbin + TH1.At (TH1.fSumw2 h) idx)%Q
         newbin)).

(** The cells inside the axes, in the order of the three nested loops. *)
Definition inner_cells (h : TH1.t) : list (Z * Z * Z) :=
  z ← py_range 1 (TH1.GetNbinsZ h + 1) 1;
  y ← py_range 1 (TH1.GetNbinsY h + 1) 1;
  x ← py_range 1 (TH1.GetNbinsX h + 1) 1;
  [(x, y, z)].

Section Rebinned.

(** The native [Rebin], [Rebin2D] and [Rebin3D] group bins by the given
    factors and answer a new histogram; what they compute is left open. *)
Variable native_Rebin : TH1.t -> list Z -> TH1.t.

Definition rebin_tuple (self : handle) (bins : list Z) : M handle :=
  h <- load self ;;
  let ndim := TH1.GetDimension h in
  if negb (Z.of_nat (length bins) =? ndim) then throw ValueError
  else alloc (native_Rebin h bins).

Definition rebinned (self : handle) (bins : bins_arg) (axis : Z)
  : M handle :=
  h <- load self ;;
  let ndim := TH1.GetDimension h in
  if ndim <=? axis then throw ValueError
  else
    match bins with
    | BInt n =>
        match list_assign (repeat 1 (Z.to_nat ndim)) axis n with
        | Raise _ => throw ValueError
        | Ok _bins => rebin_tuple self _bins
        end
    | BTuple t => rebin_tuple self t
    | BIter edges =>
        hist <- new_binning_template self edges axis ;;
        lift (nbins h 0) ;;;
        lift (nbins h 1) ;;;
        lift (nbins h 2) ;;;
        for_each (inner_cells h) (rebin_cell self hist) ;;;
        h <- load self ;;
        modify hist (fun nh => TH1.SetEntries nh (TH1.GetEntries h)) ;;;
        ret hist
    | BOther => throw TypeError
    end.

End Rebinned.

(** ** Quantiles *)

(** The first argument of [quantiles]: a number of points or a list. *)
Inductive quantiles_arg : Type :=
| QInt (n : Z)
| QList (l : list Q).

(** [linspace(0, 1, n)], the same in NumPy and in the fallback. *)
Definition linspace01 (n : Z) : list Q :=
  if n =? 1 then [0%Q]
  else (fun i => (inject_Z i * (1 / inject_Z (n - 1)))%Q) <$> py_range 0 n 1.

(** [np.searchsorted(a, v, side='left')] for one value: bisection. *)
Fixpoint bisect_left (fuel : nat) (a : list Q) (v : Q) (lo hi : Z) : Z :=
  match fuel with
  | O => lo
  | S fuel' =>
      if lo <? hi then
        let mid := (lo + hi) / 2 in
        if negb (Qle_bool v (TAxis.at_ a mid))
        then bisect_left fuel' a v (mid + 1) hi
        else bisect_left fuel' a v lo mid
      else lo
  end.

Definition searchsorted (a : list Q) (vs : list Q) : list Z :=
  (fun v => bisect_left (S (length a)) a v 0 (Z.of_nat (length a))) <$> vs.

(** [np.take(a, idx)] raises [IndexError] for an index past the end; a
    negative index counts from the end. *)
Fixpoint take_at (a : list Q) (idx : list Z) : result (list Q) :=
  match idx with
  | [] => Ok []
  | i :: rest =>
      let n := Z.of_nat (length a) in
      if (i <? - n) || (n <=? i) then Raise IndexError
      else rbind (take_at a rest) (fun tl =>
             Ok (TAxis.at_ a (if i <? 0 then i + n else i) :: tl))
  end.

(** [np.unique]: the sorted distinct values. *)
Definition unique (l : list Q) : list Q := sorted_floats (set_floats l).

(** The [while] loop of the fallback: [k] counts the steps left before
    [ibin] reaches [nbins + 1]; the array is read before the bound is
    tested. *)
Fixpoint advance (integral : list Q) (quant : Q) (ibin : Z) (k : nat) : Z :=
  if negb (Qle_bool quant (TAxis.at_ integral ibin)) then
    match k with
    | O => ibin
    | S k' => advance integral quant (ibin + 1) k'
    end
  else ibin.

(** The [for] loop of the fallback, with its [break]. *)
Fixpoint strict_loop (h : TH1.t) (integral : list Q) (nbins : Z)
    (quantiles : list Q) (ibin : Z) : list Q :=
  match quantiles with
  | [] => []
  | quant :: rest =>
      let ibin := advance integral quant ibin
                          (Z.to_nat (nbins + 1 - ibin)) in
      let edge := TH1.GetBinLowEdge h (ibin + 1) in
      if nbins + 1 <=? ibin then [edge]
      else edge :: strict_loop h integral nbins rest ibin
  end.

Section Quantiles.

(** The native [GetQuantiles], used when [strict] is off. *)
Variable native_GetQuantiles : TH1.t -> list Q -> list Q.

(** [_Hist.quantiles].  [use_numpy] tells whether NumPy can be imported.
    [recompute_integral] only refreshes the cache of the integral, which
    the model always takes as fresh. *)
Definition quantiles (h : TH1.t) (use_numpy : bool) (quantiles : quantiles_arg)
    (strict : bool) (recompute_integral : bool) : result (list Q) :=
  let qs := match quantiles with
            | QInt n => linspace01 n
            | QList l => l
            end in
  if strict then
    let integral := TH1.GetIntegral h in
    rbind (nbins h 0) (fun nbins =>
      if use_numpy then
        let edges := repeat 0%Q (Z.to_nat (nbins + 1)) in
        let edges := TH1.GetLowEdge h edges in
        rbind (if Z.of_nat (length edges) <? 2 then Raise IndexError
               else Ok (TH1.SetAtRaw edges
                          (TAxis.at_ edges (Z.of_nat (length edges) - 2)
                           + TH1.GetBinWidth h nbins)%Q
                          (Z.of_nat (length edges) - 1)))
          (fun edges =>
             let integral := firstn (Z.to_nat (nbins + 1)) integral in
             let idx := searchsorted integral qs in
             rbind (take_at edges idx) (fun out => Ok (unique out)))
      else
        let quantiles := sorted_floats (set_floats qs) in
        let output := strict_loop h integral nbins quantiles 0 in
        Ok (sorted_floats (set_floats output)))
  else Ok (native_GetQuantiles h qs).

End Quantiles.

(** ** The user-data area ([rootpy/userdata.py]) *)

Definition startswith_tilde (path : string) : bool :=
  match path with
  | String c _ => Ascii.eqb c "~"%char
  | EmptyString => false
  end.

(** The part of the operating system that [ensure_directory] talks to, as
    an interface over the state [W] of the world.  The two laws are the
    contracts of [os.path.isdir] and [os.makedirs]: a directory exists, and
    after [makedirs] came back the path is a directory. *)
Class OsPath (W : Type) : Type := {
  getenv : W -> string -> option string;
  expanduser : W -> string -> string;
  expandvars : W -> string -> string;
  exists_ : W -> string -> bool;
  isdir : W -> string -> bool;
  makedirs : W -> string -> result W;
  isdir_exists : forall w p, isdir w p = true -> exists_ w p = true;
  makedirs_isdir : forall w p w', makedirs w p = Ok w' -> isdir w' p = true
}.

Section UserData.

Context {W : Type} `{OsPath W}.

(** The path that [ensure_directory] settles on before it looks at the
    file system. *)
Definition expanded_path (w : W) (variable default : string) : string :=
  match getenv w variable with
  | None => expandvars w default
  | Some path => expandvars w (expanduser w path)
  end.

Definition ensure_directory (variable default : string) (w : W)
  : result (option string) * W :=
  let path := expanded_path w variable default in
  if startswith_tilde path then (Ok None, w)
  else if negb (exists_ w path) then
    match makedirs w path with
    | Ok w' => (Ok (Some path), w')
    | Raise e => (Raise e, w)
    end
  else if negb (isdir w path) then (Ok None, w)
  else (Ok (Some path), w).

End UserData.

(** A small world to run [ensure_directory] in: an environment, a set of
    directories and a set of plain files.  Expansion only knows the home
    directory of the current user. *)
Module SimpleOs.

Record world : Type := mk {
  env : gmap string string;
  dirs : gset string;
  files : gset string;
  writable : bool
}.

Definition expanduser (w : world) (p : string) : string :=
  match p, env w !! "HOME"%string with
  | String c rest, Some home =>
      if Ascii.eqb c "~"%char then (home +:+ rest)%string else p
  | _, _ => p
  end.

Definition expandvars (w : world) (p : string) : string := p.

Definition exists_ (w : world) (p : string) : bool :=
  bool_decide (p ∈ dirs w) || bool_decide (p ∈ files w).

Definition isdir (w : world) (p : string) : bool :=
  bool_decide (p ∈ dirs w).

Definition makedirs (w : world) (p : string) : result world :=
  if negb (writable w) || exists_ w p then Raise OSError
  else Ok (mk (env w) ({[ p ]} ∪ dirs w) (files w) (writable w)).

End SimpleOs.

#[export] Instance simple_os : OsPath SimpleOs.world.
Proof.
  refine {| getenv := fun w v => SimpleOs.env w !! v;
            expanduser := SimpleOs.expanduser;
            expandvars := SimpleOs.expandvars;
            exists_ := SimpleOs.exists_;
            isdir := SimpleOs.isdir;
            makedirs := SimpleOs.makedirs |}.
  - intros w p Hd. unfold SimpleOs.exists_, SimpleOs.isdir in *.
    rewrite Hd. reflexivity.
  - intros w p w'. unfold SimpleOs.makedirs.
    destruct (negb (SimpleOs.writable w) || SimpleOs.exists_ w p);
      [discriminate |].
    intros [= <-]. unfold SimpleOs.isdir. simpl.
    apply bool_decide_eq_true. set_solver.
Defined.

(** ** Well-formed histograms

    What the native library guarantees of every histogram it hands out. *)

Fixpoint increasing (l : list Q) : bool :=
  match l with
  | [] => true
  | x :: l' =>
      match l' with
      | [] => true
      | y :: _ => negb (Qle_bool y x) && increasing l'
      end
  end.

Definition wf_axis (a : TAxis.t) : bool :=
  (1 <=? TAxis.fNbins a)
  && negb (Qle_bool (TAxis.fXmax a) (TAxis.fXmin a))
  && match TAxis.fXbins a with
     | [] => true
     | l => (Z.of_nat (length l) =? TAxis.fNbins a + 1)
            && increasing l
            && Qeq_bool (TAxis.at_ l 0) (TAxis.fXmin a)
            && Qeq_bool (TAxis.at_ l (TAxis.fNbins a)) (TAxis.fXmax a)
     end.

Definition wf_hist (h : TH1.t) : bool :=
  let d := TH1.fDimension h in
  let n := TH1.ncells d (TH1.GetNbinsX h) (TH1.GetNbinsY h) (TH1.GetNbinsZ h) in
  (1 <=? d) && (d <=? 3)
  && wf_axis (TH1.fXaxis h) && wf_axis (TH1.fYaxis h)
  && wf_axis (TH1.fZaxis h)
  && ((2 <=? d) || (TH1.GetNbinsY h =? 1))
  && ((3 <=? d) || (TH1.GetNbinsZ h =? 1))
  && (TH1.GetSize h =? n)
  && ((TH1.GetSumw2N h =? 0) || (TH1.GetSumw2N h =? n)).

(** The sum of a list of contents. *)
Definition total (l : list Q) : Q := foldr Qplus 0%Q l.

(** [0 <= index < n]. *)
Definition in_bounds (index n : Z) : bool := (0 <=? index) && (index <? n).

(** ** Sample objects

    A one-dimensional histogram with four bins on [0, 4] that stores
    squared weights, the same without them, and an empty one. *)
Definition demo_hist : TH1.t :=
  TH1.with_array
    (TH1.create 1 (TAxis.fixed 4 0 4) TAxis.unit TAxis.unit true)
    [1; 2; 3; 4; 5; 6]%Q.

Definition demo_hist_plain : TH1.t := TH1.with_sumw2 demo_hist [].

Definition demo_empty : TH1.t :=
  TH1.create 1 (TAxis.fixed 1 0 1) TAxis.unit TAxis.unit true.

Definition demo_store : store := {[ 0%nat := demo_hist ]}.

(** A writable world with nothing in it, and one where a plain file sits
    on the path. *)
Definition demo_world : SimpleOs.world := SimpleOs.mk ∅ ∅ ∅ true.

Definition demo_world_file : SimpleOs.world :=
  SimpleOs.mk ∅ ∅ {[ "/cache/rootpy"%string ]} true.

(** Non-decreasing lists. *)
Fixpoint ascending (l : list Q) : Prop :=
  match l with
  | [] => True
  | x :: l' => Forall (fun y => (x <= y)%Q) l' /\ ascending l'
  end.

(** What [_parse_args] promises of an axis it accepted. *)
Definition good_param (p : param) : Prop :=
  (exists edges,
      p_bins p = Some edges
      /\ p_nbins p = Some (Z.of_nat (length edges) - 1)
      /\ increasing edges = true)
  \/ (exists nbins low high,
        p_bins p = None /\ p_nbins p = Some nbins
        /\ p_low p = Some low /\ p_high p = Some high
        /\ 1 <= nbins /\ (num_of low < num_of high)%Q).

(** ** Arithmetic as a function of the receiver

    What an in-place operator makes of the receiver [h], with the operand
    looked up in the store [σ].  It is compared with the operators below. *)
Definition filled (h : TH1.t) (args : list Q) : result TH1.t :=
  rbind (TH1.Fill h args) (fun r => Ok (fst r)).

Definition with_hist (σ : store) (o : handle) (f : TH1.t -> TH1.t)
  : result TH1.t :=
  match σ !! o with
  | Some h1 => Ok (f h1)
  | None => Raise RuntimeError
  end.

Definition op_result (op : arith) (h : TH1.t) (other : operand) (σ : store)
  : result TH1.t :=
  match op, other with
  | Plus, ONum v =>
      if is_Hist h then filled h [v] else Raise ValueError
  | Plus, (OList l | OTuple l) =>
      if (dim h =? seq_len l) || (dim h =? seq_len l - 1)
      then filled h l else Raise ValueError
  | Plus, OHist o => with_hist σ o (fun h1 => TH1.Add h h1 1)
  | Minus, ONum v =>
      if is_Hist h then filled h [v; (-1)%Q] else Raise ValueError
  | Minus, OList l =>
      if (seq_len l =? dim h) || (seq_len l =? dim h + 1)
      then Raise TypeError else Raise ValueError
  | Minus, OTuple l =>
      if seq_len l =? dim h then filled h (l ++ [(-1)%Q])
      else if seq_len l =? dim h + 1
           then filled h (removelast l ++ [(-1 * List.last l 0)%Q])
           else Raise ValueError
  | Minus, OHist o => with_hist σ o (fun h1 => TH1.Add h h1 (-1))
  | Times, ONum v => Ok (TH1.Scale h v)
  | Times, (OList _ | OTuple _) => Raise TypeError
  | Times, OHist o => with_hist σ o (fun h1 => TH1.Multiply h h1)
  | Over, ONum v =>
      if Qeq_bool v 0 then Raise ZeroDivisionError
      else Ok (TH1.Scale h (1 / v)%Q)
  | Over, (OList _ | OTuple _) => Raise TypeError
  | Over, OHist o => with_hist σ o (fun h1 => TH1.Divide h h1)
  end.

(** The edges of an axis, from the low edge of the first bin to the up
    edge of the last, and the edge at a position. *)
Definition axis_edges (a : TAxis.t) : list Q :=
  low_edges a (TAxis.fNbins a) ++ [TAxis.GetBinUpEdge a (TAxis.fNbins a)].

Definition edge_at (a : TAxis.t) (k : Z) : Q :=
  if TAxis.variable a then TAxis.at_ (TAxis.fXbins a) k
  else (TAxis.fXmin a + inject_Z k * TAxis.binwidth a)%Q.

(** The histogram that [new_binning_template] builds: the edges
    [binning] on [axis], the receiver's edges elsewhere, all cells empty. *)
Definition template_axis (h : TH1.t) (binning : list Q) (axis i : Z)
    (a : TAxis.t) : TAxis.t :=
  if i <? TH1.fDimension h then
    let e := if i =? axis then binning else axis_edges a in
    TAxis.of_edges (Z.of_nat (length e) - 1) e
  else TAxis.unit.

Definition template (h : TH1.t) (binning : list Q) (axis : Z) : TH1.t :=
  TH1.create (TH1.fDimension h)
    (template_axis h binning axis 0 (TH1.fXaxis h))
    (template_axis h binning axis 1 (TH1.fYaxis h))
    (template_axis h binning axis 2 (TH1.fZaxis h))
    fgDefaultSumw2.

(** The [param] of an axis given by its edges. *)
Definition edges_param (edges : list Q) : param :=
  mk_param (Some edges) (Some (Z.of_nat (length edges) - 1)) None None.

(** ** What the filling loops add up

    [gathered target value items c] is the sum of [value x] over the items
    [x] that go to cell [c]. *)
Definition gathered {A} (target : A -> Z) (value : A -> Q) (items : list A)
    (c : Z) : Q :=
  total ((fun x => if target x =? c then value x else 0%Q) <$> items).

(** Where [rebinned] puts the inner cell [xyz] of [h] in the new histogram
    [nh], and the content it adds there. *)
Definition rebin_target (h nh : TH1.t) (xyz : Z * Z * Z) : Z :=
  let '(x, y, z) := xyz in
  TH1.FindBin nh (TAxis.GetBinCenter (TH1.fXaxis h) x)
                 (TAxis.GetBinCenter (TH1.fYaxis h) y)
                 (TAxis.GetBinCenter (TH1.fZaxis h) z).

Definition rebin_value (h : TH1.t) (xyz : Z * Z * Z) : Q :=
  let '(x, y, z) := xyz in TH1.GetBinContent h (TH1.GetBin h x y z).

(** Two histograms with the same dimension, axes and number of cells. *)
Definition same_shape (h1 h2 : TH1.t) : Prop :=
  TH1.fDimension h1 = TH1.fDimension h2
  /\ TH1.fXaxis h1 = TH1.fXaxis h2
  /\ TH1.fYaxis h1 = TH1.fYaxis h2
  /\ TH1.fZaxis h1 = TH1.fZaxis h2
  /\ length (TH1.fArray h1) = length (TH1.fArray h2)
  /\ length (TH1.fSumw2 h1) = length (TH1.fSumw2 h2).

(** The axis of a histogram at a position that was checked before. *)
Definition axis_at (h : TH1.t) (axis : Z) : TAxis.t :=
  if axis =? 0 then TH1.fXaxis h
  else if axis =? 1 then TH1.fYaxis h else TH1.fZaxis h.

(** ** Windows of [merge_bins]

    The index window that [merge_bins] makes of one bin range, and the
    windows it keeps. *)
Definition resolved (axis_bins : Z) (window : list Z) : list Z :=
  match resolve_window axis_bins window with
  | Ok bin_idx => bin_idx
  | Raise _ => []
  end.

Definition windows_of (axis_bins : Z) (bin_ranges : list (list Z))
  : list (list Z) :=
  filter (fun w => w <> []) (resolved axis_bins <$> bin_ranges).

(** A bin range that [merge_bins] refuses. *)
Definition bad_range (window : list Z) : bool :=
  match window with
  | [l; r] => (l =? r) || ((l <? 0) && (0 <=? r))
  | _ => true
  end.

(** A Python index counted from the end when negative. *)
Definition norm_index (axis_bins v : Z) : Z :=
  if v <? 0 then v + axis_bins else v.

(** A valid bin range: two different positions of bins of the axis, both
    written from the front or both from the end, or the left one from the
    front and the right one from the end. *)
Definition valid_range (axis_bins : Z) (window : list Z) : bool :=
  match window with
  | [l; r] =>
      negb (bad_range window)
      && (- axis_bins <=? l) && (l <? axis_bins)
      && (- axis_bins <=? r) && (r <? axis_bins)
      && negb (norm_index axis_bins l =? norm_index axis_bins r)
  | _ => false
  end.

(** A window of at least two consecutive bins. *)
Definition run (w : list Z) : Prop :=
  w = seqZ (hd 0 w) (window_len w) /\ 2 <= window_len w.

(** Windows in increasing order, one after the other, between [lo] and
    [hi]. *)
Fixpoint chain (lo hi : Z) (ws : list (list Z)) : Prop :=
  match ws with
  | [] => lo <= hi
  | w :: ws' =>
      run w /\ lo <= hd 0 w /\ chain (hd 0 w + window_len w) hi ws'
  end.

(** The bins whose low edge [merge_bins] drops, and how many of them there
    are from [lo] up to [hi]. *)
Definition absorbed (mapping : gmap Z Z) (left_idx : gset Z) (n : Z) (j : Z)
  : bool :=
  (1 <=? j) && (j <=? n) && is_key mapping j && negb (is_elem left_idx j).

Definition count (R : Z -> bool) (lo hi : Z) : Z :=
  Z.of_nat (length (filter (fun j => R j = true) (seqZ lo (hi - lo)))).

(** The new index that the loop of [build_mapping] gives to [j], the last
    window that holds [j] deciding. *)
Fixpoint new_index (ws : list (list Z)) (offset : Z) (j : Z) : option Z :=
  match ws with
  | [] => None
  | w :: ws' =>
      let offset' := offset + (window_len w - 1) in
      let offset' := if hd 0 w =? 0 then offset' - 1 else offset' in
      match new_index ws' offset' j with
      | Some v => Some v
      | None => if bool_decide (j ∈ w) then Some (or_1 (hd 0 w - offset))
                else None
      end
  end.

(** The windows of [merge_bins] after sorting, and what it makes of
    them. *)
Definition sorted_windows (axis_bins : Z) (bin_ranges : list (list Z))
  : list (list Z) :=
  sort_by lex_leb (windows_of axis_bins bin_ranges).

Definition merge_mapping (axis_bins : Z) (bin_ranges : list (list Z))
  : gmap Z Z :=
  (build_mapping (sorted_windows axis_bins bin_ranges) ∅ ∅ 0).1.1.

Definition merge_left (axis_bins : Z) (bin_ranges : list (list Z)) : gset Z :=
  (build_mapping (sorted_windows axis_bins bin_ranges) ∅ ∅ 0).1.2.

Definition merged_edges (a : TAxis.t) (bin_ranges : list (list Z)) : list Q :=
  let axis_bins := TAxis.fNbins a + 2 in
  keep_edges (merge_mapping axis_bins bin_ranges)
             (merge_left axis_bins bin_ranges) axis_bins 0 (axis_edges a).

(** Each window is not after the next one in the order of [lex_leb]. *)
Fixpoint ordered (ws : list (list Z)) : Prop :=
  match ws with
  | [] => True
  | w :: ws' =>
      match ws' with
      | [] => True
      | w' :: _ => lex_leb w w' = true /\ ordered ws'
      end
  end.

(** A run of bins of an axis with [hi] cells. *)
Definition run_within (hi : Z) (w : list Z) : Prop :=
  run w /\ 0 <= hd 0 w /\ hd 0 w + window_len w <= hi.

(** The cell of the new histogram [nh] that [merge_bins] adds the content
    of cell [i] of [h] to, given the map [tr] of positions along [axis]. *)
Definition merge_target (h nh : TH1.t) (axis : Z) (tr : Z -> Z) (i : Z) : Z :=
  let xyz := TH1.GetBinXYZ h i in
  let '(x, y, z) :=
    tuple_set xyz axis (tr (BinProxy.tuple_get xyz axis)) in
  TH1.GetBin nh x y z.

(** Positions that name a cell of [h] on every axis. *)
Definition coords_in (h : TH1.t) (xyz : Z * Z * Z) : Prop :=
  let '(x, y, z) := xyz in
  0 <= x < TH1.GetNbinsX h + 2 /\ 0 <= y < TH1.GetNbinsY h + 2
  /\ 0 <= z < TH1.GetNbinsZ h + 2.

(** The proxies that [bins(overflow=True)] yields. *)
Definition all_bins (self : handle) (h : TH1.t) : list BinProxy.t :=
  (fun i => BinProxy.mk self i (TH1.GetBinXYZ h i)) <$> TH1.cells h.

(** What [merge_bins] does once its checks have passed and a window is
    left: the new histogram is made and filled cell by cell, then given
    the statistics and the number of entries of the receiver. *)
Definition merge_fill (self : handle) (h : TH1.t)
    (bin_ranges : list (list Z)) (axis : Z) : M handle :=
  let a := axis_at h axis in
  let axis_bins := TAxis.fNbins a + 2 in
  new_hist <- new_binning_template self (merged_edges a bin_ranges) axis ;;
  nh <- load new_hist ;;
  for_each (all_bins self h)
    (merge_bin self new_hist axis
       (translate (merge_mapping axis_bins bin_ranges) a (axis_at nh axis))) ;;;
  h <- load self ;;
  modify new_hist (fun nh => TH1.PutStats nh (TH1.GetStats h)) ;;;
  modify new_hist (fun nh => TH1.SetEntries nh (TH1.GetEntries h)) ;;;
  ret new_hist.

(** Two of the windows share a bin: some window has a bin that is also in
    a later one. *)
Fixpoint overlapping (ws : list (list Z)) : Prop :=
  match ws with
  | [] => False
  | w :: ws' =>
      (exists x w', w' ∈ ws' /\ x ∈ w /\ x ∈ w') \/ overlapping ws'
  end.

(** A bin range that [merge_bins] refuses: not a pair, a pair of equal
    indices, or a left index counted from the end with a right one counted
    from the front. *)
Definition invalid_range (window : list Z) : Prop :=
  length window <> 2%nat
  \/ exists l r, window = [l; r] /\ (l = r \/ (l < 0 /\ 0 <= r)).

(** A computation that does not raise [e], whatever the store. *)
Definition quiet {A} (e : exn) (m : M A) : Prop :=
  forall σ, fst (m σ) <> Raise e.

(** Lists of numbers no two of which are equal. *)
Fixpoint distinct (l : list Q) : Prop :=
  match l with
  | [] => True
  | x :: l' => Forall (fun y => ~ (x == y)%Q) l' /\ distinct l'
  end.

(** [e] is one of the bin edges of a one-dimensional histogram. *)
Definition is_edge (h : TH1.t) (e : Q) : Prop :=
  Exists (fun x => (e == x)%Q) (axis_edges (TH1.fXaxis h)).

(** ** Centers, widths and edges of bins

    Every accessor has two forms in the source: without an index it hands
    back a generator, whose items are listed here, and with an index it
    answers for one bin, the index being taken modulo the number of bins
    with the two overflow bins. *)

(** [l[i]] on a Python list. *)
Definition py_index {A} (l : list A) (i : Z) : result A :=
  let n := Z.of_nat (length l) in
  let j := if i <? 0 then i + n else i in
  if (j <? 0) || (n <=? j) then Raise IndexError
  else match l !! Z.to_nat j with
       | Some a => Ok a
       | None => Raise IndexError
       end.

(** [_centers(axis, overflow=...)]. *)
Definition _centers (h : TH1.t) (axis : Z) (overflow : bool)
  : result (list pyfloat) :=
  rbind (nbins h axis) (fun nbins =>
  rbind (axis_ h axis) (fun ax =>
    Ok ((if overflow then [NegInf] else [])
        ++ ((fun index => Fin (TAxis.GetBinCenter ax index))
              <$> py_range 1 (nbins + 1) 1)
        ++ (if overflow then [PosInf] else [])))).

(** [_centers(axis, index)]. *)
Definition _centers_at (h : TH1.t) (axis : Z) (index : Z) : result pyfloat :=
  rbind (nbins h axis) (fun nbins =>
  rbind (axis_ h axis) (fun ax =>
    if nbins + 2 =? 0 then Raise ZeroDivisionError
    else
      let index := index mod (nbins + 2) in
      if index =? 0 then Ok NegInf
      else if index =? nbins + 1 then Ok PosInf
      else Ok (Fin (TAxis.GetBinCenter ax index)))).

(** [_edgesl(axis, index)]. *)
Definition _edgesl_at (h : TH1.t) (axis : Z) (index : Z) : result pyfloat :=
  rbind (nbins h axis) (fun nbins =>
  rbind (axis_ h axis) (fun ax =>
    if nbins + 2 =? 0 then Raise ZeroDivisionError
    else
      let index := index mod (nbins + 2) in
      if index =? 0 then Ok NegInf
      else if index =? nbins + 1 then Ok (Fin (TAxis.GetBinUpEdge ax index))
      else Ok (Fin (TAxis.GetBinLowEdge ax index)))).

(** [_edgesh(axis, index)]. *)
Definition _edgesh_at (h : TH1.t) (axis : Z) (index : Z) : result pyfloat :=
  rbind (nbins h axis) (fun nbins =>
  rbind (axis_ h axis) (fun ax =>
    if nbins + 2 =? 0 then Raise ZeroDivisionError
    else
      let index := index mod (nbins + 2) in
      if index =? 0 then Ok (Fin (TAxis.GetBinLowEdge ax index))
      else if index =? nbins + 1 then Ok PosInf
      else Ok (Fin (TAxis.GetBinUpEdge ax index)))).

(** [_width(axis, overflow=...)]. *)
Definition _width (h : TH1.t) (axis : Z) (overflow : bool)
  : result (list pyfloat) :=
  rbind (nbins h axis) (fun nbins =>
  rbind (axis_ h axis) (fun ax =>
    Ok ((if overflow then [PosInf] else [])
        ++ ((fun index => Fin (TAxis.GetBinWidth ax index))
              <$> py_range 1 (nbins + 1) 1)
        ++ (if overflow then [PosInf] else [])))).

(** [_width(axis, index)]. *)
Definition _width_at (h : TH1.t) (axis : Z) (index : Z) : result pyfloat :=
  rbind (nbins h axis) (fun nbins =>
  rbind (axis_ h axis) (fun ax =>
    if nbins + 2 =? 0 then Raise ZeroDivisionError
    else
      let index := index mod (nbins + 2) in
      if (index =? 0) || (index =? nbins + 1) then Ok PosInf
      else Ok (Fin (TAxis.GetBinWidth ax index)))).

(** [_erravg(axis, overflow=...)]: half of the width. *)
Definition _erravg (h : TH1.t) (axis : Z) (overflow : bool)
  : result (list pyfloat) :=
  rbind (nbins h axis) (fun nbins =>
  rbind (axis_ h axis) (fun ax =>
    Ok ((if overflow then [PosInf] else [])
        ++ ((fun index => Fin (TAxis.GetBinWidth ax index / 2)%Q)
              <$> py_range 1 (nbins + 1) 1)
        ++ (if overflow then [PosInf] else [])))).

(** [_erravg(axis, index)]. *)
Definition _erravg_at (h : TH1.t) (axis : Z) (index : Z) : result pyfloat :=
  rbind (nbins h axis) (fun nbins =>
  rbind (axis_ h axis) (fun ax =>
    if nbins + 2 =? 0 then Raise ZeroDivisionError
    else
      let index := index mod (nbins + 2) in
      if (index =? 0) || (index =? nbins + 1) then Ok PosInf
      else Ok (Fin (TAxis.GetBinWidth ax index / 2)%Q))).

(** [_err(axis, overflow=...)]: the half width, twice. *)
Definition _err (h : TH1.t) (axis : Z) (overflow : bool)
  : result (list (pyfloat * pyfloat)) :=
  rbind (nbins h axis) (fun nbins =>
  rbind (axis_ h axis) (fun ax =>
    Ok ((if overflow then [(PosInf, PosInf)] else [])
        ++ ((fun index => let w := Fin (TAxis.GetBinWidth ax index / 2)%Q in
                          (w, w))
              <$> py_range 1 (nbins + 1) 1)
        ++ (if overflow then [(PosInf, PosInf)] else [])))).

(** [_err(axis, index)]. *)
Definition _err_at (h : TH1.t) (axis : Z) (index : Z)
  : result (pyfloat * pyfloat) :=
  rbind (nbins h axis) (fun nbins =>
  rbind (axis_ h axis) (fun ax =>
    if nbins + 2 =? 0 then Raise ZeroDivisionError
    else
      let index := index mod (nbins + 2) in
      if (index =? 0) || (index =? nbins + 1) then Ok (PosInf, PosInf)
      else let w := Fin (TAxis.GetBinWidth ax index / 2)%Q in Ok (w, w))).

(** Two Python floats with the same value. *)
Definition pyfloat_eq (x y : pyfloat) : Prop :=
  match x, y with
  | NegInf, NegInf => True
  | PosInf, PosInf => True
  | Fin p, Fin q => (p == q)%Q
  | _, _ => False
  end.

(** ** Length, iteration and assignment *)

(** [__len__]: the number of cells, overflow included. *)
Definition __len__ (self : handle) : M Z :=
  h <- load self ;; ret (TH1.GetSize h).

(** [__iter__]: the proxies of all cells. *)
Definition __iter__ (self : handle) : M (list BinProxy.t) :=
  bins self true.

(** What can stand on the right of [h[...] = ...]: a number, a bin proxy,
    a tuple or a list. *)
#[warnings="-register-all"]
Inductive pyvalue : Type :=
| PNum (v : Q)
| PProxy (b : BinProxy.t)
| PTuple (t : list pyvalue)
| PList (l : list pyvalue).

(** A value handed to a native method that expects a double. *)
Definition as_double (v : pyvalue) : result Q :=
  match v with
  | PNum q => Ok q
  | _ => Raise TypeError
  end.

(** [len(value)] and the items of a sequence. *)
Definition py_items (v : pyvalue) : result (list pyvalue) :=
  match v with
  | PTuple t => Ok t
  | PList l => Ok l
  | _ => Raise TypeError
  end.

(** [a, b = value]. *)
Definition unpack2 (v : pyvalue) : result (pyvalue * pyvalue) :=
  match v with
  | PTuple [a; b] | PList [a; b] => Ok (a, b)
  | PTuple _ | PList _ => Raise ValueError
  | _ => Raise TypeError
  end.

(** [v.value] and [v.error] exist on bin proxies only. *)
Definition is_proxy (v : pyvalue) : bool :=
  match v with PProxy _ => true | _ => false end.

Definition is_tuple (v : pyvalue) : bool :=
  match v with PTuple _ => true | _ => false end.

Section SetItem.

Variable sqrt : Q -> Q.

Definition SetBinContent (self : handle) (i : Z) (v : pyvalue) : M unit :=
  q <- lift (as_double v) ;;
  modify self (fun h => TH1.SetBinContent h i q).

Definition SetBinError (self : handle) (i : Z) (v : pyvalue) : M unit :=
  q <- lift (as_double v) ;;
  modify self (fun h => TH1.SetBinError h i q).

(** The body of the loop over a slice whose first value is a proxy. *)
Definition set_from_proxy (self : handle) (iv : Z * pyvalue) : M unit :=
  let '(i, v) := iv in
  match v with
  | PProxy b =>
      x <- BinProxy.value b ;;
      modify self (fun h => TH1.SetBinContent h i x) ;;;
      e <- BinProxy.error sqrt b ;;
      modify self (fun h => TH1.SetBinError h i e)
  | _ => throw AttributeError
  end.

(** The body of the loop over a slice whose first value is a tuple: the
    whole right-hand side is unpacked, not the item. *)
Definition set_from_tuple (self : handle) (value : pyvalue)
    (iv : Z * pyvalue) : M unit :=
  let '(i, _) := iv in
  r <- lift (unpack2 value) ;;
  let '(_value, _error) := r in
  SetBinContent self i _value ;;;
  SetBinError self i _error.

Definition set_from_number (self : handle) (iv : Z * pyvalue) : M unit :=
  let '(i, v) := iv in SetBinContent self i v.

(** [izip(indices, value)]. *)
Definition izip {A B} (l1 : list A) (l2 : list B) : list (A * B) :=
  zip l1 l2.

(** The end of [__setitem__] for one bin. *)
Definition set_one (self : handle) (i : Z) (value : pyvalue) : M unit :=
  match value with
  | PProxy b =>
      x <- BinProxy.value b ;;
      modify self (fun h => TH1.SetBinContent h i x) ;;;
      e <- BinProxy.error sqrt b ;;
      modify self (fun h => TH1.SetBinError h i e)
  | PTuple _ =>
      r <- lift (unpack2 value) ;;
      let '(value, error) := r in
      SetBinContent self i value ;;;
      SetBinError self i error
  | _ => SetBinContent self i value
  end.

Definition __setitem__ (self : handle) (ix : index) (value : pyvalue)
  : M unit :=
  h <- load self ;;
  match ix with
  | ISlice a b s =>
      r <- lift (slice_indices a b s (TH1.GetSize h)) ;;
      let '(a, b, s) := r in
      let indices := py_range a b s in
      items <- lift (py_items value) ;;
      if negb (length indices =? length items)%nat then throw RuntimeError
      else
        match items with
        | v0 :: _ =>
            if is_proxy v0 then
              for_each (izip indices items) (set_from_proxy self)
            else if is_tuple v0 then
              for_each (izip indices items) (set_from_tuple self value)
            else
              for_each (izip indices items) (set_from_number self)
        | [] => for_each (izip indices items) (set_from_number self)
        end
  | ITuple t =>
      let ndim := TH1.GetDimension h in
      xyz <-
        (if ndim =? 2 then
           match t with
           | [ix; iy] =>
               lift (_range_check h ix (Some 0)) ;;;
               lift (_range_check h iy (Some 1)) ;;;
               ret (ix, iy, 0)
           | _ => throw ValueError
           end
         else if ndim =? 3 then
           match t with
           | [ix; iy; iz] =>
               lift (_range_check h ix (Some 0)) ;;;
               lift (_range_check h iy (Some 1)) ;;;
               lift (_range_check h iz (Some 2)) ;;;
               ret (ix, iy, iz)
           | _ => throw ValueError
           end
         else ret (0, 0, 0)) ;;
      let '(ix, iy, iz) := xyz in
      set_one self (TH1.GetBin h ix iy iz) value
  | IInt i =>
      lift (_range_check h i None) ;;;
      set_one self i value
  end.

End SetItem.

(** The histogram after [SetBinContent(i, v)] for every pair in turn. *)
Definition assigned (h : TH1.t) (ivs : list (Z * Q)) : TH1.t :=
  foldl (fun h iv => TH1.SetBinContent h (fst iv) (snd iv)) h ivs.

(** ** Reflected addition *)

(** The left operand that [__radd__] and [__rsub__] are called with: a
    number, or another object that is not equal to 0 (a string, [None], a
    list).  A histogram on the left is served by its own operator. *)
Inductive left_operand : Type :=
| LNum (v : Q)
| LOther.

Definition __radd__ (self : handle) (other : left_operand) : M handle :=
  match other with
  | LNum v => if Qeq_bool v 0 then Clone self else throw TypeError
  | LOther => throw TypeError
  end.

Definition __rsub__ (self : handle) (other : left_operand) : M handle :=
  match other with
  | LNum v => if Qeq_bool v 0 then Clone self else throw TypeError
  | LOther => throw TypeError
  end.

(** [sum(hists)]: the built-in starts from 0 and adds the items from the
    left, so the first addition is reflected and the others are [__add__]
    of the running sum.  The sum of no histogram is the number 0. *)
Inductive sum_result : Type :=
| SumZero
| SumHist (h : handle).

Fixpoint sum_from (acc : handle) (hists : list handle) : M handle :=
  match hists with
  | [] => ret acc
  | h :: rest => acc' <- __add__ acc (OHist h) ;; sum_from acc' rest
  end.

Definition py_sum (hists : list handle) : M sum_result :=
  match hists with
  | [] => ret SumZero
  | first :: rest =>
      acc <- __radd__ first (LNum 0) ;;
      r <- sum_from acc rest ;;
      ret (SumHist r)
  end.

(** ** Underflow and overflow *)

(** The three shapes of what [underflow] and [overflow] hand back, and
    [None] for a histogram of no known dimension. *)
Inductive flow : Type :=
| FlowNone
| Flow1 (v : Q)
| Flow2 (l : list Q)
| Flow3 (l : list (list Q)).

(** [l.insert(pos, v)]. *)
Definition list_insert {A} (l : list A) (pos : Z) (v : A) : list A :=
  let n := Z.of_nat (length l) in
  let p := if pos <? 0 then Z.max (pos + n) 0 else Z.min pos n in
  take (Z.to_nat p) l ++ v :: drop (Z.to_nat p) l.

(** [l.remove(v)] on a list of integers. *)
Fixpoint list_remove (l : list Z) (v : Z) : result (list Z) :=
  match l with
  | [] => Raise ValueError
  | x :: l' => if x =? v then Ok l'
               else rbind (list_remove l' v) (fun r => Ok (x :: r))
  end.

(** [GetBinContent] called with one, two or three bin numbers. *)
Definition content_at (h : TH1.t) (args : list Z) : result Q :=
  match args with
  | [x] => Ok (TH1.GetBinContent h x)
  | [x; y] => Ok (TH1.GetBinContent3 h x y 0)
  | [x; y; z] => Ok (TH1.GetBinContent3 h x y z)
  | _ => Raise TypeError
  end.

(** A list comprehension whose items may raise. *)
Fixpoint collect {A B} (f : A -> result B) (l : list A) : result (list B) :=
  match l with
  | [] => Ok []
  | a :: l' => rbind (f a) (fun b =>
               rbind (collect f l') (fun bs => Ok (b :: bs)))
  end.

(** [underflow(axis)] reads the bins at position 0 of [axis] and
    [overflow(axis)] those at position [nbins + 1]. *)
Definition underflow (h : TH1.t) (axis : Z) : result flow :=
  if negb ((0 <=? axis) && (axis <? 3)) then Raise ValueError
  else if dim h =? 1 then Ok (Flow1 (TH1.GetBinContent h 0))
  else if dim h =? 2 then
    rbind (nbins h ((axis + 1) mod 2)) (fun n =>
    rbind (collect (fun i => content_at h (list_insert [i] axis 0))
                   (py_range 0 (n + 2) 1))
          (fun l => Ok (Flow2 l)))
  else if dim h =? 3 then
    rbind (list_remove [0; 1; 2] axis) (fun axes =>
      match axes with
      | [axis2; axis3] =>
          rbind (nbins h axis3) (fun n3 =>
          rbind (collect
                   (fun j =>
                      rbind (nbins h axis2) (fun n2 =>
                        collect
                          (fun i => content_at h (list_insert [i; j] axis 0))
                          (py_range 0 (n2 + 2) 1)))
                   (py_range 0 (n3 + 2) 1))
                (fun l => Ok (Flow3 l)))
      | _ => Raise ValueError
      end)
  else Ok FlowNone.

Definition overflow (h : TH1.t) (axis : Z) : result flow :=
  if negb ((0 <=? axis) && (axis <? 3)) then Raise ValueError
  else if dim h =? 1 then
    rbind (nbins h 0) (fun n => Ok (Flow1 (TH1.GetBinContent h (n + 1))))
  else if dim h =? 2 then
    rbind (list_remove [0; 1] axis) (fun axes =>
      match axes with
      | axis2 :: _ =>
          rbind (nbins h axis) (fun nbins_axis =>
          rbind (nbins h axis2) (fun n =>
          rbind (collect
                   (fun i =>
                      content_at h (list_insert [i] axis (nbins_axis + 1)))
                   (py_range 0 (n + 2) 1))
                (fun l => Ok (Flow2 l))))
      | [] => Raise IndexError
      end)
  else if dim h =? 3 then
    rbind (list_remove [0; 1; 2] axis) (fun axes =>
      match axes with
      | [axis2; axis3] =>
          rbind (nbins h axis) (fun nbins_axis =>
          rbind (nbins h axis3) (fun n3 =>
          rbind (collect
                   (fun j =>
                      rbind (nbins h axis2) (fun n2 =>
                        collect
                          (fun i =>
                             content_at h
                               (list_insert [i; j] axis (nbins_axis + 1)))
                          (py_range 0 (n2 + 2) 1)))
                   (py_range 0 (n3 + 2) 1))
                (fun l => Ok (Flow3 l))))
      | _ => Raise ValueError
      end)
  else Ok FlowNone.

(** ** [_Hist]: contents by index *)

Module _Hist.

(** [y(overflow=...)] without an index: the generator's items. *)
Definition y (h : TH1.t) (overflow : bool) : result (list Q) :=
  rbind (nbins h 0) (fun nbins =>
    let start := if overflow then 0 else 1 in
    let end_offset := if overflow then 2 else 1 in
    Ok (TH1.GetBinContent h <$> py_range start (nbins + end_offset) 1)).

(** [y(index)]. *)
Definition y_at (h : TH1.t) (index : Z) : result Q :=
  rbind (nbins h 0) (fun nbins =>
    if nbins + 2 =? 0 then Raise ZeroDivisionError
    else Ok (TH1.GetBinContent h (index mod (nbins + 2)))).

Section Errors.

Variable sqrt : Q -> Q.

(** [yerravg(overflow=...)] and [yerravg(index)]. *)
Definition yerravg (h : TH1.t) (overflow : bool) : result (list Q) :=
  rbind (nbins h 0) (fun nbins =>
    let start := if overflow then 0 else 1 in
    let end_offset := if overflow then 2 else 1 in
    Ok (TH1.GetBinError sqrt h <$> py_range start (nbins + end_offset) 1)).

Definition yerravg_at (h : TH1.t) (index : Z) : result Q :=
  rbind (nbins h 0) (fun nbins =>
    if nbins + 2 =? 0 then Raise ZeroDivisionError
    else Ok (TH1.GetBinError sqrt h (index mod (nbins + 2)))).

(** [yerrl] and [yerrh] are [yerravg]. *)
Definition yerrl_at (h : TH1.t) (index : Z) : result Q := yerravg_at h index.
Definition yerrh_at (h : TH1.t) (index : Z) : result Q := yerravg_at h index.

(** [yerr(index)]: the pair of the lower and the upper error. *)
Definition yerr_at (h : TH1.t) (index : Z) : result (Q * Q) :=
  rbind (nbins h 0) (fun nbins =>
    if nbins + 2 =? 0 then Raise ZeroDivisionError
    else
      let index := index mod (nbins + 2) in
      rbind (yerrl_at h index) (fun l =>
      rbind (yerrh_at h index) (fun u => Ok (l, u)))).

End Errors.

End _Hist.

(** A two-dimensional sample: two bins on x and three on y, the cell at
    (x, y) holding [x + 4 * y]. *)
Definition demo_hist2d : TH1.t :=
  TH1.with_array
    (TH1.create 2 (TAxis.fixed 2 0 2) (TAxis.fixed 3 0 3) TAxis.unit true)
    (inject_Z <$> seqZ 0 20).

(** The sum over the histograms [hists] of the store of the content of
    cell [c]. *)
Definition cell_total (σ : store) (hists : list handle) (c : Z) : Q :=
  total ((fun q => match σ !! q with
                   | Some g => TH1.GetBinContent g c
                   | None => 0%Q
                   end) <$> hists).

(** ** Uniform binning *)

(** [all(abs(x - widths[0]) < precision for x in widths)] on the widths
    of an axis, which are all finite without the overflow bins.  Nothing
    is read from an empty list. *)
Definition uniform_axis (h : TH1.t) (axis : Z) (precision : Q)
  : result bool :=
  rbind (_width h axis false) (fun ws =>
    let widths := floats ws in
    Ok (forallb (fun x => negb (Qle_bool precision
                                  (Qabs (x - hd 0%Q widths))))
                widths)).

(** [uniform(axis, precision)]; [None] stands for all axes. *)
Definition uniform (h : TH1.t) (axis : option Z) (precision : Q)
  : result bool :=
  match axis with
  | None =>
      (fix loop (axes : list Z) : result bool :=
         match axes with
         | [] => Ok true
         | axis :: rest =>
             rbind (uniform_axis h axis precision) (fun b =>
               if negb b then Ok false else loop rest)
         end) (py_range 0 (TH1.GetDimension h) 1)
  | Some axis => uniform_axis h axis precision
  end.

(** ** [HistStack]

    A stack keeps the list of its histograms, their common dimension and
    a histogram that holds their sum.  The stack itself is passed along
    explicitly; the histograms live in the store. *)

Module HistStack.

Record t : Type := mk {
  hists : list handle;
  dim : Z;
  sum : option handle
}.

(** A stack made without histograms: what [_post_init] sets when the
    native stack is empty. *)
Definition empty : t := mk [] 1 None.

Definition GetHists (s : t) : list handle := hists s.

Definition __len__ (s : t) : Z := Z.of_nat (length (GetHists s)).

Definition __nonzero__ (s : t) : bool := negb (__len__ s =? 0).

Definition __dim__ (s : t) : Z := dim s.

Definition __getitem__ (s : t) (index : Z) : result handle :=
  py_index (GetHists s) index.

(** [Add(hist)]: one- and two-dimensional histograms only, all of the
    same dimension ([dim(hist)] is its [GetDimension()]).  The first one
    is cloned into the sum, the others are added to it in place. *)
Definition Add (s : t) (hist : handle) : M t :=
  h <- load hist ;;
  if is_Hist h || (TH1.GetDimension h =? 2) then
    if negb (__nonzero__ s) then
      c <- Clone hist ;;
      ret (mk (hists s ++ [hist]) (TH1.GetDimension h) (Some c))
    else if negb (__dim__ s =? TH1.GetDimension h) then throw TypeError
    else
      match sum s with
      | Some acc =>
          acc' <- __iadd__ acc (OHist hist) ;;
          ret (mk (hists s ++ [hist]) (dim s) (Some acc'))
      | None => throw TypeError
      end
  else throw TypeError.

(** [HistStack(hists=...)]. *)
Fixpoint add_all (s : t) (l : list handle) : M t :=
  match l with
  | [] => ret s
  | h :: rest => s' <- Add s h ;; add_all s' rest
  end.

Definition __init__ (hists : list handle) : M t := add_all empty hists.

(** [self + other] and [self += other] for two stacks. *)
Definition __add__ (s other : t) : M t :=
  clone <- add_all empty (hists s) ;;
  add_all clone (hists other).

Definition __iadd__ (s other : t) : M t := add_all s (hists other).

(** [Scale(value)] scales the histograms of the stack, one after the
    other. *)
Definition Scale (s : t) (value : Q) : M unit :=
  for_each (hists s) (fun hist => modify hist (fun h => TH1.Scale h value)).

End HistStack.

(** What [Add] keeps of a stack: its histograms are in the store and have
    the dimension of the stack, and there is a sum, a histogram of its
    own, exactly when the stack is not empty. *)
Definition stack_ok (σ : store) (s : HistStack.t) : Prop :=
  Forall (fun q => exists g, σ !! q = Some g
                             /\ TH1.GetDimension g = HistStack.dim s)
         (HistStack.hists s)
  /\ match HistStack.sum s with
     | None => HistStack.hists s = []
     | Some acc => HistStack.hists s <> []
                   /\ (acc ∉ HistStack.hists s)
                   /\ (exists g, σ !! acc = Some g)
     end.

(** The edges that one parsed axis describes: the given ones, or
    [nbins + 1] equidistant ones from [low] to [high]. *)
Definition param_edges (p : param) : list Q :=
  match p_bins p with
  | Some edges => edges
  | None =>
      let n := default 0 (p_nbins p) in
      let low := num_of (default PyNone (p_low p)) in
      let high := num_of (default PyNone (p_high p)) in
      (fun k => (low + inject_Z k * ((high - low) / inject_Z n))%Q)
        <$> seqZ 0 (n + 1)
  end.

(** What [bins(overflow=False)] keeps of cell [i]. *)
Definition kept (self : handle) (h : TH1.t) (i : Z) : list BinProxy.t :=
  match BinProxy.overflow_of h i with
  | Ok false => [BinProxy.mk self i (TH1.GetBinXYZ h i)]
  | _ => []
  end.

(** The proxies of the cells inside the axes, in the order of
    [inner_cells]. *)
Definition inner_bins (self : handle) (h : TH1.t) : list BinProxy.t :=
  (fun '(x, y, z) =>
     let i := TH1.GetBin h x y z in
     BinProxy.mk self i (TH1.GetBinXYZ h i)) <$> inner_cells h.

(** ** The axis information of a bin

    [axis_bininfo(axi, i)] answers a class whose attributes are read off
    the axis when it is made. *)
Record bininfo : Type := mk_bininfo {
  bi_ax : TAxis.t;
  bi_lo : Q;
  bi_center : Q;
  bi_up : Q;
  bi_width : Q
}.

Definition axis_bininfo (h : TH1.t) (axi i : Z) : result bininfo :=
  rbind (axis_ h axi) (fun ax =>
    Ok (mk_bininfo ax (TAxis.GetBinLowEdge ax i) (TAxis.GetBinCenter ax i)
                   (TAxis.GetBinUpEdge ax i) (TAxis.GetBinWidth ax i))).

(** The properties [x], [y] and [z] of a [BinProxy]: the information of
    the position it recorded when it was made, on the axis of the histogram
    as it is now. *)
Module BinProxyAxes.

Definition x (b : BinProxy.t) : M bininfo :=
  h <- load (BinProxy.hist b) ;;
  lift (axis_bininfo h 0 (BinProxy.tuple_get (BinProxy.xyz b) 0)).

Definition y (b : BinProxy.t) : M bininfo :=
  h <- load (BinProxy.hist b) ;;
  lift (axis_bininfo h 1 (BinProxy.tuple_get (BinProxy.xyz b) 1)).

Definition z (b : BinProxy.t) : M bininfo :=
  h <- load (BinProxy.hist b) ;;
  lift (axis_bininfo h 2 (BinProxy.tuple_get (BinProxy.xyz b) 2)).

(** The property that belongs to an axis. *)
Definition along (axis : Z) (b : BinProxy.t) : M bininfo :=
  if axis =? 0 then x b else if axis =? 1 then y b else z b.

End BinProxyAxes.

(** ** Properties *)

(** Running a computation that starts by reading an object of the store. *)
Lemma load_ok (σ : store) self h :
  σ !! self = Some h -> load self σ = (Ok h, σ).
Proof. intros Hs. unfold load. rewrite Hs. reflexivity. Qed.

Lemma bind_load {A} (σ : store) self h (k : TH1.t -> M A) :
  σ !! self = Some h -> bind (load self) k σ = k h σ.
Proof. intros Hs. unfold bind. rewrite (load_ok _ _ _ Hs). reflexivity. Qed.

Lemma proxy_init (σ : store) self h i :
  σ !! self = Some h ->
  BinProxy.__init__ self i σ
  = (Ok (BinProxy.mk self i (TH1.GetBinXYZ h i)), σ).
Proof.
  intros Hs. unfold BinProxy.__init__. rewrite (bind_load _ _ _ _ Hs).
  reflexivity.
Qed.

(** C5. Indexing with an integer [i] answers the proxy of global bin [i]
    exactly when [0 <= i < GetSize()], and raises [IndexError] otherwise, in
    particular for every negative [i].  Indexing a two- or
    three-dimensional histogram with a tuple answers the proxy of the bin at
    those positions when every position is within [0, nbins(axis) + 2), and
    raises [IndexError] otherwise. *)
Theorem getitem_range (σ : store) (self : handle) (h : TH1.t) :
  σ !! self = Some h ->
  (forall i : Z,
      __getitem__ self (IInt i) σ
      = if in_bounds i (TH1.GetSize h)
        then (Ok (Bin (BinProxy.mk self i (xyz h i))), σ)
        else (Raise IndexError, σ))
  /\ (forall i : Z, i < 0 ->
        __getitem__ self (IInt i) σ = (Raise IndexError, σ))
  /\ (TH1.GetDimension h = 2 -> forall ix iy : Z,
        __getitem__ self (ITuple [ix; iy]) σ
        = if in_bounds ix (TH1.GetNbinsX h + 2)
             && in_bounds iy (TH1.GetNbinsY h + 2)
          then (Ok (Bin (BinProxy.mk self (TH1.GetBin h ix iy 0)
                           (xyz h (TH1.GetBin h ix iy 0)))), σ)
          else (Raise IndexError, σ))
  /\ (TH1.GetDimension h = 3 -> forall ix iy iz : Z,
        __getitem__ self (ITuple [ix; iy; iz]) σ
        = if in_bounds ix (TH1.GetNbinsX h + 2)
             && in_bounds iy (TH1.GetNbinsY h + 2)
             && in_bounds iz (TH1.GetNbinsZ h + 2)
          then (Ok (Bin (BinProxy.mk self (TH1.GetBin h ix iy iz)
                           (xyz h (TH1.GetBin h ix iy iz)))), σ)
          else (Raise IndexError, σ)).
Proof.
  intros Hs.
  assert (Hint : forall i : Z,
      __getitem__ self (IInt i) σ
      = if in_bounds i (TH1.GetSize h)
        then (Ok (Bin (BinProxy.mk self i (xyz h i))), σ)
        else (Raise IndexError, σ)).
  { intros i. unfold __getitem__. rewrite (bind_load _ _ _ _ Hs).
    unfold _range_check, in_bounds, bind, lift.
    destruct ((0 <=? i) && (i <? TH1.GetSize h)); simpl; [| reflexivity].
    rewrite (proxy_init _ _ _ _ Hs). reflexivity. }
  split; [exact Hint |]. split.
  - intros i Hi. rewrite Hint. unfold in_bounds.
    replace (0 <=? i) with false by (symmetry; apply Z.leb_gt; lia).
    reflexivity.
  - split.
    + intros Hd ix iy. unfold __getitem__.
      rewrite (bind_load _ _ _ _ Hs), Hd. simpl.
      unfold _range_check, nbins, in_bounds, bind, lift, ret. simpl.
      destruct ((0 <=? ix) && (ix <? TH1.GetNbinsX h + 2)); simpl;
        [| reflexivity].
      destruct ((0 <=? iy) && (iy <? TH1.GetNbinsY h + 2)); simpl;
        [| reflexivity].
      rewrite (proxy_init _ _ _ _ Hs). reflexivity.
    + intros Hd ix iy iz. unfold __getitem__.
      rewrite (bind_load _ _ _ _ Hs), Hd. simpl.
      unfold _range_check, nbins, in_bounds, bind, lift, ret. simpl.
      destruct ((0 <=? ix) && (ix <? TH1.GetNbinsX h + 2)); simpl;
        [| reflexivity].
      destruct ((0 <=? iy) && (iy <? TH1.GetNbinsY h + 2)); simpl;
        [| reflexivity].
      destruct ((0 <=? iz) && (iz <? TH1.GetNbinsZ h + 2)); simpl;
        [| reflexivity].
      rewrite (proxy_init _ _ _ _ Hs). reflexivity.
Qed.

Lemma getitem_range_witness :
  demo_store !! 0%nat = Some demo_hist
  /\ __getitem__ 0%nat (IInt (-1)) demo_store
     = (Raise IndexError, demo_store).
Proof.
  split; [reflexivity |].
  apply (getitem_range demo_store 0%nat demo_hist);
    [reflexivity | lia].
Defined.

Lemma getitem_int_inv (σ σ' : store) self i b :
  __getitem__ self (IInt i) σ = (Ok (Bin b), σ') ->
  σ' = σ /\ BinProxy.hist b = self /\ BinProxy.idx b = i.
Proof.
  unfold __getitem__, bind, load, lift, BinProxy.__init__, bind, load, ret.
  destruct (σ !! self) as [h |] eqn:Hs; [| discriminate].
  destruct (_range_check h i None); [| discriminate].
  rewrite Hs. intros [= <- <-]. auto.
Qed.

Lemma at_insert (l : list Q) (i : Z) (v : Q) :
  0 <= i < Z.of_nat (length l) ->
  TAxis.at_ (<[Z.to_nat i := v]> l) i = v.
Proof.
  intros Hi. unfold TAxis.at_.
  apply nth_lookup_Some with (d := 0%Q), list_lookup_insert_eq. lia.
Qed.

Lemma get_set_content (h : TH1.t) (i : Z) (v : Q) :
  0 <= i < TH1.GetSize h ->
  TH1.GetBinContent (TH1.SetBinContent h i v) i = v.
Proof.
  intros Hi. unfold TH1.SetBinContent, TH1.GetBinContent, TH1.cell.
  unfold TH1.GetSize in *. simpl.
  replace (i <? 0) with false by (symmetry; apply Z.ltb_ge; lia).
  replace (Z.of_nat (length (TH1.fArray h)) <=? i) with false
    by (symmetry; apply Z.leb_gt; lia).
  simpl. rewrite length_insert.
  replace (Z.of_nat (length (TH1.fArray h)) <=? i) with false
    by (symmetry; apply Z.leb_gt; lia).
  apply at_insert. lia.
Qed.



(** C9. For an axis that is none of 0, 1, 2, [lowerbound] and [upperbound]
    do not raise: a [ValueError] object is their result.  [nbins] and [axis]
    raise [ValueError] for the same argument. *)
Theorem bounds_return_error (h : TH1.t) (axis : Z) :
  axis <> 0 -> axis <> 1 -> axis <> 2 ->
  lowerbound h axis = Ok (ObjExc ValueError)
  /\ upperbound h axis = Ok (ObjExc ValueError)
  /\ nbins h axis = Raise ValueError
  /\ axis_ h axis = Raise ValueError.
Proof.
  intros H0 H1 H2. unfold lowerbound, upperbound, nbins, axis_.
  apply Z.eqb_neq in H0, H1, H2. rewrite H0, H1, H2. auto.
Qed.

Lemma bounds_return_error_witness :
  lowerbound demo_hist 3 = Ok (ObjExc ValueError)
  /\ upperbound demo_hist 3 = Ok (ObjExc ValueError)
  /\ nbins demo_hist 3 = Raise ValueError
  /\ axis_ demo_hist 3 = Raise ValueError.
Proof. apply (bounds_return_error demo_hist 3); lia. Defined.

(** C10. [ensure_directory] hands back [None] or the expanded path.  A path
    it hands back does not begin with a tilde and is a directory when the
    function returns, made on the way if nothing was there.  It hands back
    [None] exactly when the expanded path still begins with a tilde or
    something that is not a directory is already there.  The one other
    outcome is the exception of a failed [makedirs]. *)
Theorem ensure_directory_spec {W : Type} `{OsPath W} (variable default : string)
    (w : W) :
  let path := expanded_path w variable default in
  let out := ensure_directory variable default w in
  (out = (Ok None, w)
   \/ (exists w', out = (Ok (Some path), w'))
   \/ (exists e, out = (Raise e, w) /\ makedirs w path = Raise e))
  /\ (forall p w', out = (Ok (Some p), w') ->
        p = path /\ startswith_tilde p = false /\ isdir w' p = true
        /\ (exists_ w path = true -> w' = w)
        /\ (exists_ w path = false -> makedirs w path = Ok w'))
  /\ ((exists w', out = (Ok None, w'))
      <-> startswith_tilde path = true
          \/ (exists_ w path = true /\ isdir w path = false)).
Proof.
  intros path out. subst out. unfold ensure_directory. fold path.
  destruct (startswith_tilde path) eqn:Ht.
  { split; [auto |]. split; [discriminate |]. split; eauto. }
  destruct (exists_ w path) eqn:He; simpl.
  - destruct (isdir w path) eqn:Hd; simpl.
    + split; [right; left; eauto |]. split.
      * intros p w' [= <- <-]. repeat split; auto. discriminate.
      * split; [intros [w' [=]] | intros [[=] | [_ [=]]]].
    + split; [auto |]. split; [discriminate |].
      split; eauto.
  - destruct (makedirs w path) as [w1 | e] eqn:Hm.
    + split; [right; left; eauto |]. split.
      * intros p w' [= <- <-]. repeat split; auto.
        -- eapply makedirs_isdir; eauto.
        -- discriminate.
      * split; [intros [w' [=]] | intros [[=] | [[=] _]]].
    + split; [right; right; eauto |]. split; [discriminate |].
      split; [intros [w' [=]] | intros [[=] | [[=] _]]].
Qed.

Lemma ensure_directory_spec_witness :
  isdir (snd (ensure_directory "ROOTPY_DATA" "/cache/rootpy" demo_world))
        "/cache/rootpy" = true.
Proof.
  refine (proj1 (proj2 (proj2 (proj1 (proj2
            (ensure_directory_spec "ROOTPY_DATA" "/cache/rootpy" demo_world))
            "/cache/rootpy"%string
            (snd (ensure_directory "ROOTPY_DATA" "/cache/rootpy" demo_world))
            _)))).
  reflexivity.
Defined.

Example ensure_directory_tilde :
  ensure_directory "ROOTPY_DATA" "~/cache" demo_world = (Ok None, demo_world).
Proof. reflexivity. Qed.

Example ensure_directory_file :
  ensure_directory "ROOTPY_DATA" "/cache/rootpy" demo_world_file
  = (Ok None, demo_world_file).
Proof. reflexivity. Qed.

(** ** Sorting and sets of floats *)

Lemma Qle_bool_false (x y : Q) : Qle_bool x y = false <-> (y < x)%Q.
Proof.
  split.
  - intros Hf. apply Qnot_le_lt. intros Hle.
    apply Qle_bool_iff in Hle. congruence.
  - intros Hlt. destruct (Qle_bool x y) eqn:E; [| reflexivity].
    apply Qle_bool_iff in E. exfalso. exact (Qlt_not_le _ _ Hlt E).
Qed.

Lemma increasing_cons (x : Q) (l : list Q) :
  increasing (x :: l) = true ->
  increasing l = true /\ Forall (fun y => (x < y)%Q) l.
Proof.
  revert x. induction l as [| y l IH]; intros x Hx; [auto |].
  simpl in Hx. apply andb_true_iff in Hx as [Hxy Hl].
  apply negb_true_iff, Qle_bool_false in Hxy.
  split; [exact Hl |].
  constructor; [exact Hxy |].
  destruct (IH y Hl) as [_ Hall].
  eapply Forall_impl; [exact Hall |].
  intros z Hz. simpl in Hz. eapply Qlt_trans; eauto.
Qed.

Lemma increasing_intro (x : Q) (l : list Q) :
  increasing l = true -> Forall (fun y => (x < y)%Q) l ->
  increasing (x :: l) = true.
Proof.
  intros Hl Hall. destruct l as [| y l]; [reflexivity |].
  simpl. apply andb_true_iff. split; [| exact Hl].
  apply negb_true_iff, Qle_bool_false.
  apply Forall_cons in Hall. tauto.
Qed.

Lemma sorted_increasing (l : list Q) :
  increasing l = true -> sorted_floats l = l.
Proof.
  unfold sorted_floats, sort_by.
  induction l as [| x l IH]; intros Hl; [reflexivity |].
  destruct (increasing_cons _ _ Hl) as [Hl' Hall].
  simpl. rewrite (IH Hl').
  destruct l as [| y l]; [reflexivity |]. simpl.
  apply Forall_cons in Hall as [Hxy _].
  replace (Qle_bool x y) with true; [reflexivity |].
  symmetry. apply Qle_bool_iff, Qlt_le_weak, Hxy.
Qed.

Lemma filter_all {A} (P : A -> Prop) `{forall x, Decision (P x)} (l : list A) :
  Forall P l -> filter P l = l.
Proof.
  induction 1 as [| x l Hx _ IH]; [reflexivity |].
  rewrite filter_cons_True by exact Hx. f_equal. exact IH.
Qed.

Lemma filter_length_all {A} (P : A -> Prop) `{forall x, Decision (P x)}
    (l : list A) :
  length (filter P l) = length l -> Forall P l.
Proof.
  induction l as [| x l IH]; intros Hlen; [constructor |].
  destruct (decide (P x)) as [Hx | Hx].
  - rewrite filter_cons_True in Hlen by exact Hx. simpl in Hlen.
    constructor; [exact Hx | apply IH; lia].
  - rewrite filter_cons_False in Hlen by exact Hx. simpl in Hlen.
    pose proof (length_filter P l). lia.
Qed.

Lemma set_by_length {A} (eqb : A -> A -> bool) (l : list A) :
  (length (set_by eqb l) <= length l)%nat.
Proof.
  induction l as [| x l IH]; simpl; [lia |].
  pose proof (length_filter (fun y => negb (eqb x y) = true) (set_by eqb l)).
  lia.
Qed.

Lemma set_floats_increasing (l : list Q) :
  increasing l = true -> set_floats l = l.
Proof.
  unfold set_floats.
  induction l as [| x l IH]; intros Hl; [reflexivity |].
  destruct (increasing_cons _ _ Hl) as [Hl' Hall].
  simpl. rewrite (IH Hl'). f_equal. apply filter_all.
  eapply Forall_impl; [exact Hall |].
  intros y Hy. simpl in Hy. apply negb_true_iff.
  destruct (Qeq_bool x y) eqn:E; [| reflexivity].
  apply Qeq_bool_iff in E. rewrite E in Hy.
  exfalso. exact (Qlt_irrefl _ Hy).
Qed.

Lemma insert_by_Forall (P : Q -> Prop) (x : Q) (l : list Q) :
  P x -> Forall P l -> Forall P (insert_by Qle_bool x l).
Proof.
  intros Hx. induction 1 as [| y l Hy Hl IH]; simpl.
  - constructor; [exact Hx | constructor].
  - destruct (Qle_bool x y); repeat constructor; auto.
Qed.

Lemma insert_by_ascending (x : Q) (l : list Q) :
  ascending l -> ascending (insert_by Qle_bool x l).
Proof.
  induction l as [| y l IH]; intros Hl; simpl.
  - split; [constructor | exact I].
  - destruct Hl as [Hy Hl].
    destruct (Qle_bool x y) eqn:E.
    + apply Qle_bool_iff in E. split; [| split; assumption].
      constructor; [exact E |].
      eapply Forall_impl; [exact Hy |].
      intros z Hz. simpl in Hz. eapply Qle_trans; eauto.
    + apply Qle_bool_false in E. split; [| apply IH, Hl].
      apply insert_by_Forall; [apply Qlt_le_weak, E | exact Hy].
Qed.

Lemma sorted_floats_ascending (l : list Q) : ascending (sorted_floats l).
Proof.
  unfold sorted_floats, sort_by.
  induction l as [| x l IH]; simpl; [exact I |].
  apply insert_by_ascending, IH.
Qed.

Lemma list_eqb_Forall (P : Q -> Prop) (l1 l2 : list Q) :
  (forall x y, (x == y)%Q -> P x -> P y) ->
  list_eqb Qeq_bool l1 l2 = true -> Forall P l1 -> Forall P l2.
Proof.
  intros HP. revert l2.
  induction l1 as [| x l1 IH]; intros [| y l2] He Hall; simpl in He;
    try discriminate; [constructor |].
  apply andb_true_iff in He as [Hxy He]. apply Qeq_bool_iff in Hxy.
  apply Forall_cons in Hall as [Hx Hall].
  constructor; [eapply HP; eauto | eapply IH; eauto].
Qed.

Lemma list_eqb_ascending (l1 l2 : list Q) :
  list_eqb Qeq_bool l1 l2 = true -> ascending l1 -> ascending l2.
Proof.
  revert l2.
  induction l1 as [| x l1 IH]; intros [| y l2] He Hasc; simpl in He;
    try discriminate; [exact I |].
  apply andb_true_iff in He as [Hxy He]. apply Qeq_bool_iff in Hxy.
  destruct Hasc as [Hx Hasc]. split; [| eapply IH; eauto].
  apply (list_eqb_Forall (fun z => (y <= z)%Q) l1 l2);
    [intros a b Hab Ha; rewrite <- Hab; exact Ha | exact He |].
  eapply Forall_impl; [exact Hx |].
  intros z Hz. simpl in Hz. rewrite <- Hxy. exact Hz.
Qed.

Lemma list_eqb_refl (l : list Q) : list_eqb Qeq_bool l l = true.
Proof.
  induction l as [| x l IH]; [reflexivity |]. simpl.
  rewrite IH, andb_true_r. apply Qeq_bool_iff. reflexivity.
Qed.

Lemma set_floats_full (l : list Q) :
  length (set_floats l) = length l ->
  match l with
  | [] => True
  | x :: l' => Forall (fun y => ~ (x == y)%Q) l'
               /\ length (set_floats l') = length l'
  end.
Proof.
  unfold set_floats. destruct l as [| x l]; [auto |]. simpl. intros Hlen.
  pose proof (length_filter (fun y => negb (Qeq_bool x y) = true)
                (set_by Qeq_bool l)) as H1.
  pose proof (set_by_length Qeq_bool l) as H2.
  assert (Hl : length (set_by Qeq_bool l) = length l) by lia.
  split; [| exact Hl].
  assert (Hf : length (filter (fun y => negb (Qeq_bool x y) = true)
                         (set_by Qeq_bool l))
               = length (set_by Qeq_bool l)) by lia.
  apply filter_length_all in Hf.
  assert (Hset : set_by Qeq_bool l = l).
  { clear -Hl. induction l as [| y l IH]; [reflexivity |].
    simpl in *.
    pose proof (length_filter (fun z => negb (Qeq_bool y z) = true)
                  (set_by Qeq_bool l)) as H1.
    pose proof (set_by_length Qeq_bool l) as H2.
    assert (Hl' : length (set_by Qeq_bool l) = length l) by lia.
    rewrite (IH Hl') in *. f_equal. apply filter_all.
    apply (filter_length_all (fun z => negb (Qeq_bool y z) = true)). lia. }
  rewrite Hset in Hf.
  eapply Forall_impl; [exact Hf |].
  intros y Hy Hxy. simpl in Hy. apply negb_true_iff in Hy.
  apply Qeq_bool_iff in Hxy. congruence.
Qed.

Lemma ascending_distinct_increasing (l : list Q) :
  ascending l -> length (set_floats l) = length l -> increasing l = true.
Proof.
  induction l as [| x l IH]; intros Hasc Hlen; [reflexivity |].
  destruct Hasc as [Hx Hasc].
  destruct (set_floats_full _ Hlen) as [Hne Hlen'].
  apply increasing_intro; [apply IH; assumption |].
  apply Forall_forall. intros y Hy.
  rewrite Forall_forall in Hx, Hne.
  specialize (Hx y Hy). apply Qle_lteq in Hx.
  destruct Hx as [Hlt | Heq]; [exact Hlt |].
  exfalso. exact (Hne y Hy Heq).
Qed.

(** The two tests of the constructor on an iterable of edges pass exactly
    for strictly increasing edges. *)
Lemma edges_tests (edges : list Q) :
  increasing edges
  = list_eqb Qeq_bool (sorted_floats edges) edges
    && (length (set_floats edges) =? length edges)%nat.
Proof.
  destruct (increasing edges) eqn:Hinc.
  - rewrite (sorted_increasing _ Hinc), (set_floats_increasing _ Hinc).
    rewrite list_eqb_refl, Nat.eqb_refl. reflexivity.
  - symmetry. apply not_true_iff_false. intros Ht.
    apply andb_true_iff in Ht as [Hs Hn]. apply Nat.eqb_eq in Hn.
    pose proof (list_eqb_ascending _ _ Hs (sorted_floats_ascending edges)).
    rewrite (ascending_distinct_increasing edges) in Hinc;
      [discriminate | assumption | assumption].
Qed.

Lemma parse_axis_edges (edges : list Q) (rest : list pyval) :
  parse_axis (PySeq edges :: rest)
  = if increasing edges
    then Ok (mk_param (Some edges) (Some (Z.of_nat (length edges) - 1))
                      None None, rest)
    else Raise ValueError.
Proof.
  simpl. rewrite (edges_tests edges).
  destruct (list_eqb Qeq_bool (sorted_floats edges) edges); simpl;
    [| reflexivity].
  destruct (length (set_floats edges) =? length edges)%nat; reflexivity.
Qed.

Lemma parse_axis_good (args rest : list pyval) (p : param) :
  parse_axis args = Ok (p, rest) -> good_param p.
Proof.
  destruct args as [| a0 args]; [discriminate |].
  destruct a0 as [| b | n | n | q | s | edges];
    try (simpl; destruct args as [| low [| high args]]; discriminate).
  - simpl. destruct args as [| low [| high args]]; try discriminate.
    destruct (n <? 1) eqn:Hn; [discriminate |].
    destruct (isbasictype low); [| discriminate].
    destruct (isbasictype high); [| discriminate]. simpl.
    destruct (Qle_bool (num_of high) (num_of low)) eqn:Hq; [discriminate |].
    intros [= <- <-]. right. exists n, low, high. simpl.
    apply Z.ltb_ge in Hn. apply Qle_bool_false in Hq. auto 10.
  - rewrite parse_axis_edges.
    destruct (increasing edges) eqn:Hi; [| discriminate].
    intros [= <- <-]. left. exists edges. auto.
Qed.

Lemma parse_axes_good (n : nat) (args rest : list pyval) (ps : list param) :
  parse_axes n args = Ok (ps, rest) ->
  length ps = n /\ Forall good_param ps.
Proof.
  revert args ps. induction n as [| n IH]; intros args ps; simpl.
  - intros [= <- <-]. auto.
  - destruct (parse_axis args) as [[p args'] |] eqn:Hp; [| discriminate].
    simpl. destruct (parse_axes n args') as [[ps' rest'] |] eqn:Hps;
      [| discriminate].
    simpl. intros [= <- <-].
    destruct (IH _ _ Hps) as [Hlen Hall].
    split; [simpl; congruence |].
    constructor; [eapply parse_axis_good; eauto | exact Hall].
Qed.

Lemma parse_axis_exn (args : list pyval) (e : exn) :
  parse_axis args = Raise e -> e = ValueError \/ e = TypeError.
Proof.
  destruct args as [| a0 args]; [intros [= <-]; auto |].
  destruct a0 as [| b | n | n | q | s | edges];
    try (simpl; destruct args as [| low [| high args]];
         intros [= <-]; auto).
  - simpl. destruct args as [| low [| high args]];
      try (intros [= <-]; auto).
    destruct (n <? 1); [intros [= <-]; auto |].
    destruct (isbasictype low); [| intros [= <-]; auto].
    destruct (isbasictype high); [| intros [= <-]; auto]. simpl.
    destruct (Qle_bool (num_of high) (num_of low)); [| discriminate].
    intros [= <-]; auto.
  - rewrite parse_axis_edges. destruct (increasing edges); [discriminate |].
    intros [= <-]; auto.
Qed.

Lemma parse_axes_exn (n : nat) (args : list pyval) (e : exn) :
  parse_axes n args = Raise e -> e = ValueError \/ e = TypeError.
Proof.
  revert args. induction n as [| n IH]; intros args; simpl; [discriminate |].
  destruct (parse_axis args) as [[p args'] |] eqn:Hp; simpl.
  - destruct (parse_axes n args') as [[ps' rest'] |] eqn:Hps; simpl;
      [discriminate |].
    intros [= <-]. eapply IH; eauto.
  - intros [= <-]. eapply parse_axis_exn; eauto.
Qed.

Lemma parse_axes_step (k d : nat) (args rest : list pyval) (ps : list param)
    (e : exn) :
  (k < d)%nat -> parse_axes k args = Ok (ps, rest) ->
  parse_axis rest = Raise e -> parse_axes d args = Raise e.
Proof.
  revert d args ps. induction k as [| k IH]; intros d args ps Hk Hps He.
  - simpl in Hps. injection Hps as <- <-.
    destruct d as [| d]; [lia |]. simpl. rewrite He. reflexivity.
  - destruct d as [| d]; [lia |]. simpl in *.
    destruct (parse_axis args) as [[p args'] |]; [| discriminate].
    simpl in *.
    destruct (parse_axes k args') as [[ps' rest'] |] eqn:Hk'; [| discriminate].
    simpl in Hps. injection Hps as <- <-.
    rewrite (IH d args' ps'); auto. lia.
Qed.



Lemma Fill_run (σ : store) self h args :
  σ !! self = Some h ->
  bind (Fill self args) (fun _ => ret self) σ
  = match filled h args with
    | Ok h' => (Ok self, <[self := h']> σ)
    | Raise e => (Raise e, σ)
    end.
Proof.
  intros Hs. unfold Fill, filled, bind, lift, save, ret, load. rewrite Hs.
  destruct (TH1.Fill h args) as [[h' b] |]; reflexivity.
Qed.

Lemma modify_with_run (σ : store) self h o (f : TH1.t -> TH1.t -> TH1.t) :
  σ !! self = Some h ->
  bind (load o)
       (fun h1 => bind (modify self (fun h => f h h1)) (fun _ => ret self)) σ
  = match with_hist σ o (f h) with
    | Ok h' => (Ok self, <[self := h']> σ)
    | Raise e => (Raise e, σ)
    end.
Proof.
  intros Hs. unfold with_hist, modify, bind, load, save, ret.
  destruct (σ !! o); [rewrite Hs |]; reflexivity.
Qed.

(** An in-place operator rewrites the receiver and nothing else, and
    leaves the store alone when it raises. *)
Lemma inplace_run (σ : store) self h op other :
  σ !! self = Some h ->
  inplace op self other σ
  = match op_result op h other σ with
    | Ok h' => (Ok self, <[self := h']> σ)
    | Raise e => (Raise e, σ)
    end.
Proof.
  intros Hs.
  destruct op, other as [v | l | l | o]; simpl;
    unfold __iadd__, __isub__, __imul__, __idiv__;
    try rewrite (bind_load _ _ _ _ Hs).
  - destruct (is_Hist h); simpl; [apply Fill_run, Hs | reflexivity].
  - destruct ((dim h =? seq_len l) || (dim h =? seq_len l - 1)); simpl;
      [apply Fill_run, Hs | reflexivity].
  - destruct ((dim h =? seq_len l) || (dim h =? seq_len l - 1)); simpl;
      [apply Fill_run, Hs | reflexivity].
  - apply (modify_with_run _ _ _ _ (fun h h1 => TH1.Add h h1 1) Hs).
  - destruct (is_Hist h); simpl; [apply Fill_run, Hs | reflexivity].
  - destruct ((seq_len l =? dim h) || (seq_len l =? dim h + 1)); reflexivity.
  - destruct (seq_len l =? dim h); [apply Fill_run, Hs |].
    destruct (seq_len l =? dim h + 1); [apply Fill_run, Hs | reflexivity].
  - apply (modify_with_run _ _ _ _ (fun h h1 => TH1.Add h h1 (-1)) Hs).
  - unfold modify, bind, load, save, ret. rewrite Hs. reflexivity.
  - reflexivity.
  - reflexivity.
  - apply (modify_with_run _ _ _ _ (fun h h1 => TH1.Multiply h h1) Hs).
  - destruct (Qeq_bool v 0); [reflexivity |].
    unfold modify, bind, load, save, ret. rewrite Hs. reflexivity.
  - reflexivity.
  - reflexivity.
  - apply (modify_with_run _ _ _ _ (fun h h1 => TH1.Divide h h1) Hs).
Qed.

Lemma fresh_handle (σ : store) : σ !! fresh (dom σ) = None.
Proof. apply not_elem_of_dom, is_fresh. Qed.

Lemma Clone_run (σ : store) self h :
  σ !! self = Some h ->
  Clone self σ = (Ok (fresh (dom σ)), <[fresh (dom σ) := h]> σ).
Proof.
  intros Hs. unfold Clone. rewrite (bind_load _ _ _ _ Hs). reflexivity.
Qed.

Lemma binary_run (σ : store) self h op other :
  σ !! self = Some h ->
  binary op self other σ
  = match op_result op h other (<[fresh (dom σ) := h]> σ) with
    | Ok h' => (Ok (fresh (dom σ)), <[fresh (dom σ) := h']> σ)
    | Raise e => (Raise e, <[fresh (dom σ) := h]> σ)
    end.
Proof.
  intros Hs.
  assert (Hb : binary op self other σ
               = bind (Clone self) (fun copy => inplace op copy other) σ)
    by (destruct op; reflexivity).
  rewrite Hb. unfold bind at 1. rewrite (Clone_run _ _ _ Hs).
  rewrite (inplace_run _ _ h) by apply lookup_insert_eq.
  destruct (op_result op h other _); [| reflexivity].
  rewrite insert_insert_eq. reflexivity.
Qed.

(** C6. Each of [+], [-], [*], [/] clones the receiver, applies the
    in-place operator to the clone and hands the clone back: the result is
    a handle that was not in the store, every object that was in the store
    (the receiver and the operand among them) is what it was, so the
    contents and errors of the receiver are unchanged.  The in-place forms
    are the ones that rewrite the receiver.  In-place division by the
    number zero raises [ZeroDivisionError] and changes nothing. *)
Theorem arithmetic_frame (σ : store) (self : handle) (h : TH1.t) :
  σ !! self = Some h ->
  forall (op : arith) (other : operand),
    let copy := fresh (dom σ) in
    σ !! copy = None
    /\ binary op self other σ
       = match op_result op h other (<[copy := h]> σ) with
         | Ok h' => (Ok copy, <[copy := h']> σ)
         | Raise e => (Raise e, <[copy := h]> σ)
         end
    /\ (forall k g, σ !! k = Some g ->
          snd (binary op self other σ) !! k = Some g)
    /\ (forall sqrt i,
          (TH1.GetBinContent <$> snd (binary op self other σ) !! self)
          = Some (TH1.GetBinContent h)
          /\ (fun g => TH1.GetBinError sqrt g i)
               <$> snd (binary op self other σ) !! self
             = Some (TH1.GetBinError sqrt h i))
    /\ inplace op self other σ
       = match op_result op h other σ with
         | Ok h' => (Ok self, <[self := h']> σ)
         | Raise e => (Raise e, σ)
         end
    /\ (forall v, Qeq_bool v 0 = true ->
          __idiv__ self (ONum v) σ = (Raise ZeroDivisionError, σ)).
Proof.
  intros Hs op other copy.
  pose proof (fresh_handle σ) as Hfresh. fold copy in Hfresh.
  assert (Hframe : forall k g, σ !! k = Some g ->
            snd (binary op self other σ) !! k = Some g).
  { intros k g Hk. rewrite (binary_run _ _ _ _ _ Hs). fold copy.
    assert (k <> copy) by congruence.
    destruct (op_result op h other _); simpl;
      rewrite lookup_insert_ne by congruence; exact Hk. }
  split; [exact Hfresh |].
  split; [apply binary_run, Hs |].
  split; [exact Hframe |].
  split; [intros sqrt i; rewrite (Hframe _ _ Hs); auto |].
  split; [apply inplace_run, Hs |].
  intros v Hv. unfold __idiv__. rewrite Hv. reflexivity.
Qed.

Lemma arithmetic_frame_witness :
  snd (__mul__ 0%nat (ONum (2 # 1)) demo_store) !! 0%nat = Some demo_hist.
Proof.
  refine (proj1 (proj2 (proj2
            (arithmetic_frame demo_store 0%nat demo_hist _ Times
               (ONum (2 # 1)))))
            0%nat demo_hist _); reflexivity.
Defined.

(** The in-place product does rewrite the receiver, the binary one leaves
    it and puts the product in a new object. *)
Example imul_mutates :
  (TH1.fArray <$> snd (__imul__ 0%nat (ONum (2 # 1)) demo_store) !! 0%nat)
  = Some [2 * 1; 2 * 2; 2 * 3; 2 * 4; 2 * 5; 2 * 6]%Q
  /\ (TH1.fArray <$> snd (__mul__ 0%nat (ONum (2 # 1)) demo_store) !! 0%nat)
     = Some [1; 2; 3; 4; 5; 6]%Q
  /\ (TH1.fArray <$> snd (__mul__ 0%nat (ONum (2 # 1)) demo_store) !! 1%nat)
     = Some [2 * 1; 2 * 2; 2 * 3; 2 * 4; 2 * 5; 2 * 6]%Q.
Proof. repeat split. Qed.

(** ** Axes *)

Lemma py_range_up (a b : Z) :
  py_range a b 1 = seqZ a (b - a).
Proof.
  unfold py_range, seqZ. simpl.
  replace ((b - a + 1 - 1) / 1) with (b - a) by (rewrite Z.div_1_r; lia).
  apply list_fmap_ext. intros i x _. lia.
Qed.

Lemma wf_axis_nbins (a : TAxis.t) : wf_axis a = true -> 1 <= TAxis.fNbins a.
Proof.
  unfold wf_axis. intros Hwf.
  apply andb_true_iff in Hwf as [Hwf _].
  apply andb_true_iff in Hwf as [Hn _]. lia.
Qed.

Lemma wf_axis_span (a : TAxis.t) :
  wf_axis a = true -> (TAxis.fXmin a < TAxis.fXmax a)%Q.
Proof.
  unfold wf_axis. intros Hwf.
  apply andb_true_iff in Hwf as [Hwf _].
  apply andb_true_iff in Hwf as [_ Hs].
  apply negb_true_iff, Qle_bool_false in Hs. exact Hs.
Qed.

Lemma BinarySearch_bounds (l : list Q) (x : Q) :
  -1 <= TAxis.BinarySearch l x < Z.of_nat (length l).
Proof.
  induction l as [| e l IH]; simpl; [lia |].
  destruct (Qle_bool e x); lia.
Qed.

Lemma BinarySearch_stop (l : list Q) (x : Q) (k : nat) :
  (k < length l)%nat -> (x < nth k l 0)%Q ->
  TAxis.BinarySearch l x < Z.of_nat k.
Proof.
  revert k. induction l as [| e l IH]; intros k Hk Hx; simpl in *; [lia |].
  destruct k as [| k].
  - apply Qle_bool_false in Hx. rewrite Hx. lia.
  - destruct (Qle_bool e x); [| lia].
    specialize (IH k ltac:(lia) Hx). lia.
Qed.

Lemma Qfloor_bounds (q : Q) (n : Z) :
  (0 <= q)%Q -> (q < inject_Z n)%Q -> 0 <= Qfloor q < n.
Proof.
  intros H0 Hn. split.
  - change 0 with (Qfloor 0). apply Qfloor_resp_le, H0.
  - apply Z.lt_nge. intros Hge.
    apply (Qlt_not_le _ _ Hn).
    eapply Qle_trans; [| apply Qfloor_le].
    rewrite <- Zle_Qle. exact Hge.
Qed.

(** [FindBin] answers a bin of the axis, underflow and overflow included. *)
Lemma FindBin_bounds (a : TAxis.t) (x : Q) :
  wf_axis a = true -> 0 <= TAxis.FindBin a x <= TAxis.fNbins a + 1.
Proof.
  intros Hwf. pose proof (wf_axis_nbins _ Hwf) as Hn.
  pose proof (wf_axis_span _ Hwf) as Hspan.
  unfold TAxis.FindBin.
  destruct (Qle_bool (TAxis.fXmin a) x) eqn:Hlo; cbn [negb]; [| lia].
  destruct (Qle_bool (TAxis.fXmax a) x) eqn:Hhi; [lia |].
  apply Qle_bool_iff in Hlo. apply Qle_bool_false in Hhi.
  unfold TAxis.variable, wf_axis in *.
  destruct (TAxis.fXbins a) as [| e l] eqn:Hb; cbn [negb].
  - assert (Hd : (0 < TAxis.fXmax a - TAxis.fXmin a)%Q)
      by (unfold Qminus; apply (proj1 (Qlt_minus_iff _ _)); exact Hspan).
    assert (H0 : (0 <= x - TAxis.fXmin a)%Q)
      by (unfold Qminus; apply (proj1 (Qle_minus_iff _ _)); exact Hlo).
    assert (H1 : (x - TAxis.fXmin a < TAxis.fXmax a - TAxis.fXmin a)%Q).
    { unfold Qminus. apply Qplus_lt_l. exact Hhi. }
    assert (HN : (0 <= inject_Z (TAxis.fNbins a))%Q)
      by (change 0%Q with (inject_Z 0); rewrite <- Zle_Qle; lia).
    assert (HN' : (0 < inject_Z (TAxis.fNbins a))%Q)
      by (change 0%Q with (inject_Z 0); rewrite <- Zlt_Qlt; lia).
    assert (Hq0 : (0 <= inject_Z (TAxis.fNbins a) * (x - TAxis.fXmin a)
                        / (TAxis.fXmax a - TAxis.fXmin a))%Q).
    { apply Qle_shift_div_l; [exact Hd |]. rewrite Qmult_0_l.
      apply Qmult_le_0_compat; assumption. }
    assert (Hq1 : (inject_Z (TAxis.fNbins a) * (x - TAxis.fXmin a)
                   / (TAxis.fXmax a - TAxis.fXmin a)
                   < inject_Z (TAxis.fNbins a))%Q).
    { apply Qlt_shift_div_r; [exact Hd |].
      apply Qmult_lt_l; assumption. }
    destruct (Qfloor_bounds _ _ Hq0 Hq1). lia.
  - apply andb_true_iff in Hwf as [_ Hwf].
    apply andb_true_iff in Hwf as [Hwf Hmax].
    apply andb_true_iff in Hwf as [Hwf Hmin].
    apply andb_true_iff in Hwf as [Hlen Hinc].
    apply Qeq_bool_iff in Hmin, Hmax. apply Z.eqb_eq in Hlen.
    pose proof (BinarySearch_bounds (e :: l) x) as Hbs.
    pose proof (BinarySearch_stop (e :: l) x (Z.to_nat (TAxis.fNbins a)))
      as Hst.
    unfold TAxis.at_ in Hmax. rewrite Hmax in Hst.
    specialize (Hst ltac:(lia) Hhi). lia.
Qed.

Lemma axis_edges_eq (a : TAxis.t) :
  wf_axis a = true ->
  axis_edges a = edge_at a <$> seqZ 0 (TAxis.fNbins a + 1).
Proof.
  intros Hwf. pose proof (wf_axis_nbins _ Hwf) as Hn.
  unfold axis_edges, low_edges. rewrite py_range_up.
  replace (TAxis.fNbins a + 1 - 1) with (TAxis.fNbins a) by lia.
  rewrite seqZ_app by lia. rewrite fmap_app. f_equal.
  - rewrite <- (fmap_add_seqZ 1 0). rewrite <- list_fmap_compose.
    apply list_fmap_ext. intros i k Hk.
    apply lookup_seqZ in Hk as [-> Hi]. simpl.
    unfold TAxis.GetBinLowEdge, edge_at.
    destruct (TAxis.variable a); simpl.
    + replace (0 <? 1 + (0 + Z.of_nat i)) with true
        by (symmetry; apply Z.ltb_lt; lia).
      replace (1 + (0 + Z.of_nat i) <=? TAxis.fNbins a) with true
        by (symmetry; apply Z.leb_le; lia).
      simpl. f_equal. lia.
    + replace (1 + (0 + Z.of_nat i) - 1) with (0 + Z.of_nat i) by lia.
      reflexivity.
  - rewrite seqZ_cons by lia. rewrite seqZ_nil by lia. simpl.
    unfold TAxis.GetBinUpEdge, edge_at.
    destruct (TAxis.variable a); simpl; [| reflexivity].
    replace (TAxis.fNbins a <? 1) with false
      by (symmetry; apply Z.ltb_ge; lia).
    rewrite Z.ltb_irrefl. reflexivity.
Qed.

Lemma increasing_fmap_seqZ (g : Z -> Q) (m n : Z) :
  (forall k, m <= k -> k + 1 < m + n -> (g k < g (k + 1)%Z)%Q) ->
  increasing (g <$> seqZ m n) = true.
Proof.
  destruct (Z.le_gt_cases n 0) as [Hn | Hn];
    [intros _; rewrite seqZ_nil by lia; reflexivity |].
  rewrite <- (Z2Nat.id n) by lia. clear Hn.
  revert m. induction (Z.to_nat n) as [| j IH]; intros m Hg;
    [reflexivity |].
  rewrite seqZ_cons by lia.
  replace (Z.pred (Z.of_nat (S j))) with (Z.of_nat j) by lia.
  destruct j as [| j]; [reflexivity |].
  specialize (IH (Z.succ m)).
  rewrite seqZ_cons in IH |- * by lia. simpl.
  rewrite fmap_cons in IH.
  apply andb_true_iff. split.
  - apply negb_true_iff, Qle_bool_false.
    replace (Z.succ m) with (m + 1) by lia. apply Hg; lia.
  - apply IH. intros k Hk1 Hk2. apply Hg; lia.
Qed.

Lemma increasing_nth (l : list Q) (k : nat) :
  increasing l = true -> (S k < length l)%nat ->
  (nth k l 0 < nth (S k) l 0)%Q.
Proof.
  revert k. induction l as [| x l IH]; intros k Hl Hk; simpl in Hk; [lia |].
  destruct l as [| y l]; [simpl in Hk; lia |].
  simpl in Hl. apply andb_true_iff in Hl as [Hxy Hl].
  destruct k as [| k].
  - simpl. apply negb_true_iff, Qle_bool_false in Hxy. exact Hxy.
  - change (nth k (y :: l) 0 < nth (S k) (y :: l) 0)%Q.
    apply IH; [exact Hl | simpl in *; lia].
Qed.

Lemma binwidth_pos (a : TAxis.t) :
  wf_axis a = true -> (0 < TAxis.binwidth a)%Q.
Proof.
  intros Hwf. pose proof (wf_axis_nbins _ Hwf) as Hn.
  pose proof (wf_axis_span _ Hwf) as Hspan.
  unfold TAxis.binwidth. apply Qlt_shift_div_l.
  - change 0%Q with (inject_Z 0). rewrite <- Zlt_Qlt. lia.
  - rewrite Qmult_0_l. unfold Qminus.
    apply (proj1 (Qlt_minus_iff _ _)). exact Hspan.
Qed.

(** The edges of a well-formed axis increase strictly. *)
Lemma axis_edges_increasing (a : TAxis.t) :
  wf_axis a = true -> increasing (axis_edges a) = true.
Proof.
  intros Hwf. rewrite (axis_edges_eq _ Hwf).
  apply increasing_fmap_seqZ. intros k Hk0 Hk1.
  unfold edge_at. pose proof (binwidth_pos _ Hwf) as Hw.
  unfold wf_axis, TAxis.variable in *.
  destruct (TAxis.fXbins a) as [| e l] eqn:Hb.
  - apply Qplus_lt_r. apply Qmult_lt_r; [exact Hw |].
    rewrite <- Zlt_Qlt. lia.
  - apply andb_true_iff in Hwf as [_ Hwf].
    apply andb_true_iff in Hwf as [Hwf _].
    apply andb_true_iff in Hwf as [Hwf _].
    apply andb_true_iff in Hwf as [Hlen Hinc]. apply Z.eqb_eq in Hlen.
    unfold TAxis.at_.
    replace (Z.to_nat (k + 1)) with (S (Z.to_nat k)) by lia.
    apply increasing_nth; [exact Hinc | lia].
Qed.

Lemma axis_edges_length (a : TAxis.t) :
  wf_axis a = true ->
  Z.of_nat (length (axis_edges a)) = TAxis.fNbins a + 1.
Proof.
  intros Hwf. pose proof (wf_axis_nbins _ Hwf).
  rewrite (axis_edges_eq _ Hwf), length_fmap, length_seqZ. lia.
Qed.

Lemma floats_Fin (l : list Q) : floats (Fin <$> l) = l.
Proof.
  induction l as [| x l IH]; [reflexivity |].
  change (floats (Fin <$> x :: l)) with (x :: floats (Fin <$> l)).
  rewrite IH. reflexivity.
Qed.

Lemma _edges_run (h : TH1.t) (axis : Z) (a : TAxis.t) :
  axis_ h axis = Ok a ->
  _edges h axis false = Ok (Fin <$> axis_edges a).
Proof.
  unfold _edges, axis_, nbins, axis_edges.
  destruct (axis =? 0); [intros [= <-] | destruct (axis =? 1);
    [intros [= <-] | destruct (axis =? 2); [intros [= <-] | discriminate]]];
    simpl; rewrite fmap_app; reflexivity.
Qed.

(** ** Building a histogram from edges *)

Lemma wf_hist_axes (h : TH1.t) :
  wf_hist h = true ->
  (TH1.fDimension h = 1 \/ TH1.fDimension h = 2 \/ TH1.fDimension h = 3)
  /\ wf_axis (TH1.fXaxis h) = true /\ wf_axis (TH1.fYaxis h) = true
  /\ wf_axis (TH1.fZaxis h) = true.
Proof.
  unfold wf_hist. intros Hwf.
  repeat (apply andb_true_iff in Hwf as [Hwf ?]).
  repeat split; try assumption. lia.
Qed.

Lemma parse_one (edges : list Q) (rest : list pyval) :
  increasing edges = true ->
  parse_axis (PySeq edges :: rest)
  = Ok (mk_param (Some edges) (Some (Z.of_nat (length edges) - 1)) None None,
        rest).
Proof. intros Hi. rewrite parse_axis_edges, Hi. reflexivity. Qed.

Lemma parse_axes_1 (e0 : list Q) :
  increasing e0 = true ->
  parse_axes 1 [PySeq e0] = Ok ([edges_param e0], []).
Proof.
  intros H0. cbn -[parse_axis]. rewrite (parse_one _ _ H0). reflexivity.
Qed.

Lemma parse_axes_2 (e0 e1 : list Q) :
  increasing e0 = true -> increasing e1 = true ->
  parse_axes 2 [PySeq e0; PySeq e1]
  = Ok ([edges_param e0; edges_param e1], []).
Proof.
  intros H0 H1. cbn -[parse_axis]. rewrite (parse_one _ _ H0).
  cbn -[parse_axis]. rewrite (parse_one _ _ H1). reflexivity.
Qed.

Lemma parse_axes_3 (e0 e1 e2 : list Q) :
  increasing e0 = true -> increasing e1 = true -> increasing e2 = true ->
  parse_axes 3 [PySeq e0; PySeq e1; PySeq e2]
  = Ok ([edges_param e0; edges_param e1; edges_param e2], []).
Proof.
  intros H0 H1 H2. cbn -[parse_axis]. rewrite (parse_one _ _ H0).
  cbn -[parse_axis]. rewrite (parse_one _ _ H1).
  cbn -[parse_axis]. rewrite (parse_one _ _ H2). reflexivity.
Qed.

Lemma new_binning_template_run (σ : store) self h binning axis :
  σ !! self = Some h -> wf_hist h = true ->
  0 <= axis < TH1.fDimension h -> increasing binning = true ->
  new_binning_template self binning axis σ
  = (Ok (fresh (dom σ)), <[fresh (dom σ) := template h binning axis]> σ).
Proof.
  intros Hs Hwf Hax Hinc.
  destruct (wf_hist_axes _ Hwf) as (Hd & Hx & Hy & Hz).
  pose proof (axis_edges_increasing _ Hx) as Ix.
  pose proof (axis_edges_increasing _ Hy) as Iy.
  pose proof (axis_edges_increasing _ Hz) as Iz.
  unfold new_binning_template. rewrite (bind_load _ _ _ _ Hs).
  unfold TH1.GetDimension, template, template_axis.
  assert (E0 : _edges h 0 false = Ok (Fin <$> axis_edges (TH1.fXaxis h)))
    by (apply _edges_run; reflexivity).
  assert (E1 : _edges h 1 false = Ok (Fin <$> axis_edges (TH1.fYaxis h)))
    by (apply _edges_run; reflexivity).
  assert (E2 : _edges h 2 false = Ok (Fin <$> axis_edges (TH1.fZaxis h)))
    by (apply _edges_run; reflexivity).
  destruct Hd as [Hd | [Hd | Hd]]; rewrite Hd in *;
    replace (Z.ltb (Z.sub _ 1) axis) with false
      by (symmetry; apply Z.ltb_ge; lia).
  - assert (axis = 0) as -> by lia.
    change (negb ((-3 <=? 1 - 1) && (1 - 1 <? 3))) with false.
    change ((1 - 1) `mod` 3 + 1) with 1.
    change (py_range 0 1 1) with [0].
    unfold bind, lift, ret, Hist_new, _parse_args.
    cbn -[parse_axes alloc Z.to_nat]. change (Z.to_nat 1) with 1%nat.
    rewrite (parse_axes_1 _ Hinc). reflexivity.
  - change (negb ((-3 <=? 2 - 1) && (2 - 1 <? 3))) with false.
    change ((2 - 1) `mod` 3 + 1) with 2.
    change (py_range 0 2 1) with [0; 1].
    assert (axis = 0 \/ axis = 1) as [-> | ->] by lia;
      unfold bind, lift, ret, Hist_new, _parse_args;
      cbn -[parse_axes alloc _edges Z.to_nat];
      rewrite ?E0, ?E1; cbn -[parse_axes alloc _edges Z.to_nat];
      rewrite ?floats_Fin; change (Z.to_nat 2) with 2%nat;
      rewrite parse_axes_2 by assumption; reflexivity.
  - change (negb ((-3 <=? 3 - 1) && (3 - 1 <? 3))) with false.
    change ((3 - 1) `mod` 3 + 1) with 3.
    change (py_range 0 3 1) with [0; 1; 2].
    assert (axis = 0 \/ axis = 1 \/ axis = 2) as [-> | [-> | ->]] by lia;
      unfold bind, lift, ret, Hist_new, _parse_args;
      cbn -[parse_axes alloc _edges Z.to_nat];
      rewrite ?E0, ?E1, ?E2; cbn -[parse_axes alloc _edges Z.to_nat];
      rewrite ?floats_Fin; change (Z.to_nat 3) with 3%nat;
      rewrite parse_axes_3 by assumption; reflexivity.
Qed.

Lemma wf_of_edges (e : list Q) :
  increasing e = true -> (2 <= length e)%nat ->
  wf_axis (TAxis.of_edges (Z.of_nat (length e) - 1) e) = true.
Proof.
  intros Hinc Hlen. unfold wf_axis, TAxis.of_edges.
  destruct e as [| x l]; [simpl in Hlen; lia |].
  cbn [TAxis.fNbins TAxis.fXmin TAxis.fXmax TAxis.fXbins].
  destruct (increasing_cons _ _ Hinc) as [_ Hall].
  assert (Hlast : (x < TAxis.at_ (x :: l) (Z.of_nat (length (x :: l)) - 1))%Q).
  { unfold TAxis.at_. cbn [length] in *.
    replace (Z.to_nat (Z.of_nat (S (length l)) - 1)) with (S (length l - 1))
      by lia.
    cbn [nth]. rewrite Forall_forall in Hall. apply Hall.
    apply list_elem_of_In, nth_In. lia. }
  cbn [length] in *.
  repeat (apply andb_true_iff; split).
  - apply Z.leb_le. lia.
  - apply negb_true_iff, Qle_bool_false. exact Hlast.
  - apply Z.eqb_eq. lia.
  - exact Hinc.
  - apply Qeq_bool_iff. reflexivity.
  - apply Qeq_bool_iff. reflexivity.
Qed.

Lemma wf_unit : wf_axis TAxis.unit = true.
Proof. reflexivity. Qed.

Lemma wf_template_axis (h : TH1.t) binning axis i a :
  wf_axis a = true -> increasing binning = true ->
  (2 <= length binning)%nat ->
  wf_axis (template_axis h binning axis i a) = true.
Proof.
  intros Ha Hinc Hlen. unfold template_axis.
  destruct (i <? TH1.fDimension h); [| apply wf_unit].
  destruct (i =? axis); [apply wf_of_edges; assumption |].
  apply wf_of_edges; [apply axis_edges_increasing, Ha |].
  pose proof (axis_edges_length _ Ha). pose proof (wf_axis_nbins _ Ha). lia.
Qed.

Lemma length_repeat_Z (n : Z) :
  0 <= n -> Z.of_nat (length (repeat 0%Q (Z.to_nat n))) = n.
Proof. intros Hn. rewrite repeat_length. lia. Qed.

Lemma ncells_pos (d nx ny nz : Z) :
  1 <= nx -> 1 <= ny -> 1 <= nz -> 3 <= TH1.ncells d nx ny nz.
Proof.
  intros Hx Hy Hz. unfold TH1.ncells.
  destruct (d <? 2); [lia |]. destruct (d <? 3); nia.
Qed.

(** The template is a well-formed histogram of the same dimension, with
    squared weights. *)
Lemma wf_template (h : TH1.t) binning axis :
  wf_hist h = true -> increasing binning = true ->
  (2 <= length binning)%nat ->
  wf_hist (template h binning axis) = true
  /\ TH1.GetSumw2N (template h binning axis)
     = TH1.GetSize (template h binning axis).
Proof.
  intros Hwf Hinc Hlen.
  destruct (wf_hist_axes _ Hwf) as (Hd & Hx & Hy & Hz).
  pose proof (wf_template_axis h binning axis 0 _ Hx Hinc Hlen) as Wx.
  pose proof (wf_template_axis h binning axis 1 _ Hy Hinc Hlen) as Wy.
  pose proof (wf_template_axis h binning axis 2 _ Hz Hinc Hlen) as Wz.
  pose proof (wf_axis_nbins _ Wx) as Nx.
  pose proof (wf_axis_nbins _ Wy) as Ny.
  pose proof (wf_axis_nbins _ Wz) as Nz.
  pose proof (ncells_pos (TH1.fDimension h) _ _ _ Nx Ny Nz) as Hn.
  unfold wf_hist, template, TH1.create, TH1.GetSize, TH1.GetSumw2N,
    TH1.GetNbinsX, TH1.GetNbinsY, TH1.GetNbinsZ, fgDefaultSumw2.
  cbn [TH1.fDimension TH1.fXaxis TH1.fYaxis TH1.fZaxis TH1.fArray
       TH1.fSumw2].
  rewrite !length_repeat_Z by lia. split; [| reflexivity].
  rewrite Wx, Wy, Wz, !Z.eqb_refl, orb_true_r.
  assert (Hy1 : (2 <=? TH1.fDimension h)
                || (TAxis.fNbins (template_axis h binning axis 1
                                    (TH1.fYaxis h)) =? 1) = true).
  { unfold template_axis.
    destruct (1 <? TH1.fDimension h) eqn:E; [| apply orb_true_r].
    apply orb_true_iff. left. apply Z.leb_le. lia. }
  assert (Hz1 : (3 <=? TH1.fDimension h)
                || (TAxis.fNbins (template_axis h binning axis 2
                                    (TH1.fZaxis h)) =? 1) = true).
  { unfold template_axis.
    destruct (2 <? TH1.fDimension h) eqn:E; [| apply orb_true_r].
    apply orb_true_iff. left. apply Z.leb_le. lia. }
  rewrite Hy1, Hz1.
  replace (1 <=? TH1.fDimension h) with true by (symmetry; apply Z.leb_le; lia).
  replace (TH1.fDimension h <=? 3) with true by (symmetry; apply Z.leb_le; lia).
  reflexivity.
Qed.

(** ** Loops over the store *)

Lemma for_each_inv {A} (Inv : list A -> store -> Prop) (body : A -> M unit)
    (l : list A) (σ : store) :
  Inv [] σ ->
  (forall pre x s, Inv pre s -> x ∈ l ->
     exists s', body x s = (Ok tt, s') /\ Inv (pre ++ [x]) s') ->
  exists s', for_each l body σ = (Ok tt, s') /\ Inv l s'.
Proof.
  intros H0 Hstep.
  assert (Hgen : forall pre s, Inv pre s ->
            (forall x, x ∈ l -> x ∈ l) ->
            forall rest, (forall x, x ∈ rest -> x ∈ l) ->
            exists s', for_each rest body s = (Ok tt, s')
                       /\ Inv (pre ++ rest) s').
  { intros pre s Hpre _ rest. revert pre s Hpre.
    induction rest as [| x rest IH]; intros pre s Hpre Hin.
    - exists s. rewrite app_nil_r. auto.
    - destruct (Hstep pre x s Hpre) as (s1 & Hb & H1);
        [apply Hin; left |].
      destruct (IH (pre ++ [x]) s1 H1) as (s2 & Hf & H2);
        [intros y Hy; apply Hin; right; exact Hy |].
      exists s2. split.
      + simpl. unfold bind. rewrite Hb. exact Hf.
      + rewrite <- app_assoc in H2. exact H2. }
  destruct (Hgen [] σ H0 (fun _ H => H) l (fun _ H => H)) as (s' & Hf & Hi).
  exists s'. auto.
Qed.

Lemma total_app (l1 l2 : list Q) :
  (total (l1 ++ l2) == total l1 + total l2)%Q.
Proof.
  unfold total. induction l1 as [| x l1 IH]; simpl.
  - ring.
  - rewrite IH. ring.
Qed.

Lemma gathered_snoc {A} (target : A -> Z) (value : A -> Q) (l : list A)
    (x : A) (c : Z) :
  (gathered target value (l ++ [x]) c
   == gathered target value l c
      + (if target x =? c then value x else 0))%Q.
Proof.
  unfold gathered. rewrite fmap_app, total_app. simpl. ring.
Qed.

Lemma at_insert_ne (l : list Q) (i j : Z) (v : Q) :
  0 <= i -> 0 <= j -> i <> j ->
  TAxis.at_ (<[Z.to_nat i := v]> l) j = TAxis.at_ l j.
Proof.
  intros Hi Hj Hne. unfold TAxis.at_.
  destruct (decide (Z.to_nat j < length l)%nat) as [Hlt | Hge].
  - destruct (lookup_lt_is_Some_2 l (Z.to_nat j) Hlt) as [y Hy].
    rewrite (nth_lookup_Some _ _ _ y Hy).
    apply nth_lookup_Some. rewrite list_lookup_insert_ne by lia. exact Hy.
  - rewrite !nth_overflow; [reflexivity | lia | rewrite length_insert; lia].
Qed.

Lemma cell_in_range (h : TH1.t) (c : Z) :
  0 <= c < TH1.GetSize h -> TH1.cell h c = c.
Proof.
  intros Hc. unfold TH1.cell.
  replace (c <? 0) with false by (symmetry; apply Z.ltb_ge; lia).
  replace (TH1.GetSize h <=? c) with false by (symmetry; apply Z.leb_gt; lia).
  reflexivity.
Qed.

(** [FindBin] of a well-formed histogram answers one of its cells. *)
Lemma TH1_FindBin_range (h : TH1.t) (x y z : Q) :
  wf_hist h = true -> 0 <= TH1.FindBin h x y z < TH1.GetSize h.
Proof.
  intros Hwf. destruct (wf_hist_axes _ Hwf) as (Hd & Hx & Hy & Hz).
  pose proof (FindBin_bounds _ x Hx) as Bx.
  pose proof (FindBin_bounds _ y Hy) as By.
  pose proof (FindBin_bounds _ z Hz) as Bz.
  pose proof (wf_axis_nbins _ Hx). pose proof (wf_axis_nbins _ Hy).
  pose proof (wf_axis_nbins _ Hz).
  assert (Hsize : TH1.GetSize h
                  = TH1.ncells (TH1.fDimension h) (TH1.GetNbinsX h)
                      (TH1.GetNbinsY h) (TH1.GetNbinsZ h)).
  { unfold wf_hist in Hwf.
    apply andb_true_iff in Hwf as [Hwf _].
    apply andb_true_iff in Hwf as [_ Hwf]. apply Z.eqb_eq in Hwf.
    exact Hwf. }
  rewrite Hsize. unfold TH1.FindBin, TH1.ncells, TH1.GetNbinsX,
    TH1.GetNbinsY, TH1.GetNbinsZ.
  destruct (TH1.fDimension h <? 2); [lia |].
  destruct (TH1.fDimension h <? 3); nia.
Qed.

(** ** [rebinned] *)

Lemma same_shape_FindBin (h1 h2 : TH1.t) (x y z : Q) :
  same_shape h1 h2 -> TH1.FindBin h1 x y z = TH1.FindBin h2 x y z.
Proof.
  intros (Hd & Hx & Hy & Hz & _). unfold TH1.FindBin, TH1.GetNbinsX,
    TH1.GetNbinsY. rewrite Hd, Hx, Hy, Hz. reflexivity.
Qed.

Lemma same_shape_size (h1 h2 : TH1.t) :
  same_shape h1 h2 -> TH1.GetSize h1 = TH1.GetSize h2.
Proof. intros (_ & _ & _ & _ & Hl & _). unfold TH1.GetSize. lia. Qed.

Lemma same_shape_refl (h : TH1.t) : same_shape h h.
Proof. repeat split. Qed.

(** One turn of the loop of [rebinned]: the content of the inner cell goes
    to the cell that [FindBin] names, nothing else changes. *)
Lemma rebin_cell_run (σ : store) self p h nh0 nh xyz :
  σ !! self = Some h -> self <> p ->
  wf_hist nh0 = true -> same_shape nh nh0 ->
  let t := rebin_target h nh0 xyz in
  exists nh',
    rebin_cell self p xyz (<[p := nh]> σ) = (Ok tt, <[p := nh']> σ)
    /\ same_shape nh' nh0
    /\ TH1.fArray nh'
       = <[Z.to_nat t := (TAxis.at_ (TH1.fArray nh) t + rebin_value h xyz)%Q]>
           (TH1.fArray nh).
Proof.
  intros Hs Hne Hwf Hsh t. destruct xyz as [[x y] z].
  pose proof (TH1_FindBin_range nh0
                (TAxis.GetBinCenter (TH1.fXaxis h) x)
                (TAxis.GetBinCenter (TH1.fYaxis h) y)
                (TAxis.GetBinCenter (TH1.fZaxis h) z) Hwf) as Ht.
  fold (rebin_target h nh0 (x, y, z)) in Ht. fold t in Ht.
  pose proof (same_shape_size _ _ Hsh) as Hsize.
  assert (Hself : (<[p := nh]> σ) !! self = Some h)
    by (rewrite lookup_insert_ne by congruence; exact Hs).
  set (nh1 := TH1.SetBinContent nh t
                (TH1.GetBinContent nh t + rebin_value h (x, y, z))%Q).
  set (nh2 := TH1.with_sumw2 nh1
                (TH1.SetAt (TH1.fSumw2 nh1)
                   (TH1.At (TH1.fSumw2 nh1) t
                    + TH1.At (TH1.fSumw2 h) (TH1.GetBin h x y z))%Q t)).
  exists nh2.
  assert (Harr : TH1.fArray nh1
    = <[Z.to_nat t := (TAxis.at_ (TH1.fArray nh) t
                       + rebin_value h (x, y, z))%Q]> (TH1.fArray nh)).
  { subst nh1. unfold TH1.SetBinContent.
    replace (t <? 0) with false by (symmetry; apply Z.ltb_ge; lia).
    replace (TH1.GetSize (TH1.with_entries nh (TH1.fEntries nh + 1)) <=? t)
      with false
      by (symmetry; apply Z.leb_gt; unfold TH1.GetSize in *; simpl; lia).
    simpl. unfold TH1.GetBinContent. rewrite cell_in_range by lia.
    reflexivity. }
  assert (Hsh1 : same_shape nh1 nh0).
  { destruct Hsh as (Hd & Hx & Hy & Hz & Hl & Hw).
    unfold same_shape. rewrite Harr, length_insert. subst nh1.
    unfold TH1.SetBinContent.
    destruct (t <? 0); [repeat split; assumption |].
    destruct (TH1.GetSize _ <=? t); repeat split; assumption. }
  split; [| split].
  - unfold rebin_cell. rewrite (bind_load _ _ _ _ Hself).
    rewrite (bind_load _ _ nh) by apply lookup_insert_eq.
    rewrite (same_shape_FindBin _ _ _ _ _ Hsh).
    change (TH1.FindBin nh0 _ _ _) with t.
    unfold bind, modify, bind, load, save.
    rewrite lookup_insert_eq, insert_insert_eq, lookup_insert_eq,
      insert_insert_eq.
    reflexivity.
  - destruct Hsh1 as (Hd & Hx & Hy & Hz & Hl & Hw).
    subst nh2. unfold same_shape. simpl.
    repeat split; try assumption.
    unfold TH1.SetAt. destruct ((t <? 0) || _); [exact Hw |].
    rewrite length_insert. exact Hw.
  - subst nh2. simpl. exact Harr.
Qed.

Lemma at_repeat (n : nat) (c : Z) : TAxis.at_ (repeat 0%Q n) c = 0%Q.
Proof.
  unfold TAxis.at_. destruct (decide (Z.to_nat c < n)%nat).
  - apply nth_repeat.
  - apply nth_overflow. rewrite repeat_length. lia.
Qed.

Lemma template_axis_edges (h : TH1.t) edges axis :
  wf_hist h = true -> 0 <= axis < TH1.fDimension h ->
  TAxis.fXbins (axis_at (template h edges axis) axis) = edges.
Proof.
  intros Hwf Hax. destruct (wf_hist_axes _ Hwf) as (Hd & _).
  unfold axis_at, template, TH1.create, template_axis.
  cbn [TH1.fXaxis TH1.fYaxis TH1.fZaxis].
  assert (axis = 0 \/ axis = 1 \/ axis = 2) as [-> | [-> | ->]] by lia.
  - replace (0 <? TH1.fDimension h) with true
      by (symmetry; apply Z.ltb_lt; lia). reflexivity.
  - replace (1 <? TH1.fDimension h) with true
      by (symmetry; apply Z.ltb_lt; lia). reflexivity.
  - replace (2 <? TH1.fDimension h) with true
      by (symmetry; apply Z.ltb_lt; lia). reflexivity.
Qed.



(** Four bins of width 1 with contents 2, 3, 4, 5 become two bins of
    width 2 with contents 5 and 9; underflow and overflow are not among the
    inner cells. *)
Example rebinned_demo :
  (TH1.fArray <$> snd (rebinned (fun h _ => h) 0%nat (BIter [0; 2; 4]%Q) 0
                         demo_store) !! 1%nat)
  = Some [0; 0 + 2 + 3; 0 + 4 + 5; 0]%Q.
Proof. vm_compute. reflexivity. Qed.

(** ** Windows *)

Lemma resolve_window_ok (n : Z) (w : list Z) :
  resolve_window n w
  = if bad_range w then Raise ValueError else Ok (resolved n w).
Proof.
  unfold resolved.
  destruct w as [| l [| r [| x w]]]; try reflexivity.
  unfold resolve_window, bad_range.
  destruct (l =? r); [reflexivity |].
  destruct ((l <? 0) && (0 <=? r)); reflexivity.
Qed.

Lemma collect_windows_ok (n : Z) (bin_ranges : list (list Z)) :
  collect_windows n bin_ranges
  = if existsb bad_range bin_ranges then Raise ValueError
    else Ok (windows_of n bin_ranges).
Proof.
  unfold windows_of.
  induction bin_ranges as [| w rest IH]; [reflexivity |].
  simpl. rewrite resolve_window_ok.
  destruct (bad_range w) eqn:Hb; [reflexivity |]. simpl.
  rewrite IH. destruct (existsb bad_range rest); [reflexivity |]. simpl.
  destruct (resolved n w) as [| x l] eqn:Hr.
  - rewrite filter_cons_False by (intros Hne; apply Hne; reflexivity).
    reflexivity.
  - rewrite filter_cons_True by discriminate. reflexivity.
Qed.

Lemma hd_seqZ (a k : Z) : 0 < k -> hd 0 (seqZ a k) = a.
Proof. intros Hk. rewrite seqZ_cons by lia. reflexivity. Qed.

Lemma window_len_seqZ (a k : Z) : 0 <= k -> window_len (seqZ a k) = k.
Proof. intros Hk. unfold window_len. rewrite length_seqZ. lia. Qed.

Lemma run_seqZ (a k : Z) : 2 <= k -> run (seqZ a k).
Proof.
  intros Hk. unfold run.
  rewrite hd_seqZ, window_len_seqZ by lia. auto.
Qed.

(** A valid range gives no window (when it runs backwards) or a run of
    bins of the axis. *)
Lemma resolved_valid (n : Z) (w : list Z) :
  valid_range n w = true ->
  resolved n w = []
  \/ (run (resolved n w) /\ 0 <= hd 0 (resolved n w)
      /\ hd 0 (resolved n w) + window_len (resolved n w) <= n).
Proof.
  destruct w as [| l [| r [| x w]]]; try discriminate.
  unfold valid_range. intros Hv.
  apply andb_true_iff in Hv as [Hv Hne].
  apply andb_true_iff in Hv as [Hv Hr2].
  apply andb_true_iff in Hv as [Hv Hr1].
  apply andb_true_iff in Hv as [Hv Hl2].
  apply andb_true_iff in Hv as [Hv Hl1].
  apply negb_true_iff in Hv, Hne.
  apply Z.leb_le in Hl1, Hr1. apply Z.ltb_lt in Hl2, Hr2.
  apply Z.eqb_neq in Hne.
  assert (Hres : resolved n [l; r]
                 = seqZ (norm_index n l)
                        (norm_index n r + 1 - norm_index n l)).
  { unfold bad_range in Hv. apply orb_false_iff in Hv as [Hlr Hsign].
    unfold resolved, resolve_window. rewrite Hlr, Hsign.
    unfold slice_indices, norm_index.
    change (1 =? 0) with false. change (1 <? 0) with false.
    cbn [rbind]. rewrite py_range_up. f_equal.
    - destruct (l <? 0) eqn:E; lia.
    - apply Z.eqb_neq in Hlr.
      destruct (r =? -1) eqn:E1.
      + replace (n <? 0) with false by lia.
        destruct (r <? 0) eqn:E; destruct (l <? 0) eqn:E4; lia.
      + destruct (r + 1 <? 0) eqn:E2; destruct (r <? 0) eqn:E3;
          destruct (l <? 0) eqn:E4; lia. }
  rewrite Hres.
  set (a := norm_index n l) in *. set (b := norm_index n r) in *.
  assert (0 <= a < n /\ 0 <= b < n) as [Ha Hb]
    by (subst a b; unfold norm_index;
        destruct (l <? 0) eqn:E; destruct (r <? 0) eqn:E'; lia).
  destruct (Z.le_gt_cases b a) as [Hle | Hgt].
  - left. apply seqZ_nil. lia.
  - right. split; [apply run_seqZ; lia |].
    rewrite hd_seqZ, window_len_seqZ by lia. lia.
Qed.

(** ** Sorting *)

Lemma insert_by_perm {A} (leb : A -> A -> bool) (x : A) (l : list A) :
  insert_by leb x l ≡ₚ x :: l.
Proof.
  induction l as [| y l IH]; simpl; [reflexivity |].
  destruct (leb x y); [reflexivity |].
  rewrite IH. apply Permutation_swap.
Qed.

Lemma sort_by_perm {A} (leb : A -> A -> bool) (l : list A) :
  sort_by leb l ≡ₚ l.
Proof.
  unfold sort_by. induction l as [| x l IH]; simpl; [reflexivity |].
  rewrite insert_by_perm, IH. reflexivity.
Qed.

Lemma concat_perm {A} (l1 l2 : list (list A)) :
  l1 ≡ₚ l2 -> concat l1 ≡ₚ concat l2.
Proof.
  induction 1 as [| x l1 l2 _ IH | x y l | l1 l2 l3 _ IH1 _ IH2]; simpl.
  - reflexivity.
  - rewrite IH. reflexivity.
  - rewrite !app_assoc. f_equiv. apply Permutation_app_comm.
  - rewrite IH1. exact IH2.
Qed.

Lemma lex_leb_total (l1 l2 : list Z) :
  lex_leb l1 l2 = false -> lex_leb l2 l1 = true.
Proof.
  revert l2. induction l1 as [| x l1 IH]; intros [| y l2]; simpl;
    try discriminate; try reflexivity.
  intros Hf. apply orb_false_iff in Hf as [Hlt Hrest].
  destruct (Z.ltb_spec y x); [reflexivity |]. simpl.
  assert (x = y) by lia. subst y. rewrite Z.eqb_refl in *. simpl in *.
  apply IH, Hrest.
Qed.

Lemma insert_by_ordered (w : list Z) (ws : list (list Z)) :
  ordered ws -> ordered (insert_by lex_leb w ws).
Proof.
  induction ws as [| v ws IH]; intros Ho; [exact I |].
  simpl. destruct (lex_leb w v) eqn:E.
  - split; assumption.
  - assert (Hvw := lex_leb_total _ _ E).
    destruct ws as [| u ws]; simpl.
    + split; [exact Hvw | exact I].
    + destruct Ho as [Hvu Ho]. specialize (IH Ho). simpl in IH.
      destruct (lex_leb w u); split; auto.
Qed.

Lemma sort_by_ordered (ws : list (list Z)) : ordered (sort_by lex_leb ws).
Proof.
  unfold sort_by. induction ws as [| w ws IH]; simpl; [exact I |].
  apply insert_by_ordered, IH.
Qed.

Lemma remove_dups_length (l : list Z) :
  (length (remove_dups l) <= length l)%nat.
Proof.
  induction l as [| x l IH]; simpl; [lia |].
  destruct (decide_rel elem_of x l); simpl; lia.
Qed.

Lemma has_dups_NoDup (l : list Z) : has_dups l = false <-> NoDup l.
Proof.
  unfold has_dups. rewrite negb_false_iff, Nat.eqb_eq.
  induction l as [| x l IH]; simpl.
  - split; [constructor | reflexivity].
  - pose proof (remove_dups_length l).
    destruct (decide_rel elem_of x l) as [Hin | Hnin]; simpl.
    + split; [lia |]. intros Hnd. apply NoDup_cons in Hnd as [Hx _].
      contradiction.
    + rewrite NoDup_cons. split.
      * intros Hlen. split; [exact Hnin | apply IH; lia].
      * intros [_ Hnd]. apply IH in Hnd. lia.
Qed.

Lemma run_elem (w : list Z) (j : Z) :
  run w -> j ∈ w <-> hd 0 w <= j < hd 0 w + window_len w.
Proof.
  intros [Hw Hk]. rewrite Hw at 1. apply elem_of_seqZ.
Qed.

Lemma windows_of_valid (n : Z) (bin_ranges : list (list Z)) :
  forallb (valid_range n) bin_ranges = true ->
  Forall (run_within n) (windows_of n bin_ranges).
Proof.
  unfold windows_of. induction bin_ranges as [| w rest IH]; intros Hv.
  - constructor.
  - simpl in Hv. apply andb_true_iff in Hv as [Hw Hrest].
    rewrite fmap_cons.
    destruct (resolved_valid n w Hw) as [He | Hrun].
    + rewrite filter_cons_False by (intros Hne; apply Hne; exact He).
      apply IH, Hrest.
    + rewrite filter_cons_True.
      * constructor; [exact Hrun | apply IH, Hrest].
      * destruct Hrun as [[Hr Hk] _]. intros He. rewrite He in Hk.
        unfold window_len in Hk. simpl in Hk. lia.
Qed.

(** Sorted runs that share no bin follow one another. *)
Lemma chain_intro (hi : Z) (ws : list (list Z)) (lo : Z) :
  ordered ws -> Forall (run_within hi) ws -> NoDup (concat ws) ->
  (forall w, head ws = Some w -> lo <= hd 0 w) -> lo <= hi ->
  chain lo hi ws.
Proof.
  revert lo. induction ws as [| w ws IH]; intros lo Ho Hall Hnd Hlo Hhi;
    [exact Hhi |].
  apply Forall_cons in Hall as [(Hrun & H0 & Hend) Hall].
  simpl in Hnd. apply NoDup_app in Hnd as (_ & Hdisj & Hnd).
  simpl. split; [exact Hrun |]. split; [apply Hlo; reflexivity |].
  apply IH; try assumption.
  - destruct ws; [exact I | apply Ho].
  - intros w' Hw'. destruct ws as [| v ws]; [discriminate |].
    injection Hw' as ->. destruct Ho as [Hle _].
    apply Forall_cons in Hall as [(Hrun' & H0' & Hend') _].
    pose proof (proj1 Hrun) as Hw. pose proof (proj1 Hrun') as Hw'.
    pose proof (proj2 Hrun) as Hk. pose proof (proj2 Hrun') as Hk'.
    assert (Ha' : hd 0 w' ∈ w').
    { apply run_elem; [exact Hrun' | lia]. }
    assert (Hnot : ~ hd 0 w' ∈ w).
    { intros Hin. apply (Hdisj _ Hin). simpl.
      apply elem_of_app. left. exact Ha'. }
    rewrite (run_elem _ _ Hrun) in Hnot.
    assert (hd 0 w <= hd 0 w').
    { rewrite Hw, Hw' in Hle.
      rewrite (seqZ_cons (hd 0 w)), (seqZ_cons (hd 0 w')) in Hle by lia.
      simpl in Hle. apply orb_true_iff in Hle as [Hlt | Heq].
      - apply Z.ltb_lt in Hlt. lia.
      - apply andb_true_iff in Heq as [Heq _]. apply Z.eqb_eq in Heq. lia. }
    lia.
Qed.

(** The sorted windows of valid ranges that do not overlap form a chain
    over the cells of the axis. *)
Lemma sorted_windows_chain (n : Z) (bin_ranges : list (list Z)) :
  0 <= n -> forallb (valid_range n) bin_ranges = true ->
  has_dups (concat (windows_of n bin_ranges)) = false ->
  chain 0 n (sorted_windows n bin_ranges).
Proof.
  intros Hn Hv Hd. unfold sorted_windows.
  pose proof (sort_by_perm lex_leb (windows_of n bin_ranges)) as Hp.
  apply chain_intro.
  - apply sort_by_ordered.
  - rewrite Hp. apply windows_of_valid, Hv.
  - rewrite (concat_perm _ _ Hp). apply has_dups_NoDup, Hd.
  - intros w Hw.
    assert (Hin : w ∈ sort_by lex_leb (windows_of n bin_ranges))
      by (apply head_Some_elem_of, Hw).
    rewrite Hp in Hin.
    pose proof (windows_of_valid n bin_ranges Hv) as Hall.
    rewrite Forall_forall in Hall. apply (Hall w Hin).
  - exact Hn.
Qed.

(** ** Counting the absorbed bins *)

Lemma count_nil (R : Z -> bool) (lo hi : Z) : hi <= lo -> count R lo hi = 0.
Proof. intros H. unfold count. rewrite seqZ_nil by lia. reflexivity. Qed.

Lemma count_split (R : Z -> bool) (lo mid hi : Z) :
  lo <= mid <= hi -> count R lo hi = count R lo mid + count R mid hi.
Proof.
  intros H. unfold count.
  replace (hi - lo) with ((mid - lo) + (hi - mid)) by lia.
  rewrite seqZ_app by lia. rewrite filter_app, length_app.
  replace (lo + (mid - lo)) with mid by lia. lia.
Qed.

Lemma count_one (R : Z -> bool) (j : Z) :
  count R j (j + 1) = if R j then 1 else 0.
Proof.
  unfold count. replace (j + 1 - j) with 1 by lia.
  rewrite seqZ_cons, seqZ_nil by lia.
  destruct (R j) eqn:E.
  - rewrite filter_cons_True by exact E. reflexivity.
  - rewrite filter_cons_False by congruence. reflexivity.
Qed.

Lemma count_bounds (R : Z -> bool) (lo hi : Z) :
  lo <= hi -> 0 <= count R lo hi <= hi - lo.
Proof.
  intros H. unfold count.
  pose proof (length_filter (fun j => R j = true) (seqZ lo (hi - lo))) as Hf.
  rewrite length_seqZ in Hf. lia.
Qed.

Lemma filter_none {A} (P : A -> Prop) `{forall x, Decision (P x)}
    (l : list A) :
  Forall (fun x => ~ P x) l -> filter P l = [].
Proof.
  induction 1 as [| x l Hx _ IH]; [reflexivity |].
  rewrite filter_cons_False by exact Hx. exact IH.
Qed.

Lemma count_none (R : Z -> bool) (lo hi : Z) :
  (forall j, lo <= j < hi -> R j = false) -> count R lo hi = 0.
Proof.
  intros HR. destruct (Z.le_gt_cases hi lo) as [H | H];
    [apply count_nil, H |].
  unfold count. rewrite filter_none; [reflexivity |].
  apply Forall_forall.
  intros j Hj. apply elem_of_seqZ in Hj. rewrite HR by lia. discriminate.
Qed.

Lemma count_all (R : Z -> bool) (lo hi : Z) :
  lo <= hi -> (forall j, lo <= j < hi -> R j = true) ->
  count R lo hi = hi - lo.
Proof.
  intros H HR. unfold count. rewrite filter_all.
  - rewrite length_seqZ. lia.
  - apply Forall_forall. intros j Hj. apply elem_of_seqZ in Hj.
    apply HR. lia.
Qed.

Lemma count_hole (R : Z -> bool) (lo a hi : Z) :
  lo <= a < hi -> R a = false -> count R lo hi <= hi - lo - 1.
Proof.
  intros H Ha.
  rewrite (count_split R lo a hi) by lia.
  rewrite (count_split R a (a + 1) hi) by lia.
  rewrite count_one, Ha.
  pose proof (count_bounds R lo a). pose proof (count_bounds R (a + 1) hi).
  lia.
Qed.

Lemma count_extend (R : Z -> bool) (lo a : Z) :
  lo <= a -> (forall j, lo <= j < a -> R j = false) ->
  count R 1 a = count R 1 lo.
Proof.
  intros H HR. destruct (Z.le_gt_cases lo 1) as [H1 | H1].
  - rewrite (count_nil R 1 lo) by lia.
    apply count_none. intros j Hj. apply HR. lia.
  - rewrite (count_split R 1 lo a) by lia.
    rewrite (count_none R lo a HR). lia.
Qed.

(** ** The mapping that [build_mapping] makes *)

Lemma fold_insert_lookup (w : list Z) (m0 : gmap Z Z) (v j : Z) :
  foldl (fun m idx => <[idx := v]> m) m0 w !! j
  = if bool_decide (j ∈ w) then Some v else m0 !! j.
Proof.
  revert m0. induction w as [| x w IH]; intros m0; cbn [foldl].
  - rewrite bool_decide_eq_false_2 by apply not_elem_of_nil. reflexivity.
  - rewrite IH. destruct (bool_decide (j ∈ w)) eqn:E.
    + apply bool_decide_eq_true in E.
      rewrite bool_decide_eq_true_2 by (right; exact E). reflexivity.
    + apply bool_decide_eq_false in E.
      destruct (decide (j = x)) as [-> | Hne].
      * rewrite bool_decide_eq_true_2 by left.
        apply lookup_insert_eq.
      * rewrite bool_decide_eq_false_2
          by (intros Hin; apply elem_of_cons in Hin as [? | ?]; tauto).
        apply lookup_insert_ne. congruence.
Qed.

Lemma build_mapping_lookup (ws : list (list Z)) (m0 : gmap Z Z)
    (L0 : gset Z) (off j : Z) :
  (build_mapping ws m0 L0 off).1.1 !! j
  = match new_index ws off j with
    | Some v => Some v
    | None => m0 !! j
    end.
Proof.
  revert m0 L0 off. induction ws as [| w ws IH]; intros m0 L0 off;
    [reflexivity |].
  cbn [build_mapping new_index]. rewrite IH.
  destruct (new_index ws _ j); [reflexivity |].
  rewrite fold_insert_lookup.
  destruct (bool_decide (j ∈ w)); reflexivity.
Qed.

Lemma build_mapping_left (ws : list (list Z)) (m0 : gmap Z Z) (L0 : gset Z)
    (off j : Z) :
  j ∈ (build_mapping ws m0 L0 off).1.2
  <-> j ∈ L0 \/ exists w, w ∈ ws /\ j = or_1 (hd 0 w).
Proof.
  revert m0 L0 off. induction ws as [| w ws IH]; intros m0 L0 off.
  - simpl. split; [auto |]. intros [H | (w & Hw & _)]; [exact H |].
    inversion Hw.
  - cbn [build_mapping]. rewrite IH. split.
    + intros [Hin | (w' & Hw' & ->)].
      * apply elem_of_union in Hin as [Hin | Hin]; [| auto].
        apply elem_of_singleton in Hin. right. exists w. split; [left | auto].
      * right. exists w'. split; [right; exact Hw' | reflexivity].
    + intros [Hin | (w' & Hw' & ->)].
      * left. apply elem_of_union. auto.
      * apply elem_of_cons in Hw' as [-> | Hw'].
        -- left. apply elem_of_union. left. apply elem_of_singleton.
           reflexivity.
        -- right. exists w'. auto.
Qed.

Lemma new_index_Some (ws : list (list Z)) (off j : Z) :
  is_Some (new_index ws off j) <-> exists w, w ∈ ws /\ j ∈ w.
Proof.
  revert off. induction ws as [| w ws IH]; intros off; simpl.
  - split; [intros [v [=]] | intros (w & Hw & _); inversion Hw].
  - specialize (IH (if hd 0 w =? 0 then off + (window_len w - 1) - 1
                    else off + (window_len w - 1))).
    destruct (new_index ws _ j) as [v |].
    + split; [| eauto]. intros _.
      destruct (proj1 IH (ltac:(eauto))) as (w' & Hw' & Hj).
      exists w'. split; [right; exact Hw' | exact Hj].
    + destruct (bool_decide (j ∈ w)) eqn:E.
      * apply bool_decide_eq_true in E. split; [| eauto].
        intros _. exists w. split; [left | exact E].
      * apply bool_decide_eq_false in E. split; [intros [v [=]] |].
        intros (w' & Hw' & Hj).
        apply elem_of_cons in Hw' as [-> | Hw']; [contradiction |].
        destruct (proj2 IH (ex_intro _ w' (conj Hw' Hj))) as [v [=]].
Qed.

(** ** Chains of windows *)

Lemma chain_le (lo hi : Z) (ws : list (list Z)) : chain lo hi ws -> lo <= hi.
Proof.
  revert lo. induction ws as [| w ws IH]; intros lo; simpl; [auto |].
  intros ([_ Hk] & Hlo & Hc). specialize (IH _ Hc). lia.
Qed.

Lemma chain_elem (lo hi : Z) (ws : list (list Z)) (w : list Z) (j : Z) :
  chain lo hi ws -> w ∈ ws -> j ∈ w -> lo <= j < hi.
Proof.
  revert lo. induction ws as [| v ws IH]; intros lo Hc Hw Hj;
    [inversion Hw |].
  destruct Hc as (Hrun & Hlo & Hc).
  pose proof (chain_le _ _ _ Hc). pose proof (proj2 Hrun).
  apply elem_of_cons in Hw as [-> | Hw].
  - apply (run_elem _ _ Hrun) in Hj. lia.
  - specialize (IH _ Hc Hw Hj). lia.
Qed.

Lemma chain_run (lo hi : Z) (ws : list (list Z)) (w : list Z) :
  chain lo hi ws -> w ∈ ws -> run w /\ lo <= hd 0 w.
Proof.
  revert lo. induction ws as [| v ws IH]; intros lo Hc Hw; [inversion Hw |].
  destruct Hc as (Hrun & Hlo & Hc). pose proof (proj2 Hrun).
  apply elem_of_cons in Hw as [-> | Hw]; [auto |].
  destruct (IH _ Hc Hw). split; [assumption | lia].
Qed.

Lemma chain_disjoint (lo hi : Z) (ws : list (list Z)) (w1 w2 : list Z)
    (j : Z) :
  chain lo hi ws -> w1 ∈ ws -> w2 ∈ ws -> j ∈ w1 -> j ∈ w2 -> w1 = w2.
Proof.
  revert lo. induction ws as [| v ws IH]; intros lo Hc H1 H2 J1 J2;
    [inversion H1 |].
  destruct Hc as (Hrun & Hlo & Hc).
  apply elem_of_cons in H1 as [-> | H1];
    apply elem_of_cons in H2 as [-> | H2]; try reflexivity.
  - apply (run_elem _ _ Hrun) in J1.
    pose proof (chain_elem _ _ _ _ _ Hc H2 J2). lia.
  - apply (run_elem _ _ Hrun) in J2.
    pose proof (chain_elem _ _ _ _ _ Hc H1 J1). lia.
  - eapply IH; eauto.
Qed.

Lemma or_1_in_run (w : list Z) :
  run w -> 0 <= hd 0 w -> or_1 (hd 0 w) ∈ w.
Proof.
  intros Hrun H0. apply (run_elem _ _ Hrun). pose proof (proj2 Hrun).
  unfold or_1. destruct (hd 0 w =? 0) eqn:E; lia.
Qed.

(** In a chain, the absorbed bins are the bins of the windows other than
    the leftmost bin inside the axis. *)
Lemma absorbed_chain (n : Z) (ws : list (list Z)) (hi j : Z) :
  chain 0 hi ws ->
  absorbed (build_mapping ws ∅ ∅ 0).1.1 (build_mapping ws ∅ ∅ 0).1.2 n j
  = true
  <-> 1 <= j <= n /\ exists w, w ∈ ws /\ j ∈ w /\ j <> or_1 (hd 0 w).
Proof.
  intros Hc. unfold absorbed, is_key, is_elem.
  rewrite !andb_true_iff, negb_true_iff, bool_decide_eq_true,
    bool_decide_eq_false, Z.leb_le, Z.leb_le.
  rewrite build_mapping_lookup, lookup_empty, build_mapping_left.
  assert (Hkey : is_Some match new_index ws 0 j with
                         | Some v => Some v
                         | None => None
                         end
                 <-> exists w, w ∈ ws /\ j ∈ w).
  { rewrite <- new_index_Some with (off := 0).
    destruct (new_index ws 0 j); reflexivity. }
  rewrite Hkey. split.
  - intros [[[H1 Hn] (w & Hw & Hj)] Hnot]. split; [lia |].
    exists w. repeat split; try assumption.
    intros Heq. apply Hnot. right. exists w. auto.
  - intros [Hj (w & Hw & Hjw & Hne)]. repeat split; try lia; [eauto |].
    intros [Hin | (w' & Hw' & Heq)]; [set_solver |].
    destruct (chain_run _ _ _ _ Hc Hw') as [Hrun' H0'].
    assert (Hj' : j ∈ w') by (rewrite Heq; apply or_1_in_run; assumption).
    assert (w = w') by (eapply chain_disjoint; eauto). subst w'.
    contradiction.
Qed.

(** ** The edges that are kept *)

Lemma keep_edges_length (m : gmap Z Z) (L : gset Z) (n : Z) (edges : list Q)
    (i : Z) :
  0 <= i -> i + Z.of_nat (length edges) <= n + 1 ->
  Z.of_nat (length (keep_edges m L (n + 2) i edges))
  = Z.of_nat (length edges)
    - count (absorbed m L n) (i + 1) (i + 1 + Z.of_nat (length edges)).
Proof.
  revert i. induction edges as [| e edges IH]; intros i Hi Hlen.
  - simpl. rewrite count_nil by lia. reflexivity.
  - cbn [keep_edges length] in *.
    rewrite (count_split _ (i + 1) (i + 1 + 1)) by lia.
    rewrite count_one.
    assert (Hc : negb (i =? n + 2 - 2) && is_key m (i + 1)
                 && negb (is_elem L (i + 1))
                 = absorbed m L n (i + 1)).
    { unfold absorbed.
      replace (1 <=? i + 1) with true by (symmetry; apply Z.leb_le; lia).
      destruct (i =? n + 2 - 2) eqn:E.
      - replace (i + 1 <=? n) with false by lia. reflexivity.
      - replace (i + 1 <=? n) with true by lia. reflexivity. }
    rewrite Hc. specialize (IH (i + 1) ltac:(lia) ltac:(lia)).
    replace (i + 1 + Z.of_nat (S (length edges)))
      with (i + 1 + 1 + Z.of_nat (length edges)) by lia.
    destruct (absorbed m L n (i + 1)); cbn [length]; lia.
Qed.

Lemma keep_edges_Forall (P : Q -> Prop) m L ab i (edges : list Q) :
  Forall P edges -> Forall P (keep_edges m L ab i edges).
Proof.
  revert i. induction edges as [| e edges IH]; intros i Hall; [constructor |].
  apply Forall_cons in Hall as [He Hall]. simpl.
  destruct (_ && _); [apply IH, Hall |].
  constructor; [exact He | apply IH, Hall].
Qed.

Lemma keep_edges_increasing m L ab i (edges : list Q) :
  increasing edges = true -> increasing (keep_edges m L ab i edges) = true.
Proof.
  revert i. induction edges as [| e edges IH]; intros i Hinc; [reflexivity |].
  destruct (increasing_cons _ _ Hinc) as [Hinc' Hall]. simpl.
  destruct (_ && _); [apply IH, Hinc' |].
  apply increasing_intro; [apply IH, Hinc' |].
  apply keep_edges_Forall, Hall.
Qed.

(** ** The new indices stay inside the new axis *)

Lemma chain_room (lo hi : Z) (w : list Z) (ws : list (list Z)) :
  chain lo hi (w :: ws) -> lo + 2 <= hi.
Proof.
  intros ([_ Hk] & Hlo & Hc). pose proof (chain_le _ _ _ Hc). lia.
Qed.

Lemma new_index_bound (R : Z -> bool) (n : Z) (ws : list (list Z)) :
  forall lo off,
    chain lo (n + 2) ws -> 0 <= lo ->
    (ws <> [] -> off = count R 1 lo) ->
    (forall j, lo <= j ->
       R j = true
       <-> 1 <= j <= n /\ exists w, w ∈ ws /\ j ∈ w /\ j <> or_1 (hd 0 w)) ->
    forall j v, new_index ws off j = Some v ->
      1 <= v /\ v + count R 1 (n + 1) <= n + 1.
Proof.
  induction ws as [| w ws IH]; intros lo off Hc Hlo Hoff HR j v Hv;
    [discriminate |].
  pose proof (chain_room _ _ _ _ Hc) as Hroom.
  destruct Hc as (Hrun & Ha & Hc).
  pose proof (proj2 Hrun) as Hk.
  set (a := hd 0 w) in *. set (k := window_len w) in *.
  specialize (Hoff ltac:(discriminate)).
  pose proof (chain_le _ _ _ Hc) as Hend.
  (* nothing is absorbed between the frontier and the window *)
  assert (Hgap : forall i, lo <= i < a -> R i = false).
  { intros i Hi. apply not_true_iff_false. intros Hi'.
    apply HR in Hi' as [_ (w' & Hw' & Hiw & _)]; [| lia].
    apply elem_of_cons in Hw' as [-> | Hw'].
    - apply (run_elem _ _ Hrun) in Hiw. fold a in Hiw. lia.
    - pose proof (chain_elem _ _ _ _ _ Hc Hw' Hiw). lia. }
  assert (Hoff_a : off = count R 1 a)
    by (rewrite (count_extend R lo a Ha Hgap); exact Hoff).
  (* the leftmost bin of the window inside the axis is kept *)
  assert (Hleft : R (or_1 a) = false).
  { apply not_true_iff_false. intros Hi'.
    apply HR in Hi' as [_ (w' & Hw' & Hiw & Hne)];
      [| unfold or_1; destruct (a =? 0) eqn:E; lia].
    apply elem_of_cons in Hw' as [-> | Hw']; [apply Hne; reflexivity |].
    pose proof (chain_elem _ _ _ _ _ Hc Hw' Hiw).
    unfold or_1 in *. destruct (a =? 0) eqn:E; lia. }
  (* the other bins of the window are absorbed when inside the axis *)
  assert (Hin : forall i, a <= i < a + k -> 1 <= i <= n -> i <> or_1 a ->
                  R i = true).
  { intros i Hi Hi' Hne. apply HR; [lia |]. split; [exact Hi' |].
    exists w. split; [left |]. split; [| exact Hne].
    apply (run_elem _ _ Hrun). fold a k. lia. }
  cbn [new_index] in Hv. fold a k in Hv.
  destruct (new_index ws _ j) as [v' |] eqn:Hrest.
  - injection Hv as ->.
    apply (IH (a + k)
             (if a =? 0 then off + (k - 1) - 1 else off + (k - 1))
             Hc ltac:(lia)) with (j := j); [| | exact Hrest].
    + intros Hne. destruct ws as [| w' ws]; [contradiction |].
      pose proof (chain_room _ _ _ _ Hc) as Hroom'.
      destruct (Z.eq_dec a 0) as [Ha0 | Ha0].
      * rewrite Ha0 in *. change (0 =? 0) with true. cbn iota.
        assert (off = 0) by (rewrite Hoff_a; apply count_nil; lia).
        rewrite (count_split R 1 2 (0 + k)) by lia.
        replace (count R 1 2) with (if R 1 then 1 else 0)
          by (symmetry; apply (count_one R 1)).
        change (or_1 0) with 1 in Hleft. rewrite Hleft.
        rewrite (count_all R 2 (0 + k)) by
          (try lia; intros i Hi; apply Hin; try lia;
           change (or_1 0) with 1; lia).
        lia.
      * replace (a =? 0) with false by lia.
        assert (Hor : or_1 a = a)
          by (unfold or_1; replace (a =? 0) with false by lia; reflexivity).
        rewrite Hor in *.
        pose proof (count_bounds R 1 a ltac:(lia)).
        rewrite (count_split R 1 a (a + k)) by lia.
        rewrite (count_split R a (a + 1) (a + k)) by lia.
        rewrite (count_one R a), Hleft.
        rewrite (count_all R (a + 1) (a + k)) by
          (try lia; intros i Hi; apply Hin; lia).
        lia.
    + intros i Hi. rewrite (HR i) by lia. split.
      * intros [Hr (w' & Hw' & Hiw & Hne)]. split; [exact Hr |].
        apply elem_of_cons in Hw' as [-> | Hw']; [| eauto].
        apply (run_elem _ _ Hrun) in Hiw. fold a k in Hiw. lia.
      * intros [Hr (w' & Hw' & Hiw & Hne)]. split; [exact Hr |].
        exists w'. split; [right; exact Hw' | auto].
  - destruct (bool_decide (j ∈ w)); [| discriminate].
    injection Hv as <-.
    destruct (Z.eq_dec a 0) as [Ha0 | Ha0].
    + rewrite Ha0 in *.
      assert (Hz : off = 0) by (rewrite Hoff_a; apply count_nil; lia).
      rewrite Hz. change (or_1 (0 - 0)) with 1.
      pose proof (count_bounds R 1 (n + 1) ltac:(lia)). lia.
    + assert (Hor : or_1 a = a)
        by (unfold or_1; replace (a =? 0) with false by lia; reflexivity).
      rewrite Hor in *.
      pose proof (count_bounds R 1 a ltac:(lia)).
      assert (Hv : or_1 (a - off) = a - off)
        by (unfold or_1; replace (a - off =? 0) with false by lia;
            reflexivity).
      rewrite Hv. split; [lia |].
      rewrite (count_split R 1 a (n + 1)) by lia.
      pose proof (count_hole R a a (n + 1) ltac:(lia) Hleft). lia.
Qed.

(** ** What [merge_bins] plans for valid ranges *)

Lemma new_index_window (ws : list (list Z)) (lo hi : Z) (w : list Z) :
  forall off, chain lo hi ws -> w ∈ ws ->
    exists v, forall j, j ∈ w -> new_index ws off j = Some v.
Proof.
  revert lo. induction ws as [| w0 ws IH]; intros lo off Hc Hw;
    [inversion Hw |].
  pose proof Hc as (Hrun & Hlo & Hc').
  apply elem_of_cons in Hw as [-> | Hw].
  - exists (or_1 (hd 0 w0 - off)). intros j Hj. cbn [new_index].
    destruct (new_index ws _ j) as [v |] eqn:E.
    + exfalso.
      destruct (proj1 (new_index_Some ws _ j) (ex_intro _ v E))
        as (w' & Hw' & Hj').
      pose proof (chain_elem _ _ _ _ _ Hc' Hw' Hj').
      apply (run_elem _ _ Hrun) in Hj. lia.
    + rewrite bool_decide_eq_true_2 by exact Hj. reflexivity.
  - destruct (IH _ (if hd 0 w0 =? 0 then off + (window_len w0 - 1) - 1
                    else off + (window_len w0 - 1)) Hc' Hw) as [v Hv].
    exists v. intros j Hj. cbn [new_index]. rewrite (Hv j Hj). reflexivity.
Qed.

Section Plan.

Variable a : TAxis.t.
Variable bin_ranges : list (list Z).
Hypothesis Hwf : wf_axis a = true.
Hypothesis Hvalid : forallb (valid_range (TAxis.fNbins a + 2)) bin_ranges = true.
Hypothesis Hdisjoint :
  has_dups (concat (windows_of (TAxis.fNbins a + 2) bin_ranges)) = false.

Let n := TAxis.fNbins a.
Let ws := sorted_windows (n + 2) bin_ranges.
Let m := merge_mapping (n + 2) bin_ranges.
Let L := merge_left (n + 2) bin_ranges.
Let R := absorbed m L n.

Lemma plan_chain : chain 0 (n + 2) ws.
Proof.
  pose proof (wf_axis_nbins _ Hwf).
  apply sorted_windows_chain; [subst n; lia | exact Hvalid | exact Hdisjoint].
Qed.

Lemma plan_absorbed (j : Z) :
  R j = true
  <-> 1 <= j <= n /\ exists w, w ∈ ws /\ j ∈ w /\ j <> or_1 (hd 0 w).
Proof. apply (absorbed_chain n ws (n + 2) j plan_chain). Qed.

Lemma plan_first_kept : R 1 = false.
Proof.
  apply not_true_iff_false. intros H1.
  apply plan_absorbed in H1 as [_ (w & Hw & Hj & Hne)].
  destruct (chain_run _ _ _ _ plan_chain Hw) as [Hrun H0].
  apply (run_elem _ _ Hrun) in Hj.
  apply Hne. unfold or_1. destruct (hd 0 w =? 0) eqn:E; lia.
Qed.

Lemma plan_length :
  Z.of_nat (length (merged_edges a bin_ranges)) = n + 1 - count R 1 (n + 1).
Proof.
  pose proof (wf_axis_nbins _ Hwf) as Hn. fold n in Hn.
  unfold merged_edges. fold n m L.
  rewrite keep_edges_length
    by (rewrite ?axis_edges_length by exact Hwf; fold n; lia).
  rewrite axis_edges_length by exact Hwf. fold n R. replace (0 + 1 + (n + 1)) with (n + 1 + 1) by lia.
  rewrite (count_split R (0 + 1) (n + 1) (n + 1 + 1)) by lia.
  rewrite count_one.
  change (0 + 1) with 1.
  replace (R (n + 1)) with false; [lia |].
  unfold R, absorbed.
  replace (n + 1 <=? n) with false by lia.
  rewrite andb_false_r. reflexivity.
Qed.

Lemma plan_two_edges : (2 <= length (merged_edges a bin_ranges))%nat.
Proof.
  pose proof (wf_axis_nbins _ Hwf) as Hn. fold n in Hn.
  pose proof plan_length as Hlen.
  pose proof (count_hole R 1 1 (n + 1) ltac:(lia) plan_first_kept). lia.
Qed.

Lemma plan_increasing : increasing (merged_edges a bin_ranges) = true.
Proof.
  unfold merged_edges. apply keep_edges_increasing.
  apply axis_edges_increasing, Hwf.
Qed.

Lemma plan_bound (j v : Z) :
  m !! j = Some v ->
  1 <= v <= Z.of_nat (length (merged_edges a bin_ranges)).
Proof.
  intros Hv. rewrite plan_length.
  unfold m, merge_mapping in Hv.
  rewrite build_mapping_lookup, lookup_empty in Hv. fold ws in Hv.
  destruct (new_index ws 0 j) as [v' |] eqn:E; [| discriminate].
  injection Hv as ->.
  destruct (new_index_bound R n ws 0 0 plan_chain ltac:(lia)) with (j := j)
    (v := v) as [H1 H2]; [| | exact E | lia].
  - intros _. symmetry. apply count_nil. lia.
  - intros i _. apply plan_absorbed.
Qed.

Lemma plan_window (w : list Z) :
  w ∈ windows_of (n + 2) bin_ranges ->
  exists v, forall j, j ∈ w -> m !! j = Some v.
Proof.
  intros Hw.
  assert (Hw' : w ∈ ws).
  { unfold ws, sorted_windows. rewrite sort_by_perm. exact Hw. }
  destruct (new_index_window ws 0 (n + 2) w 0 plan_chain Hw') as [v Hv].
  exists v. intros j Hj. unfold m, merge_mapping.
  rewrite build_mapping_lookup. fold ws. rewrite (Hv j Hj). reflexivity.
Qed.

End Plan.

(** ** Cells and positions *)

Lemma wf_hist_size (h : TH1.t) :
  wf_hist h = true ->
  TH1.GetSize h = TH1.ncells (TH1.fDimension h) (TH1.GetNbinsX h)
                    (TH1.GetNbinsY h) (TH1.GetNbinsZ h).
Proof.
  unfold wf_hist. intros Hwf.
  apply andb_true_iff in Hwf as [Hwf _].
  apply andb_true_iff in Hwf as [_ Hwf]. apply Z.eqb_eq in Hwf. exact Hwf.
Qed.

Lemma wf_hist_unused (h : TH1.t) :
  wf_hist h = true ->
  (TH1.fDimension h < 2 -> TH1.GetNbinsY h = 1)
  /\ (TH1.fDimension h < 3 -> TH1.GetNbinsZ h = 1).
Proof.
  unfold wf_hist. intros Hwf.
  apply andb_true_iff in Hwf as [Hwf _].
  apply andb_true_iff in Hwf as [Hwf _].
  apply andb_true_iff in Hwf as [Hwf Hz].
  apply andb_true_iff in Hwf as [Hwf Hy].
  split; intros Hd.
  - apply orb_true_iff in Hy as [Hy | Hy]; lia.
  - apply orb_true_iff in Hz as [Hz | Hz]; lia.
Qed.

Lemma clamp_range (v n : Z) : 0 < n -> 0 <= TH1.clamp v n < n.
Proof.
  intros Hn. unfold TH1.clamp.
  destruct (v <? 0) eqn:E1; destruct (n <=? _) eqn:E2; lia.
Qed.

Lemma clamp_id (v n : Z) : 0 <= v < n -> TH1.clamp v n = v.
Proof.
  intros Hv. unfold TH1.clamp.
  destruct (v <? 0) eqn:E1; destruct (n <=? _) eqn:E2; lia.
Qed.

Lemma GetBin_range (h : TH1.t) (x y z : Z) :
  wf_hist h = true -> 0 <= TH1.GetBin h x y z < TH1.GetSize h.
Proof.
  intros Hwf. destruct (wf_hist_axes _ Hwf) as (Hd & Hx & Hy & Hz).
  pose proof (wf_axis_nbins _ Hx). pose proof (wf_axis_nbins _ Hy).
  pose proof (wf_axis_nbins _ Hz).
  rewrite (wf_hist_size _ Hwf).
  unfold TH1.GetBin, TH1.ncells, TH1.GetNbinsX, TH1.GetNbinsY, TH1.GetNbinsZ.
  pose proof (clamp_range x (TAxis.fNbins (TH1.fXaxis h) + 2) ltac:(lia)).
  pose proof (clamp_range y (TAxis.fNbins (TH1.fYaxis h) + 2) ltac:(lia)).
  pose proof (clamp_range z (TAxis.fNbins (TH1.fZaxis h) + 2) ltac:(lia)).
  destruct (TH1.fDimension h <? 2); [lia |].
  destruct (TH1.fDimension h <? 3); [nia |].
  replace (TH1.fDimension h <? 4) with true by lia. nia.
Qed.

Lemma xyz_range (h : TH1.t) (i : Z) :
  wf_hist h = true -> 0 <= i < TH1.GetSize h ->
  coords_in h (TH1.GetBinXYZ h i).
Proof.
  intros Hwf Hi. destruct (wf_hist_axes _ Hwf) as (Hd & Hx & Hy & Hz).
  pose proof (wf_axis_nbins _ Hx) as Nx. pose proof (wf_axis_nbins _ Hy) as Ny.
  pose proof (wf_axis_nbins _ Hz) as Nz.
  rewrite (wf_hist_size _ Hwf) in Hi.
  unfold TH1.GetBinXYZ, coords_in, TH1.ncells, TH1.GetNbinsX, TH1.GetNbinsY,
    TH1.GetNbinsZ in *.
  set (nx := TAxis.fNbins (TH1.fXaxis h) + 2) in *.
  set (ny := TAxis.fNbins (TH1.fYaxis h) + 2) in *.
  set (nz := TAxis.fNbins (TH1.fZaxis h) + 2) in *.
  assert (Hbx : 0 <= Z.rem i nx < nx) by (apply Z.rem_bound_pos; lia).
  rewrite Z.rem_mod_nonneg in * by lia.
  assert (Hm : 0 <= i mod nx <= i)
    by (split; [apply Z.mod_pos_bound; lia | apply Z.mod_le; lia]).
  assert (Hq : (i - i mod nx) ÷ nx = i / nx).
  { rewrite Z.quot_div_nonneg by lia.
    rewrite (Z.div_mod i nx) at 1 by lia.
    replace (nx * (i / nx) + i mod nx - i mod nx) with ((i / nx) * nx) by lia.
    apply Z.div_mul. lia. }
  assert (Hq0 : 0 <= i / nx) by (apply Z.div_pos; lia).
  destruct Hd as [Hd | [Hd | Hd]]; rewrite Hd in *; simpl in Hi |- *.
  - lia.
  - rewrite Hq. rewrite Z.rem_mod_nonneg by lia.
    pose proof (Z.mod_pos_bound (i / nx) ny ltac:(lia)). lia.
  - rewrite Hq. rewrite Z.rem_mod_nonneg by lia.
    pose proof (Z.mod_pos_bound (i / nx) ny ltac:(lia)).
    assert (Hq1 : i / nx < ny * nz)
      by (apply Z.div_lt_upper_bound; nia).
    assert (Hm' : 0 <= (i / nx) mod ny <= i / nx)
      by (split; [apply Z.mod_pos_bound; lia | apply Z.mod_le; lia]).
    assert (Hqq : (i / nx - (i / nx) mod ny) ÷ ny = i / nx / ny).
    { rewrite Z.quot_div_nonneg by lia.
      rewrite (Z.div_mod (i / nx) ny) at 1 by lia.
      replace (ny * (i / nx / ny) + (i / nx) mod ny - (i / nx) mod ny)
        with ((i / nx / ny) * ny) by lia.
      apply Z.div_mul. lia. }
    rewrite Hqq.
    assert (0 <= i / nx / ny) by (apply Z.div_pos; lia).
    assert (i / nx / ny < nz) by (apply Z.div_lt_upper_bound; lia).
    lia.
Qed.

Lemma get_sum_w2_ok (h : TH1.t) (x y z : Z) :
  TH1.GetSumw2N h <> 0 -> coords_in h (x, y, z) ->
  exists q, get_sum_w2 h x y z = Ok q.
Proof.
  intros Hs (Hx & Hy & Hz). unfold get_sum_w2.
  replace (TH1.GetSumw2N h =? 0) with false by lia.
  replace ((0 <=? x) && (x <? TH1.GetNbinsX h + 2)) with true by lia.
  replace ((0 <=? y) && (y <? TH1.GetNbinsY h + 2)) with true by lia.
  replace ((0 <=? z) && (z <? TH1.GetNbinsZ h + 2)) with true by lia.
  simpl. eauto.
Qed.

Lemma set_sum_w2_ok (h : TH1.t) (w : Q) (x y z : Z) :
  TH1.GetSumw2N h <> 0 -> coords_in h (x, y, z) ->
  exists s, set_sum_w2 h w x y z = Ok (TH1.with_sumw2 h s)
            /\ length s = length (TH1.fSumw2 h).
Proof.
  intros Hs (Hx & Hy & Hz). unfold set_sum_w2.
  replace (TH1.GetSumw2N h =? 0) with false by lia.
  replace ((0 <=? x) && (x <? TH1.GetNbinsX h + 2)) with true by lia.
  replace ((0 <=? y) && (y <? TH1.GetNbinsY h + 2)) with true by lia.
  replace ((0 <=? z) && (z <? TH1.GetNbinsZ h + 2)) with true by lia.
  simpl. eexists. split; [reflexivity |].
  unfold TH1.SetAt. destruct (_ || _); [reflexivity |].
  apply length_insert.
Qed.

(** ** Running [merge_bins] *)

Lemma overflow_of_ok (h : TH1.t) (idx : Z) :
  wf_hist h = true -> exists o, BinProxy.overflow_of h idx = Ok o.
Proof.
  intros Hwf. destruct (wf_hist_axes _ Hwf) as (Hd & _).
  unfold BinProxy.overflow_of, TH1.GetDimension.
  destruct Hd as [Hd | [Hd | Hd]]; rewrite Hd.
  - change (py_range 0 1 1) with [0]. unfold nbins. simpl.
    destruct (_ || _); eauto.
  - change (py_range 0 2 1) with [0; 1]. unfold nbins. simpl.
    repeat (destruct (_ || _); eauto).
  - change (py_range 0 3 1) with [0; 1; 2]. unfold nbins. simpl.
    repeat (destruct (_ || _); eauto).
Qed.

Lemma bins_run (σ : store) self h :
  σ !! self = Some h -> wf_hist h = true ->
  bins self true σ = (Ok (all_bins self h), σ).
Proof.
  intros Hs Hwf. unfold bins, all_bins, TH1.cells.
  rewrite (bind_load _ _ _ _ Hs). rewrite py_range_up, Z.sub_0_r.
  induction (seqZ 0 (TH1.GetSize h)) as [| i l IH]; [reflexivity |].
  rewrite fmap_cons.
  unfold bind, BinProxy.__init__, BinProxy.overflow, bind, load, lift, ret
    in IH |- *.
  rewrite Hs. cbn [BinProxy.hist BinProxy.idx]. rewrite Hs.
  destruct (overflow_of_ok h i Hwf) as [o Ho]. rewrite Ho.
  rewrite IH. reflexivity.
Qed.

Lemma axis_at_ok (h : TH1.t) (axis : Z) :
  0 <= axis <= 2 -> axis_ h axis = Ok (axis_at h axis)
                    /\ nbins h axis = Ok (TAxis.fNbins (axis_at h axis)).
Proof.
  intros Hax. unfold axis_, nbins, axis_at.
  assert (axis = 0 \/ axis = 1 \/ axis = 2) as [-> | [-> | ->]] by lia;
    auto.
Qed.

(** Past its checks, [merge_bins] is [Clone] when no window is left and
    [merge_fill] otherwise. *)
Lemma merge_bins_unfold (σ : store) self h bin_ranges axis :
  σ !! self = Some h -> wf_hist h = true ->
  0 <= axis < TH1.fDimension h ->
  existsb bad_range bin_ranges = false ->
  has_dups (concat (windows_of (TAxis.fNbins (axis_at h axis) + 2)
                      bin_ranges)) = false ->
  merge_bins self bin_ranges axis σ
  = match windows_of (TAxis.fNbins (axis_at h axis) + 2) bin_ranges with
    | [] => Clone self σ
    | _ => merge_fill self h bin_ranges axis σ
    end.
Proof.
  intros Hs Hwf Hax Hbad Hdup.
  destruct (wf_hist_axes _ Hwf) as (Hd & Hx & Hy & Hz).
  destruct (axis_at_ok h axis ltac:(lia)) as [Haxis Hnb].
  set (a := axis_at h axis) in *.
  assert (Ha : wf_axis a = true).
  { subst a. unfold axis_at.
    destruct (axis =? 0); [exact Hx |]. destruct (axis =? 1); assumption. }
  unfold merge_bins. rewrite (bind_load _ _ _ _ Hs).
  unfold TH1.GetDimension.
  replace (TH1.fDimension h - 1 <? axis) with false by lia.
  unfold bind at 1. unfold lift at 1. rewrite Hnb.
  unfold bind at 1. unfold lift at 1.
  rewrite collect_windows_ok, Hbad.
  destruct (windows_of (TAxis.fNbins a + 2) bin_ranges) as [| w ws] eqn:Hw;
    [reflexivity |].
  rewrite Hdup, andb_false_r.
  unfold merge_fill. fold a.
  unfold merged_edges, merge_mapping, merge_left, sorted_windows.
  rewrite Hw.
  destruct (build_mapping (sort_by lex_leb (w :: ws)) ∅ ∅ 0)
    as [[m L] off] eqn:Hb.
  cbn [fst snd].
  unfold bind at 1. unfold lift at 1.
  rewrite (_edges_run h axis a Haxis), floats_Fin.
  assert (Hinc : increasing (keep_edges m L (TAxis.fNbins a + 2) 0
                               (axis_edges a)) = true)
    by (apply keep_edges_increasing, axis_edges_increasing, Ha).
  unfold bind at 1.
  rewrite (new_binning_template_run σ self h _ axis Hs Hwf Hax Hinc).
  set (p := fresh (dom σ)). set (nh0 := template h _ axis).
  pose proof (fresh_handle σ) as Hp. fold p in Hp.
  assert (Hs1 : (<[p := nh0]> σ) !! self = Some h)
    by (rewrite lookup_insert_ne by congruence; exact Hs).
  unfold bind at 1. unfold lift at 1. rewrite Haxis.
  rewrite (bind_load _ p nh0) by apply lookup_insert_eq.
  destruct (axis_at_ok nh0 axis ltac:(lia)) as [Haxis0 _].
  unfold bind at 1. unfold lift at 1. rewrite Haxis0.
  unfold bind at 1. rewrite (bins_run _ _ _ Hs1 Hwf).
  symmetry. unfold bind at 1.
  rewrite (new_binning_template_run σ self h _ axis Hs Hwf Hax Hinc).
  fold p nh0.
  rewrite (bind_load _ p nh0) by apply lookup_insert_eq. reflexivity.
Qed.

Lemma same_shape_GetBin (h1 h2 : TH1.t) (x y z : Z) :
  same_shape h1 h2 -> TH1.GetBin h1 x y z = TH1.GetBin h2 x y z.
Proof.
  intros (Hd & Hx & Hy & Hz & _). unfold TH1.GetBin, TH1.GetNbinsX,
    TH1.GetNbinsY, TH1.GetNbinsZ. rewrite Hd, Hx, Hy, Hz. reflexivity.
Qed.

Lemma same_shape_coords (h1 h2 : TH1.t) (xyz : Z * Z * Z) :
  same_shape h1 h2 -> coords_in h2 xyz -> coords_in h1 xyz.
Proof.
  intros (Hd & Hx & Hy & Hz & _). destruct xyz as [[x y] z].
  unfold coords_in, TH1.GetNbinsX, TH1.GetNbinsY, TH1.GetNbinsZ.
  rewrite Hx, Hy, Hz. auto.
Qed.

Lemma same_shape_sumw2 (h1 h2 : TH1.t) :
  same_shape h1 h2 -> TH1.GetSumw2N h1 = TH1.GetSumw2N h2.
Proof. intros (_ & _ & _ & _ & _ & Hw). unfold TH1.GetSumw2N. lia. Qed.

Lemma same_shape_trans (h1 h2 h3 : TH1.t) :
  same_shape h1 h2 -> same_shape h2 h3 -> same_shape h1 h3.
Proof.
  intros (A1 & A2 & A3 & A4 & A5 & A6) (B1 & B2 & B3 & B4 & B5 & B6).
  unfold same_shape. repeat split; congruence.
Qed.

Lemma SetBinContent_shape (h : TH1.t) (t : Z) (v : Q) :
  0 <= t < TH1.GetSize h ->
  same_shape (TH1.SetBinContent h t v) h
  /\ TH1.fArray (TH1.SetBinContent h t v) = <[Z.to_nat t := v]> (TH1.fArray h).
Proof.
  intros Ht. unfold TH1.SetBinContent.
  replace (t <? 0) with false by lia.
  replace (TH1.GetSize (TH1.with_entries h (TH1.fEntries h + 1)) <=? t)
    with false by (unfold TH1.GetSize in *; simpl; lia).
  split; [| reflexivity].
  unfold same_shape. simpl. rewrite length_insert. repeat split.
Qed.

(** One turn of the filling loop of [merge_bins]: the content of cell [i]
    goes to the cell [merge_target] names. *)
Lemma merge_bin_run (σ : store) self p h nh0 nh axis (tr : Z -> Z) i :
  σ !! self = Some h -> self <> p ->
  wf_hist nh0 = true -> same_shape nh nh0 ->
  TH1.GetSumw2N h <> 0 -> TH1.GetSumw2N nh0 <> 0 ->
  coords_in h (TH1.GetBinXYZ h i) ->
  coords_in nh0 (tuple_set (TH1.GetBinXYZ h i) axis
                   (tr (BinProxy.tuple_get (TH1.GetBinXYZ h i) axis))) ->
  let t := merge_target h nh0 axis tr i in
  exists nh',
    merge_bin self p axis tr (BinProxy.mk self i (TH1.GetBinXYZ h i))
      (<[p := nh]> σ)
    = (Ok tt, <[p := nh']> σ)
    /\ same_shape nh' nh0
    /\ 0 <= t < TH1.GetSize nh0
    /\ TH1.fArray nh'
       = <[Z.to_nat t := (TAxis.at_ (TH1.fArray nh) t
                          + TH1.GetBinContent h i)%Q]> (TH1.fArray nh).
Proof.
  intros Hs Hne Hwf Hsh Hw Hw0 Hc Hc0 t.
  unfold merge_target in t. unfold merge_bin. cbn [BinProxy.xyz].
  destruct (tuple_set (TH1.GetBinXYZ h i) axis
              (tr (BinProxy.tuple_get (TH1.GetBinXYZ h i) axis)))
    as [[x y] z] eqn:Hxyz.
  destruct (TH1.GetBinXYZ h i) as [[a b] c] eqn:Habc.
  pose proof (GetBin_range nh0 x y z Hwf) as Ht. fold t in Ht.
  pose proof (same_shape_size _ _ Hsh) as Hsize.
  assert (Hself : forall g, (<[p := g]> σ) !! self = Some h)
    by (intros g; rewrite lookup_insert_ne by congruence; exact Hs).
  set (nh1 := TH1.SetBinContent3 nh x y z
                (TH1.GetBinContent3 nh x y z + TH1.GetBinContent h i)%Q).
  assert (Ht' : TH1.GetBin nh x y z = t)
    by (apply same_shape_GetBin, Hsh).
  destruct (SetBinContent_shape nh t
              (TH1.GetBinContent3 nh x y z + TH1.GetBinContent h i)%Q
              ltac:(lia)) as [Hsh1 Harr1].
  assert (Hnh1 : nh1 = TH1.SetBinContent nh t
                   (TH1.GetBinContent3 nh x y z + TH1.GetBinContent h i)%Q)
    by (subst nh1; unfold TH1.SetBinContent3; rewrite Ht'; reflexivity).
  rewrite <- Hnh1 in Hsh1, Harr1.
  pose proof (same_shape_trans _ _ _ Hsh1 Hsh) as Hsh10.
  destruct (get_sum_w2_ok h a b c Hw Hc) as [q1 Hq1].
  assert (Hw1 : TH1.GetSumw2N nh1 <> 0)
    by (rewrite (same_shape_sumw2 _ _ Hsh10); exact Hw0).
  pose proof (same_shape_coords _ _ _ Hsh10 Hc0) as Hc1.
  destruct (get_sum_w2_ok nh1 x y z Hw1 Hc1) as [q2 Hq2].
  destruct (set_sum_w2_ok nh1 (q1 + q2)%Q x y z Hw1 Hc1) as (s & Hset & Hlen).
  exists (TH1.with_sumw2 nh1 s).
  split; [| split; [| split]].
  - rewrite (bind_load _ p nh) by apply lookup_insert_eq.
    unfold bind at 1. unfold BinProxy.value. cbn [BinProxy.hist BinProxy.idx].
    rewrite (bind_load _ _ _ _ (Hself nh)). unfold ret at 1.
    unfold bind at 1. unfold modify at 1.
    rewrite (bind_load _ p nh) by apply lookup_insert_eq.
    unfold save at 1. rewrite insert_insert_eq. fold nh1.
    rewrite (bind_load _ _ _ _ (Hself nh1)).
    unfold bind at 1. unfold lift at 1. rewrite Hq1.
    rewrite (bind_load _ p nh1) by apply lookup_insert_eq.
    unfold bind at 1. unfold lift at 1. rewrite Hq2.
    unfold bind at 1. unfold lift at 1. rewrite Hset.
    unfold save. rewrite insert_insert_eq. reflexivity.
  - eapply same_shape_trans; [| exact Hsh10].
    destruct Hsh10 as (? & ? & ? & ? & ? & ?).
    unfold same_shape. simpl. repeat split. exact Hlen.
  - exact Ht.
  - simpl. rewrite Harr1. unfold TH1.GetBinContent3, TH1.GetBinContent.
    rewrite Ht', cell_in_range by lia. reflexivity.
Qed.

Lemma total_insert_add (l : list Q) (t : Z) (v : Q) :
  0 <= t < Z.of_nat (length l) ->
  (total (<[Z.to_nat t := (TAxis.at_ l t + v)%Q]> l) == total l + v)%Q.
Proof.
  intros Ht. unfold TAxis.at_.
  assert (Hn : (Z.to_nat t < length l)%nat) by lia.
  clear Ht. revert Hn. generalize (Z.to_nat t) as k. clear t.
  induction l as [| x l IH]; intros k Hk; simpl in Hk; [lia |].
  destruct k as [| k]; simpl.
  - unfold total. simpl. ring.
  - unfold total in *. simpl. rewrite IH by lia. ring.
Qed.

Lemma at_cells (l : list Q) :
  (fun i => TAxis.at_ l i) <$> seqZ 0 (Z.of_nat (length l)) = l.
Proof.
  apply list_eq. intros k. rewrite list_lookup_fmap.
  destruct (decide (k < length l)%nat) as [Hk | Hk].
  - rewrite lookup_seqZ_lt by lia. simpl.
    destruct (lookup_lt_is_Some_2 l k Hk) as [x Hx]. rewrite Hx.
    f_equal. unfold TAxis.at_. replace (Z.to_nat (0 + Z.of_nat k)) with k by lia.
    apply nth_lookup_Some. exact Hx.
  - rewrite lookup_seqZ_ge by lia. simpl. symmetry.
    apply lookup_ge_None. lia.
Qed.

Lemma contents_cells (h : TH1.t) :
  TH1.GetBinContent h <$> TH1.cells h = TH1.fArray h.
Proof.
  etransitivity; [| apply at_cells].
  unfold TH1.cells, TH1.GetSize.
  apply list_fmap_ext. intros k i Hi.
  apply lookup_seqZ in Hi as [-> Hk]. unfold TH1.GetBinContent.
  rewrite cell_in_range by (unfold TH1.GetSize in *; lia). reflexivity.
Qed.

Lemma valid_not_bad (n : Z) (bin_ranges : list (list Z)) :
  forallb (valid_range n) bin_ranges = true ->
  existsb bad_range bin_ranges = false.
Proof.
  induction bin_ranges as [| w rest IH]; intros Hv; [reflexivity |].
  simpl in *. apply andb_true_iff in Hv as [Hw Hrest].
  rewrite (IH Hrest), orb_false_r.
  destruct w as [| l [| r [| x w]]]; try discriminate.
  unfold valid_range in Hw.
  repeat (apply andb_true_iff in Hw as [Hw _]).
  apply negb_true_iff in Hw. exact Hw.
Qed.

Lemma template_nbins (h : TH1.t) (edges : list Q) (axis : Z) :
  wf_hist h = true -> 0 <= axis < TH1.fDimension h ->
  let nh0 := template h edges axis in
  TAxis.fNbins (axis_at nh0 axis) = Z.of_nat (length edges) - 1
  /\ (axis <> 0 -> TH1.GetNbinsX nh0 = TH1.GetNbinsX h)
  /\ (axis <> 1 -> TH1.GetNbinsY nh0 = TH1.GetNbinsY h)
  /\ (axis <> 2 -> TH1.GetNbinsZ nh0 = TH1.GetNbinsZ h).
Proof.
  intros Hwf Hax nh0.
  destruct (wf_hist_axes _ Hwf) as (Hd & Hx & Hy & Hz).
  destruct (wf_hist_unused _ Hwf) as [Uy Uz].
  pose proof (axis_edges_length _ Hx) as Lx.
  pose proof (axis_edges_length _ Hy) as Ly.
  pose proof (axis_edges_length _ Hz) as Lz.
  subst nh0. unfold axis_at, template, TH1.create, template_axis,
    TH1.GetNbinsX, TH1.GetNbinsY, TH1.GetNbinsZ in *.
  cbn [TH1.fXaxis TH1.fYaxis TH1.fZaxis].
  assert (axis = 0 \/ axis = 1 \/ axis = 2) as [-> | [-> | ->]] by lia;
    cbn [Z.eqb Pos.eqb];
    destruct (0 <? TH1.fDimension h) eqn:E0;
    destruct (1 <? TH1.fDimension h) eqn:E1;
    destruct (2 <? TH1.fDimension h) eqn:E2;
    try lia; cbn [TAxis.fNbins TAxis.of_edges TAxis.unit TAxis.fixed];
    repeat split; intros; try lia.
Qed.

Lemma translate_range (m : gmap Z Z) (a na : TAxis.t) (x top : Z) :
  wf_axis na = true -> TAxis.fNbins na + 1 = top ->
  (forall j v, m !! j = Some v -> 1 <= v <= top) ->
  0 <= translate m a na x < TAxis.fNbins na + 2.
Proof.
  intros Hna Htop Hm. unfold translate.
  destruct (m !! x) as [v |] eqn:E.
  - specialize (Hm _ _ E). lia.
  - destruct (x =? 0); [pose proof (wf_axis_nbins _ Hna); lia |].
    pose proof (FindBin_bounds na (TAxis.GetBinCenter a x) Hna). lia.
Qed.

Lemma gathered_fmap {A B} (f : A -> B) (target : B -> Z) (value : B -> Q)
    (l : list A) (c : Z) :
  gathered target value (f <$> l) c
  = gathered (fun x => target (f x)) (fun x => value (f x)) l c.
Proof.
  unfold gathered. rewrite <- list_fmap_compose. reflexivity.
Qed.

(** The filling loop of [merge_bins] on a new histogram [nh0]: every cell
    of the receiver is added to the cell that [merge_target] names. *)
Lemma merge_loop_run (σ : store) self p h nh0 axis (tr : Z -> Z) :
  σ !! self = Some h -> self <> p ->
  wf_hist h = true -> wf_hist nh0 = true ->
  TH1.GetSumw2N h <> 0 -> TH1.GetSumw2N nh0 <> 0 ->
  (forall c, TAxis.at_ (TH1.fArray nh0) c = 0%Q) ->
  (forall i, 0 <= i < TH1.GetSize h ->
     coords_in nh0 (tuple_set (TH1.GetBinXYZ h i) axis
                      (tr (BinProxy.tuple_get (TH1.GetBinXYZ h i) axis)))) ->
  exists nh1,
    for_each (all_bins self h) (merge_bin self p axis tr) (<[p := nh0]> σ)
    = (Ok tt, <[p := nh1]> σ)
    /\ same_shape nh1 nh0
    /\ (forall c, 0 <= c < TH1.GetSize nh0 ->
          (TAxis.at_ (TH1.fArray nh1) c
           == gathered (merge_target h nh0 axis tr) (TH1.GetBinContent h)
                       (TH1.cells h) c)%Q)
    /\ (total (TH1.fArray nh1) == total (TH1.fArray h))%Q.
Proof.
  intros Hs Hne Hwf Hwf0 Hw Hw0 Hzero Hcoords.
  set (tgt := fun b : BinProxy.t =>
                merge_target h nh0 axis tr (BinProxy.idx b)).
  set (val := fun b : BinProxy.t => TH1.GetBinContent h (BinProxy.idx b)).
  destruct (for_each_inv
    (fun done s => exists nh1,
       s = <[p := nh1]> σ /\ same_shape nh1 nh0
       /\ (forall c, 0 <= c < TH1.GetSize nh0 ->
             (TAxis.at_ (TH1.fArray nh1) c == gathered tgt val done c)%Q)
       /\ (total (TH1.fArray nh1) == total (val <$> done))%Q)
    (merge_bin self p axis tr) (all_bins self h) (<[p := nh0]> σ))
    as (s' & Hloop & nh1 & -> & Hsh & Hcont & Htot).
  { exists nh0. split; [reflexivity |]. split; [apply same_shape_refl |].
    split.
    - intros c _. rewrite Hzero. reflexivity.
    - assert (Hz : forall l : list Q,
                (forall c, TAxis.at_ l c = 0%Q) -> (total l == 0)%Q).
      { induction l as [| x l IH]; intros Hl; [reflexivity |].
        unfold total in *. simpl.
        pose proof (Hl 0) as H0. unfold TAxis.at_ in H0. simpl in H0.
        rewrite H0, IH; [ring |].
        intros c. destruct (Z.le_gt_cases 0 c).
        - specialize (Hl (c + 1)). unfold TAxis.at_ in *.
          replace (Z.to_nat (c + 1)) with (S (Z.to_nat c)) in Hl by lia.
          exact Hl.
        - specialize (Hl 1). unfold TAxis.at_ in *.
          replace (Z.to_nat c) with 0%nat by lia. exact Hl. }
      rewrite (Hz _ Hzero). reflexivity. }
  { intros pre b s (nh1 & -> & Hsh & Hcont & Htot) Hb.
    unfold all_bins in Hb. apply list_elem_of_fmap in Hb as (i & -> & Hi).
    apply elem_of_seqZ in Hi.
    destruct (merge_bin_run σ self p h nh0 nh1 axis tr i Hs Hne Hwf0 Hsh
                Hw Hw0) as (nh' & Hrun & Hsh' & Ht & Harr).
    { apply xyz_range; [exact Hwf | lia]. }
    { apply Hcoords. lia. }
    exists (<[p := nh']> σ). split; [exact Hrun |].
    exists nh'. split; [reflexivity |]. split; [exact Hsh' |].
    pose proof (same_shape_size _ _ Hsh) as Hsz.
    split.
    - intros c Hc. rewrite Harr, gathered_snoc.
      unfold tgt at 2, val at 2. cbn [BinProxy.idx].
      destruct (merge_target h nh0 axis tr i =? c) eqn:E.
      + apply Z.eqb_eq in E. subst c.
        rewrite at_insert by (unfold TH1.GetSize in *; lia).
        rewrite (Hcont _ Hc). reflexivity.
      + apply Z.eqb_neq in E. rewrite at_insert_ne by lia.
        rewrite (Hcont _ Hc). ring.
    - rewrite Harr, total_insert_add by (unfold TH1.GetSize in *; lia).
      rewrite fmap_app, total_app, Htot.
      change (total (val <$> [BinProxy.mk self i (TH1.GetBinXYZ h i)]))
        with (TH1.GetBinContent h i + 0)%Q.
      ring. }
  exists nh1. split; [exact Hloop |]. split; [exact Hsh |]. split.
  - intros c Hc. rewrite (Hcont c Hc). unfold all_bins.
    rewrite gathered_fmap. reflexivity.
  - rewrite Htot. unfold all_bins. rewrite <- list_fmap_compose.
    rewrite <- (contents_cells h). reflexivity.
Qed.

Lemma merge_target_shape (h nh1 nh2 : TH1.t) axis tr i :
  same_shape nh1 nh2 ->
  merge_target h nh1 axis tr i = merge_target h nh2 axis tr i.
Proof.
  intros Hsh. unfold merge_target.
  destruct (tuple_set _ _ _) as [[x y] z]. apply same_shape_GetBin, Hsh.
Qed.

Lemma same_shape_axis_at (h1 h2 : TH1.t) (axis : Z) :
  same_shape h1 h2 -> axis_at h1 axis = axis_at h2 axis.
Proof.
  intros (_ & Hx & Hy & Hz & _). unfold axis_at. rewrite Hx, Hy, Hz.
  reflexivity.
Qed.

Lemma wf_axis_at (h : TH1.t) (axis : Z) :
  wf_hist h = true -> wf_axis (axis_at h axis) = true.
Proof.
  intros Hwf. destruct (wf_hist_axes _ Hwf) as (_ & Hx & Hy & Hz).
  unfold axis_at. destruct (axis =? 0); [exact Hx |].
  destruct (axis =? 1); assumption.
Qed.



(** Underflow goes to the first bin and overflow to the last one, as in
    the example of the docstring. *)
Example merge_bins_demo :
  (TH1.fArray <$> snd (merge_bins 0%nat [[0; 1]; [-2; -1]] 0 demo_store)
                  !! 1%nat)
  = Some [0; 0 + 1 + 2; 0 + 3; 0 + 4; 0 + 5 + 6; 0]%Q.
Proof. vm_compute. reflexivity. Qed.


(** ** The checks of [merge_bins] *)

Lemma resolved_NoDup (n : Z) (w : list Z) : NoDup (resolved n w).
Proof.
  unfold resolved, resolve_window.
  destruct w as [| l [| r [| x w]]]; try constructor.
  destruct (l =? r); [constructor |].
  destruct ((l <? 0) && (0 <=? r)); [constructor |].
  unfold slice_indices. change (1 =? 0) with false. cbn [rbind].
  rewrite py_range_up. apply NoDup_seqZ.
Qed.

Lemma windows_NoDup (n : Z) (bin_ranges : list (list Z)) :
  Forall NoDup (windows_of n bin_ranges).
Proof.
  unfold windows_of. apply Forall_forall. intros w Hw.
  apply list_elem_of_filter in Hw as [_ Hw].
  apply list_elem_of_fmap in Hw as (r & -> & _). apply resolved_NoDup.
Qed.

Lemma elem_of_concat (ws : list (list Z)) (x : Z) :
  x ∈ concat ws <-> exists w, w ∈ ws /\ x ∈ w.
Proof.
  induction ws as [| w ws IH]; simpl.
  - split; [intros H; inversion H | intros (w & H & _); inversion H].
  - rewrite elem_of_app, IH. split.
    + intros [H | (w' & Hw' & Hx)]; [exists w; split; [left | exact H] |].
      exists w'. split; [right; exact Hw' | exact Hx].
    + intros (w' & Hw' & Hx).
      apply elem_of_cons in Hw' as [-> | Hw']; [auto | eauto].
Qed.

(** The test of [merge_bins] on the joined windows finds a repeated bin
    exactly when two windows share one. *)
Lemma has_dups_overlapping (ws : list (list Z)) :
  Forall NoDup ws -> has_dups (concat ws) = true <-> overlapping ws.
Proof.
  intros Hnd.
  assert (Hiff : NoDup (concat ws) <-> ~ overlapping ws).
  { induction Hnd as [| w ws Hw _ IH]; simpl.
    - split; [auto | constructor].
    - rewrite NoDup_app, IH. split.
      + intros (_ & Hdisj & Hno) [(x & w' & Hw' & Hx & Hx') | Ho];
          [| contradiction].
        apply (Hdisj x Hx). apply elem_of_concat. eauto.
      + intros Hno. split; [exact Hw |]. split.
        * intros x Hx Hin. apply elem_of_concat in Hin as (w' & Hw' & Hx').
          apply Hno. left. eauto.
        * intros Ho. apply Hno. right. exact Ho. }
  assert (Hdec : overlapping ws \/ ~ overlapping ws).
  { clear. induction ws as [| w ws IH]; simpl; [auto |].
    destruct IH as [Ho | Hno]; [auto |].
    destruct (decide (Exists (fun x => x ∈ concat ws) w)) as [He | Hne].
    - left. left. apply Exists_exists in He as (x & Hx & Hin).
      apply elem_of_concat in Hin as (w' & Hw' & Hx'). eauto.
    - right. intros [(x & w' & Hw' & Hx & Hx') | Ho]; [| contradiction].
      apply Hne. apply Exists_exists. exists x. split; [exact Hx |].
      apply elem_of_concat. eauto. }
  destruct (has_dups (concat ws)) eqn:E.
  - split; [| reflexivity]. intros _.
    destruct Hdec as [Ho | Hno]; [exact Ho |].
    apply Hiff, has_dups_NoDup in Hno. congruence.
  - split; [discriminate |]. intros Ho.
    apply has_dups_NoDup, Hiff in E. contradiction.
Qed.

Lemma has_dups_several (ws : list (list Z)) :
  Forall NoDup ws -> has_dups (concat ws) = true ->
  (1 <? Z.of_nat (length ws)) = true.
Proof.
  intros Hnd Hd. apply (has_dups_overlapping ws Hnd) in Hd.
  destruct ws as [| w [| w' ws]]; simpl in Hd.
  - contradiction.
  - destruct Hd as [(x & w' & Hw' & _) | []]. inversion Hw'.
  - apply Z.ltb_lt. cbn [length]. lia.
Qed.

(** [merge_bins] as the sequence of its checks. *)
Lemma merge_bins_checks (σ : store) self h bin_ranges axis :
  σ !! self = Some h -> wf_hist h = true ->
  let axis_bins := TAxis.fNbins (axis_at h axis) + 2 in
  merge_bins self bin_ranges axis σ
  = if TH1.GetDimension h - 1 <? axis then (Raise ValueError, σ)
    else if axis <? 0 then (Raise ValueError, σ)
    else if existsb bad_range bin_ranges then (Raise ValueError, σ)
    else if has_dups (concat (windows_of axis_bins bin_ranges))
         then (Raise ValueError, σ)
         else match windows_of axis_bins bin_ranges with
              | [] => Clone self σ
              | _ => merge_fill self h bin_ranges axis σ
              end.
Proof.
  intros Hs Hwf axis_bins.
  destruct (wf_hist_axes _ Hwf) as (Hd & _).
  unfold TH1.GetDimension in *.
  destruct (TH1.fDimension h - 1 <? axis) eqn:E1.
  { unfold merge_bins. rewrite (bind_load _ _ _ _ Hs).
    unfold TH1.GetDimension. rewrite E1. reflexivity. }
  destruct (axis <? 0) eqn:E2.
  { unfold merge_bins. rewrite (bind_load _ _ _ _ Hs).
    unfold TH1.GetDimension. rewrite E1.
    unfold bind, lift, nbins.
    replace (axis =? 0) with false by lia.
    replace (axis =? 1) with false by lia.
    replace (axis =? 2) with false by lia. reflexivity. }
  destruct (axis_at_ok h axis ltac:(lia)) as [Haxis Hnb].
  destruct (existsb bad_range bin_ranges) eqn:E3.
  { unfold merge_bins. rewrite (bind_load _ _ _ _ Hs).
    unfold TH1.GetDimension. rewrite E1.
    unfold bind, lift. rewrite Hnb, collect_windows_ok, E3. reflexivity. }
  destruct (has_dups (concat (windows_of axis_bins bin_ranges))) eqn:E4.
  { unfold merge_bins. rewrite (bind_load _ _ _ _ Hs).
    unfold TH1.GetDimension. rewrite E1.
    unfold bind at 1. unfold lift at 1. rewrite Hnb.
    unfold bind at 1. unfold lift at 1. rewrite collect_windows_ok, E3.
    fold axis_bins.
    pose proof (has_dups_several _ (windows_NoDup axis_bins bin_ranges) E4)
      as Hlen.
    destruct (windows_of axis_bins bin_ranges) as [| w ws];
      [discriminate |].
    rewrite Hlen, E4. reflexivity. }
  apply merge_bins_unfold; try assumption. lia.
Qed.

Lemma bad_range_invalid (w : list Z) :
  bad_range w = true <-> invalid_range w.
Proof.
  unfold bad_range, invalid_range.
  destruct w as [| l [| r [| x w]]]; simpl;
    try (split; [intros _; left; lia | reflexivity]).
  rewrite orb_true_iff, andb_true_iff, Z.eqb_eq, Z.ltb_lt, Z.leb_le.
  split.
  - intros H. right. exists l, r. split; [reflexivity | exact H].
  - intros [H | (l' & r' & Heq & H)]; [lia |].
    inversion Heq; subst. exact H.
Qed.

Lemma existsb_bad_range (rs : list (list Z)) :
  existsb bad_range rs = true <-> Exists invalid_range rs.
Proof.
  rewrite existsb_exists, Exists_exists. split.
  - intros (w & Hin & Hb). exists w. split; [| apply bad_range_invalid, Hb].
    apply list_elem_of_In, Hin.
  - intros (w & Hin & Hb). exists w. split; [| apply bad_range_invalid, Hb].
    apply list_elem_of_In, Hin.
Qed.

(** ** What cannot raise [ValueError] *)

Lemma quiet_ret {A} e (a : A) : quiet e (ret a).
Proof. intros σ. discriminate. Qed.

Lemma quiet_bind {A B} e (m : M A) (k : A -> M B) :
  quiet e m -> (forall a, quiet e (k a)) -> quiet e (bind m k).
Proof.
  intros Hm Hk σ. unfold bind. specialize (Hm σ).
  destruct (m σ) as [[a | e'] s']; [apply Hk |].
  simpl in *. congruence.
Qed.

Lemma quiet_lift {A} e (r : result A) : r <> Raise e -> quiet e (lift r).
Proof. intros Hr σ. exact Hr. Qed.

Lemma quiet_load e self : e <> RuntimeError -> quiet e (load self).
Proof.
  intros He σ. unfold load. destruct (σ !! self); simpl; congruence.
Qed.

Lemma quiet_save e self h : quiet e (save self h).
Proof. intros σ. discriminate. Qed.

Lemma quiet_modify e self f : e <> RuntimeError -> quiet e (modify self f).
Proof.
  intros He. apply quiet_bind; [apply quiet_load, He |].
  intros h. apply quiet_save.
Qed.

Lemma quiet_for_each {A} e (l : list A) (body : A -> M unit) :
  (forall a, quiet e (body a)) -> quiet e (for_each l body).
Proof.
  intros Hb. induction l as [| a l IH]; [apply quiet_ret |].
  apply quiet_bind; [apply Hb | intros _; exact IH].
Qed.

Lemma get_sum_w2_quiet h x y z : get_sum_w2 h x y z <> Raise ValueError.
Proof.
  unfold get_sum_w2.
  repeat (match goal with |- context [if ?b then _ else _] =>
            destruct b end; try discriminate).
Qed.

Lemma set_sum_w2_quiet h w x y z : set_sum_w2 h w x y z <> Raise ValueError.
Proof.
  unfold set_sum_w2.
  repeat (match goal with |- context [if ?b then _ else _] =>
            destruct b end; try discriminate).
Qed.

(** Moving one bin raises [RuntimeError] or [AssertionError] at most. *)
Lemma merge_bin_quiet self new_hist axis tr bin :
  quiet ValueError (merge_bin self new_hist axis tr bin).
Proof.
  unfold merge_bin.
  destruct (tuple_set _ _ _) as [[x y] z].
  apply quiet_bind; [apply quiet_load; discriminate | intros nh].
  apply quiet_bind.
  { unfold BinProxy.value. apply quiet_bind;
      [apply quiet_load; discriminate | intros ?; apply quiet_ret]. }
  intros v.
  apply quiet_bind; [apply quiet_modify; discriminate | intros _].
  apply quiet_bind; [apply quiet_load; discriminate | intros h].
  apply quiet_bind.
  { apply quiet_lift. destruct (BinProxy.xyz bin) as [[a b] c].
    apply get_sum_w2_quiet. }
  intros s.
  apply quiet_bind; [apply quiet_load; discriminate | intros nh2].
  apply quiet_bind; [apply quiet_lift, get_sum_w2_quiet | intros s2].
  apply quiet_bind; [apply quiet_lift, set_sum_w2_quiet | intros nh'].
  apply quiet_save.
Qed.

(** Once the checks have passed, nothing raises [ValueError]. *)
Lemma merge_fill_quiet (σ : store) self h bin_ranges axis :
  σ !! self = Some h -> wf_hist h = true ->
  0 <= axis < TH1.fDimension h ->
  fst (merge_fill self h bin_ranges axis σ) <> Raise ValueError.
Proof.
  intros Hs Hwf Hax.
  destruct (wf_hist_axes _ Hwf) as (Hd & Hx & Hy & Hz).
  assert (Hinc : increasing (merged_edges (axis_at h axis) bin_ranges) = true).
  { unfold merged_edges. apply keep_edges_increasing.
    apply axis_edges_increasing. unfold axis_at.
    destruct (axis =? 0); [exact Hx |].
    destruct (axis =? 1); [exact Hy | exact Hz]. }
  unfold merge_fill. unfold bind at 1.
  rewrite (new_binning_template_run _ _ _ _ _ Hs Hwf Hax Hinc).
  cbv beta iota.
  match goal with |- fst (?m ?s) <> _ =>
    generalize s; change (quiet ValueError m) end.
  apply quiet_bind; [apply quiet_load; discriminate | intros nh].
  apply quiet_bind.
  { apply quiet_for_each. intros b. apply merge_bin_quiet. }
  intros _.
  apply quiet_bind; [apply quiet_load; discriminate | intros h0].
  apply quiet_bind; [apply quiet_modify; discriminate | intros _].
  apply quiet_bind; [apply quiet_modify; discriminate | intros _].
  apply quiet_ret.
Qed.

Lemma windows_of_empty (n : Z) (bin_ranges : list (list Z)) :
  Forall (fun w => resolved n w = []) bin_ranges ->
  windows_of n bin_ranges = [].
Proof.
  unfold windows_of. induction 1 as [| w rs Hw _ IH]; [reflexivity |].
  rewrite fmap_cons, Hw, filter_cons_False by congruence. exact IH.
Qed.




(** ** Quantiles at bin edges *)

(** *** Sorted and without duplicates *)

Lemma filter_distinct (P : Q -> Prop) `{forall x, Decision (P x)}
    (l : list Q) :
  distinct l -> distinct (filter P l).
Proof.
  induction l as [| x l IH]; intros Hd; [exact I |].
  destruct Hd as [Hx Hd]. rewrite filter_cons.
  destruct (decide (P x)); [| apply IH, Hd].
  split; [| apply IH, Hd].
  apply Forall_forall. intros y Hy.
  apply list_elem_of_filter in Hy as [_ Hy].
  rewrite Forall_forall in Hx. apply Hx, Hy.
Qed.

Lemma set_floats_distinct (l : list Q) : distinct (set_floats l).
Proof.
  unfold set_floats. induction l as [| x l IH]; [exact I |].
  simpl. split; [| apply filter_distinct, IH].
  apply Forall_forall. intros y Hy.
  apply list_elem_of_filter in Hy as [Hy _].
  apply negb_true_iff in Hy. intros Heq.
  apply Qeq_bool_iff in Heq. congruence.
Qed.

Lemma set_floats_elem (l : list Q) (x : Q) : x ∈ set_floats l -> x ∈ l.
Proof.
  unfold set_floats. induction l as [| y l IH]; [auto |].
  simpl. intros Hx. apply elem_of_cons in Hx as [-> | Hx]; [left |].
  right. apply IH. apply list_elem_of_filter in Hx as [_ Hx]. exact Hx.
Qed.

Lemma insert_by_increasing (x : Q) (l : list Q) :
  increasing l = true -> Forall (fun y => ~ (x == y)%Q) l ->
  increasing (insert_by Qle_bool x l) = true.
Proof.
  induction l as [| y l IH]; intros Hl Hx; [reflexivity |].
  apply Forall_cons in Hx as [Hxy Hx].
  destruct (increasing_cons _ _ Hl) as [Hl' Hall].
  simpl. destruct (Qle_bool x y) eqn:E.
  - apply increasing_intro; [exact Hl |].
    apply Qle_bool_iff in E.
    assert (Hlt : (x < y)%Q).
    { apply Qle_lteq in E as [E | E]; [exact E | contradiction]. }
    constructor; [exact Hlt |].
    eapply Forall_impl; [exact Hall |].
    intros z Hz. simpl in Hz. eapply Qlt_trans; eassumption.
  - apply increasing_intro; [apply IH; assumption |].
    apply insert_by_Forall; [| exact Hall].
    apply Qle_bool_false. exact E.
Qed.

Lemma sorted_distinct_increasing (l : list Q) :
  distinct l -> increasing (sorted_floats l) = true.
Proof.
  unfold sorted_floats, sort_by.
  induction l as [| x l IH]; intros Hd; [reflexivity |].
  destruct Hd as [Hx Hd]. simpl.
  apply insert_by_increasing; [apply IH, Hd |].
  apply Forall_forall. intros y Hy. rewrite Forall_forall in Hx.
  apply Hx. rewrite <- (sort_by_perm Qle_bool l). exact Hy.
Qed.

(** [sorted(set(l))], and [np.unique(l)], is strictly increasing and made
    of values of [l]. *)
Lemma unique_increasing (l : list Q) : increasing (unique l) = true.
Proof. apply sorted_distinct_increasing, set_floats_distinct. Qed.

Lemma unique_elem (l : list Q) (x : Q) : x ∈ unique l -> x ∈ l.
Proof.
  unfold unique, sorted_floats. rewrite sort_by_perm. apply set_floats_elem.
Qed.

(** *** The integral of a histogram with a non-zero sum *)

Lemma running_length (acc : Q) (l : list Q) :
  length (TH1.running acc l) = length l.
Proof.
  revert acc. induction l as [| v l IH]; intros acc; [reflexivity |].
  simpl. rewrite IH. reflexivity.
Qed.

Lemma running_last (acc : Q) (l : list Q) :
  (default acc (last (TH1.running acc l)) == acc + total l)%Q.
Proof.
  revert acc. induction l as [| v l IH]; intros acc; simpl.
  - unfold total. simpl. ring.
  - specialize (IH (acc + v)%Q).
    destruct (TH1.running (acc + v) l) as [| w r] eqn:E.
    + destruct l; [| discriminate]. simpl. unfold total. simpl. ring.
    + change (last ((acc + v)%Q :: w :: r)) with (last (w :: r)).
      destruct (last (w :: r)) as [z |] eqn:El.
      * simpl in IH |- *. rewrite IH. unfold total. simpl. ring.
      * apply last_None in El. discriminate.
Qed.

Lemma bind_singleton {A B} (g : A -> B) (l : list A) :
  (x ← l; [g x]) = g <$> l.
Proof.
  induction l as [| a l IH]; [reflexivity |].
  change ((x ← a :: l; [g x])) with ([g a] ++ (x ← l; [g x])).
  rewrite IH. reflexivity.
Qed.

Lemma inner_contents_1d (h : TH1.t) :
  wf_hist h = true -> TH1.fDimension h = 1 ->
  length (TH1.inner_contents h) = Z.to_nat (TH1.GetNbinsX h).
Proof.
  intros Hwf Hd. unfold wf_hist in Hwf.
  repeat (apply andb_true_iff in Hwf as [Hwf ?]).
  rewrite Hd in *.
  assert (Hy : TH1.GetNbinsY h = 1) by lia.
  assert (Hz : TH1.GetNbinsZ h = 1) by lia.
  unfold TH1.inner_contents. rewrite Hy, Hz.
  change (seqZ 1 1) with [1].
  change (z ← [1]; y ← [1]; x ← seqZ 1 (TH1.GetNbinsX h);
          [TH1.GetBinContent h (TH1.GetBin h x y z)])
    with (((x ← seqZ 1 (TH1.GetNbinsX h);
            [TH1.GetBinContent h (TH1.GetBin h x 1 1)]) ++ []) ++ []).
  rewrite !app_nil_r, bind_singleton, length_fmap, length_seqZ.
  reflexivity.
Qed.

(** With a sum that is not zero the integral has [nbins + 2] slots and is
    1 at [nbins]. *)
Lemma GetIntegral_normalised (h : TH1.t) :
  wf_hist h = true -> TH1.fDimension h = 1 ->
  ~ (total (TH1.inner_contents h) == 0)%Q ->
  Z.of_nat (length (TH1.GetIntegral h)) = TH1.GetNbinsX h + 2
  /\ (TAxis.at_ (TH1.GetIntegral h) (TH1.GetNbinsX h) == 1)%Q.
Proof.
  intros Hwf Hd Hnz.
  pose proof (inner_contents_1d h Hwf Hd) as Hlen.
  destruct (wf_hist_axes _ Hwf) as (_ & Hx & _).
  pose proof (wf_axis_nbins _ Hx) as Hn.
  change (TAxis.fNbins (TH1.fXaxis h)) with (TH1.GetNbinsX h) in Hn.
  pose proof (running_last 0 (TH1.inner_contents h)) as Hlast.
  pose proof (running_length 0 (TH1.inner_contents h)) as Hrl.
  unfold TH1.GetIntegral.
  set (sums := TH1.running 0 (TH1.inner_contents h)) in *.
  set (T := default 0%Q (last sums)) in *.
  assert (HT : ~ (T == 0)%Q).
  { intros HT. apply Hnz. rewrite <- HT, Hlast. ring. }
  destruct (Qeq_bool T 0) eqn:E; [apply Qeq_bool_iff in E; contradiction |].
  split.
  - rewrite length_app, length_cons, length_fmap, Hrl, Hlen.
    cbn [length]. lia.
  - unfold TAxis.at_.
    destruct (Z.to_nat (TH1.GetNbinsX h)) as [| m] eqn:Em; [lia |].
    cbn [app nth].
    rewrite app_nth1 by (rewrite length_fmap, Hrl, Hlen; lia).
    rewrite nth_lookup, list_lookup_fmap.
    assert (Hm : last sums = sums !! m).
    { rewrite last_lookup, Hrl, Hlen. reflexivity. }
    unfold T in HT |- *. rewrite Hm in HT |- *.
    destruct (sums !! m) as [s |] eqn:Es; simpl in *.
    + field. exact HT.
    + exfalso. apply HT. reflexivity.
Qed.

(** *** The search of the fallback *)

Lemma advance_bound (integral : list Q) (quant : Q) (n : Z) (k : nat)
    (ibin : Z) :
  (quant <= TAxis.at_ integral n)%Q -> ibin <= n ->
  ibin <= advance integral quant ibin k <= n.
Proof.
  intros Hq. revert ibin. induction k as [| k IH]; intros ibin Hi; simpl.
  - destruct (negb _); lia.
  - destruct (negb (Qle_bool quant (TAxis.at_ integral ibin))) eqn:E;
      [| lia].
    apply negb_true_iff in E.
    assert (ibin <> n).
    { intros ->. apply Qle_bool_iff in Hq. congruence. }
    specialize (IH (ibin + 1) ltac:(lia)). lia.
Qed.

Lemma strict_loop_bins (h : TH1.t) (integral : list Q) (n : Z)
    (quantiles : list Q) (ibin : Z) :
  Forall (fun q => (q <= TAxis.at_ integral n)%Q) quantiles ->
  0 <= ibin <= n ->
  Forall (fun e => exists k, 1 <= k <= n + 1 /\ e = TH1.GetBinLowEdge h k)
         (strict_loop h integral n quantiles ibin).
Proof.
  intros Hq. revert ibin. induction Hq as [| q qs Hq _ IH]; intros ibin Hi;
    [constructor |].
  cbn [strict_loop].
  pose proof (advance_bound integral q n (Z.to_nat (n + 1 - ibin)) ibin
                Hq ltac:(lia)) as Hb.
  set (i := advance integral q ibin (Z.to_nat (n + 1 - ibin))) in *.
  destruct (n + 1 <=? i) eqn:E; [lia |].
  constructor; [exists (i + 1); split; [lia | reflexivity] |].
  apply IH. lia.
Qed.

(** *** Bin edges *)

Lemma is_edge_at (h : TH1.t) (e : Q) (k : Z) :
  wf_hist h = true -> 0 <= k <= TH1.GetNbinsX h ->
  (e == edge_at (TH1.fXaxis h) k)%Q -> is_edge h e.
Proof.
  intros Hwf Hk He. destruct (wf_hist_axes _ Hwf) as (_ & Hx & _).
  unfold is_edge. rewrite (axis_edges_eq _ Hx).
  apply Exists_exists. exists (edge_at (TH1.fXaxis h) k).
  split; [| exact He].
  apply list_elem_of_fmap. exists k. split; [reflexivity |].
  apply elem_of_seqZ. unfold TH1.GetNbinsX in Hk. lia.
Qed.

(** The upper edge of the last bin, by the formula for fixed widths. *)
Lemma last_edge_fixed (a : TAxis.t) :
  wf_axis a = true ->
  (TAxis.fXmin a + inject_Z (TAxis.fNbins a) * TAxis.binwidth a
   == edge_at a (TAxis.fNbins a))%Q.
Proof.
  intros Hwf. pose proof (wf_axis_nbins _ Hwf) as Hn.
  unfold edge_at, TAxis.variable.
  destruct (TAxis.fXbins a) as [| x l] eqn:Hb; [reflexivity |].
  unfold wf_axis in Hwf. rewrite Hb in Hwf. cbv beta iota in Hwf.
  apply andb_true_iff in Hwf as [_ Hwf].
  apply andb_true_iff in Hwf as [_ Hmax].
  apply Qeq_bool_iff in Hmax. rewrite Hmax.
  unfold TAxis.binwidth. field.
  intros H0. unfold Qeq in H0. simpl in H0. lia.
Qed.

Lemma low_edge_at (a : TAxis.t) (k : Z) :
  wf_axis a = true -> 1 <= k <= TAxis.fNbins a + 1 ->
  (TAxis.GetBinLowEdge a k == edge_at a (k - 1))%Q.
Proof.
  intros Hwf Hk. unfold TAxis.GetBinLowEdge, edge_at.
  destruct (TAxis.variable a) eqn:Hv; [| reflexivity].
  cbn [andb]. replace (0 <? k) with true by lia. cbn [andb].
  destruct (k <=? TAxis.fNbins a) eqn:E; [reflexivity |].
  assert (k = TAxis.fNbins a + 1) as -> by lia.
  replace (TAxis.fNbins a + 1 - 1) with (TAxis.fNbins a) by lia.
  pose proof (last_edge_fixed a Hwf) as Hl.
  unfold edge_at in Hl. rewrite Hv in Hl. exact Hl.
Qed.

Lemma low_edge_is_edge (h : TH1.t) (k : Z) :
  wf_hist h = true -> TH1.fDimension h = 1 ->
  1 <= k <= TH1.GetNbinsX h + 1 -> is_edge h (TH1.GetBinLowEdge h k).
Proof.
  intros Hwf Hd Hk. destruct (wf_hist_axes _ Hwf) as (_ & Hx & _).
  apply (is_edge_at h _ (k - 1) Hwf); [lia |].
  unfold TH1.GetBinLowEdge. rewrite Hd. change (1 =? 1) with true.
  cbv iota. apply low_edge_at; [exact Hx | exact Hk].
Qed.

(** *** The search with NumPy *)

Lemma bisect_left_bound (fuel : nat) (a : list Q) (v : Q) (lo hi : Z) :
  lo <= hi ->
  let r := bisect_left fuel a v lo hi in
  lo <= r <= hi
  /\ (r = hi -> lo = hi \/ (TAxis.at_ a (hi - 1) < v)%Q).
Proof.
  revert lo hi. induction fuel as [| fuel IH]; intros lo hi Hle; simpl.
  - split; [lia | intros ->; left; reflexivity].
  - destruct (lo <? hi) eqn:E; [| split; [lia | intros _; left; lia]].
    assert (Hmid : lo <= (lo + hi) / 2 < hi).
    { split; [apply Z.div_le_lower_bound; lia
             | apply Z.div_lt_upper_bound; lia]. }
    set (mid := (lo + hi) / 2) in *.
    destruct (negb (Qle_bool v (TAxis.at_ a mid))) eqn:Ec.
    + destruct (IH (mid + 1) hi ltac:(lia)) as [Hr Hhi].
      split; [lia |]. intros Heq. right.
      destruct (Hhi Heq) as [Hm | Hlt]; [| exact Hlt].
      replace (hi - 1) with mid by lia.
      apply negb_true_iff, Qle_bool_false in Ec. exact Ec.
    + destruct (IH lo mid ltac:(lia)) as [Hr _].
      split; [lia |]. intros Heq. lia.
Qed.

Lemma searchsorted_bound (a : list Q) (vs : list Q) (n : Z) :
  Z.of_nat (length a) = n + 1 -> 0 <= n ->
  Forall (fun v => (v <= TAxis.at_ a n)%Q) vs ->
  Forall (fun i => 0 <= i <= n) (searchsorted a vs).
Proof.
  intros Hlen Hn Hvs. unfold searchsorted.
  apply Forall_fmap. eapply Forall_impl; [exact Hvs |].
  intros v Hv. unfold compose.
  destruct (bisect_left_bound (S (length a)) a v 0 (Z.of_nat (length a))
              ltac:(lia)) as [Hr Hhi].
  cbv zeta in Hr, Hhi. split; [lia |].
  destruct (Z.eq_dec (bisect_left (S (length a)) a v 0 (Z.of_nat (length a)))
                     (Z.of_nat (length a))) as [Heq | Hne]; [| lia].
  destruct (Hhi Heq) as [H0 | Hlt]; [lia |].
  replace (Z.of_nat (length a) - 1) with n in Hlt by lia.
  exfalso. apply (Qlt_not_le _ _ Hlt), Hv.
Qed.

Lemma take_at_run (a : list Q) (idx : list Z) :
  Forall (fun i => 0 <= i < Z.of_nat (length a)) idx ->
  take_at a idx = Ok (TAxis.at_ a <$> idx).
Proof.
  induction 1 as [| i idx Hi _ IH]; [reflexivity |].
  cbn [take_at]. rewrite IH.
  replace (i <? - Z.of_nat (length a)) with false by lia.
  replace (Z.of_nat (length a) <=? i) with false by lia.
  replace (i <? 0) with false by lia. reflexivity.
Qed.

(** What [GetLowEdge] leaves in an array that is long enough. *)
Lemma fill_run (g : Z -> Q) (m : nat) (e : list Q) :
  (m <= length e)%nat ->
  let r := foldl (fun e i => TH1.SetAtRaw e (g i) i) e (seqZ 0 (Z.of_nat m)) in
  length r = length e
  /\ (forall i, (i < m)%nat -> r !! i = Some (g (Z.of_nat i)))
  /\ (forall i, (m <= i)%nat -> r !! i = e !! i).
Proof.
  induction m as [| m IH]; intros Hm; [simpl; auto with lia |].
  destruct (IH ltac:(lia)) as (Hlen & Hlo & Hhi). cbv zeta in *.
  set (r := foldl _ e (seqZ 0 (Z.of_nat m))) in *.
  assert (Hstep : foldl (fun e i => TH1.SetAtRaw e (g i) i) e
                    (seqZ 0 (Z.of_nat (S m)))
                  = <[m := g (Z.of_nat m)]> r).
  { rewrite seqZ_S, foldl_app. fold r. cbn [foldl]. unfold TH1.SetAtRaw.
    change (0 + Z.of_nat m) with (Z.of_nat m). rewrite Nat2Z.id.
    reflexivity. }
  rewrite Hstep.
  split; [rewrite length_insert; exact Hlen |]. split.
  - intros i Hi. destruct (decide (i = m)) as [-> | Hne].
    + apply list_lookup_insert_eq. lia.
    + rewrite list_lookup_insert_ne by congruence. apply Hlo. lia.
  - intros i Hi. rewrite list_lookup_insert_ne by lia. apply Hhi. lia.
Qed.

Lemma last_width (a : TAxis.t) :
  wf_axis a = true ->
  (edge_at a (TAxis.fNbins a - 1) + TAxis.GetBinWidth a (TAxis.fNbins a)
   == edge_at a (TAxis.fNbins a))%Q.
Proof.
  intros Hwf. pose proof (wf_axis_nbins _ Hwf) as Hn.
  unfold edge_at, TAxis.GetBinWidth.
  replace (TAxis.fNbins a <=? 0) with false by lia.
  destruct (TAxis.variable a); cbn [negb].
  - replace (TAxis.fNbins a <? TAxis.fNbins a) with false by lia.
    replace (TAxis.fNbins a <? 1) with false by lia. ring.
  - assert (He : (inject_Z (TAxis.fNbins a)
                  == inject_Z (TAxis.fNbins a - 1) + 1)%Q).
    { unfold Qeq. simpl. lia. }
    rewrite He. ring.
Qed.

(** The array of edges that the NumPy path builds holds the edges. *)
Lemma numpy_edges (h : TH1.t) :
  wf_hist h = true -> TH1.fDimension h = 1 ->
  let n := TH1.GetNbinsX h in
  let edges := TH1.GetLowEdge h (repeat 0%Q (Z.to_nat (n + 1))) in
  let edges' := TH1.SetAtRaw edges
                  (TAxis.at_ edges (Z.of_nat (length edges) - 2)
                   + TH1.GetBinWidth h n)%Q
                  (Z.of_nat (length edges) - 1) in
  Z.of_nat (length edges) = n + 1
  /\ Z.of_nat (length edges') = n + 1
  /\ forall i, 0 <= i <= n -> is_edge h (TAxis.at_ edges' i).
Proof.
  intros Hwf Hd n edges edges'.
  destruct (wf_hist_axes _ Hwf) as (_ & Hx & _).
  pose proof (wf_axis_nbins _ Hx) as Hn.
  change (TAxis.fNbins (TH1.fXaxis h)) with n in Hn.
  destruct (fill_run (fun i => TAxis.GetBinLowEdge (TH1.fXaxis h) (i + 1))
              (Z.to_nat n) (repeat 0%Q (Z.to_nat (n + 1))))
    as (Hlen & Hlo & _).
  { rewrite repeat_length. lia. }
  cbv zeta in Hlen, Hlo. rewrite Z2Nat.id in Hlen, Hlo by lia.
  change (foldl _ _ (seqZ 0 n)) with edges in Hlen, Hlo.
  rewrite repeat_length in Hlen.
  assert (Hl : Z.of_nat (length edges) = n + 1) by lia.
  split; [exact Hl |].
  split; [unfold edges', TH1.SetAtRaw; rewrite length_insert; exact Hl |].
  intros i Hi. unfold edges', TH1.SetAtRaw, TAxis.at_.
  rewrite Hl. replace (n + 1 - 1) with n by lia.
  replace (n + 1 - 2) with (n - 1) by lia.
  rewrite !nth_lookup.
  destruct (Z.eq_dec i n) as [-> | Hne].
  - rewrite list_lookup_insert_eq by lia.
    rewrite (Hlo (Z.to_nat (n - 1))) by lia. cbn [default].
    rewrite Z2Nat.id by lia. replace (n - 1 + 1) with n by lia.
    apply (is_edge_at h _ n Hwf); [lia |].
    unfold TH1.GetBinWidth. rewrite Hd. change (1 =? 1) with true.
    cbv iota. fold n. unfold id.
    pose proof (low_edge_at _ n Hx
                  ltac:(change (TAxis.fNbins (TH1.fXaxis h)) with n; lia))
      as Hlow.
    rewrite Hlow. apply (last_width _ Hx).
  - rewrite list_lookup_insert_ne by lia.
    rewrite (Hlo (Z.to_nat i)) by lia. cbn [default].
    rewrite Z2Nat.id by lia. unfold id.
    apply (is_edge_at h _ i Hwf); [lia |].
    pose proof (low_edge_at _ (i + 1) Hx
                  ltac:(change (TAxis.fNbins (TH1.fXaxis h)) with n; lia))
      as Hlow.
    replace (i + 1 - 1) with i in Hlow by lia. exact Hlow.
Qed.

(** With [strict=True] a result is always strictly increasing: sorted and
    without duplicates. *)
Lemma quantiles_strict_sorted (gq : TH1.t -> list Q -> list Q) (h : TH1.t)
    (use_numpy : bool) (qa : quantiles_arg) (out : list Q) :
  quantiles gq h use_numpy qa true false = Ok out -> increasing out = true.
Proof.
  unfold quantiles. cbv iota.
  destruct (nbins h 0) as [n | e]; [| discriminate]. cbn [rbind].
  destruct use_numpy.
  - destruct (_ <? 2); [discriminate |]. cbn [rbind].
    destruct (take_at _ _) as [l | e]; [| discriminate]. cbn [rbind].
    intros [= <-]. apply unique_increasing.
  - intros [= <-]. apply unique_increasing.
Qed.

(** For a one-dimensional histogram whose contents do not sum to zero and
    probabilities not above 1, [quantiles] with [strict=True] returns, with
    NumPy and without, a strictly increasing list of bin edges. *)
Lemma quantiles_strict_edges (gq : TH1.t -> list Q -> list Q) (h : TH1.t)
    (use_numpy : bool) (qs : list Q) :
  wf_hist h = true -> TH1.fDimension h = 1 ->
  ~ (total (TH1.inner_contents h) == 0)%Q ->
  Forall (fun q => (q <= 1)%Q) qs ->
  exists out,
    quantiles gq h use_numpy (QList qs) true false = Ok out
    /\ increasing out = true /\ Forall (is_edge h) out.
Proof.
  intros Hwf Hd Hnz Hqs.
  destruct (GetIntegral_normalised h Hwf Hd Hnz) as [Hilen Hone].
  destruct (wf_hist_axes _ Hwf) as (_ & Hx & _).
  pose proof (wf_axis_nbins _ Hx) as Hn.
  change (TAxis.fNbins (TH1.fXaxis h)) with (TH1.GetNbinsX h) in Hn.
  assert (Hrun : exists out,
            quantiles gq h use_numpy (QList qs) true false = Ok out
            /\ Forall (is_edge h) out).
  { unfold quantiles. cbv iota.
    change (nbins h 0) with (Ok (TH1.GetNbinsX h)). cbn [rbind].
    set (n := TH1.GetNbinsX h) in *.
    destruct use_numpy.
    - destruct (numpy_edges h Hwf Hd) as (Hl & Hl' & Hedges).
      cbv zeta in Hl, Hl', Hedges. fold n in Hl, Hl', Hedges.
      set (edges := TH1.GetLowEdge h (repeat 0%Q (Z.to_nat (n + 1)))) in *.
      replace (Z.of_nat (length edges) <? 2) with false by lia.
      cbn [rbind].
      set (edges' := TH1.SetAtRaw edges _ _) in *.
      set (integral := firstn (Z.to_nat (n + 1)) (TH1.GetIntegral h)).
      assert (Hidx : Forall (fun i => 0 <= i <= n)
                       (searchsorted integral qs)).
      { apply searchsorted_bound; [| lia |].
        - unfold integral. rewrite length_take. lia.
        - eapply Forall_impl; [exact Hqs |]. intros q Hq. simpl.
          unfold integral, TAxis.at_. rewrite !nth_lookup.
          rewrite lookup_take_lt by lia.
          rewrite <- nth_lookup. fold (TAxis.at_ (TH1.GetIntegral h) n).
          rewrite Hone. exact Hq. }
      rewrite take_at_run
        by (eapply Forall_impl; [exact Hidx |]; intros i Hi; cbv beta in *;
            lia).
      cbn [rbind]. eexists. split; [reflexivity |].
      apply Forall_forall. intros x Hin. apply unique_elem in Hin.
      apply list_elem_of_fmap in Hin as (i & -> & Hi).
      rewrite Forall_forall in Hidx. apply Hedges, Hidx, Hi.
    - eexists. split; [reflexivity |].
      apply Forall_forall. intros x Hin. apply unique_elem in Hin.
      assert (Hall : Forall
                (fun e => exists k, 1 <= k <= n + 1
                                    /\ e = TH1.GetBinLowEdge h k)
                (strict_loop h (TH1.GetIntegral h) n
                   (sorted_floats (set_floats qs)) 0)).
      { apply strict_loop_bins; [| lia].
        apply Forall_forall. intros q Hq. apply unique_elem in Hq.
        rewrite Forall_forall in Hqs. rewrite Hone. apply Hqs, Hq. }
      rewrite Forall_forall in Hall.
      destruct (Hall x Hin) as (k & Hk & ->).
      apply low_edge_is_edge; [exact Hwf | exact Hd | exact Hk]. }
  destruct Hrun as (out & Hrun & Hedges).
  exists out. split; [exact Hrun |]. split; [| exact Hedges].
  apply (quantiles_strict_sorted _ _ _ _ _ Hrun).
Qed.

(** The quartiles and the median of the sample histogram, whose inner
    contents are 2, 3, 4 and 5 on the bins of [0, 4]: the edges 0, 2, 3, 4
    and the edge 3 (the fractions are not reduced). *)
Example quantiles_demo (gq : TH1.t -> list Q -> list Q) :
  quantiles gq demo_hist false (QInt 5) true false
  = Ok [0 # 4; 8 # 4; 12 # 4; 16 # 4]
  /\ quantiles gq demo_hist true (QList [1 # 2]) true false = Ok [12 # 4].
Proof. split; vm_compute; reflexivity. Qed.

(** C3 fails on the code.  [quantiles] with [strict=True] is asked for the
    median of an empty histogram with one bin on [0, 1], whose edges are 0
    and 1.  The integral is 0 in every slot, so the search of the fallback
    runs up to [nbins + 1] and the low edge of bin [nbins + 2] comes back:
    2, which is no edge of the histogram.  With NumPy the same search gives
    the index [nbins + 1], which [take] refuses with [IndexError]. *)
Theorem quantiles_strict_empty (gq : TH1.t -> list Q -> list Q) :
  wf_hist demo_empty = true
  /\ TH1.GetDimension demo_empty = 1
  /\ TH1.GetIntegral demo_empty = [0; 0; 0]%Q
  /\ _edges demo_empty 0 false = Ok [Fin 0; Fin 1]
  /\ quantiles gq demo_empty false (QList [1 # 2]) true false = Ok [2%Q]
  /\ ~ is_edge demo_empty 2
  /\ quantiles gq demo_empty true (QList [1 # 2]) true false
     = Raise IndexError.
Proof.
  repeat split; try reflexivity.
  intros H. apply Exists_exists in H as (e & He & Heq).
  change (axis_edges (TH1.fXaxis demo_empty)) with [0; 1]%Q in He.
  apply elem_of_cons in He as [-> | He]; [discriminate |].
  apply elem_of_cons in He as [-> | He]; [discriminate |].
  inversion He.
Qed.

(** ** Centers, widths and edges of bins *)

Lemma edge_at_step (a : TAxis.t) (k : Z) :
  wf_axis a = true -> 0 <= k < TAxis.fNbins a ->
  (edge_at a k < edge_at a (k + 1))%Q.
Proof.
  intros Hwf Hk. unfold edge_at. pose proof (binwidth_pos _ Hwf) as Hw.
  unfold wf_axis, TAxis.variable in *.
  destruct (TAxis.fXbins a) as [| e l] eqn:Hb.
  - apply Qplus_lt_r. apply Qmult_lt_r; [exact Hw |].
    rewrite <- Zlt_Qlt. lia.
  - apply andb_true_iff in Hwf as [_ Hwf].
    apply andb_true_iff in Hwf as [Hwf _].
    apply andb_true_iff in Hwf as [Hwf _].
    apply andb_true_iff in Hwf as [Hlen Hinc]. apply Z.eqb_eq in Hlen.
    unfold TAxis.at_.
    replace (Z.to_nat (k + 1)) with (S (Z.to_nat k)) by lia.
    apply increasing_nth; [exact Hinc | lia].
Qed.

Lemma up_edge_at (a : TAxis.t) (k : Z) :
  1 <= k <= TAxis.fNbins a -> TAxis.GetBinUpEdge a k = edge_at a k.
Proof.
  intros Hk. unfold TAxis.GetBinUpEdge, edge_at.
  destruct (TAxis.variable a); cbn [negb orb]; [| reflexivity].
  replace (k <? 1) with false by lia.
  replace (TAxis.fNbins a <? k) with false by lia. reflexivity.
Qed.

Lemma inject_Z_pred (k : Z) : (inject_Z (k - 1) == inject_Z k - 1)%Q.
Proof. unfold Qeq. simpl. lia. Qed.

Lemma width_edge_at (a : TAxis.t) (k : Z) :
  1 <= k <= TAxis.fNbins a ->
  (TAxis.GetBinWidth a k == edge_at a k - edge_at a (k - 1))%Q.
Proof.
  intros Hk. unfold TAxis.GetBinWidth, edge_at.
  replace (TAxis.fNbins a <=? 0) with false by lia.
  destruct (TAxis.variable a); cbn [negb].
  - replace (TAxis.fNbins a <? k) with false by lia.
    replace (k <? 1) with false by lia. reflexivity.
  - rewrite inject_Z_pred. ring.
Qed.

Lemma center_edge_at (a : TAxis.t) (k : Z) :
  1 <= k <= TAxis.fNbins a ->
  (TAxis.GetBinCenter a k == (edge_at a (k - 1) + edge_at a k) / 2)%Q.
Proof.
  intros Hk. unfold TAxis.GetBinCenter, edge_at.
  assert (H2 : (/ 2 == 1 # 2)%Q) by reflexivity.
  unfold Qdiv. rewrite H2.
  destruct (TAxis.variable a); cbn [negb orb].
  - replace (k <? 1) with false by lia.
    replace (TAxis.fNbins a <? k) with false by lia. cbn [orb]. ring.
  - rewrite inject_Z_pred. ring.
Qed.

Lemma first_edge (a : TAxis.t) :
  wf_axis a = true -> (edge_at a 0 == TAxis.fXmin a)%Q.
Proof.
  intros Hwf. unfold edge_at, TAxis.variable.
  destruct (TAxis.fXbins a) as [| x l] eqn:Hb.
  - change (inject_Z 0) with 0%Q. ring.
  - unfold wf_axis in Hwf. rewrite Hb in Hwf. cbv beta iota in Hwf.
    apply andb_true_iff in Hwf as [_ Hwf].
    apply andb_true_iff in Hwf as [Hwf _].
    apply andb_true_iff in Hwf as [_ Hmin].
    apply Qeq_bool_iff in Hmin. exact Hmin.
Qed.

Lemma last_edge (a : TAxis.t) :
  wf_axis a = true -> (edge_at a (TAxis.fNbins a) == TAxis.fXmax a)%Q.
Proof.
  intros Hwf. pose proof (wf_axis_nbins _ Hwf) as Hn.
  rewrite <- (last_edge_fixed a Hwf). unfold TAxis.binwidth. field.
  intros H0. unfold Qeq in H0. simpl in H0. lia.
Qed.

Lemma nbins_axis_ok (h : TH1.t) (axis : Z) :
  wf_hist h = true -> 0 <= axis <= 2 ->
  nbins h axis = Ok (TAxis.fNbins (axis_at h axis))
  /\ axis_ h axis = Ok (axis_at h axis)
  /\ wf_axis (axis_at h axis) = true
  /\ 1 <= TAxis.fNbins (axis_at h axis).
Proof.
  intros Hwf Hax. destruct (axis_at_ok h axis Hax) as [Ha Hn].
  pose proof (wf_axis_at h axis Hwf) as Hw.
  pose proof (wf_axis_nbins _ Hw). auto.
Qed.

(** Python indexing into a list of [n] items framed by two more. *)
Lemma index_framed {A} (a b : A) (f : Z -> A) (n i : Z) :
  0 <= n -> - (n + 2) <= i < n + 2 ->
  py_index ([a] ++ (f <$> py_range 1 (n + 1) 1) ++ [b]) i
  = Ok (let j := i mod (n + 2) in
        if j =? 0 then a else if j =? n + 1 then b else f j).
Proof.
  intros Hn Hi. rewrite py_range_up.
  replace (n + 1 - 1) with n by lia.
  unfold py_index.
  rewrite !length_app, length_fmap, length_seqZ. cbn [length].
  replace (Z.of_nat (1 + (Z.to_nat n + 1))) with (n + 2) by lia.
  set (j := if i <? 0 then i + (n + 2) else i).
  assert (Hj : i mod (n + 2) = j /\ 0 <= j < n + 2).
  { unfold j. destruct (i <? 0) eqn:E.
    - split; [| lia]. symmetry. apply (Z.mod_unique _ _ (-1)); lia.
    - split; [| lia]. apply Z.mod_small. lia. }
  destruct Hj as [-> Hj].
  replace ((j <? 0) || (n + 2 <=? j)) with false by lia.
  cbv zeta.
  destruct (j =? 0) eqn:E0.
  { assert (j = 0) as -> by lia. reflexivity. }
  rewrite (lookup_app_r [a]) by (cbn [length]; lia).
  cbn [length].
  destruct (j =? n + 1) eqn:E1.
  - rewrite lookup_app_r by (rewrite length_fmap, length_seqZ; lia).
    rewrite length_fmap, length_seqZ.
    replace (Z.to_nat j - 1 - Z.to_nat n)%nat with 0%nat by lia.
    reflexivity.
  - rewrite lookup_app_l by (rewrite length_fmap, length_seqZ; lia).
    rewrite list_lookup_fmap, lookup_seqZ_lt by lia.
    cbn [fmap option_fmap option_map]. f_equal. f_equal. lia.
Qed.

(** The indexed forms of [_centers], [_width], [_erravg] and [_err] answer
    what Python indexing, negative indices included, finds in the list of
    the generator with the overflow bins. *)
Theorem accessors_index (h : TH1.t) (axis i : Z) :
  wf_hist h = true -> 0 <= axis <= 2 ->
  let n := TAxis.fNbins (axis_at h axis) in
  - (n + 2) <= i < n + 2 ->
  _centers_at h axis i = rbind (_centers h axis true) (fun l => py_index l i)
  /\ _width_at h axis i = rbind (_width h axis true) (fun l => py_index l i)
  /\ _erravg_at h axis i
     = rbind (_erravg h axis true) (fun l => py_index l i)
  /\ _err_at h axis i = rbind (_err h axis true) (fun l => py_index l i).
Proof.
  intros Hwf Hax n Hi.
  destruct (nbins_axis_ok h axis Hwf Hax) as (Hn & Ha & _ & Hn1).
  fold n in Hn, Hn1.
  unfold _centers_at, _centers, _width_at, _width, _erravg_at, _erravg,
    _err_at, _err.
  rewrite Hn, Ha. cbn [rbind].
  replace (n + 2 =? 0) with false by lia.
  rewrite !index_framed by lia. cbv zeta.
  repeat split.
  - repeat (destruct (_ =? _)); reflexivity.
  - repeat (destruct (_ =? _)); reflexivity.
  - repeat (destruct (_ =? _)); reflexivity.
  - repeat (destruct (_ =? _)); reflexivity.
Qed.

Lemma accessors_index_witness :
  _width_at demo_hist 0 (-1)
  = rbind (_width demo_hist 0 true) (fun l => py_index l (-1)).
Proof.
  refine (proj1 (proj2 (accessors_index demo_hist 0 (-1) _ _ _)));
    [reflexivity | lia |];
  vm_compute; split; [intros H; discriminate H | reflexivity].
Defined.

Lemma edges_list (a : TAxis.t) :
  1 <= TAxis.fNbins a ->
  (Fin <$> low_edges a (TAxis.fNbins a))
    ++ [Fin (TAxis.GetBinUpEdge a (TAxis.fNbins a))]
  = (fun j => if j =? TAxis.fNbins a + 1
              then Fin (TAxis.GetBinUpEdge a (TAxis.fNbins a))
              else Fin (TAxis.GetBinLowEdge a j))
      <$> py_range 1 (TAxis.fNbins a + 1 + 1) 1.
Proof.
  intros Hn. unfold low_edges. rewrite !py_range_up.
  replace (TAxis.fNbins a + 1 - 1) with (TAxis.fNbins a) by lia.
  replace (TAxis.fNbins a + 1 + 1 - 1) with (TAxis.fNbins a + 1) by lia.
  rewrite (seqZ_app 1 (TAxis.fNbins a) 1) by lia. rewrite fmap_app.
  f_equal.
  - rewrite <- list_fmap_compose. apply list_fmap_ext. intros i k Hk.
    apply lookup_seqZ in Hk as [-> Hi]. simpl.
    replace (1 + Z.of_nat i =? TAxis.fNbins a + 1) with false by lia.
    reflexivity.
  - rewrite seqZ_cons by lia. rewrite seqZ_nil by lia. simpl.
    replace (1 + TAxis.fNbins a =? TAxis.fNbins a + 1) with true by lia.
    reflexivity.
Qed.



(** For an axis of the histogram, [lowerbound] is minus infinity and
    [upperbound] plus infinity, whatever the edges. *)
Theorem bounds_infinite (h : TH1.t) (axis : Z) :
  wf_hist h = true -> 0 <= axis < TH1.fDimension h ->
  lowerbound h axis = Ok (ObjFloat NegInf)
  /\ upperbound h axis = Ok (ObjFloat PosInf).
Proof.
  intros Hwf Hax. destruct (wf_hist_axes _ Hwf) as (Hd & _).
  destruct (nbins_axis_ok h axis Hwf ltac:(lia)) as (Hn & Ha & _ & Hn1).
  set (n := TAxis.fNbins (axis_at h axis)) in *.
  assert (Hlo : _edges_at h axis 0 = Ok NegInf).
  { unfold _edges_at. rewrite Hn, Ha. cbn [rbind].
    replace (n + 3 =? 0) with false by lia. reflexivity. }
  assert (Hup : _edges_at h axis (-1) = Ok PosInf).
  { unfold _edges_at. rewrite Hn, Ha. cbn [rbind].
    replace (n + 3 =? 0) with false by lia.
    replace (-1 mod (n + 3)) with (n + 2)
      by (apply (Z.mod_unique _ _ (-1)); lia).
    cbv zeta. replace (n + 2 =? 0) with false by lia.
    rewrite Z.eqb_refl. reflexivity. }
  unfold lowerbound, upperbound, xedges, yedges, zedges, dim,
    TH1.GetDimension.
  assert (axis = 0 \/ axis = 1 \/ axis = 2) as [-> | [-> | ->]] by lia;
    cbn [Z.eqb Pos.eqb].
  - rewrite Hlo, Hup. auto.
  - replace (2 <=? TH1.fDimension h) with true by lia.
    rewrite Hlo, Hup. auto.
  - replace (3 <=? TH1.fDimension h) with true by lia.
    rewrite Hlo, Hup. auto.
Qed.

Lemma bounds_infinite_witness :
  lowerbound demo_hist 0 = Ok (ObjFloat NegInf)
  /\ upperbound demo_hist 0 = Ok (ObjFloat PosInf).
Proof.
  apply (bounds_infinite demo_hist 0); [reflexivity | vm_compute].
  split; [intros H; discriminate H | reflexivity].
Defined.







(** ** Assignment to bins *)

Lemma modify_run (σ : store) self h (f : TH1.t -> TH1.t) :
  σ !! self = Some h -> modify self f σ = (Ok tt, <[self := f h]> σ).
Proof.
  intros Hs. unfold modify. rewrite (bind_load _ _ _ _ Hs). reflexivity.
Qed.

Lemma set_content_other (h : TH1.t) (i j : Z) (v : Q) :
  0 <= i -> 0 <= j < TH1.GetSize h -> i <> j ->
  TH1.GetBinContent (TH1.SetBinContent h i v) j = TH1.GetBinContent h j.
Proof.
  intros Hi Hj Hne. unfold TH1.SetBinContent.
  replace (i <? 0) with false by lia.
  destruct (_ <=? i); [reflexivity |].
  unfold TH1.GetBinContent, TH1.cell, TH1.GetSize in *. simpl.
  rewrite length_insert.
  replace (j <? 0) with false by lia.
  replace (Z.of_nat (length (TH1.fArray h)) <=? j) with false by lia.
  apply at_insert_ne; lia.
Qed.

Lemma set_content_size (h : TH1.t) (i : Z) (v : Q) :
  TH1.GetSize (TH1.SetBinContent h i v) = TH1.GetSize h.
Proof.
  unfold TH1.SetBinContent, TH1.GetSize.
  destruct (i <? 0); [reflexivity |].
  destruct (_ <=? i); [reflexivity |]. simpl. rewrite length_insert.
  reflexivity.
Qed.

Lemma getitem_value (σ : store) self h (j : Z) :
  σ !! self = Some h -> 0 <= j < TH1.GetSize h ->
  bind (__getitem__ self (IInt j))
       (fun it => match it with
                  | Bin b => BinProxy.value b
                  | BinList _ => throw TypeError
                  end) σ
  = (Ok (TH1.GetBinContent h j), σ).
Proof.
  intros Hs Hj. unfold __getitem__.
  unfold bind at 1. rewrite (bind_load _ _ _ _ Hs).
  unfold _range_check.
  replace ((0 <=? j) && (j <? TH1.GetSize h)) with true by lia.
  cbn [negb]. unfold bind, lift. rewrite (proxy_init _ _ _ _ Hs).
  unfold ret, BinProxy.value, bind, load. cbn [BinProxy.hist BinProxy.idx].
  rewrite Hs. reflexivity.
Qed.



Lemma assigned_size (h : TH1.t) (ivs : list (Z * Q)) :
  TH1.GetSize (assigned h ivs) = TH1.GetSize h.
Proof.
  revert h. induction ivs as [| [i v] ivs IH]; intros h; [reflexivity |].
  cbn [assigned foldl fst snd]. fold (assigned (TH1.SetBinContent h i v) ivs).
  rewrite IH. apply set_content_size.
Qed.

Lemma assigned_other (h : TH1.t) (ivs : list (Z * Q)) (j : Z) :
  Forall (fun iv => 0 <= fst iv) ivs -> 0 <= j < TH1.GetSize h ->
  j ∉ (fst <$> ivs) ->
  TH1.GetBinContent (assigned h ivs) j = TH1.GetBinContent h j.
Proof.
  revert h. induction ivs as [| [i v] ivs IH]; intros h Hall Hj Hnot;
    [reflexivity |].
  apply Forall_cons in Hall as [Hi Hall]. cbn [fst] in Hi.
  rewrite fmap_cons in Hnot. apply not_elem_of_cons in Hnot as [Hne Hnot].
  cbn [assigned foldl fst snd]. fold (assigned (TH1.SetBinContent h i v) ivs).
  rewrite IH; [| exact Hall | rewrite set_content_size; exact Hj | exact Hnot].
  apply set_content_other; [exact Hi | exact Hj | cbn [fst] in Hne; lia].
Qed.

Lemma assigned_at (h : TH1.t) (ivs : list (Z * Q)) (k : nat) (i : Z)
    (v : Q) :
  Forall (fun iv => 0 <= fst iv < TH1.GetSize h) ivs ->
  NoDup (fst <$> ivs) -> ivs !! k = Some (i, v) ->
  TH1.GetBinContent (assigned h ivs) i = v.
Proof.
  revert h k. induction ivs as [| [i0 v0] ivs IH]; intros h k Hall Hnd Hk;
    [discriminate |].
  apply Forall_cons in Hall as [Hi Hall]. cbn [fst] in Hi.
  rewrite fmap_cons in Hnd. apply NoDup_cons in Hnd as [Hnot Hnd].
  cbn [assigned foldl fst snd].
  fold (assigned (TH1.SetBinContent h i0 v0) ivs).
  assert (Hall' : Forall (fun iv => 0 <= fst iv
                     < TH1.GetSize (TH1.SetBinContent h i0 v0)) ivs).
  { eapply Forall_impl; [exact Hall |]. intros iv Hiv.
    rewrite set_content_size. exact Hiv. }
  destruct k as [| k].
  - injection Hk as -> ->.
    rewrite assigned_other;
      [apply get_set_content; exact Hi | | rewrite set_content_size; exact Hi
      | exact Hnot].
    eapply Forall_impl; [exact Hall |]. intros iv Hiv. simpl in Hiv. lia.
  - apply (IH _ k Hall' Hnd Hk).
Qed.

Lemma for_each_numbers (σ : store) (self : handle) (h : TH1.t)
    (idx : list Z) (vs : list Q) :
  σ !! self = Some h ->
  for_each (izip idx (PNum <$> vs)) (set_from_number self) σ
  = (Ok tt, <[self := assigned h (zip idx vs)]> σ).
Proof.
  revert σ h vs. induction idx as [| i idx IH]; intros σ h vs Hs.
  - cbn. unfold ret. rewrite insert_id by exact Hs. reflexivity.
  - destruct vs as [| v vs].
    + cbn. unfold ret. rewrite insert_id by exact Hs. reflexivity.
    + unfold izip. rewrite fmap_cons. cbn [zip zip_with for_each].
      unfold bind at 1.
      unfold set_from_number at 1, SetBinContent, as_double, bind at 1.
      unfold lift.
      rewrite (modify_run σ self h (fun h => TH1.SetBinContent h i v) Hs).
      fold (izip idx (PNum <$> vs)).
      rewrite (IH _ (TH1.SetBinContent h i v) vs)
        by apply lookup_insert_eq.
      rewrite insert_insert_eq. reflexivity.
Qed.

Lemma py_range_elems (x y st i : Z) :
  st <> 0 -> i ∈ py_range x y st ->
  if 0 <? st then x <= i < y else y < i <= x.
Proof.
  intros Hst Hi. unfold py_range in Hi.
  apply list_elem_of_fmap in Hi as (k & -> & Hk).
  apply elem_of_seq in Hk.
  destruct (0 <? st) eqn:Ep.
  - assert (Hn : (y - x + st - 1) / st * st <= y - x + st - 1).
    { rewrite Z.mul_comm. apply Z.mul_div_le. lia. }
    revert Hk Hn. generalize ((y - x + st - 1) / st). intros n Hk Hn.
    assert (Hk' : Z.of_nat k < n) by lia. split; nia.
  - assert (Hn : (x - y - st - 1) / - st * - st <= x - y - st - 1).
    { rewrite Z.mul_comm. apply Z.mul_div_le. lia. }
    revert Hk Hn. generalize ((x - y - st - 1) / - st). intros n Hk Hn.
    assert (Hk' : Z.of_nat k < n) by lia. split; nia.
Qed.

Lemma py_range_NoDup (x y st : Z) : st <> 0 -> NoDup (py_range x y st).
Proof.
  intros Hst. unfold py_range.
  apply NoDup_fmap_2; [| apply NoDup_seq]. intros p q Hpq. nia.
Qed.

(** The indices of a slice are distinct positions of the sequence. *)
Lemma slice_range (a b s : option Z) (len a' b' s' : Z) :
  0 <= len -> slice_indices a b s len = Ok (a', b', s') ->
  NoDup (py_range a' b' s')
  /\ Forall (fun i => 0 <= i < len) (py_range a' b' s').
Proof.
  intros Hlen. unfold slice_indices.
  set (st := match s with Some s0 => s0 | None => 1 end).
  destruct (st =? 0) eqn:E0; [discriminate |].
  intros [= <- <- <-].
  assert (Hst : st <> 0) by lia. clear E0.
  match goal with
  | |- NoDup (py_range ?p ?q _) /\ _ => set (x := p); set (y := q)
  end.
  assert (Hx : (if st <? 0 then -1 else 0) <= x
               <= (if st <? 0 then len - 1 else len)).
  { unfold x. destruct a as [v |]; [destruct (v <? 0) eqn:Ev |];
      destruct (st <? 0); lia. }
  assert (Hy : (if st <? 0 then -1 else 0) <= y
               <= (if st <? 0 then len - 1 else len)).
  { unfold y. destruct b as [v |]; [destruct (v <? 0) eqn:Ev |];
      destruct (st <? 0); lia. }
  clearbody x y.
  split; [apply py_range_NoDup, Hst |].
  apply Forall_forall. intros i Hi.
  pose proof (py_range_elems x y st i Hst Hi) as Hb.
  destruct (0 <? st) eqn:Ep.
  - replace (st <? 0) with false in Hx, Hy by lia. lia.
  - replace (st <? 0) with true in Hx, Hy by lia. lia.
Qed.



(** A slice cannot be assigned from tuples: the loop unpacks the whole
    right-hand side instead of the item, so with a first item that is a
    tuple and as many items as positions the assignment raises
    [ValueError] unless there are exactly two items, and then
    [TypeError]; the histogram is not touched. *)
Theorem setitem_slice_tuples (sqrt : Q -> Q) (σ : store) (self : handle)
    (h : TH1.t) (a b s : option Z) (a' b' s' : Z) (t : list pyvalue)
    (rest : list pyvalue) (value : pyvalue) :
  σ !! self = Some h ->
  slice_indices a b s (TH1.GetSize h) = Ok (a', b', s') ->
  value = PList (PTuple t :: rest) \/ value = PTuple (PTuple t :: rest) ->
  length (py_range a' b' s') = S (length rest) ->
  __setitem__ sqrt self (ISlice a b s) value σ
  = (Raise (if (length rest =? 1)%nat then TypeError else ValueError), σ).
Proof.
  intros Hs Hsl Hval Hlen.
  assert (Hitems : py_items value = Ok (PTuple t :: rest))
    by (destruct Hval as [-> | ->]; reflexivity).
  unfold __setitem__. rewrite (bind_load _ _ _ _ Hs).
  unfold bind at 1. unfold lift at 1. rewrite Hsl.
  unfold bind at 1. unfold lift at 1. rewrite Hitems.
  cbn [length]. rewrite Hlen, Nat.eqb_refl. cbn [negb is_proxy is_tuple].
  destruct (py_range a' b' s') as [| i idx]; [discriminate |].
  unfold izip. cbn [zip zip_with for_each].
  unfold bind at 1. unfold set_from_tuple at 1.
  unfold bind at 1. unfold lift at 1.
  destruct rest as [| r1 [| r2 rest]].
  - destruct Hval as [-> | ->]; reflexivity.
  - destruct Hval as [-> | ->]; reflexivity.
  - destruct Hval as [-> | ->]; reflexivity.
Qed.

Lemma setitem_slice_tuples_witness :
  __setitem__ (fun x => x) 0%nat (ISlice (Some 1) (Some 3) None)
    (PList [PTuple [PNum 7; PNum 1]; PTuple [PNum 8; PNum 1]]) demo_store
  = (Raise TypeError, demo_store).
Proof.
  apply (setitem_slice_tuples (fun x => x) demo_store 0%nat demo_hist
           (Some 1) (Some 3) None 1 3 1 [PNum 7; PNum 1]
           [PTuple [PNum 8; PNum 1]]);
    [reflexivity | reflexivity | left; reflexivity | reflexivity].
Defined.

Lemma set_error_content (h : TH1.t) (i j : Z) (e : Q) :
  TH1.GetBinContent (TH1.SetBinError h i e) j = TH1.GetBinContent h j.
Proof.
  unfold TH1.SetBinError, TH1.Sumw2.
  destruct (TH1.fSumw2 h); destruct (_ || _); reflexivity.
Qed.



(** ** Iteration, contents by index, underflow and overflow *)

(** Iterating a histogram yields as many proxies as [len] counts, the
    [k]-th of which is the proxy that [h[k]] answers; the store is not
    changed. *)
Theorem iter_len_getitem (σ : store) (self : handle) (h : TH1.t) :
  σ !! self = Some h -> wf_hist h = true ->
  exists l,
    __iter__ self σ = (Ok l, σ)
    /\ __len__ self σ = (Ok (Z.of_nat (length l)), σ)
    /\ (forall k, 0 <= k < TH1.GetSize h ->
          exists b, l !! Z.to_nat k = Some b
                    /\ __getitem__ self (IInt k) σ = (Ok (Bin b), σ)
                    /\ BinProxy.value b σ = (Ok (TH1.GetBinContent h k), σ)).
Proof.
  intros Hs Hwf. exists (all_bins self h).
  assert (Hlen : Z.of_nat (length (all_bins self h)) = TH1.GetSize h).
  { unfold all_bins, TH1.cells. rewrite length_fmap, length_seqZ.
    unfold TH1.GetSize. lia. }
  split; [apply bins_run; assumption |]. split.
  - unfold __len__. rewrite (bind_load _ _ _ _ Hs), Hlen. reflexivity.
  - intros k Hk. exists (BinProxy.mk self k (TH1.GetBinXYZ h k)).
    split; [| split].
    + unfold all_bins, TH1.cells. rewrite list_lookup_fmap.
      rewrite lookup_seqZ_lt by lia. cbn. do 3 f_equal; lia.
    + unfold __getitem__. rewrite (bind_load _ _ _ _ Hs).
      unfold _range_check.
      replace ((0 <=? k) && (k <? TH1.GetSize h)) with true by lia.
      cbn [negb]. unfold bind, lift. rewrite (proxy_init _ _ _ _ Hs).
      reflexivity.
    + unfold BinProxy.value. cbn [BinProxy.hist BinProxy.idx].
      rewrite (bind_load _ _ _ _ Hs). reflexivity.
Qed.

Lemma iter_len_getitem_witness :
  exists l, __iter__ 0%nat demo_store = (Ok l, demo_store)
            /\ __len__ 0%nat demo_store = (Ok (Z.of_nat (length l)), demo_store).
Proof.
  destruct (iter_len_getitem demo_store 0%nat demo_hist)
    as (l & Hi & Hl & _); [reflexivity | reflexivity |].
  exists l. split; [exact Hi | exact Hl].
Defined.

Lemma size_1d (h : TH1.t) :
  wf_hist h = true -> TH1.fDimension h = 1 ->
  TH1.GetSize h = TH1.GetNbinsX h + 2 /\ 1 <= TH1.GetNbinsX h.
Proof.
  intros Hwf Hd. rewrite (wf_hist_size _ Hwf), Hd.
  destruct (wf_hist_axes _ Hwf) as (_ & Hx & _).
  pose proof (wf_axis_nbins _ Hx). split; [reflexivity | assumption].
Qed.

Lemma content_at_array (h : TH1.t) (i : Z) :
  0 <= i < TH1.GetSize h ->
  TH1.GetBinContent h i = TAxis.at_ (TH1.fArray h) i.
Proof.
  intros Hi. unfold TH1.GetBinContent. rewrite cell_in_range by exact Hi.
  reflexivity.
Qed.

Lemma contents_array (h : TH1.t) :
  TH1.GetBinContent h <$> seqZ 0 (TH1.GetSize h) = TH1.fArray h.
Proof.
  apply list_eq. intros k. rewrite list_lookup_fmap.
  destruct (decide (k < length (TH1.fArray h))%nat) as [Hlt | Hge].
  - rewrite lookup_seqZ_lt by (unfold TH1.GetSize; lia). cbn.
    rewrite content_at_array by (unfold TH1.GetSize; lia).
    unfold TAxis.at_. rewrite Z.add_0_l, Nat2Z.id.
    destruct (lookup_lt_is_Some_2 _ _ Hlt) as [x Hx]. rewrite Hx.
    f_equal. apply nth_lookup_Some. exact Hx.
  - rewrite lookup_seqZ_ge by (unfold TH1.GetSize; lia).
    rewrite lookup_ge_None_2 by lia. reflexivity.
Qed.

(** For a one-dimensional histogram [y(index)] never raises: the index is
    taken modulo the number of cells, so [y(-1)] is the overflow and
    [y(i)] is [h[i].value] for a cell [i].  [y(overflow=True)] lists the
    contents of all cells, which are the underflow, the items of [y()] and
    the overflow. *)
Theorem y_by_index (h : TH1.t) :
  wf_hist h = true -> TH1.fDimension h = 1 ->
  let n := TH1.GetNbinsX h in
  (forall i, _Hist.y_at h i = Ok (TAxis.at_ (TH1.fArray h) (i mod (n + 2))))
  /\ (forall i, 0 <= i < TH1.GetSize h ->
        _Hist.y_at h i = Ok (TH1.GetBinContent h i))
  /\ _Hist.y h true = Ok (TH1.fArray h)
  /\ (forall axis, 0 <= axis < 3 ->
        exists u o inner,
          underflow h axis = Ok (Flow1 u)
          /\ overflow h axis = Ok (Flow1 o)
          /\ _Hist.y h false = Ok inner
          /\ _Hist.y_at h (-1) = Ok o
          /\ TH1.fArray h = u :: inner ++ [o]).
Proof.
  intros Hwf Hd n. destruct (size_1d h Hwf Hd) as [Hsz Hn]. fold n in Hsz, Hn.
  assert (Hat : forall i,
            _Hist.y_at h i = Ok (TAxis.at_ (TH1.fArray h) (i mod (n + 2)))).
  { intros i. unfold _Hist.y_at, nbins. cbn [Z.eqb rbind]. fold n.
    replace (n + 2 =? 0) with false by lia.
    rewrite content_at_array; [reflexivity |].
    rewrite Hsz. apply Z.mod_pos_bound. lia. }
  assert (Hall : _Hist.y h true = Ok (TH1.fArray h)).
  { unfold _Hist.y, nbins. cbn [Z.eqb rbind]. fold n.
    rewrite py_range_up, Z.sub_0_r, <- Hsz, contents_array. reflexivity. }
  split; [exact Hat |]. split; [| split; [exact Hall |]].
  - intros i Hi. rewrite Hat, Z.mod_small by lia.
    rewrite content_at_array by exact Hi. reflexivity.
  - intros axis Hax.
    exists (TH1.GetBinContent h 0), (TH1.GetBinContent h (n + 1)),
      (TH1.GetBinContent h <$> seqZ 1 n).
    unfold underflow, overflow, dim, TH1.GetDimension. rewrite Hd.
    replace ((0 <=? axis) && (axis <? 3)) with true by lia.
    cbn [negb Z.eqb Pos.eqb]. unfold nbins. cbn [Z.eqb rbind]. fold n.
    split; [reflexivity |]. split; [reflexivity |]. split.
    { unfold _Hist.y, nbins. cbn [Z.eqb rbind]. fold n.
      rewrite py_range_up. replace (n + 1 - 1) with n by lia. reflexivity. }
    split.
    { rewrite Hat. replace (-1 mod (n + 2)) with (n + 1)
        by (apply (Z.mod_unique _ _ (-1)); lia).
      rewrite content_at_array by lia. reflexivity. }
    rewrite <- (contents_array h), Hsz.
    replace (n + 2) with (1 + (n + 1)) by lia.
    rewrite (seqZ_app 0 1 (n + 1)) by lia.
    rewrite (seqZ_app (0 + 1) n 1) by lia.
    rewrite !fmap_app.
    change (seqZ 0 1) with [0]. change (0 + 1) with 1.
    rewrite (seqZ_cons (1 + n) 1) by lia.
    rewrite (seqZ_nil (Z.succ (1 + n))) by lia.
    replace (1 + n) with (n + 1) by lia. reflexivity.
Qed.

Lemma y_by_index_witness :
  _Hist.y demo_hist true = Ok (TH1.fArray demo_hist)
  /\ _Hist.y_at demo_hist (-1) = Ok (TAxis.at_ (TH1.fArray demo_hist) 5).
Proof.
  destruct (y_by_index demo_hist) as (Hat & _ & Hall & _);
    [reflexivity | reflexivity |].
  split; [exact Hall | exact (Hat (-1))].
Defined.

Lemma collect_ok {A B} (g : A -> B) (l : list A) :
  collect (fun a => Ok (g a)) l = Ok (g <$> l).
Proof.
  induction l as [| a l IH]; [reflexivity |].
  cbn [collect rbind]. rewrite IH. reflexivity.
Qed.

(** Underflow and overflow of a two-dimensional histogram.  Along x they
    are the columns at x = 0 and x = nbins(0) + 1, one item for every y
    with its overflow bins; along y the rows at y = 0 and y = nbins(1) + 1.
    With [axis=2] the two differ: [overflow] raises [ValueError], while
    [underflow] reads the row y = 0 over [nbins(1) + 2] positions of
    x. *)
Theorem flows_2d (h : TH1.t) :
  wf_hist h = true -> TH1.fDimension h = 2 ->
  let nx := TH1.GetNbinsX h in
  let ny := TH1.GetNbinsY h in
  underflow h 0
  = Ok (Flow2 ((fun j => TH1.GetBinContent3 h 0 j 0) <$> seqZ 0 (ny + 2)))
  /\ overflow h 0
     = Ok (Flow2 ((fun j => TH1.GetBinContent3 h (nx + 1) j 0)
                    <$> seqZ 0 (ny + 2)))
  /\ underflow h 1
     = Ok (Flow2 ((fun i => TH1.GetBinContent3 h i 0 0) <$> seqZ 0 (nx + 2)))
  /\ overflow h 1
     = Ok (Flow2 ((fun i => TH1.GetBinContent3 h i (ny + 1) 0)
                    <$> seqZ 0 (nx + 2)))
  /\ underflow h 2
     = Ok (Flow2 ((fun i => TH1.GetBinContent3 h i 0 0) <$> seqZ 0 (ny + 2)))
  /\ overflow h 2 = Raise ValueError.
Proof.
  intros Hwf Hd nx ny.
  unfold underflow, overflow, dim, TH1.GetDimension. rewrite Hd.
  cbn [Z.leb Z.ltb Z.compare Pos.compare Pos.compare_cont andb negb
       Z.eqb Pos.eqb].
  unfold nbins, list_insert, content_at.
  repeat split.
  - change ((0 + 1) mod 2) with 1. cbn [Z.eqb Pos.eqb rbind].
    fold ny. rewrite py_range_up, Z.sub_0_r.
    change (fun i : Z => ?f) with (fun i : Z => f).
    rewrite (collect_ok (fun j => TH1.GetBinContent3 h 0 j 0)).
    reflexivity.
  - cbn [list_remove Z.eqb Pos.eqb rbind]. fold nx ny.
    rewrite py_range_up, Z.sub_0_r.
    rewrite (collect_ok (fun j => TH1.GetBinContent3 h (nx + 1) j 0)).
    reflexivity.
  - change ((1 + 1) mod 2) with 0. cbn [Z.eqb Pos.eqb rbind].
    fold nx. rewrite py_range_up, Z.sub_0_r.
    rewrite (collect_ok (fun i => TH1.GetBinContent3 h i 0 0)).
    reflexivity.
  - cbn [list_remove Z.eqb Pos.eqb rbind]. fold nx ny.
    rewrite py_range_up, Z.sub_0_r.
    rewrite (collect_ok (fun i => TH1.GetBinContent3 h i (ny + 1) 0)).
    reflexivity.
  - change ((2 + 1) mod 2) with 1. cbn [Z.eqb Pos.eqb rbind].
    fold ny. rewrite py_range_up, Z.sub_0_r.
    rewrite (collect_ok (fun i => TH1.GetBinContent3 h i 0 0)).
    reflexivity.
Qed.

Lemma flows_2d_witness :
  wf_hist demo_hist2d = true
  /\ overflow demo_hist2d 2 = Raise ValueError
  /\ underflow demo_hist2d 0
     = Ok (Flow2 ((fun j => TH1.GetBinContent3 demo_hist2d 0 j 0)
                    <$> seqZ 0 5)).
Proof.
  split; [reflexivity |].
  destruct (flows_2d demo_hist2d) as (Hu & _ & _ & _ & _ & Ho);
    [reflexivity | reflexivity |].
  split; [exact Ho | exact Hu].
Defined.

(** ** Sums, differences and scaling *)

Lemma at_fmap_seqZ (g : Z -> Q) (n c : Z) :
  0 <= c < n -> TAxis.at_ (g <$> seqZ 0 n) c = g c.
Proof.
  intros Hc. unfold TAxis.at_. apply nth_lookup_Some.
  rewrite list_lookup_fmap, lookup_seqZ_lt by lia. cbn.
  do 2 f_equal. lia.
Qed.

Lemma combine_content (h h1 : TH1.t) (content err : Z -> Q) (e : Q)
    (c : Z) :
  TH1.same_bins h h1 = true -> 0 <= c < TH1.GetSize h ->
  TH1.GetSize (TH1.combine h h1 content err e) = TH1.GetSize h
  /\ TH1.GetBinContent (TH1.combine h h1 content err e) c = content c.
Proof.
  intros Hb Hc. unfold TH1.combine. rewrite Hb. cbn [negb].
  assert (Hcells : forall g, TH1.fArray g = TH1.fArray h ->
            TH1.cells g = seqZ 0 (TH1.GetSize h)).
  { intros g Hg. unfold TH1.cells, TH1.GetSize. rewrite Hg. reflexivity. }
  set (g := match TH1.fSumw2 h, TH1.fSumw2 h1 with
            | [], _ :: _ => TH1.Sumw2 h
            | _, _ => h
            end).
  assert (Hg : TH1.fArray g = TH1.fArray h).
  { unfold g, TH1.Sumw2. destruct (TH1.fSumw2 h), (TH1.fSumw2 h1);
      reflexivity. }
  assert (Hsz : TH1.GetSize
            (TH1.mk (TH1.fDimension g) (TH1.fXaxis g) (TH1.fYaxis g)
               (TH1.fZaxis g) (content <$> TH1.cells g)
               match TH1.fSumw2 g with
               | [] => []
               | _ :: _ => err <$> TH1.cells g
               end e (TH1.fStats g)) = TH1.GetSize h).
  { unfold TH1.GetSize at 1. cbn [TH1.fArray].
    rewrite (Hcells g Hg), length_fmap, length_seqZ.
    unfold TH1.GetSize. lia. }
  split; [exact Hsz |].
  unfold TH1.GetBinContent. rewrite cell_in_range by (rewrite Hsz; exact Hc).
  cbn [TH1.fArray]. rewrite (Hcells g Hg). apply at_fmap_seqZ, Hc.
Qed.

Lemma combine_bins (h h1 : TH1.t) (content err : Z -> Q) (e : Q) :
  TH1.GetNbinsX (TH1.combine h h1 content err e) = TH1.GetNbinsX h
  /\ TH1.GetNbinsY (TH1.combine h h1 content err e) = TH1.GetNbinsY h
  /\ TH1.GetNbinsZ (TH1.combine h h1 content err e) = TH1.GetNbinsZ h.
Proof.
  unfold TH1.combine. destruct (negb _); [auto |].
  unfold TH1.GetNbinsX, TH1.GetNbinsY, TH1.GetNbinsZ, TH1.Sumw2.
  destruct (TH1.fSumw2 h), (TH1.fSumw2 h1); auto.
Qed.



Lemma scale_content (h : TH1.t) (c : Q) (i : Z) :
  0 <= i < TH1.GetSize h ->
  TH1.GetSize (TH1.Scale h c) = TH1.GetSize h
  /\ TH1.GetBinContent (TH1.Scale h c) i = (c * TH1.GetBinContent h i)%Q.
Proof.
  intros Hi.
  assert (Hsz : TH1.GetSize (TH1.Scale h c) = TH1.GetSize h).
  { unfold TH1.Scale, TH1.GetSize. cbn [TH1.fArray].
    rewrite length_fmap. reflexivity. }
  split; [exact Hsz |].
  unfold TH1.GetBinContent. rewrite !cell_in_range by (rewrite ?Hsz; exact Hi).
  unfold TH1.Scale, TAxis.at_, TH1.GetSize in *. cbn [TH1.fArray].
  destruct (lookup_lt_is_Some_2 (TH1.fArray h) (Z.to_nat i) ltac:(lia))
    as [x Hx].
  rewrite (nth_lookup_Some _ _ _ _ Hx).
  apply nth_lookup_Some. rewrite list_lookup_fmap, Hx. reflexivity.
Qed.



Lemma cell_total_ext (σ σ' : store) (l : list handle) (c : Z) :
  (forall q, q ∈ l -> σ' !! q = σ !! q) ->
  cell_total σ' l c = cell_total σ l c.
Proof.
  intros Hext. unfold cell_total. f_equal.
  apply list_fmap_ext. intros k q Hq.
  rewrite Hext; [reflexivity |]. eapply list_elem_of_lookup_2, Hq.
Qed.

Lemma same_bins_combine (h h1 g : TH1.t) (content err : Z -> Q) (e : Q) :
  TH1.same_bins (TH1.combine h h1 content err e) g = TH1.same_bins h g.
Proof.
  destruct (combine_bins h h1 content err e) as (Hx & Hy & Hz).
  unfold TH1.same_bins. rewrite Hx, Hy, Hz. reflexivity.
Qed.

Lemma sum_from_run (rest : list handle) :
  forall (σ : store) (acc : handle) (ha : TH1.t),
    σ !! acc = Some ha ->
    Forall (fun q => exists g, σ !! q = Some g
                               /\ TH1.same_bins ha g = true) rest ->
    exists p r σ',
      sum_from acc rest σ = (Ok p, σ')
      /\ σ' !! p = Some r
      /\ (rest <> [] -> σ !! p = None)
      /\ (rest = [] -> p = acc)
      /\ (forall q g, σ !! q = Some g -> σ' !! q = Some g)
      /\ (forall c, 0 <= c < TH1.GetSize ha ->
            (TH1.GetBinContent r c
             == TH1.GetBinContent ha c + cell_total σ rest c)%Q).
Proof.
  induction rest as [| h rest IH]; intros σ acc ha Hacc Hall.
  - exists acc, ha, σ. split; [reflexivity |]. split; [exact Hacc |].
    split; [congruence |]. split; [reflexivity |]. split; [auto |].
    intros c _. unfold cell_total, total. simpl. ring.
  - apply Forall_cons in Hall as [(g & Hg & Hb) Hall].
    set (p1 := fresh (dom σ)).
    assert (Hp1 : σ !! p1 = None) by apply fresh_handle.
    set (σ1 := <[p1 := TH1.Add ha g 1]> σ).
    assert (Hstep : __add__ acc (OHist h) σ = (Ok p1, σ1)).
    { pose proof (binary_run σ acc ha Plus (OHist h) Hacc) as Hr.
      cbn [binary op_result] in Hr. unfold with_hist in Hr. fold p1 in Hr.
      rewrite lookup_insert_ne in Hr by (intros ->; congruence).
      rewrite Hg in Hr. exact Hr. }
    assert (Hkeep : forall q x, σ !! q = Some x -> σ1 !! q = Some x).
    { intros q x Hq. unfold σ1. rewrite lookup_insert_ne; [exact Hq |].
      intros ->. congruence. }
    destruct (IH σ1 p1 (TH1.Add ha g 1)) as (p & r & σ' & Hrun & Hr & Hnew
                                             & Hsame & Hmono & Hcont).
    { apply lookup_insert_eq. }
    { eapply Forall_impl; [exact Hall |]. intros q (x & Hq & Hbq).
      exists x. split; [apply Hkeep, Hq |].
      unfold TH1.Add. rewrite same_bins_combine. exact Hbq. }
    exists p, r, σ'.
    split.
    { cbn [sum_from]. unfold bind at 1. rewrite Hstep. exact Hrun. }
    split; [exact Hr |]. split.
    { intros _. destruct rest as [| h' rest'].
      - rewrite (Hsame eq_refl). exact Hp1.
      - destruct (σ !! p) as [x |] eqn:E; [| reflexivity].
        apply Hkeep in E. rewrite Hnew in E by discriminate.
        discriminate. }
    split; [discriminate |]. split.
    { intros q x Hq. apply Hmono, Hkeep, Hq. }
    intros c Hc.
    assert (Hb' : TH1.same_bins ha g = true) by exact Hb.
    destruct (combine_content ha g
                (fun b => (TH1.GetBinContent ha b
                           + 1 * TH1.GetBinContent g b)%Q)
                (fun b => (TH1.err2 ha b + 1 * 1 * TH1.err2 g b)%Q)
                (Qabs (TH1.fEntries ha + 1 * TH1.fEntries g)) c Hb' Hc)
      as [Hsz Hadd].
    fold (TH1.Add ha g 1) in Hsz, Hadd.
    rewrite (Hcont c) by (rewrite Hsz; exact Hc).
    rewrite Hadd.
    rewrite (cell_total_ext σ σ1 rest c).
    + unfold cell_total. rewrite fmap_cons. unfold total at 2.
      cbn [foldr]. rewrite Hg. fold (total ((fun q => match σ !! q with
        | Some g0 => TH1.GetBinContent g0 c | None => 0%Q end) <$> rest)).
      ring.
    + intros q Hq. rewrite Forall_forall in Hall.
      destruct (Hall q Hq) as (x & Hx & _).
      rewrite Hx. apply Hkeep, Hx.
Qed.



(** ** Uniform binning *)

Lemma widths_list (h : TH1.t) (axis : Z) :
  wf_hist h = true -> 0 <= axis <= 2 ->
  let a := axis_at h axis in
  _width h axis false
  = Ok (Fin <$> (TAxis.GetBinWidth a <$> seqZ 1 (TAxis.fNbins a))).
Proof.
  intros Hwf Hax a.
  destruct (nbins_axis_ok h axis Hwf Hax) as (Hn & Ha & _ & _).
  unfold _width. rewrite Hn, Ha. cbn [rbind app].
  rewrite app_nil_r, py_range_up. fold a.
  replace (TAxis.fNbins a + 1 - 1) with (TAxis.fNbins a) by lia.
  rewrite <- list_fmap_compose. reflexivity.
Qed.

Lemma uniform_axis_run (h : TH1.t) (axis : Z) (precision : Q) :
  wf_hist h = true -> 0 <= axis <= 2 ->
  let a := axis_at h axis in
  uniform_axis h axis precision
  = Ok (forallb (fun i => negb (Qle_bool precision
                                  (Qabs (TAxis.GetBinWidth a i
                                         - TAxis.GetBinWidth a 1))))
                (seqZ 1 (TAxis.fNbins a))).
Proof.
  intros Hwf Hax a.
  destruct (nbins_axis_ok h axis Hwf Hax) as (_ & _ & _ & Hn1).
  fold a in Hn1.
  unfold uniform_axis. rewrite (widths_list h axis Hwf Hax). fold a.
  cbn [rbind]. rewrite floats_Fin. f_equal.
  rewrite (seqZ_cons 1 (TAxis.fNbins a)) by lia.
  rewrite fmap_cons. cbn [hd].
  rewrite <- (seqZ_cons 1 (TAxis.fNbins a)) by lia.
  rewrite <- fmap_cons, <- (seqZ_cons 1 (TAxis.fNbins a)) by lia.
  induction (seqZ 1 (TAxis.fNbins a)) as [| i l IH]; [reflexivity |].
  rewrite fmap_cons. cbn [forallb]. rewrite IH. reflexivity.
Qed.

Lemma Qabs_self (x : Q) : (Qabs (x - x) == 0)%Q.
Proof.
  setoid_replace (x - x)%Q with 0%Q using relation Qeq by ring.
  reflexivity.
Qed.

Lemma uniform_loop (h : TH1.t) (precision : Q) (axes : list Z) :
  (forall ax, ax ∈ axes -> exists b, uniform_axis h ax precision = Ok b) ->
  exists b,
    (fix loop (axes : list Z) : result bool :=
       match axes with
       | [] => Ok true
       | axis :: rest =>
           rbind (uniform_axis h axis precision) (fun b =>
             if negb b then Ok false else loop rest)
       end) axes = Ok b
    /\ (b = true <->
        forall ax, ax ∈ axes -> uniform_axis h ax precision = Ok true).
Proof.
  induction axes as [| a axes IH]; intros Hex.
  - exists true. split; [reflexivity |]. split; [| reflexivity].
    intros _ ax Hin. inversion Hin.
  - destruct (Hex a ltac:(left)) as [b0 E0].
    destruct IH as (b & Hrun & Hb).
    { intros ax Hin. apply Hex. right. exact Hin. }
    rewrite E0. cbn [rbind]. destruct b0; cbn [negb].
    + exists b. split; [exact Hrun |]. rewrite Hb. split.
      * intros Hall ax Hin. apply elem_of_cons in Hin as [-> | Hin];
          [exact E0 | apply Hall, Hin].
      * intros Hall ax Hin. apply Hall. right. exact Hin.
    + exists false. split; [reflexivity |]. split; [discriminate |].
      intros Hall. specialize (Hall a ltac:(left)). congruence.
Qed.

(** [uniform(axis, precision)] on an axis of the histogram is [True]
    exactly when every bin width differs from the first one by less than
    [precision].  It is [True] for bins of fixed width and a positive
    [precision], and [False] whenever [precision] is not positive.
    Without an axis the answer is [True] exactly when it is for every axis
    below the dimension. *)
Theorem uniform_spec (h : TH1.t) (axis : Z) (precision : Q) :
  wf_hist h = true -> 0 <= axis <= 2 ->
  let a := axis_at h axis in
  (exists b,
     uniform h (Some axis) precision = Ok b
     /\ (b = true <->
         forall i, 1 <= i <= TAxis.fNbins a ->
           (Qabs (TAxis.GetBinWidth a i - TAxis.GetBinWidth a 1)
            < precision)%Q)
     /\ (TAxis.fXbins a = [] -> (0 < precision)%Q -> b = true)
     /\ ((precision <= 0)%Q -> b = false))
  /\ (exists b,
        uniform h None precision = Ok b
        /\ (b = true <->
            forall ax, 0 <= ax < TH1.fDimension h ->
              uniform h (Some ax) precision = Ok true)).
Proof.
  intros Hwf Hax a.
  destruct (nbins_axis_ok h axis Hwf Hax) as (_ & _ & Hw & Hn1).
  fold a in Hw, Hn1.
  split.
  - eexists. split; [apply (uniform_axis_run h axis precision Hwf Hax) |].
    fold a.
    assert (Hiff : forallb
              (fun i => negb (Qle_bool precision
                                (Qabs (TAxis.GetBinWidth a i
                                       - TAxis.GetBinWidth a 1))))
              (seqZ 1 (TAxis.fNbins a)) = true
            <-> forall i, 1 <= i <= TAxis.fNbins a ->
                  (Qabs (TAxis.GetBinWidth a i - TAxis.GetBinWidth a 1)
                   < precision)%Q).
    { rewrite forallb_forall. split.
      - intros Hall i Hi. apply Qle_bool_false, negb_true_iff, Hall.
        apply list_elem_of_In, elem_of_seqZ. lia.
      - intros Hall i Hi. apply list_elem_of_In, elem_of_seqZ in Hi.
        apply negb_true_iff, Qle_bool_false, Hall. lia. }
    split; [exact Hiff |]. split.
    + intros Hfix Hpos. apply Hiff. intros i Hi.
      assert (Hsame : TAxis.GetBinWidth a i = TAxis.GetBinWidth a 1).
      { unfold TAxis.GetBinWidth, TAxis.variable. rewrite Hfix.
        destruct (TAxis.fNbins a <=? 0); reflexivity. }
      rewrite Hsame, Qabs_self. exact Hpos.
    + intros Hneg. apply not_true_iff_false. intros Ht.
      destruct Hiff as [Hfw _]. specialize (Hfw Ht 1 ltac:(lia)).
      rewrite Qabs_self in Hfw. apply (Qlt_not_le _ _ Hfw), Hneg.
  - destruct (wf_hist_axes _ Hwf) as (Hd & _).
    destruct (uniform_loop h precision (py_range 0 (TH1.GetDimension h) 1))
      as (b & Hrun & Hb).
    { intros ax Hin. rewrite py_range_up in Hin.
      apply elem_of_seqZ in Hin. unfold TH1.GetDimension in Hin.
      eexists. apply (uniform_axis_run h ax precision Hwf). lia. }
    exists b. split; [exact Hrun |].
    rewrite Hb. rewrite py_range_up. unfold TH1.GetDimension. split.
    + intros Hall ax Hx. apply Hall, elem_of_seqZ. lia.
    + intros Hall ax Hx. apply elem_of_seqZ in Hx. apply Hall. lia.
Qed.

Lemma uniform_spec_witness :
  uniform demo_hist (Some 0) (1 # 10000000) = Ok true
  /\ uniform demo_hist None (1 # 10000000) = Ok true.
Proof.
  destruct (uniform_spec demo_hist 0 (1 # 10000000))
    as [(b & Hrun & _ & Hfix & _) (b' & Hrun' & Hall)];
    [reflexivity | lia |].
  rewrite Hrun, Hrun'.
  assert (Hb : b = true) by (apply Hfix; reflexivity).
  split; [rewrite Hb; reflexivity |].
  f_equal. apply Hall. intros ax Hax.
  change (TH1.fDimension demo_hist) with 1 in Hax.
  assert (ax = 0) as -> by lia.
  rewrite Hrun, Hb. reflexivity.
Defined.

(** ** Sums of squared weights *)

Lemma sumw2_index (h : TH1.t) (x y z : Z) :
  wf_hist h = true -> coords_in h (x, y, z) ->
  let xl := TH1.GetNbinsX h + 2 in
  let yl := TH1.GetNbinsY h + 2 in
  let z' := if TH1.GetDimension h <? 3 then 0 else z in
  let y' := if TH1.GetDimension h <? 2 then 0 else y in
  xl * yl * z' + xl * y' + x = TH1.GetBin h x y z.
Proof.
  intros Hwf (Hx & Hy & Hz). cbv zeta.
  destruct (wf_hist_axes _ Hwf) as (Hd & _).
  unfold TH1.GetBin, TH1.GetDimension.
  rewrite !clamp_id by lia.
  destruct Hd as [Hd | [Hd | Hd]]; rewrite Hd; cbn [Z.ltb Z.compare Pos.compare
    Pos.compare_cont]; ring.
Qed.

Lemma sum_w2_run (h : TH1.t) (w : Q) (x y z : Z) :
  wf_hist h = true -> TH1.GetSumw2N h <> 0 -> coords_in h (x, y, z) ->
  get_sum_w2 h x y z = Ok (TH1.At (TH1.fSumw2 h) (TH1.GetBin h x y z))
  /\ set_sum_w2 h w x y z
     = Ok (TH1.with_sumw2 h
             (TH1.SetAt (TH1.fSumw2 h) w (TH1.GetBin h x y z))).
Proof.
  intros Hwf Hs Hc. pose proof (sumw2_index h x y z Hwf Hc) as Hidx.
  cbv zeta in Hidx. destruct Hc as (Hx & Hy & Hz).
  unfold get_sum_w2, set_sum_w2.
  replace (TH1.GetSumw2N h =? 0) with false by lia.
  replace ((0 <=? x) && (x <? TH1.GetNbinsX h + 2)) with true by lia.
  replace ((0 <=? y) && (y <? TH1.GetNbinsY h + 2)) with true by lia.
  replace ((0 <=? z) && (z <? TH1.GetNbinsZ h + 2)) with true by lia.
  cbn [negb]. rewrite Hidx. auto.
Qed.

(** [set_sum_w2] followed by [get_sum_w2] at a bin of a histogram that
    stores squared weights answers the value that was set; the error of
    that bin is its square root from then on, the sums of the other bins
    and all contents are as before.  Positions outside the axes fail the
    assertions, and without stored weights both raise [RuntimeError]. *)
Theorem sum_w2_round_trip (sqrt : Q -> Q) (h : TH1.t) (w : Q) (x y z : Z) :
  wf_hist h = true ->
  (TH1.GetSumw2N h = 0 ->
   get_sum_w2 h x y z = Raise RuntimeError
   /\ set_sum_w2 h w x y z = Raise RuntimeError)
  /\ (TH1.GetSumw2N h <> 0 -> ~ coords_in h (x, y, z) ->
      get_sum_w2 h x y z = Raise AssertionError
      /\ set_sum_w2 h w x y z = Raise AssertionError)
  /\ (TH1.GetSumw2N h <> 0 -> coords_in h (x, y, z) ->
      exists h',
        set_sum_w2 h w x y z = Ok h'
        /\ get_sum_w2 h' x y z = Ok w
        /\ TH1.fArray h' = TH1.fArray h
        /\ TH1.GetBinError sqrt h' (TH1.GetBin h x y z) = sqrt w
        /\ (forall x' y' z', coords_in h (x', y', z') ->
              TH1.GetBin h x' y' z' <> TH1.GetBin h x y z ->
              get_sum_w2 h' x' y' z' = get_sum_w2 h x' y' z')).
Proof.
  intros Hwf. split; [| split].
  - intros H0. unfold get_sum_w2, set_sum_w2. rewrite H0. auto.
  - intros Hs Hc. unfold get_sum_w2, set_sum_w2, coords_in in *.
    replace (TH1.GetSumw2N h =? 0) with false by lia.
    destruct ((0 <=? x) && (x <? TH1.GetNbinsX h + 2)) eqn:Ex;
      cbn [negb]; [| auto].
    destruct ((0 <=? y) && (y <? TH1.GetNbinsY h + 2)) eqn:Ey;
      cbn [negb]; [| auto].
    destruct ((0 <=? z) && (z <? TH1.GetNbinsZ h + 2)) eqn:Ez;
      cbn [negb]; [| auto].
    exfalso. apply Hc. lia.
  - intros Hs Hc.
    destruct (sum_w2_run h w x y z Hwf Hs Hc) as [_ Hset].
    set (i := TH1.GetBin h x y z) in *.
    pose proof (GetBin_range h x y z Hwf) as Hi. fold i in Hi.
    assert (Hlen : Z.of_nat (length (TH1.fSumw2 h)) = TH1.GetSize h).
    { pose proof Hwf as Hwf'. unfold wf_hist in Hwf'.
      apply andb_true_iff in Hwf' as [Hwf' Hw2].
      apply andb_true_iff in Hwf' as [_ Hsize]. apply Z.eqb_eq in Hsize.
      apply orb_true_iff in Hw2 as [Hw2 | Hw2]; apply Z.eqb_eq in Hw2;
        [contradiction |].
      unfold TH1.GetSumw2N in Hw2. rewrite Hw2. symmetry. exact Hsize. }
    set (s' := TH1.SetAt (TH1.fSumw2 h) w i) in *.
    assert (Hs' : s' = <[Z.to_nat i := w]> (TH1.fSumw2 h)).
    { unfold s', TH1.SetAt.
      replace ((i <? 0) || (Z.of_nat (length (TH1.fSumw2 h)) <=? i))
        with false by lia.
      reflexivity. }
    set (h' := TH1.with_sumw2 h s') in *.
    assert (Hshape : same_shape h' h).
    { unfold same_shape, h'. cbn. rewrite Hs', length_insert. auto 10. }
    assert (Hwf' : wf_hist h' = true).
    { unfold wf_hist in *. unfold h', TH1.GetSumw2N, TH1.GetSize,
        TH1.GetNbinsX, TH1.GetNbinsY, TH1.GetNbinsZ in *.
      cbn [TH1.fDimension TH1.fXaxis TH1.fYaxis TH1.fZaxis TH1.fArray
           TH1.fSumw2 TH1.with_sumw2] in *.
      rewrite Hs', length_insert. exact Hwf. }
    assert (Hs2 : TH1.GetSumw2N h' <> 0).
    { unfold TH1.GetSumw2N, h'. cbn [TH1.fSumw2 TH1.with_sumw2].
      rewrite Hs', length_insert. exact Hs. }
    assert (Hget : forall x' y' z', coords_in h (x', y', z') ->
              get_sum_w2 h' x' y' z'
              = Ok (TH1.At s' (TH1.GetBin h x' y' z'))).
    { intros x' y' z' Hc'.
      destruct (sum_w2_run h' 0 x' y' z' Hwf' Hs2
                  (same_shape_coords _ _ _ Hshape Hc')) as [Hg _].
      rewrite Hg, (same_shape_GetBin _ _ _ _ _ Hshape). reflexivity. }
    exists h'. split; [exact Hset |]. split; [| split; [reflexivity |]].
    + rewrite (Hget x y z Hc). fold i. f_equal. unfold TH1.At.
      rewrite Hs', length_insert.
      replace ((i <? 0) || (Z.of_nat (length (TH1.fSumw2 h)) <=? i))
        with false by lia.
      apply at_insert. lia.
    + split.
      * unfold TH1.GetBinError. cbn [h' TH1.fSumw2 TH1.with_sumw2].
        rewrite cell_in_range
          by (rewrite (same_shape_size _ _ Hshape); exact Hi).
        destruct s' as [| a l] eqn:E.
        { apply (f_equal length) in Hs'. rewrite length_insert in Hs'.
          cbn [length] in Hs'. lia. }
        rewrite Hs'. f_equal. apply at_insert. lia.
      * intros x' y' z' Hc' Hne.
        destruct (sum_w2_run h 0 x' y' z' Hwf Hs Hc') as [Hg _].
        rewrite (Hget x' y' z' Hc'), Hg. f_equal.
        pose proof (GetBin_range h x' y' z' Hwf) as Hj.
        unfold TH1.At. rewrite Hs', length_insert.
        replace ((TH1.GetBin h x' y' z' <? 0)
                 || (Z.of_nat (length (TH1.fSumw2 h))
                     <=? TH1.GetBin h x' y' z')) with false by lia.
        apply at_insert_ne; lia.
Qed.

Lemma sum_w2_round_trip_witness :
  exists h', set_sum_w2 demo_hist 9 2 0 0 = Ok h'
             /\ get_sum_w2 h' 2 0 0 = Ok 9%Q.
Proof.
  destruct (sum_w2_round_trip (fun x => x) demo_hist 9 2 0 0 eq_refl)
    as (_ & _ & Hok).
  destruct Hok as (h' & Hset & Hget & _).
  - vm_compute. intros H; discriminate H.
  - vm_compute. repeat split; intros H; discriminate H.
  - exists h'. split; [exact Hset | exact Hget].
Defined.

(** ** Filling *)

Lemma BinarySearch_spec (l : list Q) (x : Q) :
  increasing l = true ->
  let k := TAxis.BinarySearch l x in
  (0 <= k -> (nth (Z.to_nat k) l 0 <= x)%Q)
  /\ (k + 1 < Z.of_nat (length l) -> (x < nth (Z.to_nat (k + 1)) l 0)%Q).
Proof.
  intros Hinc. induction l as [| e l IH]; [simpl; split; intros; lia |].
  destruct (increasing_cons _ _ Hinc) as [Hinc' Hall].
  specialize (IH Hinc'). cbv zeta in IH |- *. cbn [TAxis.BinarySearch].
  destruct (Qle_bool e x) eqn:E.
  - pose proof (BinarySearch_bounds l x) as Hb.
    destruct IH as [IH1 IH2]. split.
    + intros _. destruct (Z.eq_dec (TAxis.BinarySearch l x) (-1)) as [Hm | Hm].
      * rewrite Hm. simpl. apply Qle_bool_iff, E.
      * replace (Z.to_nat (1 + TAxis.BinarySearch l x))
          with (S (Z.to_nat (TAxis.BinarySearch l x))) by lia.
        simpl. apply IH1. lia.
    + intros Hlt. cbn [length] in Hlt.
      replace (Z.to_nat (1 + TAxis.BinarySearch l x + 1))
        with (S (Z.to_nat (TAxis.BinarySearch l x + 1))) by lia.
      simpl. apply IH2. lia.
  - split; [lia |]. intros _. simpl. apply Qle_bool_false, E.
Qed.

(** [FindBin] on a point of the axis answers the inner bin that holds
    it. *)
Lemma FindBin_contains (a : TAxis.t) (x : Q) :
  wf_axis a = true -> (TAxis.fXmin a <= x)%Q -> (x < TAxis.fXmax a)%Q ->
  let b := TAxis.FindBin a x in
  1 <= b <= TAxis.fNbins a
  /\ (edge_at a (b - 1) <= x)%Q /\ (x < edge_at a b)%Q.
Proof.
  intros Hwf Hlo Hhi b.
  pose proof (FindBin_bounds a x Hwf) as Hb. fold b in Hb.
  pose proof (wf_axis_nbins _ Hwf) as Hn.
  pose proof (wf_axis_span _ Hwf) as Hspan.
  pose proof (binwidth_pos _ Hwf) as Hbw.
  unfold b, TAxis.FindBin in *.
  replace (Qle_bool (TAxis.fXmin a) x) with true in *
    by (symmetry; apply Qle_bool_iff; exact Hlo).
  replace (Qle_bool (TAxis.fXmax a) x) with false in *
    by (symmetry; apply Qle_bool_false; exact Hhi).
  cbn [negb] in *. unfold edge_at.
  destruct (TAxis.variable a) eqn:Hv; cbn [negb] in *.
  - unfold wf_axis, TAxis.variable in *.
    destruct (TAxis.fXbins a) as [| e l] eqn:Hbins; [discriminate |].
    apply andb_true_iff in Hwf as [_ Hwf].
    apply andb_true_iff in Hwf as [Hwf Hmax].
    apply andb_true_iff in Hwf as [Hwf Hmin].
    apply andb_true_iff in Hwf as [Hlen Hinc].
    apply Qeq_bool_iff in Hmin, Hmax. apply Z.eqb_eq in Hlen.
    pose proof (BinarySearch_bounds (e :: l) x) as Hbs.
    destruct (BinarySearch_spec (e :: l) x Hinc) as [H1 H2].
    set (k := TAxis.BinarySearch (e :: l) x) in *.
    assert (Hk0 : 0 <= k).
    { destruct (Z.eq_dec k (-1)) as [Hm | Hm]; [| lia].
      exfalso. specialize (H2 ltac:(lia)). rewrite Hm in H2.
      change (Z.to_nat (-1 + 1)) with 0%nat in H2.
      unfold TAxis.at_ in Hmin. change (Z.to_nat 0) with 0%nat in Hmin.
      rewrite Hmin in H2. apply (Qlt_not_le _ _ H2), Hlo. }
    assert (Hkn : k < TAxis.fNbins a).
    { pose proof (BinarySearch_stop (e :: l) x (Z.to_nat (TAxis.fNbins a)))
        as Hst.
      unfold TAxis.at_ in Hmax. rewrite Hmax in Hst.
      specialize (Hst ltac:(lia) Hhi). fold k in Hst. lia. }
    split; [lia |]. unfold TAxis.at_.
    replace (1 + k - 1) with k by lia.
    split; [apply H1, Hk0 |].
    replace (1 + k) with (k + 1) by lia. apply H2. lia.
  - set (N := inject_Z (TAxis.fNbins a)) in *.
    set (q := (N * (x - TAxis.fXmin a)
               / (TAxis.fXmax a - TAxis.fXmin a))%Q) in *.
    assert (HN : (0 < N)%Q)
      by (unfold N; change 0%Q with (inject_Z 0); rewrite <- Zlt_Qlt; lia).
    assert (Hd : (0 < TAxis.fXmax a - TAxis.fXmin a)%Q) by lra.
    pose proof (Qfloor_le q) as Hf1. pose proof (Qlt_floor q) as Hf2.
    rewrite inject_Z_plus in Hf2. change (inject_Z 1) with 1%Q in Hf2.
    assert (Hq : (q * TAxis.binwidth a == x - TAxis.fXmin a)%Q).
    { unfold q, TAxis.binwidth. fold N. field. split; lra. }
    assert (HNw : (N * TAxis.binwidth a
                   == TAxis.fXmax a - TAxis.fXmin a)%Q).
    { unfold TAxis.binwidth. fold N. field. lra. }
    assert (Hq0 : (0 <= q)%Q).
    { apply (Qmult_le_r _ _ _ Hbw). lra. }
    assert (Hq1 : (q < N)%Q).
    { apply (Qmult_lt_r _ _ _ Hbw). lra. }
    destruct (Qfloor_bounds q (TAxis.fNbins a) Hq0 Hq1) as [Hfl0 Hfl1].
    split; [lia |].
    replace (1 + Qfloor q - 1) with (Qfloor q) by lia.
    rewrite inject_Z_plus. change (inject_Z 1) with 1%Q.
    set (f := inject_Z (Qfloor q)) in *. set (w := TAxis.binwidth a) in *.
    assert (H1 : (f * w <= q * w)%Q) by (apply Qmult_le_compat_r; lra).
    assert (H2 : (q * w < (f + 1) * w)%Q)
      by (apply Qmult_lt_compat_r; lra).
    split; [lra |].
    setoid_replace ((1 + f) * w)%Q with ((f + 1) * w)%Q
      using relation Qeq by ring.
    lra.
Qed.

Lemma add_at_content (l : list Q) (b j : Z) (w : Q) :
  0 <= b < Z.of_nat (length l) -> 0 <= j ->
  length (TH1.add_at l b w) = length l
  /\ TAxis.at_ (TH1.add_at l b w) j
     = if j =? b then (TAxis.at_ l b + w)%Q else TAxis.at_ l j.
Proof.
  intros Hb Hj. unfold TH1.add_at.
  replace ((b <? 0) || (Z.of_nat (length l) <=? b)) with false by lia.
  split; [apply length_insert |].
  destruct (j =? b) eqn:E.
  - assert (j = b) as -> by lia. apply at_insert. lia.
  - apply at_insert_ne; lia.
Qed.



(** ** Stacks of histograms *)

Lemma stack_nonzero (s : HistStack.t) :
  HistStack.__nonzero__ s = match HistStack.hists s with
                            | [] => false
                            | _ => true
                            end.
Proof.
  unfold HistStack.__nonzero__, HistStack.__len__, HistStack.GetHists.
  destruct (HistStack.hists s) as [| m l]; [reflexivity |].
  destruct (Z.of_nat (length (m :: l)) =? 0) eqn:E; [| reflexivity].
  apply Z.eqb_eq in E. cbn [length] in E. lia.
Qed.

(** [Add] on a stack built by [Add].  A histogram of three dimensions, or
    of another dimension than the stack's, is refused with [TypeError]
    and nothing changes.  Otherwise the histogram becomes the last of the
    stack, whose length grows by one; only the sum of the stack is
    written, the first time as a new object. *)
Theorem stack_add_spec (σ : store) (s : HistStack.t) (hist : handle)
    (h : TH1.t) :
  stack_ok σ s -> σ !! hist = Some h -> HistStack.sum s <> Some hist ->
  let d := TH1.GetDimension h in
  (d <> 1 -> d <> 2 -> HistStack.Add s hist σ = (Raise TypeError, σ))
  /\ (HistStack.hists s <> [] -> d <> HistStack.dim s ->
      HistStack.Add s hist σ = (Raise TypeError, σ))
  /\ ((d = 1 \/ d = 2) ->
      (HistStack.hists s = [] \/ d = HistStack.dim s) ->
      exists s' σ',
        HistStack.Add s hist σ = (Ok s', σ')
        /\ HistStack.hists s' = HistStack.hists s ++ [hist]
        /\ HistStack.__len__ s' = HistStack.__len__ s + 1
        /\ HistStack.dim s' = d
        /\ stack_ok σ' s'
        /\ (forall q g, σ !! q = Some g -> HistStack.sum s <> Some q ->
              σ' !! q = Some g)).
Proof.
  intros (Hmem & Hsum) Hs Hne d.
  assert (Hstart : HistStack.Add s hist σ
            = (if is_Hist h || (d =? 2)
               then if negb (HistStack.__nonzero__ s)
                    then (c <- Clone hist ;;
                          ret (HistStack.mk (HistStack.hists s ++ [hist])
                                 d (Some c)))
                    else if negb (HistStack.__dim__ s =? d)
                         then throw TypeError
                         else match HistStack.sum s with
                              | Some acc =>
                                  acc' <- __iadd__ acc (OHist hist) ;;
                                  ret (HistStack.mk
                                         (HistStack.hists s ++ [hist])
                                         (HistStack.dim s) (Some acc'))
                              | None => throw TypeError
                              end
               else throw TypeError) σ).
  { unfold HistStack.Add. rewrite (bind_load _ _ _ _ Hs). reflexivity. }
  unfold is_Hist in Hstart. fold d in Hstart.
  rewrite stack_nonzero in Hstart. unfold HistStack.__dim__ in Hstart.
  split; [| split].
  - intros H1 H2. rewrite Hstart.
    replace (d =? 1) with false by lia. replace (d =? 2) with false by lia.
    reflexivity.
  - intros Hnonempty Hd. rewrite Hstart.
    destruct ((d =? 1) || (d =? 2)); [| reflexivity].
    destruct (HistStack.hists s); [congruence |]. cbn [negb].
    replace (HistStack.dim s =? d) with false by lia. reflexivity.
  - intros Hd12 Hcase. rewrite Hstart.
    replace ((d =? 1) || (d =? 2)) with true by lia.
    destruct (HistStack.hists s) as [| m ms] eqn:Eh.
    + (* the first histogram *)
      cbn [negb]. unfold bind at 1. rewrite (Clone_run _ _ _ Hs).
      set (p := fresh (dom σ)).
      assert (Hp : σ !! p = None) by apply fresh_handle.
      eexists. eexists. split; [reflexivity |].
      cbn [HistStack.hists HistStack.dim HistStack.sum].
      split; [reflexivity |]. split.
      { unfold HistStack.__len__, HistStack.GetHists.
        cbn [HistStack.hists]. rewrite Eh. reflexivity. }
      split; [reflexivity |]. split.
      * split.
        -- constructor; [| constructor]. exists h.
           split; [| reflexivity].
           rewrite lookup_insert_ne by (intros ->; congruence). exact Hs.
        -- cbn [HistStack.sum HistStack.hists app].
           split; [discriminate |]. split.
           ++ intros Hin. apply list_elem_of_singleton in Hin.
              rewrite Hin in Hp. congruence.
           ++ exists h. apply lookup_insert_eq.
      * intros q g Hq _.
        rewrite lookup_insert_ne by (intros ->; congruence). exact Hq.
    + (* a further histogram *)
      destruct Hcase as [Hc | Hc]; [discriminate |].
      cbn [negb]. replace (HistStack.dim s =? d) with true by lia.
      cbn [negb].
      destruct (HistStack.sum s) as [acc |] eqn:Es; [| congruence].
      destruct Hsum as (_ & Hnotin & (ga & Hacc)).
      assert (Hah : acc <> hist) by congruence.
      pose proof (inplace_run σ acc ga Plus (OHist hist) Hacc) as Hrun.
      cbn [inplace op_result] in Hrun. unfold with_hist in Hrun.
      rewrite Hs in Hrun.
      unfold bind at 1. rewrite Hrun.
      eexists. eexists. split; [reflexivity |].
      cbn [HistStack.hists HistStack.dim HistStack.sum].
      split; [reflexivity |]. split.
      { unfold HistStack.__len__, HistStack.GetHists.
        cbn [HistStack.hists]. rewrite Eh, length_app. cbn [length]. lia. }
      split; [symmetry; exact Hc |]. split.
      * split.
        -- apply Forall_app. split.
           ++ apply Forall_forall. intros q Hin.
              rewrite Forall_forall in Hmem.
              destruct (Hmem q Hin) as (g & Hq & Hdq).
              exists g. split; [| exact Hdq].
              rewrite lookup_insert_ne; [exact Hq |].
              intros ->. exact (Hnotin Hin).
           ++ constructor; [| constructor]. exists h. split; [| exact Hc].
              rewrite lookup_insert_ne by exact Hah. exact Hs.
        -- cbn [HistStack.sum HistStack.hists].
           split; [intros E; apply app_eq_nil in E as [_ E]; discriminate |].
           split.
           ++ intros Hin. apply elem_of_app in Hin as [Hin | Hin].
              ** exact (Hnotin Hin).
              ** apply list_elem_of_singleton in Hin. exact (Hah Hin).
           ++ eexists. apply lookup_insert_eq.
      * intros q g Hq Hnq.
        rewrite lookup_insert_ne; [exact Hq |]. congruence.
Qed.

Lemma stack_add_spec_witness :
  exists s' σ',
    HistStack.Add HistStack.empty 0%nat demo_store = (Ok s', σ')
    /\ HistStack.hists s' = [0%nat] /\ stack_ok σ' s'.
Proof.
  destruct (stack_add_spec demo_store HistStack.empty 0%nat demo_hist)
    as (_ & _ & Hok).
  - split; [constructor | reflexivity].
  - reflexivity.
  - discriminate.
  - destruct Hok as (s' & σ' & Hrun & Hh & _ & _ & Hinv & _);
      [left; reflexivity | left; reflexivity |].
    exists s', σ'. split; [exact Hrun |]. split; [exact Hh | exact Hinv].
Defined.

Lemma scale_members (c : Q) (l : list handle) :
  forall σ : store,
    NoDup l -> Forall (fun q => is_Some (σ !! q)) l ->
    exists σ',
      for_each l (fun hist => modify hist (fun h => TH1.Scale h c)) σ
      = (Ok tt, σ')
      /\ (forall q, q ∈ l ->
            σ' !! q = (fun h => TH1.Scale h c) <$> σ !! q)
      /\ (forall q, q ∉ l -> σ' !! q = σ !! q).
Proof.
  induction l as [| m l IH]; intros σ Hnd Hall.
  - exists σ. split; [reflexivity |]. split; [| auto].
    intros q Hq. inversion Hq.
  - apply NoDup_cons in Hnd as [Hnot Hnd].
    apply Forall_cons in Hall as [[g Hg] Hall].
    set (σ1 := <[m := TH1.Scale g c]> σ).
    destruct (IH σ1 Hnd) as (σ' & Hrun & Hin & Hout).
    { apply Forall_forall. intros q Hq. rewrite Forall_forall in Hall.
      unfold σ1. rewrite lookup_insert_ne by (intros ->; contradiction).
      apply Hall, Hq. }
    exists σ'. split.
    { cbn [for_each]. unfold bind at 1.
      rewrite (modify_run σ m g (fun h => TH1.Scale h c) Hg).
      exact Hrun. }
    split.
    + intros q Hq. apply elem_of_cons in Hq as [-> | Hq].
      * rewrite (Hout m Hnot). unfold σ1. rewrite lookup_insert_eq, Hg.
        reflexivity.
      * rewrite (Hin q Hq). unfold σ1.
        rewrite lookup_insert_ne by (intros ->; contradiction).
        reflexivity.
    + intros q Hq. apply not_elem_of_cons in Hq as [Hne Hq].
      rewrite (Hout q Hq). unfold σ1.
      rewrite lookup_insert_ne by congruence. reflexivity.
Qed.



Lemma add_all_run (p0 : handle) (d : Z) (rest : list handle) :
  forall (σ : store) (s : HistStack.t) (ga : TH1.t),
    HistStack.sum s = Some p0 -> HistStack.hists s <> [] ->
    HistStack.dim s = d -> σ !! p0 = Some ga ->
    Forall (fun q => q <> p0
                     /\ exists g, σ !! q = Some g
                                  /\ TH1.GetDimension g = d
                                  /\ (d = 1 \/ d = 2)
                                  /\ TH1.same_bins ga g = true) rest ->
    exists s' r,
      HistStack.add_all s rest σ = (Ok s', <[p0 := r]> σ)
      /\ HistStack.hists s' = HistStack.hists s ++ rest
      /\ HistStack.sum s' = Some p0
      /\ (forall c, 0 <= c < TH1.GetSize ga ->
            (TH1.GetBinContent r c
             == TH1.GetBinContent ga c + cell_total σ rest c)%Q).
Proof.
  induction rest as [| q rest IH]; intros σ s ga Hsum Hne Hdim Hp0 Hall.
  - exists s, ga. split.
    { cbn [HistStack.add_all]. unfold ret.
      rewrite insert_id by exact Hp0. reflexivity. }
    split; [rewrite app_nil_r; reflexivity |]. split; [exact Hsum |].
    intros c _. unfold cell_total, total. simpl. ring.
  - apply Forall_cons in Hall as [(Hq0 & g & Hg & Hdg & Hd12 & Hb) Hall].
    set (ga' := TH1.Add ga g 1).
    set (σ1 := <[p0 := ga']> σ).
    set (s1 := HistStack.mk (HistStack.hists s ++ [q]) (HistStack.dim s)
                 (Some p0)).
    assert (Hstep : HistStack.Add s q σ = (Ok s1, σ1)).
    { unfold HistStack.Add. rewrite (bind_load _ _ _ _ Hg).
      unfold is_Hist. rewrite Hdg.
      replace ((d =? 1) || (d =? 2)) with true by lia.
      rewrite stack_nonzero.
      destruct (HistStack.hists s) as [| m ms] eqn:Eh; [congruence |].
      cbn [negb]. unfold HistStack.__dim__. rewrite Hdim, Z.eqb_refl.
      cbn [negb]. rewrite Hsum.
      pose proof (inplace_run σ p0 ga Plus (OHist q) Hp0) as Hrun.
      cbn [inplace op_result] in Hrun. unfold with_hist in Hrun.
      rewrite Hg in Hrun. unfold bind at 1. rewrite Hrun.
      unfold s1. rewrite ?Eh, ?Hdim. reflexivity. }
    destruct (IH σ1 s1 ga') as (s' & r & Hrun & Hh & Hs' & Hcont).
    { reflexivity. }
    { cbn [s1 HistStack.hists]. intros E.
      apply app_eq_nil in E as [_ E]. discriminate. }
    { exact Hdim. }
    { apply lookup_insert_eq. }
    { eapply Forall_impl; [exact Hall |].
      intros x (Hx0 & gx & Hgx & Hdx & _ & Hbx).
      split; [exact Hx0 |]. exists gx.
      split; [unfold σ1; rewrite lookup_insert_ne by congruence;
              exact Hgx |].
      split; [exact Hdx |]. split; [exact Hd12 |].
      unfold ga', TH1.Add. rewrite same_bins_combine. exact Hbx. }
    exists s', r. split.
    { cbn [HistStack.add_all]. unfold bind at 1. rewrite Hstep.
      rewrite Hrun. unfold σ1. rewrite insert_insert_eq. reflexivity. }
    split.
    { rewrite Hh. cbn [s1 HistStack.hists]. rewrite <- app_assoc.
      reflexivity. }
    split; [exact Hs' |].
    intros c Hc.
    destruct (combine_content ga g
                (fun b => (TH1.GetBinContent ga b
                           + 1 * TH1.GetBinContent g b)%Q)
                (fun b => (TH1.err2 ga b + 1 * 1 * TH1.err2 g b)%Q)
                (Qabs (TH1.fEntries ga + 1 * TH1.fEntries g)) c Hb Hc)
      as [Hsz Hadd].
    fold (TH1.Add ga g 1) in Hsz, Hadd. fold ga' in Hsz, Hadd.
    rewrite (Hcont c) by (rewrite Hsz; exact Hc). rewrite Hadd.
    rewrite (cell_total_ext σ σ1 rest c).
    + unfold cell_total. rewrite fmap_cons. unfold total at 2.
      cbn [foldr]. rewrite Hg. fold (total ((fun q => match σ !! q with
        | Some g0 => TH1.GetBinContent g0 c | None => 0%Q end) <$> rest)).
      ring.
    + intros x Hx. rewrite Forall_forall in Hall.
      destruct (Hall x Hx) as (Hx0 & _).
      unfold σ1. apply lookup_insert_ne. congruence.
Qed.



(** ** The constructors *)

Lemma at_all (l : list Q) :
  (fun k => TAxis.at_ l k) <$> seqZ 0 (Z.of_nat (length l)) = l.
Proof.
  apply list_eq. intros i. rewrite list_lookup_fmap.
  destruct (decide (i < length l)%nat) as [Hi | Hi].
  - rewrite lookup_seqZ_lt by lia. cbn.
    destruct (lookup_lt_is_Some_2 l i Hi) as [x Hx]. rewrite Hx.
    f_equal. unfold TAxis.at_.
    replace (Z.to_nat (0 + Z.of_nat i)) with i by lia.
    apply nth_lookup_Some. exact Hx.
  - rewrite lookup_seqZ_ge by lia. cbn. symmetry.
    apply lookup_ge_None. lia.
Qed.

Lemma axis_edges_of_edges (e : list Q) :
  increasing e = true -> (2 <= length e)%nat ->
  axis_edges (TAxis.of_edges (Z.of_nat (length e) - 1) e) = e.
Proof.
  intros Hinc Hlen. rewrite (axis_edges_eq _ (wf_of_edges e Hinc Hlen)).
  unfold edge_at, TAxis.variable, TAxis.of_edges.
  cbn [TAxis.fXbins TAxis.fNbins].
  replace (Z.of_nat (length e) - 1 + 1) with (Z.of_nat (length e)) by lia.
  destruct e as [| x l]; [simpl in Hlen; lia |]. apply at_all.
Qed.

Lemma wf_fixed (n : Z) (low high : Q) :
  1 <= n -> (low < high)%Q -> wf_axis (TAxis.fixed n low high) = true.
Proof.
  intros Hn Hlt. unfold wf_axis, TAxis.fixed.
  cbn [TAxis.fNbins TAxis.fXmin TAxis.fXmax TAxis.fXbins].
  replace (1 <=? n) with true by (symmetry; apply Z.leb_le; exact Hn).
  destruct (Qle_bool high low) eqn:E; [| reflexivity].
  apply Qle_bool_iff in E. exfalso. apply (Qlt_not_le _ _ Hlt E).
Qed.

Lemma axis_edges_fixed (n : Z) (low high : Q) :
  1 <= n -> (low < high)%Q ->
  axis_edges (TAxis.fixed n low high)
  = (fun k => (low + inject_Z k * ((high - low) / inject_Z n))%Q)
      <$> seqZ 0 (n + 1).
Proof.
  intros Hn Hlt. rewrite (axis_edges_eq _ (wf_fixed n low high Hn Hlt)).
  reflexivity.
Qed.

Lemma equidistant_increasing (n : Z) (low high : Q) :
  1 <= n -> (low < high)%Q ->
  increasing ((fun k => (low + inject_Z k * ((high - low) / inject_Z n))%Q)
                <$> seqZ 0 (n + 1)) = true.
Proof.
  intros Hn Hlt. rewrite <- (axis_edges_fixed n low high Hn Hlt).
  apply axis_edges_increasing, wf_fixed; assumption.
Qed.

(** An accepted axis gives a well-formed native axis with the bins and the
    edges it describes. *)
Lemma good_axis (p : param) :
  good_param p ->
  (forall e, p_bins p = Some e -> (2 <= length e)%nat) ->
  wf_axis (axis_of_param p) = true
  /\ TAxis.fNbins (axis_of_param p) = default 0 (p_nbins p)
  /\ axis_edges (axis_of_param p) = param_edges p.
Proof.
  intros [(e & Hb & Hn & Hinc) | (n & low & high & Hb & Hn & Hl & Hh & H1 & Hlt)]
    Hlen; unfold axis_of_param, param_edges; rewrite Hb, Hn.
  - pose proof (Hlen e Hb) as He. cbn [default from_option id].
    split; [apply wf_of_edges; assumption |].
    split; [reflexivity | apply axis_edges_of_edges; assumption].
  - rewrite Hl, Hh. cbn [default from_option id].
    split; [apply wf_fixed; assumption |].
    split; [reflexivity | apply axis_edges_fixed; assumption].
Qed.

(** Turning a fixed axis into explicit edges keeps what it describes. *)
Lemma good_explicit (p : param) :
  good_param p ->
  (forall e, p_bins p = Some e -> (2 <= length e)%nat) ->
  good_param (explicit_edges p)
  /\ (forall e, p_bins (explicit_edges p) = Some e -> (2 <= length e)%nat)
  /\ p_nbins (explicit_edges p) = p_nbins p
  /\ param_edges (explicit_edges p) = param_edges p.
Proof.
  intros Hg Hlen. pose proof Hg as Hg'.
  destruct Hg as [(e & Hb & Hn & Hinc)
                 | (n & low & high & Hb & Hn & Hl & Hh & H1 & Hlt)];
    unfold explicit_edges; rewrite Hb; [auto |].
  rewrite Hn, Hl, Hh. cbn [default from_option id]. rewrite py_range_up.
  replace (n + 1 - 0) with (n + 1) by lia.
  set (l := (fun i => (num_of low + inject_Z i
                       * ((num_of high - num_of low) / inject_Z n))%Q)
              <$> seqZ 0 (n + 1)).
  assert (Hl' : length l = Z.to_nat (n + 1))
    by (unfold l; rewrite length_fmap, length_seqZ; reflexivity).
  split; [| split; [| split]].
  - left. exists l. cbn [p_bins p_nbins]. split; [reflexivity |].
    split; [f_equal; lia |].
    apply equidistant_increasing; assumption.
  - cbn [p_bins]. intros e [= <-]. lia.
  - reflexivity.
  - unfold param_edges. cbn [p_bins]. rewrite Hb, Hn, Hl, Hh. reflexivity.
Qed.

Lemma wf_create (d : Z) (ax ay az : TAxis.t) :
  1 <= d <= 3 ->
  wf_axis ax = true -> wf_axis ay = true -> wf_axis az = true ->
  (d < 2 -> TAxis.fNbins ay = 1) -> (d < 3 -> TAxis.fNbins az = 1) ->
  wf_hist (TH1.create d ax ay az fgDefaultSumw2) = true
  /\ TH1.GetSumw2N (TH1.create d ax ay az fgDefaultSumw2)
     = TH1.GetSize (TH1.create d ax ay az fgDefaultSumw2).
Proof.
  intros Hd Wx Wy Wz Uy Uz.
  pose proof (wf_axis_nbins _ Wx) as Nx.
  pose proof (wf_axis_nbins _ Wy) as Ny.
  pose proof (wf_axis_nbins _ Wz) as Nz.
  pose proof (ncells_pos d _ _ _ Nx Ny Nz) as Hn.
  unfold wf_hist, TH1.create, TH1.GetSize, TH1.GetSumw2N,
    TH1.GetNbinsX, TH1.GetNbinsY, TH1.GetNbinsZ, fgDefaultSumw2.
  cbn [TH1.fDimension TH1.fXaxis TH1.fYaxis TH1.fZaxis TH1.fArray
       TH1.fSumw2].
  rewrite !length_repeat_Z by lia. split; [| reflexivity].
  rewrite Wx, Wy, Wz, !Z.eqb_refl, orb_true_r.
  replace (1 <=? d) with true by (symmetry; apply Z.leb_le; lia).
  replace (d <=? 3) with true by (symmetry; apply Z.leb_le; lia).
  assert (Hy1 : (2 <=? d) || (TAxis.fNbins ay =? 1) = true).
  { destruct (Z.le_gt_cases 2 d) as [H | H].
    - apply orb_true_iff. left. apply Z.leb_le. exact H.
    - apply orb_true_iff. right. apply Z.eqb_eq, Uy. lia. }
  assert (Hz1 : (3 <=? d) || (TAxis.fNbins az =? 1) = true).
  { destruct (Z.le_gt_cases 3 d) as [H | H].
    - apply orb_true_iff. left. apply Z.leb_le. exact H.
    - apply orb_true_iff. right. apply Z.eqb_eq, Uz. lia. }
  rewrite Hy1, Hz1. reflexivity.
Qed.

Lemma create_empty (d : Z) (ax ay az : TAxis.t) (b : bool) (c : Z) :
  TH1.GetBinContent (TH1.create d ax ay az b) c = 0%Q.
Proof. unfold TH1.GetBinContent, TH1.create. apply at_repeat. Qed.

Lemma edges_of_axis (h : TH1.t) (axis : Z) (l : list Q) :
  0 <= axis <= 2 -> axis_edges (axis_at h axis) = l ->
  _edges h axis false = Ok (Fin <$> l).
Proof.
  intros Hax <-. apply _edges_run. apply (axis_at_ok h axis Hax).
Qed.
Lemma parse_args_good (d : Z) (args rest : list pyval) (ps : list param) :
  _parse_args d args false = Ok (ps, rest) ->
  length ps = Z.to_nat d /\ Forall good_param ps.
Proof.
  unfold _parse_args.
  destruct (parse_axes (Z.to_nat d) args) as [[ps' rest'] |] eqn:Hp;
    [| discriminate].
  simpl. destruct rest'; [| discriminate]. intros [= <- <-].
  eapply parse_axes_good; eauto.
Qed.

Lemma created_axis (d : Z) (ax ay az : TAxis.t) (i : Z) (a : TAxis.t)
    (n : Z) (l : list Q) :
  0 <= i <= 2 ->
  axis_at (TH1.create d ax ay az fgDefaultSumw2) i = a ->
  TAxis.fNbins a = n -> axis_edges a = l ->
  nbins (TH1.create d ax ay az fgDefaultSumw2) i = Ok n
  /\ _edges (TH1.create d ax ay az fgDefaultSumw2) i false = Ok (Fin <$> l).
Proof.
  intros Hi Ha Hn Hl. split.
  - rewrite (proj2 (axis_at_ok _ i Hi)), Ha, Hn. reflexivity.
  - apply edges_of_axis; [exact Hi | rewrite Ha; exact Hl].
Qed.



(** ** [new_binning_template] *)

Lemma template_unused_axis (h : TH1.t) (b b' : list Q) (axis : Z) :
  axis < 0 -> template h b axis = template h b' axis.
Proof.
  intros Hax. unfold template, template_axis.
  replace (0 =? axis) with false by (symmetry; apply Z.eqb_neq; lia).
  replace (1 =? axis) with false by (symmetry; apply Z.eqb_neq; lia).
  replace (2 =? axis) with false by (symmetry; apply Z.eqb_neq; lia).
  reflexivity.
Qed.

Lemma new_binning_template_unused (σ : store) self h binning axis :
  σ !! self = Some h -> wf_hist h = true -> axis < 0 ->
  new_binning_template self binning axis σ
  = (Ok (fresh (dom σ)), <[fresh (dom σ) := template h binning axis]> σ).
Proof.
  intros Hs Hwf Hax.
  destruct (wf_hist_axes _ Hwf) as (Hd & Hx & Hy & Hz).
  pose proof (axis_edges_increasing _ Hx) as Ix.
  pose proof (axis_edges_increasing _ Hy) as Iy.
  pose proof (axis_edges_increasing _ Hz) as Iz.
  unfold new_binning_template. rewrite (bind_load _ _ _ _ Hs).
  unfold TH1.GetDimension, template, template_axis.
  assert (E0 : _edges h 0 false = Ok (Fin <$> axis_edges (TH1.fXaxis h)))
    by (apply _edges_run; reflexivity).
  assert (E1 : _edges h 1 false = Ok (Fin <$> axis_edges (TH1.fYaxis h)))
    by (apply _edges_run; reflexivity).
  assert (E2 : _edges h 2 false = Ok (Fin <$> axis_edges (TH1.fZaxis h)))
    by (apply _edges_run; reflexivity).
  assert (A0 : (0 =? axis) = false) by (apply Z.eqb_neq; lia).
  assert (A1 : (1 =? axis) = false) by (apply Z.eqb_neq; lia).
  assert (A2 : (2 =? axis) = false) by (apply Z.eqb_neq; lia).
  destruct Hd as [Hd | [Hd | Hd]]; rewrite Hd in *;
    replace (Z.ltb (Z.sub _ 1) axis) with false
      by (symmetry; apply Z.ltb_ge; lia).
  - change (negb ((-3 <=? 1 - 1) && (1 - 1 <? 3))) with false.
    change ((1 - 1) `mod` 3 + 1) with 1.
    change (py_range 0 1 1) with [0].
    unfold bind, lift, ret, Hist_new, _parse_args.
    cbn -[parse_axes alloc _edges Z.to_nat Z.eqb].
    rewrite ?A0, ?E0. cbn -[parse_axes alloc _edges Z.to_nat Z.eqb].
    rewrite ?floats_Fin. change (Z.to_nat 1) with 1%nat.
    rewrite parse_axes_1 by assumption.
    cbn -[alloc]. reflexivity.
  - change (negb ((-3 <=? 2 - 1) && (2 - 1 <? 3))) with false.
    change ((2 - 1) `mod` 3 + 1) with 2.
    change (py_range 0 2 1) with [0; 1].
    unfold bind, lift, ret, Hist_new, _parse_args.
    cbn -[parse_axes alloc _edges Z.to_nat Z.eqb].
    rewrite ?A0, ?A1, ?E0, ?E1.
    cbn -[parse_axes alloc _edges Z.to_nat Z.eqb].
    rewrite ?A0, ?A1, ?E0, ?E1.
    cbn -[parse_axes alloc _edges Z.to_nat Z.eqb].
    rewrite ?floats_Fin. change (Z.to_nat 2) with 2%nat.
    rewrite parse_axes_2 by assumption.
    cbn -[alloc]. reflexivity.
  - change (negb ((-3 <=? 3 - 1) && (3 - 1 <? 3))) with false.
    change ((3 - 1) `mod` 3 + 1) with 3.
    change (py_range 0 3 1) with [0; 1; 2].
    unfold bind, lift, ret, Hist_new, _parse_args.
    cbn -[parse_axes alloc _edges Z.to_nat Z.eqb].
    rewrite ?A0, ?A1, ?A2, ?E0, ?E1, ?E2.
    cbn -[parse_axes alloc _edges Z.to_nat Z.eqb].
    rewrite ?A0, ?A1, ?A2, ?E0, ?E1, ?E2.
    cbn -[parse_axes alloc _edges Z.to_nat Z.eqb].
    rewrite ?A0, ?A1, ?A2, ?E0, ?E1, ?E2.
    cbn -[parse_axes alloc _edges Z.to_nat Z.eqb].
    rewrite ?floats_Fin. change (Z.to_nat 3) with 3%nat.
    rewrite parse_axes_3 by assumption.
    cbn -[alloc]. reflexivity.
Qed.
Lemma new_binning_template_unsorted (σ : store) self h binning axis :
  σ !! self = Some h -> wf_hist h = true ->
  0 <= axis < TH1.fDimension h -> increasing binning = false ->
  new_binning_template self binning axis σ = (Raise ValueError, σ).
Proof.
  intros Hs Hwf Hax Hinc.
  destruct (wf_hist_axes _ Hwf) as (Hd & Hx & Hy & Hz).
  pose proof (axis_edges_increasing _ Hx) as Ix.
  pose proof (axis_edges_increasing _ Hy) as Iy.
  pose proof (axis_edges_increasing _ Hz) as Iz.
  unfold new_binning_template. rewrite (bind_load _ _ _ _ Hs).
  unfold TH1.GetDimension.
  assert (E0 : _edges h 0 false = Ok (Fin <$> axis_edges (TH1.fXaxis h)))
    by (apply _edges_run; reflexivity).
  assert (E1 : _edges h 1 false = Ok (Fin <$> axis_edges (TH1.fYaxis h)))
    by (apply _edges_run; reflexivity).
  assert (E2 : _edges h 2 false = Ok (Fin <$> axis_edges (TH1.fZaxis h)))
    by (apply _edges_run; reflexivity).
  destruct Hd as [Hd | [Hd | Hd]]; rewrite Hd in *;
    replace (Z.ltb (Z.sub _ 1) axis) with false
      by (symmetry; apply Z.ltb_ge; lia).
  - assert (axis = 0) as -> by lia.
    change (negb ((-3 <=? 1 - 1) && (1 - 1 <? 3))) with false.
    change ((1 - 1) `mod` 3 + 1) with 1.
    change (py_range 0 1 1) with [0].
    unfold bind, lift, ret, Hist_new, _parse_args.
    cbn -[parse_axis alloc Z.to_nat]. change (Z.to_nat 1) with 1%nat.
    cbn -[parse_axis alloc]. rewrite parse_axis_edges, Hinc. reflexivity.
  - change (negb ((-3 <=? 2 - 1) && (2 - 1 <? 3))) with false.
    change ((2 - 1) `mod` 3 + 1) with 2.
    change (py_range 0 2 1) with [0; 1].
    assert (axis = 0 \/ axis = 1) as [-> | ->] by lia;
      unfold bind, lift, ret, Hist_new, _parse_args;
      cbn -[parse_axis alloc _edges Z.to_nat];
      rewrite ?E0, ?E1; cbn -[parse_axis alloc _edges Z.to_nat];
      rewrite ?floats_Fin; change (Z.to_nat 2) with 2%nat;
      cbn -[parse_axis alloc _edges];
      rewrite !parse_axis_edges, ?Hinc, ?Ix, ?Iy; cbn -[parse_axis alloc];
      rewrite ?parse_axis_edges, ?Hinc, ?Ix, ?Iy; reflexivity.
  - change (negb ((-3 <=? 3 - 1) && (3 - 1 <? 3))) with false.
    change ((3 - 1) `mod` 3 + 1) with 3.
    change (py_range 0 3 1) with [0; 1; 2].
    assert (axis = 0 \/ axis = 1 \/ axis = 2) as [-> | [-> | ->]] by lia;
      unfold bind, lift, ret, Hist_new, _parse_args;
      cbn -[parse_axis alloc _edges Z.to_nat];
      rewrite ?E0, ?E1, ?E2; cbn -[parse_axis alloc _edges Z.to_nat];
      rewrite ?floats_Fin; change (Z.to_nat 3) with 3%nat;
      cbn -[parse_axis alloc _edges];
      rewrite !parse_axis_edges, ?Hinc, ?Ix, ?Iy, ?Iz;
      cbn -[parse_axis alloc];
      rewrite ?parse_axis_edges, ?Hinc, ?Ix, ?Iy, ?Iz;
      cbn -[parse_axis alloc];
      rewrite ?parse_axis_edges, ?Hinc, ?Ix, ?Iy, ?Iz; reflexivity.
Qed.
Lemma template_edges (h : TH1.t) (binning : list Q) (axis i : Z) :
  wf_hist h = true -> 0 <= i < TH1.fDimension h ->
  (i = axis -> increasing binning = true /\ (2 <= length binning)%nat) ->
  axis_edges (axis_at (template h binning axis) i)
  = if i =? axis then binning else axis_edges (axis_at h i).
Proof.
  intros Hwf Hi Hb. destruct (wf_hist_axes _ Hwf) as (Hd & Hx & Hy & Hz).
  assert (Hgen : forall a, wf_axis a = true ->
            axis_edges (template_axis h binning axis i a)
            = if i =? axis then binning else axis_edges a).
  { intros a Ha. unfold template_axis.
    replace (i <? TH1.fDimension h) with true
      by (symmetry; apply Z.ltb_lt; lia).
    destruct (i =? axis) eqn:E.
    - apply Z.eqb_eq in E. destruct (Hb E) as [Hinc Hlen].
      apply axis_edges_of_edges; assumption.
    - apply axis_edges_of_edges; [apply axis_edges_increasing, Ha |].
      pose proof (axis_edges_length _ Ha). pose proof (wf_axis_nbins _ Ha).
      lia. }
  unfold axis_at, template, TH1.create.
  cbn [TH1.fXaxis TH1.fYaxis TH1.fZaxis].
  assert (i = 0 \/ i = 1 \/ i = 2) as [-> | [-> | ->]] by lia;
    cbn [Z.eqb Pos.eqb]; apply Hgen; assumption.
Qed.



(** ** Positions and global indices *)

Lemma rem_row (x w n : Z) :
  0 <= x < n -> 0 <= w -> Z.rem (x + n * w) n = x /\ (x + n * w - x) ÷ n = w.
Proof.
  intros Hx Hw. split.
  - rewrite Z.rem_mod_nonneg by nia.
    replace (x + n * w) with (x + w * n) by lia.
    rewrite Z.mod_add by lia. apply Z.mod_small. exact Hx.
  - replace (x + n * w - x) with (w * n) by lia.
    rewrite Z.quot_div_nonneg by nia. apply Z.div_mul. lia.
Qed.

(** [GetBinXYZ] undoes [GetBin] on positions within the axes. *)
Lemma xyz_GetBin (h : TH1.t) (x y z : Z) :
  wf_hist h = true ->
  0 <= x < TH1.GetNbinsX h + 2 ->
  (2 <= TH1.fDimension h -> 0 <= y < TH1.GetNbinsY h + 2) ->
  (3 <= TH1.fDimension h -> 0 <= z < TH1.GetNbinsZ h + 2) ->
  TH1.GetBinXYZ h (TH1.GetBin h x y z)
  = (x, if 2 <=? TH1.fDimension h then y else 0,
        if 3 <=? TH1.fDimension h then z else 0).
Proof.
  intros Hwf Hx Hy Hz. destruct (wf_hist_axes _ Hwf) as (Hd & Wx & Wy & Wz).
  pose proof (wf_axis_nbins _ Wx) as Nx. pose proof (wf_axis_nbins _ Wy) as Ny.
  pose proof (wf_axis_nbins _ Wz) as Nz.
  unfold TH1.GetBinXYZ, TH1.GetBin, TH1.GetNbinsX, TH1.GetNbinsY,
    TH1.GetNbinsZ in *.
  set (nx := TAxis.fNbins (TH1.fXaxis h) + 2) in *.
  set (ny := TAxis.fNbins (TH1.fYaxis h) + 2) in *.
  set (nz := TAxis.fNbins (TH1.fZaxis h) + 2) in *.
  rewrite (clamp_id x nx Hx).
  destruct Hd as [Hd | [Hd | Hd]]; rewrite Hd in *; cbn [Z.ltb Z.eqb Z.leb
    Z.compare Pos.compare Pos.compare_cont Pos.eqb].
  - rewrite Z.rem_small by lia. reflexivity.
  - rewrite (clamp_id y ny) by (apply Hy; lia).
    destruct (rem_row x y nx Hx ltac:(lia)) as [-> ->].
    rewrite Z.rem_small by lia. reflexivity.
  - rewrite (clamp_id y ny) by (apply Hy; lia).
    rewrite (clamp_id z nz) by (apply Hz; lia).
    assert (0 <= y < ny) as Hy' by (apply Hy; lia).
    assert (0 <= z < nz) as Hz' by (apply Hz; lia).
    destruct (rem_row x (y + ny * z) nx Hx ltac:(nia)) as [-> ->].
    destruct (rem_row y z ny Hy' ltac:(lia)) as [-> ->]. reflexivity.
Qed.

(** [GetBin] undoes [GetBinXYZ] on the cells of the histogram. *)
Lemma GetBin_xyz (h : TH1.t) (i : Z) :
  wf_hist h = true -> 0 <= i < TH1.GetSize h ->
  TH1.GetBin h (TH1.GetBinXYZ h i).1.1 (TH1.GetBinXYZ h i).1.2
               (TH1.GetBinXYZ h i).2 = i.
Proof.
  intros Hwf Hi. pose proof (xyz_range h i Hwf Hi) as Hc.
  destruct (wf_hist_axes _ Hwf) as (Hd & Wx & Wy & Wz).
  pose proof (wf_axis_nbins _ Wx) as Nx. pose proof (wf_axis_nbins _ Wy) as Ny.
  pose proof (wf_axis_nbins _ Wz) as Nz.
  rewrite (wf_hist_size _ Hwf) in Hi.
  destruct (TH1.GetBinXYZ h i) as [[x y] z] eqn:E. cbn [fst snd].
  unfold coords_in in Hc. destruct Hc as (Hx & Hy & Hz).
  unfold TH1.GetBinXYZ, TH1.GetBin, TH1.ncells, TH1.GetNbinsX, TH1.GetNbinsY,
    TH1.GetNbinsZ in *.
  set (nx := TAxis.fNbins (TH1.fXaxis h) + 2) in *.
  set (ny := TAxis.fNbins (TH1.fYaxis h) + 2) in *.
  set (nz := TAxis.fNbins (TH1.fZaxis h) + 2) in *.
  rewrite (clamp_id x nx Hx), (clamp_id y ny Hy), (clamp_id z nz Hz).
  assert (Hm : 0 <= i mod nx <= i)
    by (split; [apply Z.mod_pos_bound; lia | apply Z.mod_le; lia]).
  assert (Hq : (i - i mod nx) ÷ nx = i / nx).
  { rewrite Z.quot_div_nonneg by lia.
    rewrite (Z.div_mod i nx) at 1 by lia.
    replace (nx * (i / nx) + i mod nx - i mod nx) with ((i / nx) * nx) by lia.
    apply Z.div_mul. lia. }
  assert (Hq0 : 0 <= i / nx) by (apply Z.div_pos; lia).
  rewrite Z.rem_mod_nonneg in E by lia. rewrite Hq in E.
  pose proof (Z.div_mod i nx ltac:(lia)) as Hdm.
  destruct Hd as [Hd | [Hd | Hd]]; rewrite Hd in *;
    cbn [Z.ltb Z.eqb Z.compare Pos.compare Pos.compare_cont Pos.eqb] in *.
  - injection E as <- <- <-. apply Z.mod_small. lia.
  - rewrite Z.rem_mod_nonneg in E by lia.
    injection E as <- <- <-.
    assert (i / nx < ny) by (apply Z.div_lt_upper_bound; nia).
    rewrite (Z.mod_small (i / nx) ny) by lia. lia.
  - rewrite Z.rem_mod_nonneg in E by lia.
    assert (Hm' : 0 <= (i / nx) mod ny <= i / nx)
      by (split; [apply Z.mod_pos_bound; lia | apply Z.mod_le; lia]).
    assert (Hq' : (i / nx - (i / nx) mod ny) ÷ ny = i / nx / ny).
    { rewrite Z.quot_div_nonneg by lia.
      rewrite (Z.div_mod (i / nx) ny) at 1 by lia.
      replace (ny * (i / nx / ny) + (i / nx) mod ny - (i / nx) mod ny)
        with ((i / nx / ny) * ny) by lia.
      apply Z.div_mul. lia. }
    rewrite Hq' in E. injection E as <- <- <-.
    pose proof (Z.div_mod (i / nx) ny ltac:(lia)) as Hdm'. lia.
Qed.
Lemma getitem_int_run (σ : store) self h i :
  σ !! self = Some h -> 0 <= i < TH1.GetSize h ->
  __getitem__ self (IInt i) σ
  = (Ok (Bin (BinProxy.mk self i (TH1.GetBinXYZ h i))), σ).
Proof.
  intros Hs Hi. unfold __getitem__. rewrite (bind_load _ _ _ _ Hs).
  unfold _range_check, bind, lift.
  replace ((0 <=? i) && (i <? TH1.GetSize h)) with true by lia. simpl.
  rewrite (proxy_init _ _ _ _ Hs). reflexivity.
Qed.

Lemma getitem_pair_run (σ : store) self h ix iy :
  σ !! self = Some h -> TH1.GetDimension h = 2 ->
  0 <= ix < TH1.GetNbinsX h + 2 -> 0 <= iy < TH1.GetNbinsY h + 2 ->
  __getitem__ self (ITuple [ix; iy]) σ
  = (Ok (Bin (BinProxy.mk self (TH1.GetBin h ix iy 0)
                (TH1.GetBinXYZ h (TH1.GetBin h ix iy 0)))), σ).
Proof.
  intros Hs Hd Hx Hy. unfold __getitem__.
  rewrite (bind_load _ _ _ _ Hs), Hd. simpl.
  unfold _range_check, nbins, bind, lift, ret. simpl.
  replace ((0 <=? ix) && (ix <? TH1.GetNbinsX h + 2)) with true by lia.
  replace ((0 <=? iy) && (iy <? TH1.GetNbinsY h + 2)) with true by lia.
  simpl. rewrite (proxy_init _ _ _ _ Hs). reflexivity.
Qed.

Lemma getitem_triple_run (σ : store) self h ix iy iz :
  σ !! self = Some h -> TH1.GetDimension h = 3 ->
  0 <= ix < TH1.GetNbinsX h + 2 -> 0 <= iy < TH1.GetNbinsY h + 2 ->
  0 <= iz < TH1.GetNbinsZ h + 2 ->
  __getitem__ self (ITuple [ix; iy; iz]) σ
  = (Ok (Bin (BinProxy.mk self (TH1.GetBin h ix iy iz)
                (TH1.GetBinXYZ h (TH1.GetBin h ix iy iz)))), σ).
Proof.
  intros Hs Hd Hx Hy Hz. unfold __getitem__.
  rewrite (bind_load _ _ _ _ Hs), Hd. simpl.
  unfold _range_check, nbins, bind, lift, ret. simpl.
  replace ((0 <=? ix) && (ix <? TH1.GetNbinsX h + 2)) with true by lia.
  replace ((0 <=? iy) && (iy <? TH1.GetNbinsY h + 2)) with true by lia.
  replace ((0 <=? iz) && (iz <? TH1.GetNbinsZ h + 2)) with true by lia.
  simpl. rewrite (proxy_init _ _ _ _ Hs). reflexivity.
Qed.

(** Whether a cell is an overflow cell, read off its positions. *)
Lemma overflow_of_xyz (h : TH1.t) (i : Z) :
  wf_hist h = true ->
  BinProxy.overflow_of h i
  = Ok (let '(x, y, z) := TH1.GetBinXYZ h i in
        (x =? 0) || (x =? TH1.GetNbinsX h + 1)
        || (2 <=? TH1.fDimension h)
           && ((y =? 0) || (y =? TH1.GetNbinsY h + 1))
        || (3 <=? TH1.fDimension h)
           && ((z =? 0) || (z =? TH1.GetNbinsZ h + 1))).
Proof.
  intros Hwf. destruct (wf_hist_axes _ Hwf) as (Hd & _).
  unfold BinProxy.overflow_of, TH1.GetDimension.
  destruct (TH1.GetBinXYZ h i) as [[x y] z].
  destruct Hd as [Hd | [Hd | Hd]]; rewrite Hd.
  - change (py_range 0 1 1) with [0]. unfold nbins. simpl.
    destruct (_ || _); reflexivity.
  - change (py_range 0 2 1) with [0; 1]. unfold nbins. simpl.
    destruct ((x =? 0) || _); [reflexivity |]. simpl.
    destruct (_ || _); reflexivity.
  - change (py_range 0 3 1) with [0; 1; 2]. unfold nbins. simpl.
    destruct ((x =? 0) || _); [reflexivity |]. simpl.
    destruct ((y =? 0) || _); [reflexivity |]. simpl.
    destruct (_ || _); reflexivity.
Qed.

(** Indexing by positions and by global index.  In a well-formed two- or
    three-dimensional histogram, [h[ix, iy]] (or [h[ix, iy, iz]]) with
    positions within the axes answers a proxy whose [xyz] are exactly those
    positions, whose global index is [ix + (nx + 2) * iy] (plus
    [(nx + 2) * (ny + 2) * iz]), which is the proxy that the global index
    answers, and whose [overflow] tells whether a position is 0 or
    [nbins + 1] on its axis.  Conversely the positions [xyz(i)] of a global
    index [i] lead back to the proxy of [i]. *)
Theorem index_round_trip (σ : store) (self : handle) (h : TH1.t) :
  σ !! self = Some h -> wf_hist h = true ->
  (TH1.GetDimension h = 2 -> forall ix iy,
     0 <= ix < TH1.GetNbinsX h + 2 -> 0 <= iy < TH1.GetNbinsY h + 2 ->
     exists b,
       __getitem__ self (ITuple [ix; iy]) σ = (Ok (Bin b), σ)
       /\ BinProxy.xyz b = (ix, iy, 0)
       /\ BinProxy.idx b = ix + (TH1.GetNbinsX h + 2) * iy
       /\ __getitem__ self (IInt (BinProxy.idx b)) σ = (Ok (Bin b), σ)
       /\ BinProxy.overflow b σ
          = (Ok ((ix =? 0) || (ix =? TH1.GetNbinsX h + 1)
                 || (iy =? 0) || (iy =? TH1.GetNbinsY h + 1)), σ))
  /\ (TH1.GetDimension h = 3 -> forall ix iy iz,
        0 <= ix < TH1.GetNbinsX h + 2 -> 0 <= iy < TH1.GetNbinsY h + 2 ->
        0 <= iz < TH1.GetNbinsZ h + 2 ->
        exists b,
          __getitem__ self (ITuple [ix; iy; iz]) σ = (Ok (Bin b), σ)
          /\ BinProxy.xyz b = (ix, iy, iz)
          /\ BinProxy.idx b
             = ix + (TH1.GetNbinsX h + 2)
                    * (iy + (TH1.GetNbinsY h + 2) * iz)
          /\ __getitem__ self (IInt (BinProxy.idx b)) σ = (Ok (Bin b), σ)
          /\ BinProxy.overflow b σ
             = (Ok ((ix =? 0) || (ix =? TH1.GetNbinsX h + 1)
                    || (iy =? 0) || (iy =? TH1.GetNbinsY h + 1)
                    || (iz =? 0) || (iz =? TH1.GetNbinsZ h + 1)), σ))
  /\ (forall i, 0 <= i < TH1.GetSize h ->
        (TH1.GetDimension h = 2 ->
         __getitem__ self (ITuple [(xyz h i).1.1; (xyz h i).1.2]) σ
         = __getitem__ self (IInt i) σ)
        /\ (TH1.GetDimension h = 3 ->
            __getitem__ self
              (ITuple [(xyz h i).1.1; (xyz h i).1.2; (xyz h i).2]) σ
            = __getitem__ self (IInt i) σ)).
Proof.
  intros Hs Hwf. unfold TH1.GetDimension. split; [| split].
  - intros Hd ix iy Hx Hy.
    pose proof (xyz_GetBin h ix iy 0 Hwf Hx ltac:(intros _; exact Hy)
                  ltac:(lia)) as Hxyz.
    rewrite Hd in Hxyz. cbn [Z.leb Z.compare Pos.compare Pos.compare_cont]
      in Hxyz.
    assert (Hidx : TH1.GetBin h ix iy 0 = ix + (TH1.GetNbinsX h + 2) * iy).
    { unfold TH1.GetBin. rewrite Hd. cbn [Z.ltb Z.compare Pos.compare
        Pos.compare_cont]. rewrite !clamp_id by assumption. reflexivity. }
    eexists. split; [apply (getitem_pair_run σ self h ix iy Hs Hd Hx Hy) |].
    cbn [BinProxy.xyz BinProxy.idx]. split; [exact Hxyz |].
    split; [exact Hidx |]. split.
    + apply getitem_int_run; [exact Hs | apply GetBin_range, Hwf].
    + unfold BinProxy.overflow. cbn [BinProxy.hist BinProxy.idx].
      rewrite (bind_load _ _ _ _ Hs). unfold lift.
      rewrite (overflow_of_xyz _ _ Hwf), Hxyz, Hd.
      cbn [Z.leb Z.compare Pos.compare Pos.compare_cont andb].
      rewrite orb_false_r, orb_assoc. reflexivity.
  - intros Hd ix iy iz Hx Hy Hz.
    pose proof (xyz_GetBin h ix iy iz Hwf Hx ltac:(intros _; exact Hy)
                  ltac:(intros _; exact Hz)) as Hxyz.
    rewrite Hd in Hxyz. cbn [Z.leb Z.compare Pos.compare Pos.compare_cont]
      in Hxyz.
    assert (Hidx : TH1.GetBin h ix iy iz
                   = ix + (TH1.GetNbinsX h + 2)
                          * (iy + (TH1.GetNbinsY h + 2) * iz)).
    { unfold TH1.GetBin. rewrite Hd. cbn [Z.ltb Z.compare Pos.compare
        Pos.compare_cont]. rewrite !clamp_id by assumption. reflexivity. }
    eexists.
    split; [apply (getitem_triple_run σ self h ix iy iz Hs Hd Hx Hy Hz) |].
    cbn [BinProxy.xyz BinProxy.idx]. split; [exact Hxyz |].
    split; [exact Hidx |]. split.
    + apply getitem_int_run; [exact Hs | apply GetBin_range, Hwf].
    + unfold BinProxy.overflow. cbn [BinProxy.hist BinProxy.idx].
      rewrite (bind_load _ _ _ _ Hs). unfold lift.
      rewrite (overflow_of_xyz _ _ Hwf), Hxyz, Hd.
      cbn [Z.leb Z.compare Pos.compare Pos.compare_cont andb].
      rewrite !orb_assoc. reflexivity.
  - intros i Hi. pose proof (xyz_range h i Hwf Hi) as Hc.
    pose proof (GetBin_xyz h i Hwf Hi) as Hg. unfold xyz.
    destruct (TH1.GetBinXYZ h i) as [[x y] z] eqn:E. cbn [fst snd] in *.
    destruct Hc as (Hx & Hy & Hz). split; intros Hd.
    + rewrite (getitem_pair_run σ self h x y Hs Hd Hx Hy).
      assert (Hz0 : z = 0).
      { unfold TH1.GetBinXYZ in E. rewrite Hd in E.
        cbn [Z.eqb Pos.eqb] in E. congruence. }
      subst z. rewrite Hg, E. symmetry.
      rewrite (getitem_int_run σ self h i Hs Hi), E. reflexivity.
    + rewrite (getitem_triple_run σ self h x y z Hs Hd Hx Hy Hz).
      rewrite Hg, E. symmetry.
      rewrite (getitem_int_run σ self h i Hs Hi), E. reflexivity.
Qed.

Lemma index_round_trip_witness :
  exists b,
    __getitem__ 0%nat (ITuple [3; 2]) {[ 0%nat := demo_hist2d ]}
    = (Ok (Bin b), {[ 0%nat := demo_hist2d ]})
    /\ BinProxy.xyz b = (3, 2, 0)
    /\ BinProxy.idx b = 11
    /\ BinProxy.overflow b {[ 0%nat := demo_hist2d ]}
       = (Ok true, {[ 0%nat := demo_hist2d ]}).
Proof.
  destruct (index_round_trip {[ 0%nat := demo_hist2d ]} 0%nat demo_hist2d)
    as (H2 & _ & _); [reflexivity | reflexivity |].
  destruct (H2 eq_refl 3 2) as (b & Hrun & Hxyz & Hidx & _ & Ho).
  - vm_compute. split; [intros H; discriminate H | reflexivity].
  - vm_compute. split; [intros H; discriminate H | reflexivity].
  - exists b. split; [exact Hrun |]. split; [exact Hxyz |].
    split; [exact Hidx |]. exact Ho.
Defined.

(** ** [bins] without the overflow cells *)

Lemma bins_inner_run (σ : store) self h :
  σ !! self = Some h -> wf_hist h = true ->
  bins self false σ = (Ok (seqZ 0 (TH1.GetSize h) ≫= kept self h), σ).
Proof.
  intros Hs Hwf. unfold bins.
  rewrite (bind_load _ _ _ _ Hs). rewrite py_range_up, Z.sub_0_r.
  induction (seqZ 0 (TH1.GetSize h)) as [| i l IH]; [reflexivity |].
  unfold bind, BinProxy.__init__, BinProxy.overflow, bind, load, lift, ret
    in IH |- *.
  rewrite Hs. cbn [BinProxy.hist BinProxy.idx]. rewrite Hs.
  rewrite bind_cons.
  unfold kept at 1.
  destruct (overflow_of_ok h i Hwf) as [o Ho]. rewrite Ho.
  rewrite IH. destruct o; reflexivity.
Qed.

Lemma bind_empty {A B} (f : A -> list B) : [] ≫= f = [].
Proof. reflexivity. Qed.

Lemma seqZ_rows (a b : Z) :
  0 <= a -> 0 <= b ->
  seqZ 0 (a * b) = seqZ 0 b ≫= (fun w => (fun x => x + a * w) <$> seqZ 0 a).
Proof.
  intros Ha Hb. rewrite <- (Z2Nat.id b) by lia.
  induction (Z.to_nat b) as [| n IH].
  - rewrite Z.mul_0_r. reflexivity.
  - replace (a * Z.of_nat (S n)) with (a * Z.of_nat n + a) by lia.
    rewrite seqZ_app by lia. rewrite IH.
    replace (Z.of_nat (S n)) with (Z.of_nat n + 1) by lia.
    rewrite (seqZ_app 0 (Z.of_nat n) 1) by lia.
    rewrite bind_app. f_equal.
    change (seqZ (0 + Z.of_nat n) 1) with [0 + Z.of_nat n].
    rewrite bind_cons, bind_empty, app_nil_r.
    replace (0 + a * Z.of_nat n) with (a * Z.of_nat n + 0) by lia.
    rewrite <- (fmap_add_seqZ (a * Z.of_nat n) 0).
    apply list_fmap_ext. intros i x _. lia.
Qed.

Lemma bind_nil_all {A B} (l : list A) (g : A -> list B) :
  (forall x, x ∈ l -> g x = []) -> l ≫= g = [].
Proof.
  induction l as [| x l IH]; intros Hg; [reflexivity |].
  rewrite bind_cons.
  rewrite (Hg x) by (left). rewrite IH; [reflexivity |].
  intros y Hy. apply Hg. right. exact Hy.
Qed.

Lemma bind_ext_in {A B} (l : list A) (g f : A -> list B) :
  (forall x, x ∈ l -> g x = f x) -> l ≫= g = l ≫= f.
Proof.
  induction l as [| x l IH]; intros Hg; [reflexivity |].
  rewrite !bind_cons.
  rewrite (Hg x) by (left). rewrite IH; [reflexivity |].
  intros y Hy. apply Hg. right. exact Hy.
Qed.

(** Dropping the two ends of an axis. *)
Lemma strip_ends {A} (n : Z) (g f : Z -> list A) :
  0 <= n -> g 0 = [] -> g (n + 1) = [] ->
  (forall x, 1 <= x <= n -> g x = f x) ->
  seqZ 0 (n + 2) ≫= g = seqZ 1 n ≫= f.
Proof.
  intros Hn H0 H1 Hm.
  replace (n + 2) with (1 + (n + 1)) by lia.
  rewrite (seqZ_app 0 1 (n + 1)) by lia.
  rewrite (seqZ_app (0 + 1) n 1) by lia.
  rewrite !bind_app.
  change (seqZ 0 1) with [0]. change (seqZ (0 + 1 + n) 1) with [0 + 1 + n].
  rewrite !bind_cons, !bind_empty, H0.
  replace (0 + 1 + n) with (n + 1) by lia. rewrite H1. cbn [app].
  rewrite !app_nil_r. change (0 + 1) with 1.
  apply bind_ext_in. intros x Hx. apply elem_of_seqZ in Hx. apply Hm. lia.
Qed.

Lemma bind_fmap_row {B} (m : list Z) (r : Z -> Z) (g : Z -> list B) :
  (r <$> m) ≫= g = m ≫= (fun x => g (r x)).
Proof.
  induction m as [| x m IHm]; [reflexivity |].
  rewrite fmap_cons, !bind_cons, IHm. reflexivity.
Qed.

Lemma bind_bind_fmap {B} (l : list Z) (r : Z -> Z -> Z) (m : list Z)
    (g : Z -> list B) :
  (l ≫= (fun w => (fun x => r x w) <$> m)) ≫= g
  = l ≫= (fun w => m ≫= (fun x => g (r x w))).
Proof.
  induction l as [| w l IH]; [reflexivity |].
  rewrite !bind_cons, bind_app, IH.
  rewrite (bind_fmap_row m (fun x => r x w) g). reflexivity.
Qed.
Lemma fmap_bind_list {A B C} (f : B -> C) (l : list A) (g : A -> list B) :
  f <$> (l ≫= g) = l ≫= (fun x => f <$> g x).
Proof.
  induction l as [| x l IH]; [reflexivity |].
  rewrite !bind_cons, fmap_app, IH. reflexivity.
Qed.

Lemma inner_bins_eq (self : handle) (h : TH1.t) :
  inner_bins self h
  = seqZ 1 (TH1.GetNbinsZ h) ≫= (fun z =>
    seqZ 1 (TH1.GetNbinsY h) ≫= (fun y =>
    seqZ 1 (TH1.GetNbinsX h) ≫= (fun x =>
      [BinProxy.mk self (TH1.GetBin h x y z)
         (TH1.GetBinXYZ h (TH1.GetBin h x y z))]))).
Proof.
  unfold inner_bins, inner_cells. rewrite !py_range_up.
  replace (TH1.GetNbinsZ h + 1 - 1) with (TH1.GetNbinsZ h) by lia.
  replace (TH1.GetNbinsY h + 1 - 1) with (TH1.GetNbinsY h) by lia.
  replace (TH1.GetNbinsX h + 1 - 1) with (TH1.GetNbinsX h) by lia.
  rewrite fmap_bind_list. apply bind_ext_in. intros z _.
  rewrite fmap_bind_list. apply bind_ext_in. intros y _.
  rewrite fmap_bind_list. apply bind_ext_in. intros x _. reflexivity.
Qed.

(** What is kept of the cell at positions within the axes. *)
Lemma kept_at (self : handle) (h : TH1.t) (x y z : Z) :
  wf_hist h = true ->
  0 <= x < TH1.GetNbinsX h + 2 ->
  (2 <= TH1.fDimension h -> 0 <= y < TH1.GetNbinsY h + 2) ->
  (3 <= TH1.fDimension h -> 0 <= z < TH1.GetNbinsZ h + 2) ->
  kept self h (TH1.GetBin h x y z)
  = if (x =? 0) || (x =? TH1.GetNbinsX h + 1)
       || (2 <=? TH1.fDimension h)
          && ((y =? 0) || (y =? TH1.GetNbinsY h + 1))
       || (3 <=? TH1.fDimension h)
          && ((z =? 0) || (z =? TH1.GetNbinsZ h + 1))
    then []
    else [BinProxy.mk self (TH1.GetBin h x y z)
            (TH1.GetBinXYZ h (TH1.GetBin h x y z))].
Proof.
  intros Hwf Hx Hy Hz. unfold kept.
  rewrite (overflow_of_xyz _ _ Hwf).
  rewrite (xyz_GetBin h x y z Hwf Hx Hy Hz).
  destruct (wf_hist_axes _ Hwf) as (Hd & _).
  destruct Hd as [Hd | [Hd | Hd]]; rewrite Hd;
    cbn [Z.leb Z.compare Pos.compare Pos.compare_cont andb];
    rewrite ?orb_false_r;
    match goal with |- _ = (if ?b then _ else _) => destruct b end;
    reflexivity.
Qed.

Lemma singleton_bind {B} (f : Z -> list B) : seqZ 1 1 ≫= f = f 1.
Proof.
  change (seqZ 1 1) with [1]. rewrite bind_cons, bind_empty.
  apply app_nil_r.
Qed.

Lemma bins_inner_list (self : handle) (h : TH1.t) :
  wf_hist h = true ->
  seqZ 0 (TH1.GetSize h) ≫= kept self h = inner_bins self h.
Proof.
  intros Hwf. rewrite inner_bins_eq.
  destruct (wf_hist_axes _ Hwf) as (Hd & Wx & Wy & Wz).
  destruct (wf_hist_unused _ Hwf) as [Uy Uz].
  pose proof (wf_axis_nbins _ Wx) as Nx. pose proof (wf_axis_nbins _ Wy) as Ny.
  pose proof (wf_axis_nbins _ Wz) as Nz.
  rewrite (wf_hist_size _ Hwf). unfold TH1.ncells.
  fold (TH1.GetNbinsX h) in Nx. fold (TH1.GetNbinsY h) in Ny.
  fold (TH1.GetNbinsZ h) in Nz.
  set (nx := TH1.GetNbinsX h) in *. set (ny := TH1.GetNbinsY h) in *.
  set (nz := TH1.GetNbinsZ h) in *.
  assert (Hleaf : forall x y z,
            0 <= x < nx + 2 ->
            (2 <= TH1.fDimension h -> 0 <= y < ny + 2) ->
            (3 <= TH1.fDimension h -> 0 <= z < nz + 2) ->
            kept self h (TH1.GetBin h x y z)
            = if (x =? 0) || (x =? nx + 1)
                 || (2 <=? TH1.fDimension h) && ((y =? 0) || (y =? ny + 1))
                 || (3 <=? TH1.fDimension h) && ((z =? 0) || (z =? nz + 1))
              then []
              else [BinProxy.mk self (TH1.GetBin h x y z)
                      (TH1.GetBinXYZ h (TH1.GetBin h x y z))])
    by (intros x y z; apply kept_at; exact Hwf).
  assert (Hbin : forall x y z,
            0 <= x < nx + 2 ->
            (2 <= TH1.fDimension h -> 0 <= y < ny + 2) ->
            (3 <= TH1.fDimension h -> 0 <= z < nz + 2) ->
            TH1.GetBin h x y z
            = if TH1.fDimension h <? 2 then x
              else if TH1.fDimension h <? 3 then x + (nx + 2) * y
              else x + (nx + 2) * (y + (ny + 2) * z)).
  { intros x y z Hx Hy Hz. unfold TH1.GetBin. fold nx ny nz.
    rewrite (clamp_id x) by exact Hx.
    destruct (TH1.fDimension h <? 2) eqn:E2; [reflexivity |].
    rewrite (clamp_id y) by (apply Hy; lia).
    destruct (TH1.fDimension h <? 3) eqn:E3; [reflexivity |].
    rewrite (clamp_id z) by (apply Hz; lia).
    replace (TH1.fDimension h <? 4) with true by lia. reflexivity. }
  destruct Hd as [Hd | [Hd | Hd]]; rewrite Hd in *;
    cbn [Z.ltb Z.leb Z.compare Pos.compare Pos.compare_cont andb] in *.
  - rewrite (Uy ltac:(lia)), (Uz ltac:(lia)), !singleton_bind.
    apply strip_ends; [lia | | |].
    + rewrite <- (Hbin 0 1 1) by lia. rewrite Hleaf by lia. reflexivity.
    + rewrite <- (Hbin (nx + 1) 1 1) by lia. rewrite Hleaf by lia.
      rewrite Z.eqb_refl, orb_true_r. reflexivity.
    + intros x Hx. rewrite <- (Hbin x 1 1) at 1 by lia.
      rewrite Hleaf by lia.
      replace (x =? 0) with false by lia.
      replace (x =? nx + 1) with false by lia. reflexivity.
  - rewrite (Uz ltac:(lia)), singleton_bind.
    rewrite (seqZ_rows (nx + 2) (ny + 2)) by lia.
    rewrite (bind_bind_fmap _ (fun x w => x + (nx + 2) * w)).
    apply strip_ends; [lia | | |].
    + apply bind_nil_all. intros x Hx. apply elem_of_seqZ in Hx.
      rewrite <- (Hbin x 0 1) by lia. rewrite Hleaf by lia.
      cbn [Z.eqb]. rewrite orb_true_r. reflexivity.
    + apply bind_nil_all. intros x Hx. apply elem_of_seqZ in Hx.
      rewrite <- (Hbin x (ny + 1) 1) by lia. rewrite Hleaf by lia.
      rewrite (Z.eqb_refl (ny + 1)), !orb_true_r. reflexivity.
    + intros y Hy. apply strip_ends; [lia | | |].
      * rewrite <- (Hbin 0 y 1) by lia. rewrite Hleaf by lia. reflexivity.
      * rewrite <- (Hbin (nx + 1) y 1) by lia. rewrite Hleaf by lia.
        rewrite (Z.eqb_refl (nx + 1)), orb_true_r. reflexivity.
      * intros x Hx. rewrite <- (Hbin x y 1) at 1 by lia.
        rewrite Hleaf by lia.
        replace (x =? 0) with false by lia.
        replace (x =? nx + 1) with false by lia.
        replace (y =? 0) with false by lia.
        replace (y =? ny + 1) with false by lia. reflexivity.
  - replace ((nx + 2) * (ny + 2) * (nz + 2))
      with ((nx + 2) * ((ny + 2) * (nz + 2))) by lia.
    rewrite (seqZ_rows (nx + 2) ((ny + 2) * (nz + 2))) by nia.
    rewrite (bind_bind_fmap _ (fun x w => x + (nx + 2) * w)).
    rewrite (seqZ_rows (ny + 2) (nz + 2)) by lia.
    rewrite (bind_bind_fmap _ (fun y z => y + (ny + 2) * z)).
    apply strip_ends; [lia | | |].
    + apply bind_nil_all. intros y Hy. apply elem_of_seqZ in Hy.
      apply bind_nil_all. intros x Hx. apply elem_of_seqZ in Hx.
      rewrite <- (Hbin x y 0) by lia. rewrite Hleaf by lia.
      cbn [Z.eqb]. rewrite !orb_true_r. reflexivity.
    + apply bind_nil_all. intros y Hy. apply elem_of_seqZ in Hy.
      apply bind_nil_all. intros x Hx. apply elem_of_seqZ in Hx.
      rewrite <- (Hbin x y (nz + 1)) by lia. rewrite Hleaf by lia.
      rewrite (Z.eqb_refl (nz + 1)), !orb_true_r. reflexivity.
    + intros z Hz. apply strip_ends; [lia | | |].
      * apply bind_nil_all. intros x Hx. apply elem_of_seqZ in Hx.
        rewrite <- (Hbin x 0 z) by lia. rewrite Hleaf by lia.
        cbn [Z.eqb]. rewrite orb_true_r. reflexivity.
      * apply bind_nil_all. intros x Hx. apply elem_of_seqZ in Hx.
        rewrite <- (Hbin x (ny + 1) z) by lia. rewrite Hleaf by lia.
        rewrite (Z.eqb_refl (ny + 1)), !orb_true_r. reflexivity.
      * intros y Hy. apply strip_ends; [lia | | |].
        -- rewrite <- (Hbin 0 y z) by lia. rewrite Hleaf by lia.
           reflexivity.
        -- rewrite <- (Hbin (nx + 1) y z) by lia. rewrite Hleaf by lia.
           rewrite (Z.eqb_refl (nx + 1)), orb_true_r. reflexivity.
        -- intros x Hx. rewrite <- (Hbin x y z) at 1 by lia.
           rewrite Hleaf by lia.
           replace (x =? 0) with false by lia.
           replace (x =? nx + 1) with false by lia.
           replace (y =? 0) with false by lia.
           replace (y =? ny + 1) with false by lia.
           replace (z =? 0) with false by lia.
           replace (z =? nz + 1) with false by lia. reflexivity.
Qed.
Lemma bind_length_const {A B} (l : list A) (f : A -> list B) (k : nat) :
  (forall x, x ∈ l -> length (f x) = k) ->
  length (l ≫= f) = (length l * k)%nat.
Proof.
  induction l as [| x l IH]; intros Hf; [reflexivity |].
  rewrite bind_cons, length_app, (Hf x) by (left).
  rewrite IH by (intros y Hy; apply Hf; right; exact Hy).
  reflexivity.
Qed.

Lemma inner_bins_length (self : handle) (h : TH1.t) :
  wf_hist h = true ->
  Z.of_nat (length (inner_bins self h))
  = TH1.GetNbinsX h * TH1.GetNbinsY h * TH1.GetNbinsZ h.
Proof.
  intros Hwf. destruct (wf_hist_axes _ Hwf) as (_ & Wx & Wy & Wz).
  pose proof (wf_axis_nbins _ Wx) as Nx. pose proof (wf_axis_nbins _ Wy) as Ny.
  pose proof (wf_axis_nbins _ Wz) as Nz.
  rewrite inner_bins_eq.
  rewrite (bind_length_const _ _
             (Z.to_nat (TH1.GetNbinsY h) * Z.to_nat (TH1.GetNbinsX h))).
  - rewrite length_seqZ. unfold TH1.GetNbinsX, TH1.GetNbinsY, TH1.GetNbinsZ.
    nia.
  - intros z _.
    rewrite (bind_length_const _ _ (Z.to_nat (TH1.GetNbinsX h))).
    + rewrite length_seqZ. reflexivity.
    + intros y _. rewrite (bind_length_const _ _ 1%nat).
      * rewrite length_seqZ. lia.
      * intros x _. reflexivity.
Qed.

(** [bins()] leaves out the overflow cells.  On a well-formed histogram it
    yields the proxies of the cells inside the axes, and only those: one
    for every position [(x, y, z)] with [1 <= x <= nx], [1 <= y <= ny],
    [1 <= z <= nz], in the order in which the global index grows ([x]
    fastest), so [nx * ny * nz] proxies in all (an axis the histogram does
    not have counts one bin); none of them is an overflow cell; for a
    one-dimensional histogram they are the proxies of bins [1 .. nx].  The
    store is not changed. *)
Theorem bins_inner (σ : store) (self : handle) (h : TH1.t) :
  σ !! self = Some h -> wf_hist h = true ->
  bins self false σ = (Ok (inner_bins self h), σ)
  /\ Z.of_nat (length (inner_bins self h))
     = TH1.GetNbinsX h * TH1.GetNbinsY h * TH1.GetNbinsZ h
  /\ (forall b, b ∈ inner_bins self h ->
        0 <= BinProxy.idx b < TH1.GetSize h
        /\ __getitem__ self (IInt (BinProxy.idx b)) σ = (Ok (Bin b), σ)
        /\ BinProxy.overflow b σ = (Ok false, σ))
  /\ (TH1.GetDimension h = 1 ->
      inner_bins self h
      = (fun i => BinProxy.mk self i (i, 0, 0)) <$> seqZ 1 (TH1.GetNbinsX h)).
Proof.
  intros Hs Hwf. split; [| split; [| split]].
  - rewrite (bins_inner_run _ _ _ Hs Hwf), (bins_inner_list _ _ Hwf).
    reflexivity.
  - apply inner_bins_length, Hwf.
  - intros b Hb. rewrite <- (bins_inner_list _ _ Hwf) in Hb.
    apply list_elem_of_bind in Hb as (i & Hb & Hi).
    apply elem_of_seqZ in Hi. unfold kept in Hb.
    destruct (BinProxy.overflow_of h i) as [[|] |] eqn:Ho;
      try (apply elem_of_nil in Hb; contradiction).
    apply list_elem_of_singleton in Hb. subst b.
    cbn [BinProxy.idx]. split; [lia |]. split.
    + apply getitem_int_run; [exact Hs | lia].
    + unfold BinProxy.overflow. cbn [BinProxy.hist BinProxy.idx].
      rewrite (bind_load _ _ _ _ Hs). unfold lift. rewrite Ho. reflexivity.
  - intros Hd. unfold TH1.GetDimension in Hd.
    destruct (wf_hist_unused _ Hwf) as [Uy Uz].
    destruct (wf_hist_axes _ Hwf) as (_ & Wx & _).
    pose proof (wf_axis_nbins _ Wx) as Nx.
    rewrite inner_bins_eq, (Uy ltac:(lia)), (Uz ltac:(lia)), !singleton_bind.
    rewrite <- bind_singleton. apply bind_ext_in. intros x Hx.
    apply elem_of_seqZ in Hx.
    assert (Hr : 0 <= x < TH1.GetNbinsX h + 2)
      by (unfold TH1.GetNbinsX in *; lia).
    pose proof (xyz_GetBin h x 1 1 Hwf Hr ltac:(lia) ltac:(lia)) as Hxyz.
    rewrite Hd in Hxyz.
    cbn [Z.leb Z.compare Pos.compare Pos.compare_cont] in Hxyz.
    rewrite Hxyz. unfold TH1.GetBin. rewrite Hd.
    cbn [Z.ltb Z.compare Pos.compare Pos.compare_cont].
    rewrite (clamp_id x _ Hr). reflexivity.
Qed.

Lemma bins_inner_witness :
  bins 0%nat false demo_store
  = (Ok ((fun i => BinProxy.mk 0%nat i (i, 0, 0)) <$> [1; 2; 3; 4]),
     demo_store)
  /\ Z.of_nat (length (inner_bins 0%nat demo_hist2d)) = 2 * 3 * 1.
Proof.
  split.
  - destruct (bins_inner demo_store 0%nat demo_hist eq_refl eq_refl)
      as (Hrun & _ & _ & H1).
    rewrite Hrun, (H1 eq_refl). reflexivity.
  - destruct (bins_inner {[ 0%nat := demo_hist2d ]} 0%nat demo_hist2d)
      as (_ & Hlen & _); [reflexivity | reflexivity |]. exact Hlen.
Defined.

(** ** The axis information of a proxy *)

Lemma along_run (σ : store) self h i (axis : Z) :
  σ !! self = Some h -> 0 <= axis <= 2 ->
  let b := BinProxy.mk self i (TH1.GetBinXYZ h i) in
  let a := axis_at h axis in
  let k := BinProxy.tuple_get (TH1.GetBinXYZ h i) axis in
  BinProxyAxes.along axis b σ
  = (Ok (mk_bininfo a (TAxis.GetBinLowEdge a k) (TAxis.GetBinCenter a k)
                    (TAxis.GetBinUpEdge a k) (TAxis.GetBinWidth a k)), σ).
Proof.
  intros Hs Hax b a k. unfold BinProxyAxes.along.
  assert (axis = 0 \/ axis = 1 \/ axis = 2) as [-> | [-> | ->]] by lia;
    cbn [Z.eqb Pos.eqb];
    unfold BinProxyAxes.x, BinProxyAxes.y, BinProxyAxes.z, b;
    cbn [BinProxy.hist BinProxy.xyz];
    rewrite (bind_load _ _ _ _ Hs); reflexivity.
Qed.

Lemma coordinate_range (h : TH1.t) (i axis : Z) :
  wf_hist h = true -> 0 <= i < TH1.GetSize h -> 0 <= axis <= 2 ->
  0 <= BinProxy.tuple_get (TH1.GetBinXYZ h i) axis
    <= TAxis.fNbins (axis_at h axis) + 1.
Proof.
  intros Hwf Hi Hax. pose proof (xyz_range h i Hwf Hi) as Hc.
  destruct (TH1.GetBinXYZ h i) as [[x y] z]. unfold coords_in in Hc.
  unfold TH1.GetNbinsX, TH1.GetNbinsY, TH1.GetNbinsZ in Hc.
  unfold BinProxy.tuple_get, axis_at.
  assert (axis = 0 \/ axis = 1 \/ axis = 2) as [-> | [-> | ->]] by lia;
    cbn [Z.eqb Pos.eqb]; lia.
Qed.


(** ** Scaling a bin through its proxy *)

Lemma wf_hist_sumw2 (h : TH1.t) :
  wf_hist h = true ->
  TH1.GetSumw2N h = 0 \/ TH1.GetSumw2N h = TH1.GetSize h.
Proof.
  intros Hwf. pose proof (wf_hist_size _ Hwf) as Hsz.
  unfold wf_hist in Hwf. apply andb_true_iff in Hwf as [_ Hs].
  apply orb_true_iff in Hs as [Hs | Hs]; apply Z.eqb_eq in Hs;
    [left; exact Hs | right; rewrite Hs, Hsz; reflexivity].
Qed.

Lemma set_error_err2 (h : TH1.t) (i : Z) (e : Q) :
  0 <= i < TH1.GetSize h ->
  TH1.GetSumw2N h = 0 \/ TH1.GetSumw2N h = TH1.GetSize h ->
  TH1.err2 (TH1.SetBinError h i e) i = (e * e)%Q.
Proof.
  intros Hi Hs. unfold TH1.SetBinError.
  assert (Hn : TH1.GetSumw2N (TH1.Sumw2 h) = TH1.GetSize h).
  { unfold TH1.Sumw2, TH1.GetSumw2N, TH1.GetSize in *.
    destruct (TH1.fSumw2 h) eqn:E; [reflexivity |].
    cbn [TH1.fSumw2]. rewrite E.
    destruct Hs as [Hs | Hs]; [cbn [length] in Hs; lia | exact Hs]. }
  assert (Hsz : TH1.GetSize (TH1.Sumw2 h) = TH1.GetSize h).
  { unfold TH1.Sumw2. destruct (TH1.fSumw2 h); reflexivity. }
  rewrite Hn.
  replace ((i <? 0) || (TH1.GetSize h <=? i)) with false by lia.
  unfold TH1.err2, TH1.cell, TH1.GetSize, TH1.GetSumw2N in *.
  cbn [TH1.fSumw2 TH1.with_sumw2 TH1.fArray].
  destruct (<[Z.to_nat i := (e * e)%Q]> (TH1.fSumw2 (TH1.Sumw2 h)))
    as [| q l] eqn:El.
  { apply (f_equal length) in El. rewrite length_insert in El.
    cbn [length] in El. lia. }
  rewrite <- El.
  replace (i <? 0) with false by lia.
  replace (Z.of_nat (length (TH1.fArray (TH1.Sumw2 h))) <=? i) with false
    by lia.
  apply at_insert. lia.
Qed.

